(** * Bitstream converter (xbmc/utils/BitstreamConverter.cpp)

    A shallow embedding of the H.264 / HEVC bitstream converter: the NAL bit
    reader with emulation-prevention handling, the Exp-Golomb readers, the
    SEI recovery-point probe, the Annex-B framing helpers
    [BitstreamAllocAndCopy], [Open], and the single-track and dual-track
    [Convert] entry points.

    Conventions.
    - A byte is a [Z] in [0, 255]; a C buffer [(pointer, size)] is the list
      of its bytes, a NULL pointer is [None].
    - [uint32_t], [uint64_t] and [int] arithmetic is written with its
      wrap-around ([u32], [u64], [s32]).
    - Allocation ([av_realloc]) is taken to succeed.
    - The collaborators that are not part of the converter (the HEVC SEI
      parser, the Dolby Vision RPU library, the HDR10+ synthesiser, FFmpeg's
      AVIO buffers) are parameters of the section that models the
      converter. *)

From Equations Require Import Equations.
From Stdlib Require Import String ZArith List Bool Lia.
Import ListNotations.
Local Open Scope Z_scope.

(** ** Machine integers *)

Definition u32 (x : Z) : Z := x mod 2 ^ 32.
Definition u64 (x : Z) : Z := x mod 2 ^ 64.
(** Two's complement value of the low 32 bits: the C type [int]. *)
Definition s32 (x : Z) : Z := (x + 2 ^ 31) mod 2 ^ 32 - 2 ^ 31.

(** [p[i]] for a buffer modelled as a list; bytes past the end of a demuxer
    packet are its zero padding. *)
Definition rd (p : list Z) (i : nat) : Z := nth i p 0.

(** ** NAL unit types and SEI payload types (the three anonymous enums) *)

Definition AVC_NAL_SLICE : Z := 1.
Definition AVC_NAL_IDR_SLICE : Z := 5.
Definition AVC_NAL_SEI : Z := 6.
Definition AVC_NAL_SPS : Z := 7.
Definition AVC_NAL_PPS : Z := 8.
Definition AVC_NAL_END_SEQUENCE : Z := 10.

Definition HEVC_NAL_TRAIL_N : Z := 0.
Definition HEVC_NAL_TRAIL_R : Z := 1.
Definition HEVC_NAL_TSA_N : Z := 2.
Definition HEVC_NAL_TSA_R : Z := 3.
Definition HEVC_NAL_STSA_N : Z := 4.
Definition HEVC_NAL_STSA_R : Z := 5.
Definition HEVC_NAL_RADL_N : Z := 6.
Definition HEVC_NAL_RADL_R : Z := 7.
Definition HEVC_NAL_RASL_N : Z := 8.
Definition HEVC_NAL_RASL_R : Z := 9.
Definition HEVC_NAL_BLA_W_LP : Z := 16.
Definition HEVC_NAL_BLA_W_RADL : Z := 17.
Definition HEVC_NAL_BLA_N_LP : Z := 18.
Definition HEVC_NAL_IDR_W_RADL : Z := 19.
Definition HEVC_NAL_IDR_N_LP : Z := 20.
Definition HEVC_NAL_CRA_NUT : Z := 21.
Definition HEVC_NAL_VPS : Z := 32.
Definition HEVC_NAL_SPS : Z := 33.
Definition HEVC_NAL_PPS : Z := 34.
Definition HEVC_NAL_EOS_NUT : Z := 36.
Definition HEVC_NAL_SEI_PREFIX : Z := 39.
Definition HEVC_NAL_UNSPEC62 : Z := 62.
Definition HEVC_NAL_UNSPEC63 : Z := 63.

Definition SEI_RECOVERY_POINT : Z := 6.

(** ** The NAL bit reader *)

(** [nal_bitstream]: the bytes in [[data, end)] are the list [data]; [head]
    is the number of unread bits held in the low bits of the 64-bit
    [cache]. *)
Record nal_bitstream : Type := mk_bs {
  data : list Z;
  head : Z;
  cache : Z
}.

Definition nal_bs_init (d : list Z) : nal_bitstream :=
  {| data := d; head := 0; cache := 0xffffffff |}.

(** [bs->cache = (bs->cache << 8) | a_byte] on [uint64_t]. *)
Definition cache_push (c a : Z) : Z := u64 (Z.lor (Z.shiftl c 8) a).

(** The cache-filling loop of [nal_bs_read].  One iteration takes a byte;
    when that byte is 0x03 and the low 16 bits of the cache are zero it is
    skipped and the byte after it goes to the cache unconditionally
    ([check_three_byte = false; goto next_byte]).  Running out of bytes
    sets [n = bs->head] and leaves the loop.  The result is the remaining
    data, the cache, [head] and [n]. *)
Fixpoint fill_cache (d : list Z) (c h n : Z) : list Z * Z * Z * Z :=
  if h <? n then
    match d with
    | [] => ([], c, h, h)
    | a :: d1 =>
        if (a =? 3) && (Z.land c 0xffff =? 0) then
          match d1 with
          | [] => ([], c, h, h)
          | b :: d2 => fill_cache d2 (cache_push c b) (h + 8) n
          end
        else fill_cache d1 (cache_push c a) (h + 8) n
    end
  else (d, c, h, n).

(** [(1 << n) - 1] computed on [int] and converted to [uint32_t]. *)
Definition int_mask (n : Z) : Z := u32 (s32 (s32 (Z.shiftl 1 n) - 1)).

Definition nal_bs_read (bs : nal_bitstream) (n : Z) : Z * nal_bitstream :=
  if n =? 0 then (0, bs)
  else
    let '(d, c, h, n') := fill_cache (data bs) (cache bs) (head bs) n in
    let shift := h - n' in
    let res := if 0 <? shift then u32 (Z.shiftr c shift) else u32 c in
    let res := if n' <? 32 then Z.land res (int_mask n') else res in
    (res, {| data := d; head := shift; cache := c |}).

Definition nal_bs_eos (bs : nal_bitstream) : bool :=
  match data bs with [] => head bs =? 0 | _ :: _ => false end.

(** The loop [while (nal_bs_read(bs, 1) == 0 && !nal_bs_eos(bs) && i < 31) i++]
    of [nal_bs_read_ue].  The argument [rem] is [31 - i]; the bit is read
    before the other two tests, also when [i] is already 31. *)
Fixpoint ue_zeros (rem : nat) (bs : nal_bitstream) : Z * nal_bitstream :=
  let '(b, bs1) := nal_bs_read bs 1 in
  match rem with
  | O => (31, bs1)
  | S r =>
      if (b =? 0) && negb (nal_bs_eos bs1) then ue_zeros r bs1
      else (31 - Z.of_nat rem, bs1)
  end.

(** [return ((1 << i) - 1 + nal_bs_read(bs, i))]: the [int] value
    [(1 << i) - 1] is converted to [uint32_t] for the addition and the sum
    is converted back to [int]. *)
Definition nal_bs_read_ue (bs : nal_bitstream) : Z * nal_bitstream :=
  let '(i, bs1) := ue_zeros 31 bs in
  let '(v, bs2) := nal_bs_read bs1 i in
  (s32 (u32 (u32 (s32 (s32 (Z.shiftl 1 i) - 1)) + v)), bs2).

(** [i = (i + 1) / 2 * (i & 1 ? 1 : -1)] on [int]; C division truncates. *)
Definition se_of_ue (i : Z) : Z :=
  s32 (Z.quot (s32 (i + 1)) 2 * (if Z.land i 1 =? 0 then -1 else 1)).

Definition nal_bs_read_se (bs : nal_bitstream) : Z * nal_bitstream :=
  let '(i, bs1) := nal_bs_read_ue bs in (se_of_ue i, bs1).

(** ** SEI recovery-point probe *)

(** [do { v += p[offset]; } while (p[offset++] == 0xFF);] over the bytes
    [l] that start at [p + offset]: the sum and the number of bytes
    consumed. *)
Fixpoint read_ff (l : list Z) : Z * nat :=
  match l with
  | [] => (0, 1%nat)
  | b :: l' =>
      if b =? 0xFF then let '(s, k) := read_ff l' in (b + s, S k)
      else (b, 1%nat)
  end.

(** The [ps] bytes at [p + offset], for [nal_bs_init(&bs, p + offset, ps)]. *)
Definition span (p : list Z) (offset : nat) (ps : Z) : list Z :=
  map (fun k => rd p (offset + k)) (seq 0 (Z.to_nat ps)).

(** The outer [do ... while (p + offset < end && p[offset] != 0x80)] of
    [has_sei_recovery_point]; [endo] is [end - p].  Every round moves
    [offset] forward by at least two, so [fuel] rounds with
    [fuel > endo - offset] are enough. *)
Fixpoint sei_rounds (fuel : nat) (p : list Z) (endo offset : nat) : bool :=
  let '(pt, k1) := read_ff (skipn offset p) in
  let offset1 := (offset + k1)%nat in
  let '(ps, k2) := read_ff (skipn offset1 p) in
  let offset2 := (offset1 + k2)%nat in
  if pt =? SEI_RECOVERY_POINT then
    0 <=? fst (nal_bs_read_ue (nal_bs_init (span p offset2 ps)))
  else
    let offset3 := (offset2 + Z.to_nat ps)%nat in
    match fuel with
    | O => false
    | S f =>
        if (offset3 <? endo)%nat && negb (rd p offset3 =? 0x80)
        then sei_rounds f p endo offset3
        else false
    end.

Definition has_sei_recovery_point (p : list Z) (endo : nat) : bool :=
  sei_rounds endo p endo 1.

(** ** Output buffer and Annex-B framing *)

(** [av_realloc(p, n)]: the old contents followed by fresh bytes.  The
    fresh bytes are written as 0 here; the copies below overwrite every
    one of them. *)
Definition av_realloc (p : option (list Z)) (n : Z) : list Z :=
  let l := match p with Some l => l | None => [] end in
  firstn (Z.to_nat n) l ++ repeat 0 (Z.to_nat n - length l).

(** [memcpy(dst + off, src, n)]. *)
Definition memcpy (dst : list Z) (off : Z) (src : list Z) (n : Z) : list Z :=
  firstn (Z.to_nat off) dst ++ firstn (Z.to_nat n) src
    ++ skipn (Z.to_nat off + Z.to_nat n) dst.

(** The output buffer pointer [poutbuf] with its size [poutbuf_size]. *)
Definition outbuf : Type := option (list Z) * Z.

Definition len (l : list Z) : Z := Z.of_nat (length l).

(** [BitstreamAllocAndCopy], the overload with an SPS/PPS prologue and an
    [int] size.  [inp] is the [in_size] bytes at [in]. *)
Definition BitstreamAllocAndCopy (out : outbuf)
    (sps_pps : option (list Z)) (sps_pps_size : Z)
    (inp : list Z) (nal_type : Z) : outbuf :=
  let in_size := len inp in
  let offset := snd out in
  let nal_header_size := if offset =? 0 then 4 else 3 in
  let nal_header_size :=
    if nal_type =? HEVC_NAL_UNSPEC62 then 4 else nal_header_size in
  let size' := snd out + (sps_pps_size + in_size + nal_header_size) in
  let b := av_realloc (fst out) size' in
  let b := match sps_pps with
           | Some s => memcpy b offset s sps_pps_size
           | None => b
           end in
  let b := memcpy b (sps_pps_size + nal_header_size + offset) inp in_size in
  let b :=
    if offset =? 0 then memcpy b sps_pps_size [0; 0; 0; 1] 4
    else if nal_header_size =? 4
         then memcpy b (offset + sps_pps_size) [0; 0; 0; 1] 4
         else memcpy b (offset + sps_pps_size) [0; 0; 1] 3 in
  (Some b, size').

(** [BitstreamAllocAndCopy], the overload with a [uint32_t] size, used by
    the dual-track combine. *)
Definition BitstreamAllocAndCopy32 (out : outbuf)
    (inp : list Z) (nal_type : Z) : outbuf :=
  let in_size := len inp in
  let offset := snd out in
  let nal_header_size := if offset =? 0 then 4 else 3 in
  let nal_header_size :=
    if nal_type =? HEVC_NAL_UNSPEC62 then 4
    else if nal_type =? HEVC_NAL_UNSPEC63 then 5
    else nal_header_size in
  let size' := snd out + (in_size + nal_header_size) in
  let b := av_realloc (fst out) size' in
  let b := memcpy b (nal_header_size + offset) inp in_size in
  let b :=
    if nal_header_size =? 5
    then memcpy b offset [0; 0; 1; Z.shiftl HEVC_NAL_UNSPEC63 1; 1] 5
    else if nal_header_size =? 4
         then memcpy b offset [0; 0; 0; 1] 4
         else memcpy b offset [0; 0; 1] 3 in
  (Some b, size').

(** The contents of an output buffer, and the buffers whose recorded size
    is the number of bytes they hold (NULL holds none). *)
Definition bytes_of (out : outbuf) : list Z :=
  match fst out with Some l => l | None => [] end.

Definition outbuf_ok (out : outbuf) : Prop := snd out = len (bytes_of out).

Definition prologue_of (sps_pps : option (list Z)) : list Z :=
  match sps_pps with Some s => s | None => [] end.

(** The start code each overload writes in front of the payload. *)
Definition start_code (offset nal_type : Z) : list Z :=
  if (offset =? 0) || (nal_type =? HEVC_NAL_UNSPEC62) then [0; 0; 0; 1]
  else [0; 0; 1].

Definition start_code32 (offset nal_type : Z) : list Z :=
  if nal_type =? HEVC_NAL_UNSPEC62 then [0; 0; 0; 1]
  else if nal_type =? HEVC_NAL_UNSPEC63 then [0; 0; 1; 126; 1]
  else if offset =? 0 then [0; 0; 0; 1] else [0; 0; 1].

(** ** Stream hints and converter state *)

Inductive AVCodecID : Type :=
  | AV_CODEC_ID_H264
  | AV_CODEC_ID_HEVC
  | AV_CODEC_ID_OTHER.

Inductive DOVIMode : Type := MODE_NONE | MODE_TOMEL | MODE_TO81.

Definition DOVIMode_int (m : DOVIMode) : Z :=
  match m with MODE_NONE => 0 | MODE_TOMEL => 1 | MODE_TO81 => 2 end.

Inductive StreamHdrType : Type :=
  | HDR_TYPE_NONE
  | HDR_TYPE_HDR10
  | HDR_TYPE_DOLBYVISION
  | HDR_TYPE_HLG
  | HDR_TYPE_HDR10PLUS.

Inductive DOVIELType : Type := TYPE_NONE | TYPE_FEL | TYPE_MEL.

Record AVDOVIDecoderConfigurationRecord : Type := {
  dv_version_major : Z;
  dv_version_minor : Z;
  dv_profile : Z;
  dv_level : Z;
  rpu_present_flag : Z;
  el_present_flag : Z;
  bl_present_flag : Z;
  dv_bl_signal_compatibility_id : Z
}.

(** The part of [CDVDStreamInfo] the converter reads or writes. *)
Record CDVDStreamInfo : Type := {
  codec : AVCodecID;
  extradata : option (list Z);
  hdrType : StreamHdrType;
  dovi : AVDOVIDecoderConfigurationRecord;
  dovi_el_type : DOVIELType
}.

Record omx_bitstream_ctx : Type := {
  length_size : Z;
  first_idr : Z;
  idr_sps_pps_seen : Z;
  sps_pps_data : option (list Z);
  size : Z
}.

Record HDRStaticMetadataInfo : Type := {
  has_mdcv_metadata : bool;
  max_lum : Z;
  min_lum : Z;
  colour_primaries : string;
  has_cll_metadata : bool;
  max_cll : Z;
  max_fall : Z
}.

(** The members of [CBitstreamConverter].  [m_hints] stands for the
    referenced hints object; the write-only [m_dataCacheCore] sink is left
    out.  [m_sps_pps_size] is written by the two init functions and read
    nowhere. *)
Record CBitstreamConverter : Type := {

  m_convertBuffer : option (list Z);
  m_convertSize : Z;
  m_inputBuffer : option (list Z);
  m_inputSize : Z;
  m_sps_pps_size : Z;
  m_sps_pps_context : omx_bitstream_ctx;
  m_convert_bitstream : bool;
  m_to_annexb : bool;
  m_combine : bool;
  m_extraData : option (list Z);
  m_convert_3byteTo4byteNALSize : bool;
  m_convert_bytestream : bool;
  m_codec : AVCodecID;
  m_hints : CDVDStreamInfo;
  m_intial_hdrType : StreamHdrType;
  m_start_decode : bool;
  m_convert_dovi : DOVIMode;
  m_removeDovi : bool;
  m_removeHdr10Plus : bool;
  m_convert_Hdr10Plus : bool;
  m_prefer_Hdr10Plus_conversion : bool;
  m_dual_priority_Hdr10Plus : bool;
  m_convert_Hdr10Plus_peak_brightness_source : Z;
  m_first_frame : bool;
  m_hdrStaticMetadataInfo : HDRStaticMetadataInfo

}.


(** Field updates. *)

Definition set_dv_profile (v : Z) (c : AVDOVIDecoderConfigurationRecord) : AVDOVIDecoderConfigurationRecord :=
  {| dv_version_major := dv_version_major c;
     dv_version_minor := dv_version_minor c; dv_profile := v;
     dv_level := dv_level c; rpu_present_flag := rpu_present_flag c;
     el_present_flag := el_present_flag c;
     bl_present_flag := bl_present_flag c;
     dv_bl_signal_compatibility_id := dv_bl_signal_compatibility_id c |}.

Definition set_el_present_flag (v : Z) (c : AVDOVIDecoderConfigurationRecord) : AVDOVIDecoderConfigurationRecord :=
  {| dv_version_major := dv_version_major c;
     dv_version_minor := dv_version_minor c;
     dv_profile := dv_profile c; dv_level := dv_level c;
     rpu_present_flag := rpu_present_flag c; el_present_flag := v;
     bl_present_flag := bl_present_flag c;
     dv_bl_signal_compatibility_id := dv_bl_signal_compatibility_id c |}.

Definition set_bl_present_flag (v : Z) (c : AVDOVIDecoderConfigurationRecord) : AVDOVIDecoderConfigurationRecord :=
  {| dv_version_major := dv_version_major c;
     dv_version_minor := dv_version_minor c;
     dv_profile := dv_profile c; dv_level := dv_level c;
     rpu_present_flag := rpu_present_flag c;
     el_present_flag := el_present_flag c; bl_present_flag := v;
     dv_bl_signal_compatibility_id := dv_bl_signal_compatibility_id c |}.

Definition set_dv_bl_signal_compatibility_id (v : Z) (c : AVDOVIDecoderConfigurationRecord) : AVDOVIDecoderConfigurationRecord :=
  {| dv_version_major := dv_version_major c;
     dv_version_minor := dv_version_minor c;
     dv_profile := dv_profile c; dv_level := dv_level c;
     rpu_present_flag := rpu_present_flag c;
     el_present_flag := el_present_flag c;
     bl_present_flag := bl_present_flag c;
     dv_bl_signal_compatibility_id := v |}.

Definition set_extradata (v : option (list Z)) (c : CDVDStreamInfo) : CDVDStreamInfo :=
  {| codec := codec c; extradata := v; hdrType := hdrType c; dovi := dovi c;
     dovi_el_type := dovi_el_type c |}.

Definition set_hdrType (v : StreamHdrType) (c : CDVDStreamInfo) : CDVDStreamInfo :=
  {| codec := codec c; extradata := extradata c; hdrType := v;
     dovi := dovi c; dovi_el_type := dovi_el_type c |}.

Definition set_dovi (v : AVDOVIDecoderConfigurationRecord) (c : CDVDStreamInfo) : CDVDStreamInfo :=
  {| codec := codec c; extradata := extradata c; hdrType := hdrType c;
     dovi := v; dovi_el_type := dovi_el_type c |}.

Definition set_dovi_el_type (v : DOVIELType) (c : CDVDStreamInfo) : CDVDStreamInfo :=
  {| codec := codec c; extradata := extradata c; hdrType := hdrType c;
     dovi := dovi c; dovi_el_type := v |}.

Definition set_length_size (v : Z) (c : omx_bitstream_ctx) : omx_bitstream_ctx :=
  {| length_size := v; first_idr := first_idr c;
     idr_sps_pps_seen := idr_sps_pps_seen c;
     sps_pps_data := sps_pps_data c; size := size c |}.

Definition set_first_idr (v : Z) (c : omx_bitstream_ctx) : omx_bitstream_ctx :=
  {| length_size := length_size c; first_idr := v;
     idr_sps_pps_seen := idr_sps_pps_seen c;
     sps_pps_data := sps_pps_data c; size := size c |}.

Definition set_idr_sps_pps_seen (v : Z) (c : omx_bitstream_ctx) : omx_bitstream_ctx :=
  {| length_size := length_size c; first_idr := first_idr c;
     idr_sps_pps_seen := v; sps_pps_data := sps_pps_data c;
     size := size c |}.

Definition set_sps_pps_data (v : option (list Z)) (c : omx_bitstream_ctx) : omx_bitstream_ctx :=
  {| length_size := length_size c; first_idr := first_idr c;
     idr_sps_pps_seen := idr_sps_pps_seen c; sps_pps_data := v;
     size := size c |}.

Definition set_size (v : Z) (c : omx_bitstream_ctx) : omx_bitstream_ctx :=
  {| length_size := length_size c; first_idr := first_idr c;
     idr_sps_pps_seen := idr_sps_pps_seen c;
     sps_pps_data := sps_pps_data c; size := v |}.

Definition set_m_convertBuffer (v : option (list Z)) (c : CBitstreamConverter) : CBitstreamConverter :=
  {| m_convertBuffer := v; m_convertSize := m_convertSize c;
     m_inputBuffer := m_inputBuffer c; m_inputSize := m_inputSize c;
     m_sps_pps_size := m_sps_pps_size c;
     m_sps_pps_context := m_sps_pps_context c;
     m_convert_bitstream := m_convert_bitstream c;
     m_to_annexb := m_to_annexb c; m_combine := m_combine c;
     m_extraData := m_extraData c;
     m_convert_3byteTo4byteNALSize := m_convert_3byteTo4byteNALSize c;
     m_convert_bytestream := m_convert_bytestream c;
     m_codec := m_codec c; m_hints := m_hints c;
     m_intial_hdrType := m_intial_hdrType c;
     m_start_decode := m_start_decode c;
     m_convert_dovi := m_convert_dovi c;
     m_removeDovi := m_removeDovi c;
     m_removeHdr10Plus := m_removeHdr10Plus c;
     m_convert_Hdr10Plus := m_convert_Hdr10Plus c;
     m_prefer_Hdr10Plus_conversion := m_prefer_Hdr10Plus_conversion c;
     m_dual_priority_Hdr10Plus := m_dual_priority_Hdr10Plus c;
     m_convert_Hdr10Plus_peak_brightness_source := m_convert_Hdr10Plus_peak_brightness_source c;
     m_first_frame := m_first_frame c;
     m_hdrStaticMetadataInfo := m_hdrStaticMetadataInfo c |}.

Definition set_m_convertSize (v : Z) (c : CBitstreamConverter) : CBitstreamConverter :=
  {| m_convertBuffer := m_convertBuffer c; m_convertSize := v;
     m_inputBuffer := m_inputBuffer c; m_inputSize := m_inputSize c;
     m_sps_pps_size := m_sps_pps_size c;
     m_sps_pps_context := m_sps_pps_context c;
     m_convert_bitstream := m_convert_bitstream c;
     m_to_annexb := m_to_annexb c; m_combine := m_combine c;
     m_extraData := m_extraData c;
     m_convert_3byteTo4byteNALSize := m_convert_3byteTo4byteNALSize c;
     m_convert_bytestream := m_convert_bytestream c;
     m_codec := m_codec c; m_hints := m_hints c;
     m_intial_hdrType := m_intial_hdrType c;
     m_start_decode := m_start_decode c;
     m_convert_dovi := m_convert_dovi c;
     m_removeDovi := m_removeDovi c;
     m_removeHdr10Plus := m_removeHdr10Plus c;
     m_convert_Hdr10Plus := m_convert_Hdr10Plus c;
     m_prefer_Hdr10Plus_conversion := m_prefer_Hdr10Plus_conversion c;
     m_dual_priority_Hdr10Plus := m_dual_priority_Hdr10Plus c;
     m_convert_Hdr10Plus_peak_brightness_source := m_convert_Hdr10Plus_peak_brightness_source c;
     m_first_frame := m_first_frame c;
     m_hdrStaticMetadataInfo := m_hdrStaticMetadataInfo c |}.

Definition set_m_inputBuffer (v : option (list Z)) (c : CBitstreamConverter) : CBitstreamConverter :=
  {| m_convertBuffer := m_convertBuffer c; m_convertSize := m_convertSize c;
     m_inputBuffer := v; m_inputSize := m_inputSize c;
     m_sps_pps_size := m_sps_pps_size c;
     m_sps_pps_context := m_sps_pps_context c;
     m_convert_bitstream := m_convert_bitstream c;
     m_to_annexb := m_to_annexb c; m_combine := m_combine c;
     m_extraData := m_extraData c;
     m_convert_3byteTo4byteNALSize := m_convert_3byteTo4byteNALSize c;
     m_convert_bytestream := m_convert_bytestream c;
     m_codec := m_codec c; m_hints := m_hints c;
     m_intial_hdrType := m_intial_hdrType c;
     m_start_decode := m_start_decode c;
     m_convert_dovi := m_convert_dovi c;
     m_removeDovi := m_removeDovi c;
     m_removeHdr10Plus := m_removeHdr10Plus c;
     m_convert_Hdr10Plus := m_convert_Hdr10Plus c;
     m_prefer_Hdr10Plus_conversion := m_prefer_Hdr10Plus_conversion c;
     m_dual_priority_Hdr10Plus := m_dual_priority_Hdr10Plus c;
     m_convert_Hdr10Plus_peak_brightness_source := m_convert_Hdr10Plus_peak_brightness_source c;
     m_first_frame := m_first_frame c;
     m_hdrStaticMetadataInfo := m_hdrStaticMetadataInfo c |}.

Definition set_m_inputSize (v : Z) (c : CBitstreamConverter) : CBitstreamConverter :=
  {| m_convertBuffer := m_convertBuffer c; m_convertSize := m_convertSize c;
     m_inputBuffer := m_inputBuffer c; m_inputSize := v;
     m_sps_pps_size := m_sps_pps_size c;
     m_sps_pps_context := m_sps_pps_context c;
     m_convert_bitstream := m_convert_bitstream c;
     m_to_annexb := m_to_annexb c; m_combine := m_combine c;
     m_extraData := m_extraData c;
     m_convert_3byteTo4byteNALSize := m_convert_3byteTo4byteNALSize c;
     m_convert_bytestream := m_convert_bytestream c;
     m_codec := m_codec c; m_hints := m_hints c;
     m_intial_hdrType := m_intial_hdrType c;
     m_start_decode := m_start_decode c;
     m_convert_dovi := m_convert_dovi c;
     m_removeDovi := m_removeDovi c;
     m_removeHdr10Plus := m_removeHdr10Plus c;
     m_convert_Hdr10Plus := m_convert_Hdr10Plus c;
     m_prefer_Hdr10Plus_conversion := m_prefer_Hdr10Plus_conversion c;
     m_dual_priority_Hdr10Plus := m_dual_priority_Hdr10Plus c;
     m_convert_Hdr10Plus_peak_brightness_source := m_convert_Hdr10Plus_peak_brightness_source c;
     m_first_frame := m_first_frame c;
     m_hdrStaticMetadataInfo := m_hdrStaticMetadataInfo c |}.

Definition set_m_sps_pps_size (v : Z) (c : CBitstreamConverter) : CBitstreamConverter :=
  {| m_convertBuffer := m_convertBuffer c; m_convertSize := m_convertSize c;
     m_inputBuffer := m_inputBuffer c; m_inputSize := m_inputSize c;
     m_sps_pps_size := v;
     m_sps_pps_context := m_sps_pps_context c;
     m_convert_bitstream := m_convert_bitstream c;
     m_to_annexb := m_to_annexb c; m_combine := m_combine c;
     m_extraData := m_extraData c;
     m_convert_3byteTo4byteNALSize := m_convert_3byteTo4byteNALSize c;
     m_convert_bytestream := m_convert_bytestream c;
     m_codec := m_codec c; m_hints := m_hints c;
     m_intial_hdrType := m_intial_hdrType c;
     m_start_decode := m_start_decode c;
     m_convert_dovi := m_convert_dovi c;
     m_removeDovi := m_removeDovi c;
     m_removeHdr10Plus := m_removeHdr10Plus c;
     m_convert_Hdr10Plus := m_convert_Hdr10Plus c;
     m_prefer_Hdr10Plus_conversion := m_prefer_Hdr10Plus_conversion c;
     m_dual_priority_Hdr10Plus := m_dual_priority_Hdr10Plus c;
     m_convert_Hdr10Plus_peak_brightness_source := m_convert_Hdr10Plus_peak_brightness_source c;
     m_first_frame := m_first_frame c;
     m_hdrStaticMetadataInfo := m_hdrStaticMetadataInfo c |}.

Definition set_m_sps_pps_context (v : omx_bitstream_ctx) (c : CBitstreamConverter) : CBitstreamConverter :=
  {| m_convertBuffer := m_convertBuffer c; m_convertSize := m_convertSize c;
     m_inputBuffer := m_inputBuffer c; m_inputSize := m_inputSize c;
     m_sps_pps_size := m_sps_pps_size c;
     m_sps_pps_context := v;
     m_convert_bitstream := m_convert_bitstream c;
     m_to_annexb := m_to_annexb c; m_combine := m_combine c;
     m_extraData := m_extraData c;
     m_convert_3byteTo4byteNALSize := m_convert_3byteTo4byteNALSize c;
     m_convert_bytestream := m_convert_bytestream c;
     m_codec := m_codec c; m_hints := m_hints c;
     m_intial_hdrType := m_intial_hdrType c;
     m_start_decode := m_start_decode c;
     m_convert_dovi := m_convert_dovi c;
     m_removeDovi := m_removeDovi c;
     m_removeHdr10Plus := m_removeHdr10Plus c;
     m_convert_Hdr10Plus := m_convert_Hdr10Plus c;
     m_prefer_Hdr10Plus_conversion := m_prefer_Hdr10Plus_conversion c;
     m_dual_priority_Hdr10Plus := m_dual_priority_Hdr10Plus c;
     m_convert_Hdr10Plus_peak_brightness_source := m_convert_Hdr10Plus_peak_brightness_source c;
     m_first_frame := m_first_frame c;
     m_hdrStaticMetadataInfo := m_hdrStaticMetadataInfo c |}.

Definition set_m_convert_bitstream (v : bool) (c : CBitstreamConverter) : CBitstreamConverter :=
  {| m_convertBuffer := m_convertBuffer c; m_convertSize := m_convertSize c;
     m_inputBuffer := m_inputBuffer c; m_inputSize := m_inputSize c;
     m_sps_pps_size := m_sps_pps_size c;
     m_sps_pps_context := m_sps_pps_context c;
     m_convert_bitstream := v; m_to_annexb := m_to_annexb c;
     m_combine := m_combine c; m_extraData := m_extraData c;
     m_convert_3byteTo4byteNALSize := m_convert_3byteTo4byteNALSize c;
     m_convert_bytestream := m_convert_bytestream c;
     m_codec := m_codec c; m_hints := m_hints c;
     m_intial_hdrType := m_intial_hdrType c;
     m_start_decode := m_start_decode c;
     m_convert_dovi := m_convert_dovi c;
     m_removeDovi := m_removeDovi c;
     m_removeHdr10Plus := m_removeHdr10Plus c;
     m_convert_Hdr10Plus := m_convert_Hdr10Plus c;
     m_prefer_Hdr10Plus_conversion := m_prefer_Hdr10Plus_conversion c;
     m_dual_priority_Hdr10Plus := m_dual_priority_Hdr10Plus c;
     m_convert_Hdr10Plus_peak_brightness_source := m_convert_Hdr10Plus_peak_brightness_source c;
     m_first_frame := m_first_frame c;
     m_hdrStaticMetadataInfo := m_hdrStaticMetadataInfo c |}.

Definition set_m_to_annexb (v : bool) (c : CBitstreamConverter) : CBitstreamConverter :=
  {| m_convertBuffer := m_convertBuffer c; m_convertSize := m_convertSize c;
     m_inputBuffer := m_inputBuffer c; m_inputSize := m_inputSize c;
     m_sps_pps_size := m_sps_pps_size c;
     m_sps_pps_context := m_sps_pps_context c;
     m_convert_bitstream := m_convert_bitstream c; m_to_annexb := v;
     m_combine := m_combine c; m_extraData := m_extraData c;
     m_convert_3byteTo4byteNALSize := m_convert_3byteTo4byteNALSize c;
     m_convert_bytestream := m_convert_bytestream c;
     m_codec := m_codec c; m_hints := m_hints c;
     m_intial_hdrType := m_intial_hdrType c;
     m_start_decode := m_start_decode c;
     m_convert_dovi := m_convert_dovi c;
     m_removeDovi := m_removeDovi c;
     m_removeHdr10Plus := m_removeHdr10Plus c;
     m_convert_Hdr10Plus := m_convert_Hdr10Plus c;
     m_prefer_Hdr10Plus_conversion := m_prefer_Hdr10Plus_conversion c;
     m_dual_priority_Hdr10Plus := m_dual_priority_Hdr10Plus c;
     m_convert_Hdr10Plus_peak_brightness_source := m_convert_Hdr10Plus_peak_brightness_source c;
     m_first_frame := m_first_frame c;
     m_hdrStaticMetadataInfo := m_hdrStaticMetadataInfo c |}.

Definition set_m_combine (v : bool) (c : CBitstreamConverter) : CBitstreamConverter :=
  {| m_convertBuffer := m_convertBuffer c; m_convertSize := m_convertSize c;
     m_inputBuffer := m_inputBuffer c; m_inputSize := m_inputSize c;
     m_sps_pps_size := m_sps_pps_size c;
     m_sps_pps_context := m_sps_pps_context c;
     m_convert_bitstream := m_convert_bitstream c;
     m_to_annexb := m_to_annexb c; m_combine := v;
     m_extraData := m_extraData c;
     m_convert_3byteTo4byteNALSize := m_convert_3byteTo4byteNALSize c;
     m_convert_bytestream := m_convert_bytestream c;
     m_codec := m_codec c; m_hints := m_hints c;
     m_intial_hdrType := m_intial_hdrType c;
     m_start_decode := m_start_decode c;
     m_convert_dovi := m_convert_dovi c;
     m_removeDovi := m_removeDovi c;
     m_removeHdr10Plus := m_removeHdr10Plus c;
     m_convert_Hdr10Plus := m_convert_Hdr10Plus c;
     m_prefer_Hdr10Plus_conversion := m_prefer_Hdr10Plus_conversion c;
     m_dual_priority_Hdr10Plus := m_dual_priority_Hdr10Plus c;
     m_convert_Hdr10Plus_peak_brightness_source := m_convert_Hdr10Plus_peak_brightness_source c;
     m_first_frame := m_first_frame c;
     m_hdrStaticMetadataInfo := m_hdrStaticMetadataInfo c |}.

Definition set_m_extraData (v : option (list Z)) (c : CBitstreamConverter) : CBitstreamConverter :=
  {| m_convertBuffer := m_convertBuffer c; m_convertSize := m_convertSize c;
     m_inputBuffer := m_inputBuffer c; m_inputSize := m_inputSize c;
     m_sps_pps_size := m_sps_pps_size c;
     m_sps_pps_context := m_sps_pps_context c;
     m_convert_bitstream := m_convert_bitstream c;
     m_to_annexb := m_to_annexb c; m_combine := m_combine c;
     m_extraData := v;
     m_convert_3byteTo4byteNALSize := m_convert_3byteTo4byteNALSize c;
     m_convert_bytestream := m_convert_bytestream c;
     m_codec := m_codec c; m_hints := m_hints c;
     m_intial_hdrType := m_intial_hdrType c;
     m_start_decode := m_start_decode c;
     m_convert_dovi := m_convert_dovi c;
     m_removeDovi := m_removeDovi c;
     m_removeHdr10Plus := m_removeHdr10Plus c;
     m_convert_Hdr10Plus := m_convert_Hdr10Plus c;
     m_prefer_Hdr10Plus_conversion := m_prefer_Hdr10Plus_conversion c;
     m_dual_priority_Hdr10Plus := m_dual_priority_Hdr10Plus c;
     m_convert_Hdr10Plus_peak_brightness_source := m_convert_Hdr10Plus_peak_brightness_source c;
     m_first_frame := m_first_frame c;
     m_hdrStaticMetadataInfo := m_hdrStaticMetadataInfo c |}.

Definition set_m_convert_3byteTo4byteNALSize (v : bool) (c : CBitstreamConverter) : CBitstreamConverter :=
  {| m_convertBuffer := m_convertBuffer c; m_convertSize := m_convertSize c;
     m_inputBuffer := m_inputBuffer c; m_inputSize := m_inputSize c;
     m_sps_pps_size := m_sps_pps_size c;
     m_sps_pps_context := m_sps_pps_context c;
     m_convert_bitstream := m_convert_bitstream c;
     m_to_annexb := m_to_annexb c; m_combine := m_combine c;
     m_extraData := m_extraData c; m_convert_3byteTo4byteNALSize := v;
     m_convert_bytestream := m_convert_bytestream c;
     m_codec := m_codec c; m_hints := m_hints c;
     m_intial_hdrType := m_intial_hdrType c;
     m_start_decode := m_start_decode c;
     m_convert_dovi := m_convert_dovi c;
     m_removeDovi := m_removeDovi c;
     m_removeHdr10Plus := m_removeHdr10Plus c;
     m_convert_Hdr10Plus := m_convert_Hdr10Plus c;
     m_prefer_Hdr10Plus_conversion := m_prefer_Hdr10Plus_conversion c;
     m_dual_priority_Hdr10Plus := m_dual_priority_Hdr10Plus c;
     m_convert_Hdr10Plus_peak_brightness_source := m_convert_Hdr10Plus_peak_brightness_source c;
     m_first_frame := m_first_frame c;
     m_hdrStaticMetadataInfo := m_hdrStaticMetadataInfo c |}.

Definition set_m_convert_bytestream (v : bool) (c : CBitstreamConverter) : CBitstreamConverter :=
  {| m_convertBuffer := m_convertBuffer c; m_convertSize := m_convertSize c;
     m_inputBuffer := m_inputBuffer c; m_inputSize := m_inputSize c;
     m_sps_pps_size := m_sps_pps_size c;
     m_sps_pps_context := m_sps_pps_context c;
     m_convert_bitstream := m_convert_bitstream c;
     m_to_annexb := m_to_annexb c; m_combine := m_combine c;
     m_extraData := m_extraData c;
     m_convert_3byteTo4byteNALSize := m_convert_3byteTo4byteNALSize c;
     m_convert_bytestream := v; m_codec := m_codec c;
     m_hints := m_hints c; m_intial_hdrType := m_intial_hdrType c;
     m_start_decode := m_start_decode c;
     m_convert_dovi := m_convert_dovi c;
     m_removeDovi := m_removeDovi c;
     m_removeHdr10Plus := m_removeHdr10Plus c;
     m_convert_Hdr10Plus := m_convert_Hdr10Plus c;
     m_prefer_Hdr10Plus_conversion := m_prefer_Hdr10Plus_conversion c;
     m_dual_priority_Hdr10Plus := m_dual_priority_Hdr10Plus c;
     m_convert_Hdr10Plus_peak_brightness_source := m_convert_Hdr10Plus_peak_brightness_source c;
     m_first_frame := m_first_frame c;
     m_hdrStaticMetadataInfo := m_hdrStaticMetadataInfo c |}.

Definition set_m_codec (v : AVCodecID) (c : CBitstreamConverter) : CBitstreamConverter :=
  {| m_convertBuffer := m_convertBuffer c; m_convertSize := m_convertSize c;
     m_inputBuffer := m_inputBuffer c; m_inputSize := m_inputSize c;
     m_sps_pps_size := m_sps_pps_size c;
     m_sps_pps_context := m_sps_pps_context c;
     m_convert_bitstream := m_convert_bitstream c;
     m_to_annexb := m_to_annexb c; m_combine := m_combine c;
     m_extraData := m_extraData c;
     m_convert_3byteTo4byteNALSize := m_convert_3byteTo4byteNALSize c;
     m_convert_bytestream := m_convert_bytestream c; m_codec := v;
     m_hints := m_hints c; m_intial_hdrType := m_intial_hdrType c;
     m_start_decode := m_start_decode c;
     m_convert_dovi := m_convert_dovi c;
     m_removeDovi := m_removeDovi c;
     m_removeHdr10Plus := m_removeHdr10Plus c;
     m_convert_Hdr10Plus := m_convert_Hdr10Plus c;
     m_prefer_Hdr10Plus_conversion := m_prefer_Hdr10Plus_conversion c;
     m_dual_priority_Hdr10Plus := m_dual_priority_Hdr10Plus c;
     m_convert_Hdr10Plus_peak_brightness_source := m_convert_Hdr10Plus_peak_brightness_source c;
     m_first_frame := m_first_frame c;
     m_hdrStaticMetadataInfo := m_hdrStaticMetadataInfo c |}.

Definition set_m_hints (v : CDVDStreamInfo) (c : CBitstreamConverter) : CBitstreamConverter :=
  {| m_convertBuffer := m_convertBuffer c; m_convertSize := m_convertSize c;
     m_inputBuffer := m_inputBuffer c; m_inputSize := m_inputSize c;
     m_sps_pps_size := m_sps_pps_size c;
     m_sps_pps_context := m_sps_pps_context c;
     m_convert_bitstream := m_convert_bitstream c;
     m_to_annexb := m_to_annexb c; m_combine := m_combine c;
     m_extraData := m_extraData c;
     m_convert_3byteTo4byteNALSize := m_convert_3byteTo4byteNALSize c;
     m_convert_bytestream := m_convert_bytestream c;
     m_codec := m_codec c; m_hints := v;
     m_intial_hdrType := m_intial_hdrType c;
     m_start_decode := m_start_decode c;
     m_convert_dovi := m_convert_dovi c;
     m_removeDovi := m_removeDovi c;
     m_removeHdr10Plus := m_removeHdr10Plus c;
     m_convert_Hdr10Plus := m_convert_Hdr10Plus c;
     m_prefer_Hdr10Plus_conversion := m_prefer_Hdr10Plus_conversion c;
     m_dual_priority_Hdr10Plus := m_dual_priority_Hdr10Plus c;
     m_convert_Hdr10Plus_peak_brightness_source := m_convert_Hdr10Plus_peak_brightness_source c;
     m_first_frame := m_first_frame c;
     m_hdrStaticMetadataInfo := m_hdrStaticMetadataInfo c |}.

Definition set_m_intial_hdrType (v : StreamHdrType) (c : CBitstreamConverter) : CBitstreamConverter :=
  {| m_convertBuffer := m_convertBuffer c; m_convertSize := m_convertSize c;
     m_inputBuffer := m_inputBuffer c; m_inputSize := m_inputSize c;
     m_sps_pps_size := m_sps_pps_size c;
     m_sps_pps_context := m_sps_pps_context c;
     m_convert_bitstream := m_convert_bitstream c;
     m_to_annexb := m_to_annexb c; m_combine := m_combine c;
     m_extraData := m_extraData c;
     m_convert_3byteTo4byteNALSize := m_convert_3byteTo4byteNALSize c;
     m_convert_bytestream := m_convert_bytestream c;
     m_codec := m_codec c; m_hints := m_hints c; m_intial_hdrType := v;
     m_start_decode := m_start_decode c;
     m_convert_dovi := m_convert_dovi c;
     m_removeDovi := m_removeDovi c;
     m_removeHdr10Plus := m_removeHdr10Plus c;
     m_convert_Hdr10Plus := m_convert_Hdr10Plus c;
     m_prefer_Hdr10Plus_conversion := m_prefer_Hdr10Plus_conversion c;
     m_dual_priority_Hdr10Plus := m_dual_priority_Hdr10Plus c;
     m_convert_Hdr10Plus_peak_brightness_source := m_convert_Hdr10Plus_peak_brightness_source c;
     m_first_frame := m_first_frame c;
     m_hdrStaticMetadataInfo := m_hdrStaticMetadataInfo c |}.

Definition set_m_start_decode (v : bool) (c : CBitstreamConverter) : CBitstreamConverter :=
  {| m_convertBuffer := m_convertBuffer c; m_convertSize := m_convertSize c;
     m_inputBuffer := m_inputBuffer c; m_inputSize := m_inputSize c;
     m_sps_pps_size := m_sps_pps_size c;
     m_sps_pps_context := m_sps_pps_context c;
     m_convert_bitstream := m_convert_bitstream c;
     m_to_annexb := m_to_annexb c; m_combine := m_combine c;
     m_extraData := m_extraData c;
     m_convert_3byteTo4byteNALSize := m_convert_3byteTo4byteNALSize c;
     m_convert_bytestream := m_convert_bytestream c;
     m_codec := m_codec c; m_hints := m_hints c;
     m_intial_hdrType := m_intial_hdrType c; m_start_decode := v;
     m_convert_dovi := m_convert_dovi c;
     m_removeDovi := m_removeDovi c;
     m_removeHdr10Plus := m_removeHdr10Plus c;
     m_convert_Hdr10Plus := m_convert_Hdr10Plus c;
     m_prefer_Hdr10Plus_conversion := m_prefer_Hdr10Plus_conversion c;
     m_dual_priority_Hdr10Plus := m_dual_priority_Hdr10Plus c;
     m_convert_Hdr10Plus_peak_brightness_source := m_convert_Hdr10Plus_peak_brightness_source c;
     m_first_frame := m_first_frame c;
     m_hdrStaticMetadataInfo := m_hdrStaticMetadataInfo c |}.

Definition set_m_first_frame (v : bool) (c : CBitstreamConverter) : CBitstreamConverter :=
  {| m_convertBuffer := m_convertBuffer c; m_convertSize := m_convertSize c;
     m_inputBuffer := m_inputBuffer c; m_inputSize := m_inputSize c;
     m_sps_pps_size := m_sps_pps_size c;
     m_sps_pps_context := m_sps_pps_context c;
     m_convert_bitstream := m_convert_bitstream c;
     m_to_annexb := m_to_annexb c; m_combine := m_combine c;
     m_extraData := m_extraData c;
     m_convert_3byteTo4byteNALSize := m_convert_3byteTo4byteNALSize c;
     m_convert_bytestream := m_convert_bytestream c;
     m_codec := m_codec c; m_hints := m_hints c;
     m_intial_hdrType := m_intial_hdrType c;
     m_start_decode := m_start_decode c;
     m_convert_dovi := m_convert_dovi c;
     m_removeDovi := m_removeDovi c;
     m_removeHdr10Plus := m_removeHdr10Plus c;
     m_convert_Hdr10Plus := m_convert_Hdr10Plus c;
     m_prefer_Hdr10Plus_conversion := m_prefer_Hdr10Plus_conversion c;
     m_dual_priority_Hdr10Plus := m_dual_priority_Hdr10Plus c;
     m_convert_Hdr10Plus_peak_brightness_source := m_convert_Hdr10Plus_peak_brightness_source c;
     m_first_frame := v;
     m_hdrStaticMetadataInfo := m_hdrStaticMetadataInfo c |}.

Definition set_m_hdrStaticMetadataInfo (v : HDRStaticMetadataInfo) (c : CBitstreamConverter) : CBitstreamConverter :=
  {| m_convertBuffer := m_convertBuffer c; m_convertSize := m_convertSize c;
     m_inputBuffer := m_inputBuffer c; m_inputSize := m_inputSize c;
     m_sps_pps_size := m_sps_pps_size c;
     m_sps_pps_context := m_sps_pps_context c;
     m_convert_bitstream := m_convert_bitstream c;
     m_to_annexb := m_to_annexb c; m_combine := m_combine c;
     m_extraData := m_extraData c;
     m_convert_3byteTo4byteNALSize := m_convert_3byteTo4byteNALSize c;
     m_convert_bytestream := m_convert_bytestream c;
     m_codec := m_codec c; m_hints := m_hints c;
     m_intial_hdrType := m_intial_hdrType c;
     m_start_decode := m_start_decode c;
     m_convert_dovi := m_convert_dovi c;
     m_removeDovi := m_removeDovi c;
     m_removeHdr10Plus := m_removeHdr10Plus c;
     m_convert_Hdr10Plus := m_convert_Hdr10Plus c;
     m_prefer_Hdr10Plus_conversion := m_prefer_Hdr10Plus_conversion c;
     m_dual_priority_Hdr10Plus := m_dual_priority_Hdr10Plus c;
     m_convert_Hdr10Plus_peak_brightness_source := m_convert_Hdr10Plus_peak_brightness_source c;
     m_first_frame := m_first_frame c; m_hdrStaticMetadataInfo := v |}.

Definition set_m_convert_dovi (v : DOVIMode) (c : CBitstreamConverter) : CBitstreamConverter :=
  {| m_convertBuffer := m_convertBuffer c; m_convertSize := m_convertSize c;
     m_inputBuffer := m_inputBuffer c; m_inputSize := m_inputSize c;
     m_sps_pps_size := m_sps_pps_size c;
     m_sps_pps_context := m_sps_pps_context c;
     m_convert_bitstream := m_convert_bitstream c;
     m_to_annexb := m_to_annexb c; m_combine := m_combine c;
     m_extraData := m_extraData c;
     m_convert_3byteTo4byteNALSize := m_convert_3byteTo4byteNALSize c;
     m_convert_bytestream := m_convert_bytestream c;
     m_codec := m_codec c; m_hints := m_hints c;
     m_intial_hdrType := m_intial_hdrType c;
     m_start_decode := m_start_decode c; m_convert_dovi := v;
     m_removeDovi := m_removeDovi c;
     m_removeHdr10Plus := m_removeHdr10Plus c;
     m_convert_Hdr10Plus := m_convert_Hdr10Plus c;
     m_prefer_Hdr10Plus_conversion := m_prefer_Hdr10Plus_conversion c;
     m_dual_priority_Hdr10Plus := m_dual_priority_Hdr10Plus c;
     m_convert_Hdr10Plus_peak_brightness_source := m_convert_Hdr10Plus_peak_brightness_source c;
     m_first_frame := m_first_frame c;
     m_hdrStaticMetadataInfo := m_hdrStaticMetadataInfo c |}.

Definition set_m_removeDovi (v : bool) (c : CBitstreamConverter) : CBitstreamConverter :=
  {| m_convertBuffer := m_convertBuffer c; m_convertSize := m_convertSize c;
     m_inputBuffer := m_inputBuffer c; m_inputSize := m_inputSize c;
     m_sps_pps_size := m_sps_pps_size c;
     m_sps_pps_context := m_sps_pps_context c;
     m_convert_bitstream := m_convert_bitstream c;
     m_to_annexb := m_to_annexb c; m_combine := m_combine c;
     m_extraData := m_extraData c;
     m_convert_3byteTo4byteNALSize := m_convert_3byteTo4byteNALSize c;
     m_convert_bytestream := m_convert_bytestream c;
     m_codec := m_codec c; m_hints := m_hints c;
     m_intial_hdrType := m_intial_hdrType c;
     m_start_decode := m_start_decode c;
     m_convert_dovi := m_convert_dovi c; m_removeDovi := v;
     m_removeHdr10Plus := m_removeHdr10Plus c;
     m_convert_Hdr10Plus := m_convert_Hdr10Plus c;
     m_prefer_Hdr10Plus_conversion := m_prefer_Hdr10Plus_conversion c;
     m_dual_priority_Hdr10Plus := m_dual_priority_Hdr10Plus c;
     m_convert_Hdr10Plus_peak_brightness_source := m_convert_Hdr10Plus_peak_brightness_source c;
     m_first_frame := m_first_frame c;
     m_hdrStaticMetadataInfo := m_hdrStaticMetadataInfo c |}.

Definition set_m_removeHdr10Plus (v : bool) (c : CBitstreamConverter) : CBitstreamConverter :=
  {| m_convertBuffer := m_convertBuffer c; m_convertSize := m_convertSize c;
     m_inputBuffer := m_inputBuffer c; m_inputSize := m_inputSize c;
     m_sps_pps_size := m_sps_pps_size c;
     m_sps_pps_context := m_sps_pps_context c;
     m_convert_bitstream := m_convert_bitstream c;
     m_to_annexb := m_to_annexb c; m_combine := m_combine c;
     m_extraData := m_extraData c;
     m_convert_3byteTo4byteNALSize := m_convert_3byteTo4byteNALSize c;
     m_convert_bytestream := m_convert_bytestream c;
     m_codec := m_codec c; m_hints := m_hints c;
     m_intial_hdrType := m_intial_hdrType c;
     m_start_decode := m_start_decode c;
     m_convert_dovi := m_convert_dovi c;
     m_removeDovi := m_removeDovi c; m_removeHdr10Plus := v;
     m_convert_Hdr10Plus := m_convert_Hdr10Plus c;
     m_prefer_Hdr10Plus_conversion := m_prefer_Hdr10Plus_conversion c;
     m_dual_priority_Hdr10Plus := m_dual_priority_Hdr10Plus c;
     m_convert_Hdr10Plus_peak_brightness_source := m_convert_Hdr10Plus_peak_brightness_source c;
     m_first_frame := m_first_frame c;
     m_hdrStaticMetadataInfo := m_hdrStaticMetadataInfo c |}.

Definition set_m_convert_Hdr10Plus (v : bool) (c : CBitstreamConverter) : CBitstreamConverter :=
  {| m_convertBuffer := m_convertBuffer c; m_convertSize := m_convertSize c;
     m_inputBuffer := m_inputBuffer c; m_inputSize := m_inputSize c;
     m_sps_pps_size := m_sps_pps_size c;
     m_sps_pps_context := m_sps_pps_context c;
     m_convert_bitstream := m_convert_bitstream c;
     m_to_annexb := m_to_annexb c; m_combine := m_combine c;
     m_extraData := m_extraData c;
     m_convert_3byteTo4byteNALSize := m_convert_3byteTo4byteNALSize c;
     m_convert_bytestream := m_convert_bytestream c;
     m_codec := m_codec c; m_hints := m_hints c;
     m_intial_hdrType := m_intial_hdrType c;
     m_start_decode := m_start_decode c;
     m_convert_dovi := m_convert_dovi c;
     m_removeDovi := m_removeDovi c;
     m_removeHdr10Plus := m_removeHdr10Plus c;
     m_convert_Hdr10Plus := v;
     m_prefer_Hdr10Plus_conversion := m_prefer_Hdr10Plus_conversion c;
     m_dual_priority_Hdr10Plus := m_dual_priority_Hdr10Plus c;
     m_convert_Hdr10Plus_peak_brightness_source := m_convert_Hdr10Plus_peak_brightness_source c;
     m_first_frame := m_first_frame c;
     m_hdrStaticMetadataInfo := m_hdrStaticMetadataInfo c |}.

Definition set_m_prefer_Hdr10Plus_conversion (v : bool) (c : CBitstreamConverter) : CBitstreamConverter :=
  {| m_convertBuffer := m_convertBuffer c; m_convertSize := m_convertSize c;
     m_inputBuffer := m_inputBuffer c; m_inputSize := m_inputSize c;
     m_sps_pps_size := m_sps_pps_size c;
     m_sps_pps_context := m_sps_pps_context c;
     m_convert_bitstream := m_convert_bitstream c;
     m_to_annexb := m_to_annexb c; m_combine := m_combine c;
     m_extraData := m_extraData c;
     m_convert_3byteTo4byteNALSize := m_convert_3byteTo4byteNALSize c;
     m_convert_bytestream := m_convert_bytestream c;
     m_codec := m_codec c; m_hints := m_hints c;
     m_intial_hdrType := m_intial_hdrType c;
     m_start_decode := m_start_decode c;
     m_convert_dovi := m_convert_dovi c;
     m_removeDovi := m_removeDovi c;
     m_removeHdr10Plus := m_removeHdr10Plus c;
     m_convert_Hdr10Plus := m_convert_Hdr10Plus c;
     m_prefer_Hdr10Plus_conversion := v;
     m_dual_priority_Hdr10Plus := m_dual_priority_Hdr10Plus c;
     m_convert_Hdr10Plus_peak_brightness_source := m_convert_Hdr10Plus_peak_brightness_source c;
     m_first_frame := m_first_frame c;
     m_hdrStaticMetadataInfo := m_hdrStaticMetadataInfo c |}.

Definition set_m_dual_priority_Hdr10Plus (v : bool) (c : CBitstreamConverter) : CBitstreamConverter :=
  {| m_convertBuffer := m_convertBuffer c; m_convertSize := m_convertSize c;
     m_inputBuffer := m_inputBuffer c; m_inputSize := m_inputSize c;
     m_sps_pps_size := m_sps_pps_size c;
     m_sps_pps_context := m_sps_pps_context c;
     m_convert_bitstream := m_convert_bitstream c;
     m_to_annexb := m_to_annexb c; m_combine := m_combine c;
     m_extraData := m_extraData c;
     m_convert_3byteTo4byteNALSize := m_convert_3byteTo4byteNALSize c;
     m_convert_bytestream := m_convert_bytestream c;
     m_codec := m_codec c; m_hints := m_hints c;
     m_intial_hdrType := m_intial_hdrType c;
     m_start_decode := m_start_decode c;
     m_convert_dovi := m_convert_dovi c;
     m_removeDovi := m_removeDovi c;
     m_removeHdr10Plus := m_removeHdr10Plus c;
     m_convert_Hdr10Plus := m_convert_Hdr10Plus c;
     m_prefer_Hdr10Plus_conversion := m_prefer_Hdr10Plus_conversion c;
     m_dual_priority_Hdr10Plus := v;
     m_convert_Hdr10Plus_peak_brightness_source := m_convert_Hdr10Plus_peak_brightness_source c;
     m_first_frame := m_first_frame c;
     m_hdrStaticMetadataInfo := m_hdrStaticMetadataInfo c |}.

Definition SetConvertHdr10Plus := set_m_convert_Hdr10Plus.
Definition SetPreferCovertHdr10Plus := set_m_prefer_Hdr10Plus_conversion.
Definition SetDualPriorityHdr10Plus := set_m_dual_priority_Hdr10Plus.
Definition SetRemoveDovi := set_m_removeDovi.
Definition SetRemoveHdr10Plus := set_m_removeHdr10Plus.

Definition upd_ctx (f : omx_bitstream_ctx -> omx_bitstream_ctx)
    (c : CBitstreamConverter) : CBitstreamConverter :=
  set_m_sps_pps_context (f (m_sps_pps_context c)) c.

Definition upd_hints (f : CDVDStreamInfo -> CDVDStreamInfo)
    (c : CBitstreamConverter) : CBitstreamConverter :=
  set_m_hints (f (m_hints c)) c.

Definition upd_dovi
    (f : AVDOVIDecoderConfigurationRecord -> AVDOVIDecoderConfigurationRecord)
    (c : CBitstreamConverter) : CBitstreamConverter :=
  upd_hints (fun h => set_dovi (f (dovi h)) h) c.

(** ** Accessors *)

Definition GetConvertBuffer (c : CBitstreamConverter) : option (list Z) :=
  if (m_convert_bitstream c || m_convert_bytestream c
      || m_convert_3byteTo4byteNALSize c || m_combine c)
     && (match m_convertBuffer c with Some _ => true | None => false end)
  then m_convertBuffer c
  else m_inputBuffer c.

Definition GetConvertSize (c : CBitstreamConverter) : Z :=
  if (m_convert_bitstream c || m_convert_bytestream c
      || m_convert_3byteTo4byteNALSize c || m_combine c)
     && (match m_convertBuffer c with Some _ => true | None => false end)
  then m_convertSize c
  else m_inputSize c.

Definition ResetStartDecode (c : CBitstreamConverter) : CBitstreamConverter :=
  set_m_start_decode false c.

Definition CanStartDecode (c : CBitstreamConverter) : bool := m_start_decode c.

Definition IsIDR (c : CBitstreamConverter) (unit_type : Z) : bool :=
  match m_codec c with
  | AV_CODEC_ID_H264 => unit_type =? AVC_NAL_IDR_SLICE
  | AV_CODEC_ID_HEVC =>
      (unit_type =? HEVC_NAL_IDR_W_RADL)
      || (unit_type =? HEVC_NAL_IDR_N_LP)
      || (unit_type =? HEVC_NAL_CRA_NUT)
  | AV_CODEC_ID_OTHER => false
  end.

Definition IsSlice (c : CBitstreamConverter) (unit_type : Z) : bool :=
  match m_codec c with
  | AV_CODEC_ID_H264 => unit_type =? AVC_NAL_SLICE
  | AV_CODEC_ID_HEVC =>
      (unit_type =? HEVC_NAL_TRAIL_R)
      || (unit_type =? HEVC_NAL_TRAIL_N)
      || (unit_type =? HEVC_NAL_TSA_N)
      || (unit_type =? HEVC_NAL_TSA_R)
      || (unit_type =? HEVC_NAL_STSA_N)
      || (unit_type =? HEVC_NAL_STSA_R)
      || (unit_type =? HEVC_NAL_BLA_W_LP)
      || (unit_type =? HEVC_NAL_BLA_W_RADL)
      || (unit_type =? HEVC_NAL_BLA_N_LP)
      || (unit_type =? HEVC_NAL_CRA_NUT)
      || (unit_type =? HEVC_NAL_RADL_N)
      || (unit_type =? HEVC_NAL_RADL_R)
      || (unit_type =? HEVC_NAL_RASL_N)
      || (unit_type =? HEVC_NAL_RASL_R)
  | AV_CODEC_ID_OTHER => false
  end.

(** ** Collaborators

    The declarations of HDR10.h, HDR10Plus.h, HevcSei.h, HDR10PlusConvert.h,
    libdovi and FFmpeg's AVIO are not part of the converter.  Their types
    are abstract and their functions are the fields of a class.
    [avc_parse_nal_units] and [isom_write_avcc] stand for the bytes the two
    functions of that name leave in the AVIO dynamic buffer. *)

Record DoviRpuDataHeader : Type := {
  guessed_profile : Z;
  el_type : option string
}.

Class Collaborators : Type := {
  MasteringDisplayColourVolume : Type;
  maxLuminance : MasteringDisplayColourVolume -> Z;
  minLuminance : MasteringDisplayColourVolume -> Z;
  MasteringDisplayColourVolumeText : MasteringDisplayColourVolume -> string;
  ContentLightLevel : Type;
  maxContentLightLevel : ContentLightLevel -> Z;
  maxFrameAverageLightLevel : ContentLightLevel -> Z;
  Hdr10PlusMetadata : Type;
  SeiMessages : Type;
  ParseSeiRbspUnclearedEmulation : list Z -> SeiMessages;
  ExtractMasteringDisplayColourVolume :
    SeiMessages -> option MasteringDisplayColourVolume;
  ExtractContentLightLevel : SeiMessages -> option ContentLightLevel;
  ExtractHdr10Plus : SeiMessages -> option Hdr10PlusMetadata;
  RemoveHdr10PlusFromSeiNalu : list Z -> list Z;
  create_rpu_nalu_for_hdr10plus :
    Hdr10PlusMetadata -> Z -> HDRStaticMetadataInfo -> list Z;
  HAVE_LIBDOVI : bool;
  DoviRpuOpaque : Type;
  dovi_parse_unspec62_nalu : list Z -> DoviRpuOpaque;
  dovi_rpu_get_header : DoviRpuOpaque -> option DoviRpuDataHeader;
  dovi_convert_rpu_with_mode : DoviRpuOpaque -> Z -> Z * DoviRpuOpaque;
  dovi_write_unspec62_nalu : DoviRpuOpaque -> option (list Z);
  EqualsNoCase : string -> string -> bool;
  avio_open_dyn_buf : Z;
  avc_parse_nal_units : list Z -> list Z;
  isom_write_avcc : list Z -> list Z
}.

Definition inspect {A : Type} (a : A) : {b : A | a = b} := exist _ a eq_refl.

Section Converter.

Context {E : Collaborators}.

(** ** HDR static metadata *)

Definition ApplyMasteringDisplayColourVolume (c : CBitstreamConverter)
    (metadata : MasteringDisplayColourVolume) (update : bool)
    : CBitstreamConverter * bool :=
  let i := m_hdrStaticMetadataInfo c in
  if negb (max_lum i =? maxLuminance metadata)
     || negb (min_lum i =? minLuminance metadata)
     || negb (has_mdcv_metadata i)
  then
    (set_m_hdrStaticMetadataInfo
       {| has_mdcv_metadata := true;
          max_lum := maxLuminance metadata;
          min_lum := minLuminance metadata;
          colour_primaries := MasteringDisplayColourVolumeText metadata;
          has_cll_metadata := has_cll_metadata i;
          max_cll := max_cll i;
          max_fall := max_fall i |} c, true)
  else (c, update).

Definition ApplyContentLightLevel (c : CBitstreamConverter)
    (metadata : ContentLightLevel) (update : bool)
    : CBitstreamConverter * bool :=
  let i := m_hdrStaticMetadataInfo c in
  if negb (max_cll i =? maxContentLightLevel metadata)
     || negb (max_fall i =? maxFrameAverageLightLevel metadata)
     || negb (has_cll_metadata i)
  then
    (set_m_hdrStaticMetadataInfo
       {| has_mdcv_metadata := has_mdcv_metadata i;
          max_lum := max_lum i;
          min_lum := min_lum i;
          colour_primaries := colour_primaries i;
          has_cll_metadata := true;
          max_cll := maxContentLightLevel metadata;
          max_fall := maxFrameAverageLightLevel metadata |} c, true)
  else (c, update).

(** ** Dolby Vision RPU handling *)

Definition el_type_of (s : string) : DOVIELType :=
  if EqualsNoCase s "FEL" then TYPE_FEL
  else if EqualsNoCase s "MEL" then TYPE_MEL
  else TYPE_NONE.

(** [convert_dovi_rpu_nal]: the converted RPU, or [None] (NULL) when the
    header is missing, the profile is not 7 or the conversion fails.  The
    local EL type it also fills in only reaches the data cache. *)
Definition convert_dovi_rpu_nal (nal : list Z) (mode : Z)
    : option (list Z) :=
  let rpuOpaque := dovi_parse_unspec62_nalu nal in
  match dovi_rpu_get_header rpuOpaque with
  | Some header =>
      if guessed_profile header =? 7 then
        let '(status, rpuOpaque') :=
          dovi_convert_rpu_with_mode rpuOpaque mode in
        if 0 <=? status then dovi_write_unspec62_nalu rpuOpaque' else None
      else None
  | None => None
  end.

(** [get_dovi_rpu_info]: what it leaves in the [dovi_el_type] reference. *)
Definition get_dovi_rpu_info (nal : list Z) (first_frame : bool)
    (dovi_el_type : DOVIELType) : DOVIELType :=
  let rpuOpaque := dovi_parse_unspec62_nalu nal in
  if first_frame then
    match dovi_rpu_get_header rpuOpaque with
    | Some header =>
        if (guessed_profile header =? 4) || (guessed_profile header =? 7)
        then match el_type header with
             | Some s => el_type_of s
             | None => TYPE_NONE
             end
        else TYPE_NONE
    | None => TYPE_NONE
    end
  else dovi_el_type.

Definition run_get_dovi_rpu_info (nal : list Z) (c : CBitstreamConverter)
    : CBitstreamConverter :=
  upd_hints
    (fun h =>
       set_dovi_el_type
         (get_dovi_rpu_info nal (m_first_frame c) (dovi_el_type h)) h) c.

Definition ProcessDoViRpu (c : CBitstreamConverter) (nal_buf : list Z)
    (out : outbuf) : CBitstreamConverter * outbuf :=
  let '(c1, nal1) :=
    if HAVE_LIBDOVI then
      let '(c1, nal1) :=
        match m_convert_dovi c with
        | MODE_NONE => (c, nal_buf)
        | mode =>
            match convert_dovi_rpu_nal nal_buf (DOVIMode_int mode) with
            | Some rpu_data =>
                let c1 := upd_dovi (set_el_present_flag 0) c in
                let c2 :=
                  match mode with
                  | MODE_TO81 =>
                      upd_dovi
                        (fun d =>
                           set_dv_bl_signal_compatibility_id 1
                             (set_dv_profile 8 d)) c1
                  | _ => c1
                  end in
                (c2, rpu_data)
            | None => (c, nal_buf)
            end
        end in
      (run_get_dovi_rpu_info nal1 c1, nal1)
    else (c, nal_buf) in
  (c1, BitstreamAllocAndCopy out None 0 nal1 HEVC_NAL_UNSPEC62).

Definition AddDoViRpuNalu (c : CBitstreamConverter)
    (meta : Hdr10PlusMetadata) (out : outbuf)
    : CBitstreamConverter * outbuf :=
  let nalu :=
    create_rpu_nalu_for_hdr10plus meta
      (m_convert_Hdr10Plus_peak_brightness_source c)
      (m_hdrStaticMetadataInfo c) in
  match nalu with
  | [] => (c, out)
  | _ :: _ =>
      let c1 :=
        if m_first_frame c then
          upd_hints
            (fun h =>
               set_dovi
                 {| dv_version_major := 1;
                    dv_version_minor := 0;
                    dv_profile := 8;
                    dv_level := 6;
                    rpu_present_flag := 1;
                    el_present_flag := 0;
                    bl_present_flag := 1;
                    dv_bl_signal_compatibility_id := 1 |}
                 (set_hdrType HDR_TYPE_DOLBYVISION h)) c
        else c in
      let c2 := if HAVE_LIBDOVI then run_get_dovi_rpu_info nalu c1 else c1 in
      (c2, BitstreamAllocAndCopy out None 0 nalu HEVC_NAL_UNSPEC62)
  end.

(** ** SEI prefix handling

    The pair of locals [hdr10plus_meta] and [convert_hdr10plus_meta] of a
    Convert call is an [option]: they are only ever set together. *)
Definition ProcessSeiPrefix (c : CBitstreamConverter) (buf : list Z)
    (out : outbuf) (h : option Hdr10PlusMetadata)
    : CBitstreamConverter * outbuf * option Hdr10PlusMetadata :=
  let messages := ParseSeiRbspUnclearedEmulation buf in
  let '(c1, u1) :=
    match ExtractMasteringDisplayColourVolume messages with
    | Some colourVolume =>
        ApplyMasteringDisplayColourVolume c colourVolume false
    | None => (c, false)
    end in
  let '(c2, _) :=
    match ExtractContentLightLevel messages with
    | Some lightLevel => ApplyContentLightLevel c1 lightLevel u1
    | None => (c1, u1)
    end in
  match ExtractHdr10Plus messages with
  | Some res =>
      let isDual :=
        match m_intial_hdrType c2 with
        | HDR_TYPE_DOLBYVISION => true
        | _ => false
        end in
      let considerAsHdr10Plus :=
        negb isDual || m_dual_priority_Hdr10Plus c2
        || m_prefer_Hdr10Plus_conversion c2 in
      let c3 :=
        if m_first_frame c2 && considerAsHdr10Plus
        then upd_hints (set_hdrType HDR_TYPE_HDR10PLUS) c2
        else c2 in
      let convert :=
        considerAsHdr10Plus && m_convert_Hdr10Plus c3
        && negb (m_dual_priority_Hdr10Plus c3) in
      let h1 := if convert then Some res else h in
      if convert || m_removeHdr10Plus c3 then
        match RemoveHdr10PlusFromSeiNalu buf with
        | [] => (c3, out, h1)
        | nalu =>
            (c3, BitstreamAllocAndCopy out None 0 nalu HEVC_NAL_SEI_PREFIX,
             h1)
        end
      else
        (c3, BitstreamAllocAndCopy out None 0 buf HEVC_NAL_SEI_PREFIX, h1)
  | None =>
      (c2, BitstreamAllocAndCopy out None 0 buf HEVC_NAL_SEI_PREFIX, h)
  end.

(** ** Single-track conversion: [BitstreamConvert] *)

(** [nal_sps], [nal_pps], [nal_sei] of the codec switch; [None] is the
    [default: return false]. *)
Definition nal_codes (cd : AVCodecID) : option (Z * Z * Z) :=
  match cd with
  | AV_CODEC_ID_H264 => Some (AVC_NAL_SPS, AVC_NAL_PPS, AVC_NAL_SEI)
  | AV_CODEC_ID_HEVC => Some (HEVC_NAL_SPS, HEVC_NAL_PPS, HEVC_NAL_SEI_PREFIX)
  | AV_CODEC_ID_OTHER => None
  end.

(** [for (nal_size = 0, i = 0; i < length_size; i++)
       nal_size = (nal_size << 8) | buf[i];] on [int32_t]. *)
Definition read_nal_size (ls : Z) (pkt : list Z) (pos : nat) : Z :=
  fold_left (fun acc i => s32 (Z.lor (Z.shiftl acc 8) (rd pkt (pos + i))))
    (seq 0 (Z.to_nat ls)) 0.

Definition has_meta (h : option Hdr10PlusMetadata) : bool :=
  match h with Some _ => true | None => false end.

(** The part of the loop body after the length check: [p] is the memory
    at [buf], whose first [nal_size] bytes are the NAL unit. *)
Definition convert_nal (c : CBitstreamConverter) (codes : Z * Z * Z)
    (unit_type : Z) (p : list Z) (nal_size : Z)
    (out : outbuf) (h : option Hdr10PlusMetadata)
    : CBitstreamConverter * outbuf * option Hdr10PlusMetadata :=
  let '(nal_sps, nal_pps, nal_sei) := codes in
  let nal := firstn (Z.to_nat nal_size) p in
  let c1 :=
    if negb (first_idr (m_sps_pps_context c) =? 0)
       && ((unit_type =? nal_sps) || (unit_type =? nal_pps))
    then upd_ctx (set_idr_sps_pps_seen 1) c
    else c in
  let c2 :=
    if negb (m_start_decode c1)
       && ((unit_type =? nal_sps) || IsIDR c1 unit_type
           || ((unit_type =? nal_sei)
               && has_sei_recovery_point p (Z.to_nat nal_size)))
    then set_m_start_decode true c1
    else c1 in
  let ctx := m_sps_pps_context c2 in
  if negb (first_idr ctx =? 0) && IsIDR c2 unit_type
     && (idr_sps_pps_seen ctx =? 0)
  then
    (upd_ctx (set_first_idr 0) c2,
     BitstreamAllocAndCopy out (sps_pps_data ctx) (size ctx) nal unit_type,
     h)
  else
    let c3 :=
      if (first_idr ctx =? 0) && IsSlice c2 unit_type
      then upd_ctx (fun x => set_idr_sps_pps_seen 0 (set_first_idr 1 x)) c2
      else c2 in
    if unit_type =? HEVC_NAL_SEI_PREFIX then
      ProcessSeiPrefix c3 nal out h
    else if unit_type =? HEVC_NAL_UNSPEC62 then
      if negb (m_removeDovi c3) && negb (has_meta h)
      then let '(c4, out1) := ProcessDoViRpu c3 nal out in (c4, out1, h)
      else (c3, out, h)
    else if unit_type =? HEVC_NAL_UNSPEC63 then
      if negb (m_removeDovi c3) && negb (has_meta h)
         && (match m_convert_dovi c3 with MODE_NONE => true | _ => false end)
      then (c3, BitstreamAllocAndCopy out None 0 nal unit_type, h)
      else (c3, out, h)
    else (c3, BitstreamAllocAndCopy out None 0 nal unit_type, h).

(** One round of the [do ... while (cumul_size < buf_size)] loop. [pos] is
    [buf - pData], which is also the value of [cumul_size] at the top of
    the round.  The unit type is read before the length check, as in the
    source. *)
Inductive nal_iter : Type :=
  | IterFail (c : CBitstreamConverter)
  | IterNext (c : CBitstreamConverter) (out : outbuf)
      (h : option Hdr10PlusMetadata) (pos : nat).

Definition unit_type_at (c : CBitstreamConverter) (pkt : list Z) (pos : nat)
    : Z :=
  match m_codec c with
  | AV_CODEC_ID_H264 => Z.land (rd pkt pos) 0x1f
  | _ => Z.land (Z.shiftr (rd pkt pos) 1) 0x3f
  end.

Definition nal_body (c : CBitstreamConverter) (codes : Z * Z * Z)
    (pkt : list Z) (pos : nat) (out : outbuf)
    (h : option Hdr10PlusMetadata) : nal_iter :=
  let ls := length_size (m_sps_pps_context c) in
  if Z.of_nat pos + ls >? len pkt then IterFail c
  else
    let nal_size := read_nal_size ls pkt pos in
    let pos1 := (pos + Z.to_nat ls)%nat in
    let unit_type := unit_type_at c pkt pos1 in
    if (Z.of_nat pos1 + nal_size >? len pkt) || (nal_size <=? 0)
    then IterFail c
    else
      let '(c1, out1, h1) :=
        convert_nal c codes unit_type (skipn pos1 pkt) nal_size out h in
      IterNext c1 out1 h1 (pos1 + Z.to_nat nal_size).

Inductive loop_result : Type :=
  | LoopFail (c : CBitstreamConverter)
  | LoopDone (c : CBitstreamConverter) (out : outbuf)
      (h : option Hdr10PlusMetadata).

Equations? nal_loop (codes : Z * Z * Z) (c : CBitstreamConverter)
    (pkt : list Z) (pos : nat) (out : outbuf)
    (h : option Hdr10PlusMetadata) : loop_result
    by wf (length pkt - pos)%nat lt :=
  nal_loop codes c pkt pos out h
    with inspect (nal_body c codes pkt pos out h) => {
    | exist _ (IterFail c1) _ => LoopFail c1
    | exist _ (IterNext c1 out1 h1 pos2) Hb
        with inspect (Z.of_nat pos2 <? len pkt) => {
        | exist _ true Hlt => nal_loop codes c1 pkt pos2 out1 h1
        | exist _ false _ => LoopDone c1 out1 h1 } }.
Proof.
  apply Z.ltb_lt in Hlt. unfold len in Hlt.
  unfold nal_body in Hb.
  destruct (Z.of_nat pos + length_size (m_sps_pps_context c) >? len pkt);
    [discriminate|].
  destruct ((Z.of_nat (pos + Z.to_nat (length_size (m_sps_pps_context c)))
             + read_nal_size (length_size (m_sps_pps_context c)) pkt pos
             >? len pkt)
            || (read_nal_size (length_size (m_sps_pps_context c)) pkt pos
                <=? 0)) eqn:Hc; [discriminate|].
  apply orb_false_iff in Hc. destruct Hc as [_ Hc]. apply Z.leb_gt in Hc.
  destruct (convert_nal _ _ _ _ _ _ _) as [[? ?] ?].
  inversion Hb; subst. lia.
Qed.

(** [BitstreamConvert]: the result, the converter and the output buffer.
    The [fail] label frees the output and sets its size to 0. *)
Definition BitstreamConvert (c : CBitstreamConverter) (pData : list Z)
    (out : outbuf) : bool * CBitstreamConverter * outbuf :=
  match nal_codes (m_codec c) with
  | None => (false, c, out)
  | Some codes =>
      match nal_loop codes c pData 0 out None with
      | LoopFail c1 => (false, c1, (None, 0))
      | LoopDone c1 out1 h1 =>
          let '(c2, out2) :=
            match h1 with
            | Some meta => AddDoViRpuNalu c1 meta out1
            | None => (c1, out1)
            end in
          (true, set_m_first_frame false c2, out2)
      end
  end.

(** ** Single-track [Convert] *)

Definition BS_RB24 (p : list Z) (i : nat) : Z :=
  Z.lor (Z.lor (Z.shiftl (rd p i) 16) (Z.shiftl (rd p (i + 1)) 8))
    (rd p (i + 2)).

Definition BS_RB32 (p : list Z) (i : nat) : Z :=
  Z.lor (Z.lor (Z.lor (Z.shiftl (rd p i) 24) (Z.shiftl (rd p (i + 1)) 16))
           (Z.shiftl (rd p (i + 2)) 8))
    (rd p (i + 3)).

(** [avio_wb32]: four bytes, most significant first. *)
Definition wb32 (v : Z) : list Z :=
  [Z.land (Z.shiftr v 24) 0xff; Z.land (Z.shiftr v 16) 0xff;
   Z.land (Z.shiftr v 8) 0xff; Z.land v 0xff].

(** One round of the loop that rewrites 3-byte NAL sizes as 4-byte ones
    writes [avio_wb32(pb, nal_size)] and then the [nal_size] bytes after the
    3-byte size. *)
Definition nal3_emit (pkt : list Z) (pos : nat) : list Z :=
  wb32 (BS_RB24 pkt pos) ++ span pkt (pos + 3) (BS_RB24 pkt pos).

(** [while (nal_start < end)]; [acc] is what has been written to the AVIO
    buffer. *)
Equations? nal3_to_nal4 (pkt : list Z) (pos : nat) (acc : list Z) : list Z
    by wf (length pkt - pos)%nat lt :=
  nal3_to_nal4 pkt pos acc with inspect (Z.of_nat pos <? len pkt) => {
    | exist _ true Hlt =>
        nal3_to_nal4 pkt (pos + 3 + Z.to_nat (BS_RB24 pkt pos))
          (acc ++ nal3_emit pkt pos)
    | exist _ false _ => acc }.
Proof.
  apply Z.ltb_lt in Hlt. unfold len in Hlt. lia.
Qed.

Definition codec_supported (cd : AVCodecID) : bool :=
  match cd with
  | AV_CODEC_ID_H264 | AV_CODEC_ID_HEVC => true
  | AV_CODEC_ID_OTHER => false
  end.

(** [Convert(pData, iSize, pts)].  [pData] is [None] for a NULL pointer and
    otherwise the [iSize] bytes of the packet; [pts] only reaches the data
    cache. *)
Definition Convert (c : CBitstreamConverter) (pData : option (list Z))
    : bool * CBitstreamConverter :=
  let c0 :=
    set_m_inputBuffer None
      (set_m_convertSize 0 (set_m_inputSize 0 (set_m_convertBuffer None c))) in
  match pData with
  | None => (false, c0)
  | Some pkt =>
      if codec_supported (m_codec c0) then
        if m_to_annexb c0 then
          if m_convert_bitstream c0 then
            let '(_, c1, (bytestream_buff, bytestream_size)) :=
              BitstreamConvert c0 pkt (None, 0) in
            match bytestream_buff with
            | Some b =>
                if 0 <? bytestream_size
                then (true,
                      set_m_convertBuffer (Some b)
                        (set_m_convertSize bytestream_size c1))
                else (false,
                      set_m_convertBuffer None (set_m_convertSize 0 c1))
            | None =>
                (false, set_m_convertBuffer None (set_m_convertSize 0 c1))
            end
          else
            (true, set_m_inputBuffer (Some pkt) (set_m_inputSize (len pkt) c0))
        else
          let c1 :=
            set_m_inputBuffer (Some pkt) (set_m_inputSize (len pkt) c0) in
          if m_convert_bytestream c1 then
            if avio_open_dyn_buf <? 0 then (false, c1)
            else
              let b := avc_parse_nal_units pkt in
              (true, set_m_convertBuffer (Some b) (set_m_convertSize (len b) c1))
          else if m_convert_3byteTo4byteNALSize c1 then
            if avio_open_dyn_buf <? 0 then (false, c1)
            else
              let b := nal3_to_nal4 pkt 0 [] in
              (true, set_m_convertBuffer (Some b) (set_m_convertSize (len b) c1))
          else (true, c1)
      else (false, c0)
  end.

(** ** Dual-track [Convert]: base layer and enhancement layer *)

(** The locals of the combine: the converter, the output buffer
    ([m_convertBuffer] with [offset]), the HDR10+ metadata and the deferred
    end-of-sequence unit ([buf_eos] with [size_eos]). *)
Record combine_state : Type := {
  cs_conv : CBitstreamConverter;
  cs_out : outbuf;
  cs_meta : option Hdr10PlusMetadata;
  cs_eos : option (list Z)
}.

(** [size = std::min<uint32_t>(BS_RB32(buf), end - buf - 4)] and the unit
    type, for the bytes [r] in [[buf, end)]. *)
Definition nal_size32 (r : list Z) : Z := Z.min (BS_RB32 r 0) (len r - 4).
Definition nal_type32 (r : list Z) : Z := Z.land (Z.shiftr (rd r 4) 1) 0x3f.
Definition nal_at32 (r : list Z) : list Z :=
  firstn (Z.to_nat (nal_size32 r)) (skipn 4 r).

(** The body of the base-layer loop. *)
Definition bl_nal (s : combine_state) (r : list Z) : combine_state :=
  let nal_type := nal_type32 r in
  let s1 :=
    if nal_type =? HEVC_NAL_SEI_PREFIX then
      let '(c1, out1, h1) :=
        ProcessSeiPrefix (cs_conv s) (nal_at32 r) (cs_out s) (cs_meta s) in
      {| cs_conv := c1; cs_out := out1; cs_meta := h1; cs_eos := cs_eos s |}
    else if nal_type =? AVC_NAL_END_SEQUENCE then
      {| cs_conv := cs_conv s; cs_out := cs_out s; cs_meta := cs_meta s;
         cs_eos := Some (nal_at32 r) |}
    else
      {| cs_conv := cs_conv s;
         cs_out := BitstreamAllocAndCopy32 (cs_out s) (nal_at32 r) nal_type;
         cs_meta := cs_meta s; cs_eos := cs_eos s |} in
  {| cs_conv := upd_dovi (set_bl_present_flag 1) (cs_conv s1);
     cs_out := cs_out s1; cs_meta := cs_meta s1; cs_eos := cs_eos s1 |}.

(** The body of the enhancement-layer loop. *)
Definition el_nal (s : combine_state) (r : list Z) : combine_state :=
  let nal_type := nal_type32 r in
  let c := cs_conv s in
  let s1 :=
    if nal_type =? HEVC_NAL_UNSPEC62 then
      if negb (m_removeDovi c) && negb (has_meta (cs_meta s)) then
        let '(c1, out1) := ProcessDoViRpu c (nal_at32 r) (cs_out s) in
        {| cs_conv := c1; cs_out := out1; cs_meta := cs_meta s;
           cs_eos := cs_eos s |}
      else s
    else
      if negb (m_removeDovi c) && negb (has_meta (cs_meta s))
         && (match m_convert_dovi c with MODE_NONE => true | _ => false end)
      then
        {| cs_conv := c;
           cs_out :=
             BitstreamAllocAndCopy32 (cs_out s) (nal_at32 r)
               HEVC_NAL_UNSPEC63;
           cs_meta := cs_meta s; cs_eos := cs_eos s |}
      else s in
  {| cs_conv := upd_dovi (set_el_present_flag 1) (cs_conv s1);
     cs_out := cs_out s1; cs_meta := cs_meta s1; cs_eos := cs_eos s1 |}.

(** [while (end - buf > 4) { ...; buf += 4; ...; buf += size; }] with the
    loop body [body]; the result carries the bytes left between [buf] and
    [end]. *)
Equations? nal_loop32 (body : combine_state -> list Z -> combine_state)
    (s : combine_state) (r : list Z) : combine_state * list Z
    by wf (length r) lt :=
  nal_loop32 body s r with inspect (4 <? len r) => {
    | exist _ true Hlt =>
        nal_loop32 body (body s r)
          (skipn (4 + Z.to_nat (nal_size32 r)) r)
    | exist _ false _ => (s, r) }.
Proof.
  apply Z.ltb_lt in Hlt. unfold len in Hlt.
  change (length (skipn (4 + Z.to_nat (nal_size32 r)) r) < length r)%nat.
  rewrite length_skipn. lia.
Qed.

(** [Convert(pData_bl, iSize_bl, pData_el, iSize_el, pts)]. *)
Definition Convert_bl_el (c : CBitstreamConverter)
    (pData_bl pData_el : option (list Z)) : bool * CBitstreamConverter :=
  let c0 :=
    set_m_inputBuffer None
      (set_m_convertSize 0 (set_m_inputSize 0 (set_m_convertBuffer None c))) in
  match pData_bl, pData_el with
  | Some bl, Some el =>
      if negb (m_convert_bitstream c0) && (avio_open_dyn_buf <? 0)
      then (false, c0)
      else
        let bl_buf :=
          if m_convert_bitstream c0 then bl else avc_parse_nal_units bl in
        let s0 :=
          {| cs_conv := c0; cs_out := (None, 0); cs_meta := None;
             cs_eos := None |} in
        let '(s1, rest) := nal_loop32 bl_nal s0 bl_buf in
        let el_buf :=
          if m_convert_bitstream c0 then el
          else
            firstn (length (avc_parse_nal_units el))
              (rest ++ avc_parse_nal_units el) in
        let '(s2, _) := nal_loop32 el_nal s1 el_buf in
        let '(c3, out3) :=
          match cs_meta s2 with
          | Some meta => AddDoViRpuNalu (cs_conv s2) meta (cs_out s2)
          | None => (cs_conv s2, cs_out s2)
          end in
        let out4 :=
          match cs_eos s2 with
          | Some eos => BitstreamAllocAndCopy32 out3 eos AVC_NAL_END_SEQUENCE
          | None => out3
          end in
        (true,
         set_m_first_frame false
           (set_m_combine true
              (set_m_convertSize (snd out4)
                 (set_m_convertBuffer (fst out4) c3))))
  | _, _ => (true, set_m_first_frame false c0)
  end.

(** ** [Open] and the extradata reshaping *)

(** FFmpeg's padding constant and [INT_MAX]. *)
Definition AV_INPUT_BUFFER_PADDING_SIZE : Z := 64.
Definition INT_MAX : Z := 2 ^ 31 - 1.

Definition u8 (x : Z) : Z := x mod 2 ^ 8.

(** [extradata[0] << 8 | extradata[1]] stored in a [uint16_t]. *)
Definition RB16 (p : list Z) (i : nat) : Z :=
  Z.lor (Z.shiftl (rd p i) 8) (rd p (i + 1)) mod 2 ^ 16.

(** The locals of [BitstreamConvertInitAVC]: [ai_pos] is
    [extradata - in_extradata]; [ai_out] is the prologue built so far. *)
Record avc_init : Type := {
  ai_pos : nat;
  ai_unit_nb : Z;
  ai_total_size : Z;
  ai_out : list Z;
  ai_sps_done : Z;
  ai_mvc_done : Z
}.

(** [memcmp(extradata + 8, "mvcC", 4) == 0]. *)
Definition is_mvcC (p : list Z) (pos : nat) : bool :=
  (rd p (pos + 8) =? 109) && (rd p (pos + 9) =? 118)
  && (rd p (pos + 10) =? 99) && (rd p (pos + 11) =? 67).

(** The statements after the label [pps:]. *)
Definition avc_pps (p : list Z) (s : avc_init) : avc_init :=
  let s1 :=
    if ai_unit_nb s =? 0 then
      if ai_sps_done s =? 0 then
        {| ai_pos := S (ai_pos s); ai_unit_nb := rd p (ai_pos s);
           ai_total_size := ai_total_size s; ai_out := ai_out s;
           ai_sps_done := u8 (ai_sps_done s + 1);
           ai_mvc_done := ai_mvc_done s |}
      else
        {| ai_pos := ai_pos s; ai_unit_nb := ai_unit_nb s;
           ai_total_size := ai_total_size s; ai_out := ai_out s;
           ai_sps_done := u8 (ai_sps_done s + 1);
           ai_mvc_done := ai_mvc_done s |}
    else s in
  if ai_unit_nb s1 =? 0 then
    if ai_mvc_done s1 =? 0 then
      if (14 <? u32 (len p - ai_total_size s1)) && is_mvcC p (ai_pos s1)
      then
        {| ai_pos := (ai_pos s1 + 18)%nat;
           ai_unit_nb := Z.land (rd p (ai_pos s1 + 17)) 0x1f;
           ai_total_size := ai_total_size s1; ai_out := ai_out s1;
           ai_sps_done := 0;
           ai_mvc_done := u8 (ai_mvc_done s1 + 1) |}
      else
        {| ai_pos := ai_pos s1; ai_unit_nb := ai_unit_nb s1;
           ai_total_size := ai_total_size s1; ai_out := ai_out s1;
           ai_sps_done := ai_sps_done s1;
           ai_mvc_done := u8 (ai_mvc_done s1 + 1) |}
    else
      {| ai_pos := ai_pos s1; ai_unit_nb := ai_unit_nb s1;
         ai_total_size := ai_total_size s1; ai_out := ai_out s1;
         ai_sps_done := ai_sps_done s1;
         ai_mvc_done := u8 (ai_mvc_done s1 + 1) |}
  else s1.

(** The copy of one parameter set at the top of the loop body, after
    [unit_nb--]; [None] is the [return false]. *)
Definition avc_unit (p : list Z) (s : avc_init) : option avc_init :=
  let unit_size := RB16 p (ai_pos s) in
  let total_size := u32 (ai_total_size s + unit_size + 4) in
  if (total_size >? INT_MAX - AV_INPUT_BUFFER_PADDING_SIZE)
     || (Z.of_nat (ai_pos s) + 2 + unit_size >? len p)
  then None
  else
    Some
      {| ai_pos := (ai_pos s + 2 + Z.to_nat unit_size)%nat;
         ai_unit_nb := u8 (ai_unit_nb s - 1);
         ai_total_size := total_size;
         ai_out := ai_out s ++ [0; 0; 0; 1]
                     ++ span p (ai_pos s + 2) unit_size;
         ai_sps_done := ai_sps_done s;
         ai_mvc_done := ai_mvc_done s |}.

(** [while (unit_nb--) { ...copy...; pps: ... }] from the loop test on. *)
Equations? avc_units (p : list Z) (s : avc_init) : option avc_init
    by wf (length p + 20 - ai_pos s)%nat lt :=
  avc_units p s with inspect (ai_unit_nb s =? 0) => {
    | exist _ true _ => Some s
    | exist _ false _ with inspect (avc_unit p s) => {
        | exist _ None _ => None
        | exist _ (Some s1) Hu => avc_units p (avc_pps p s1) } }.
Proof.
  unfold avc_unit in Hu.
  destruct ((u32 (ai_total_size s + RB16 p (ai_pos s) + 4)
             >? INT_MAX - AV_INPUT_BUFFER_PADDING_SIZE)
            || (Z.of_nat (ai_pos s) + 2 + RB16 p (ai_pos s) >? len p)) eqn:Hc;
    [discriminate|].
  apply orb_false_iff in Hc. destruct Hc as [_ Hc].
  assert (Hle : Z.of_nat (ai_pos s) + 2 + RB16 p (ai_pos s) <= len p)
    by (destruct (Z.gtb_spec (Z.of_nat (ai_pos s) + 2 + RB16 p (ai_pos s))
                    (len p)); [discriminate | lia]).
  inversion Hu; subst; clear Hu. unfold len in Hle.
  assert (H0 : 0 <= RB16 p (ai_pos s))
    by (unfold RB16; apply Z.mod_pos_bound; reflexivity).
  assert (Hpos : (ai_pos s + 2 + Z.to_nat (RB16 p (ai_pos s))
                  <= length p)%nat) by lia.
  unfold avc_pps; cbn [ai_pos ai_unit_nb ai_sps_done ai_mvc_done
                       ai_total_size ai_out].
  repeat match goal with
         | |- context [if ?b then _ else _] => destruct b
         end; cbn [ai_pos]; lia.
Qed.

Definition BitstreamConvertInitAVC (c : CBitstreamConverter)
    (in_extradata : option (list Z)) : bool * CBitstreamConverter :=
  let c0 := upd_ctx (set_sps_pps_data None) (set_m_sps_pps_size 0 c) in
  match in_extradata with
  | None => (false, c0)
  | Some p =>
      if len p <? 6 then (false, c0)
      else
        let c1 := upd_ctx (set_length_size (Z.land (rd p 4) 0x3 + 1)) c0 in
        let s0 :=
          {| ai_pos := 6; ai_unit_nb := Z.land (rd p 5) 0x1f;
             ai_total_size := 0; ai_out := []; ai_sps_done := 0;
             ai_mvc_done := 0 |} in
        let r :=
          if ai_unit_nb s0 =? 0 then avc_units p (avc_pps p s0)
          else avc_units p s0 in
        match r with
        | None => (false, c1)
        | Some s =>
            (true,
             upd_ctx
               (fun x =>
                  set_idr_sps_pps_seen 0
                    (set_first_idr 1
                       (set_size (ai_total_size s)
                          (set_sps_pps_data
                             (match ai_out s with
                              | [] => None
                              | o => Some o
                              end) x)))) c1)
        end
  end.

(** The inner [while (unit_nb--)] of [BitstreamConvertInitHEVC] for one
    array: position, [total_size] and output; [None] is [return false]. *)
Fixpoint hevc_units (unit_nb : nat) (nal_type : Z) (p : list Z)
    (s : nat * Z * list Z) : option (nat * Z * list Z) :=
  match unit_nb with
  | O => Some s
  | S n =>
      let '(pos, total_size, out) := s in
      let unit_size := RB16 p pos in
      let pos1 := (pos + 2)%nat in
      if negb (nal_type =? HEVC_NAL_SPS) && negb (nal_type =? HEVC_NAL_PPS)
         && negb (nal_type =? HEVC_NAL_VPS)
      then hevc_units n nal_type p
             ((pos1 + Z.to_nat unit_size)%nat, total_size, out)
      else
        let total_size1 := u32 (total_size + unit_size + 4) in
        if (total_size1 >? INT_MAX - AV_INPUT_BUFFER_PADDING_SIZE)
           || (Z.of_nat pos1 + unit_size >? len p)
        then None
        else hevc_units n nal_type p
               ((pos1 + Z.to_nat unit_size)%nat, total_size1,
                out ++ [0; 0; 0; 1] ++ span p pos1 unit_size)
  end.

(** The outer [while (array_nb--)]. *)
Fixpoint hevc_arrays (array_nb : nat) (p : list Z) (s : nat * Z * list Z)
    : option (nat * Z * list Z) :=
  match array_nb with
  | O => Some s
  | S n =>
      let '(pos, total_size, out) := s in
      let nal_type := Z.land (rd p pos) 0x3f in
      let unit_nb := RB16 p (pos + 1) in
      match hevc_units (Z.to_nat unit_nb) nal_type p
              ((pos + 3)%nat, total_size, out) with
      | None => None
      | Some s1 => hevc_arrays n p s1
      end
  end.

Definition BitstreamConvertInitHEVC (c : CBitstreamConverter)
    (in_extradata : option (list Z)) : bool * CBitstreamConverter :=
  let c0 := upd_ctx (set_sps_pps_data None) (set_m_sps_pps_size 0 c) in
  match in_extradata with
  | None => (false, c0)
  | Some p =>
      if len p <? 23 then (false, c0)
      else
        let c1 := upd_ctx (set_length_size (Z.land (rd p 21) 0x3 + 1)) c0 in
        match hevc_arrays (Z.to_nat (rd p 22)) p (23%nat, 0, []) with
        | None => (false, c1)
        | Some (_, total_size, out) =>
            (true,
             upd_ctx
               (fun x =>
                  set_idr_sps_pps_seen 0
                    (set_first_idr 1
                       (set_size total_size
                          (set_sps_pps_data
                             (match out with [] => None | o => Some o end)
                             x)))) c1)
        end
  end.

(** [in_extradata[0..3]] is an Annex-B start code. *)
Definition starts_with_startcode (p : list Z) : bool :=
  ((rd p 0 =? 0) && (rd p 1 =? 0) && (rd p 2 =? 0) && (rd p 3 =? 1))
  || ((rd p 0 =? 0) && (rd p 1 =? 0) && (rd p 2 =? 1)).

(** [in_extradata[4] = v], which writes into the hints' own buffer. *)
Definition poke4 (v : Z) (p : list Z) : list Z :=
  firstn 4 p ++ v :: skipn 5 p.

Definition Open (c : CBitstreamConverter) (to_annexb : bool)
    : bool * CBitstreamConverter :=
  let c0 :=
    set_m_intial_hdrType (hdrType (m_hints c))
      (set_m_codec (codec (m_hints c)) (set_m_to_annexb to_annexb c)) in
  match m_codec c0 with
  | AV_CODEC_ID_H264 =>
      match extradata (m_hints c0) with
      | None => (false, c0)
      | Some ed =>
          if len ed <? 7 then (false, c0)
          else if m_to_annexb c0 then
            if rd ed 0 =? 1 then
              let c1 := set_m_extraData (Some ed) c0 in
              let '(r, c2) := BitstreamConvertInitAVC c1 (m_extraData c1) in
              (true, set_m_convert_bitstream r c2)
            else (false, c0)
          else if negb (rd ed 0 =? 1) then
            if starts_with_startcode ed then
              if avio_open_dyn_buf <? 0 then (false, c0)
              else
                (true,
                 set_m_extraData (Some (isom_write_avcc ed))
                   (set_m_convert_bytestream true c0))
            else (false, c0)
          else if rd ed 4 =? 0xFE then
            let ed' := poke4 0xFF ed in
            (true,
             set_m_extraData (Some ed')
               (set_m_convert_3byteTo4byteNALSize true
                  (upd_hints (set_extradata (Some ed')) c0)))
          else (true, set_m_extraData (Some ed) c0)
      end
  | AV_CODEC_ID_HEVC =>
      match extradata (m_hints c0) with
      | None => (false, c0)
      | Some ed =>
          if len ed <? 23 then (false, c0)
          else if m_to_annexb c0 then
            if negb (rd ed 0 =? 0) || negb (rd ed 1 =? 0) || (1 <? rd ed 2)
            then
              let c1 := set_m_extraData (Some ed) c0 in
              let '(r, c2) := BitstreamConvertInitHEVC c1 (m_extraData c1) in
              (true, set_m_convert_bitstream r c2)
            else (false, c0)
          else if negb (rd ed 0 =? 1) then (false, c0)
          else if Z.land (rd ed 4) 0x3 =? 2 then
            let ed' := poke4 (Z.lor (rd ed 4) 0x03) ed in
            (true,
             set_m_extraData (Some ed')
               (set_m_convert_3byteTo4byteNALSize true
                  (upd_hints (set_extradata (Some ed')) c0)))
          else (true, set_m_extraData (Some ed) c0)
      end
  | AV_CODEC_ID_OTHER => (false, c0)
  end.

(** A sequence of single-track [Convert] calls: the result of each call
    with the buffer and size it leaves exposed, and the final converter. *)
Fixpoint Converts (c : CBitstreamConverter) (pkts : list (list Z))
    : list (bool * option (list Z)) * CBitstreamConverter :=
  match pkts with
  | [] => ([], c)
  | pkt :: rest =>
      let '(r, c1) := Convert c (Some pkt) in
      let '(rs, c2) := Converts c1 rest in
      ((r, GetConvertBuffer c1) :: rs, c2)
  end.

End Converter.

(** ** The constructor

    The members the constructor leaves uninitialised ([m_codec],
    [m_intial_hdrType], [m_sps_pps_size], the fields of
    [m_sps_pps_context] other than the prologue pointer, the
    peak-brightness source) are given a fixed value here; [Open] sets the
    first two before anything reads them. *)
Definition CBitstreamConverter_new (hints : CDVDStreamInfo)
    : CBitstreamConverter :=
  {| m_convertBuffer := None;
     m_convertSize := 0;
     m_inputBuffer := None;
     m_inputSize := 0;
     m_sps_pps_size := 0;
     m_sps_pps_context :=
       {| length_size := 0; first_idr := 0; idr_sps_pps_seen := 0;
          sps_pps_data := None; size := 0 |};
     m_convert_bitstream := false;
     m_to_annexb := false;
     m_combine := false;
     m_extraData := None;
     m_convert_3byteTo4byteNALSize := false;
     m_convert_bytestream := false;
     m_codec := AV_CODEC_ID_OTHER;
     m_hints := hints;
     m_intial_hdrType := HDR_TYPE_NONE;
     m_start_decode := true;
     m_convert_dovi := MODE_NONE;
     m_removeDovi := false;
     m_removeHdr10Plus := false;
     m_convert_Hdr10Plus := false;
     m_prefer_Hdr10Plus_conversion := false;
     m_dual_priority_Hdr10Plus := false;
     m_convert_Hdr10Plus_peak_brightness_source := 0;
     m_first_frame := true;
     m_hdrStaticMetadataInfo :=
       {| has_mdcv_metadata := false; max_lum := 0; min_lum := 0;
          colour_primaries := EmptyString; has_cll_metadata := false;
          max_cll := 0; max_fall := 0 |} |}.

(** ** Two instances of the collaborators, for concrete runs *)

(** A build without libdovi, with an SEI parser that reports no HDR
    metadata and leaves SEI units as they are. *)
Definition plain_collaborators : Collaborators :=
  {| MasteringDisplayColourVolume := unit;
     maxLuminance := fun _ => 0;
     minLuminance := fun _ => 0;
     MasteringDisplayColourVolumeText := fun _ => EmptyString;
     ContentLightLevel := unit;
     maxContentLightLevel := fun _ => 0;
     maxFrameAverageLightLevel := fun _ => 0;
     Hdr10PlusMetadata := unit;
     SeiMessages := unit;
     ParseSeiRbspUnclearedEmulation := fun _ => tt;
     ExtractMasteringDisplayColourVolume := fun _ => None;
     ExtractContentLightLevel := fun _ => None;
     ExtractHdr10Plus := fun _ => None;
     RemoveHdr10PlusFromSeiNalu := fun b => b;
     create_rpu_nalu_for_hdr10plus := fun _ _ _ => [];
     HAVE_LIBDOVI := false;
     DoviRpuOpaque := list Z;
     dovi_parse_unspec62_nalu := fun b => b;
     dovi_rpu_get_header := fun _ => None;
     dovi_convert_rpu_with_mode := fun r _ => (-1, r);
     dovi_write_unspec62_nalu := fun _ => None;
     EqualsNoCase := String.eqb;
     avio_open_dyn_buf := 0;
     avc_parse_nal_units := fun b => b;
     isom_write_avcc := fun b => b |}.



(** Stream hints for the concrete runs: an AVC record with one SPS and one
    PPS and 4-byte NAL sizes, and a 23-byte HEVC record without arrays. *)
Definition no_dovi : AVDOVIDecoderConfigurationRecord :=
  {| dv_version_major := 0; dv_version_minor := 0; dv_profile := 0;
     dv_level := 0; rpu_present_flag := 0; el_present_flag := 0;
     bl_present_flag := 0; dv_bl_signal_compatibility_id := 0 |}.

Definition avc_record : list Z :=
  [1; 0x64; 0; 0x28; 0xFF; 0xE1; 0; 2; 0x67; 0x64; 1; 0; 2; 0x68; 0xEE].

Definition hevc_record : list Z :=
  [1; 0; 0; 0; 0; 0; 0; 0; 0; 0; 0; 0; 0; 0; 0; 0; 0; 0; 0; 0; 0; 3; 0].

Definition avc_hints : CDVDStreamInfo :=
  {| codec := AV_CODEC_ID_H264; extradata := Some avc_record;
     hdrType := HDR_TYPE_NONE; dovi := no_dovi; dovi_el_type := TYPE_NONE |}.

Definition hevc_hints : CDVDStreamInfo :=
  {| codec := AV_CODEC_ID_HEVC; extradata := Some hevc_record;
     hdrType := HDR_TYPE_DOLBYVISION;
     dovi := set_el_present_flag 1 no_dovi; dovi_el_type := TYPE_NONE |}.

(** The converters [Open(true)] leaves for these hints. *)
Definition avc_opened : CBitstreamConverter :=
  snd (Open (E := plain_collaborators) (CBitstreamConverter_new avc_hints)
         true).

Definition hevc_opened : CBitstreamConverter :=
  snd (Open (E := plain_collaborators) (CBitstreamConverter_new hevc_hints)
         true).

(** ** Statements used by the properties *)

(** The framing as the specification words it for both overloads: five
    bytes for unit type 63, four for type 62 and for the first unit, three
    otherwise. *)
Definition spec_start_code (offset nal_type : Z) : list Z :=
  if nal_type =? HEVC_NAL_UNSPEC63 then [0; 0; 1; 126; 1]
  else if (offset =? 0) || (nal_type =? HEVC_NAL_UNSPEC62) then [0; 0; 0; 1]
  else [0; 0; 1].

(** [k] successive [nal_bs_read(bs, 1)] calls: the bits read and the
    reader afterwards. *)
Fixpoint read_bits1 (k : nat) (bs : nal_bitstream)
    : list Z * nal_bitstream :=
  match k with
  | O => ([], bs)
  | S k' =>
      let '(b, bs1) := nal_bs_read bs 1 in
      let '(l, bs2) := read_bits1 k' bs1 in
      (b :: l, bs2)
  end.


(** The calls a parser makes on the bit reader, and the values a sequence
    of calls returns. *)
Inductive bs_op : Type :=
  | ReadBits (n : Z)
  | ReadUe
  | ReadSe
  | Eos.

Definition run_op (op : bs_op) (bs : nal_bitstream) : Z * nal_bitstream :=
  match op with
  | ReadBits n => nal_bs_read bs n
  | ReadUe => nal_bs_read_ue bs
  | ReadSe => nal_bs_read_se bs
  | Eos => (if nal_bs_eos bs then 1 else 0, bs)
  end.

Fixpoint run_ops (ops : list bs_op) (bs : nal_bitstream) : list Z :=
  match ops with
  | [] => []
  | op :: ops' => let '(v, bs1) := run_op op bs in v :: run_ops ops' bs1
  end.

(** For each raw byte, whether the cache-filling loop skips it; the loop is
    entered with cache [c].  This is [fill_cache] without the bit
    counting. *)
Fixpoint drop_flags (c : Z) (d : list Z) : list bool :=
  match d with
  | [] => []
  | a :: d1 =>
      if (a =? 3) && (Z.land c 0xffff =? 0) then
        true :: match d1 with
                | [] => []
                | b :: d2 => false :: drop_flags (cache_push c b) d2
                end
      else false :: drop_flags (cache_push c a) d1
  end.

(** The bytes that are not flagged. *)
Fixpoint keep (d : list Z) (fl : list bool) : list Z :=
  match d, fl with
  | a :: d', f :: fl' => if f then keep d' fl' else a :: keep d' fl'
  | _, _ => []
  end.

(** The flag of byte [i] of a NAL payload read from its start, and the
    bytes kept before it. *)
Definition discarded (d : list Z) (i : nat) : bool :=
  nth i (drop_flags 0xffffffff d) false.

Definition kept_before (d : list Z) (i : nat) : list Z :=
  keep (firstn i d) (firstn i (drop_flags 0xffffffff d)).

Definition is_byte (a : Z) : Prop := 0 <= a < 256.

(** The low [n] bits of [x], most significant first. *)
Fixpoint bits_msb (n : nat) (x : Z) : list Z :=
  match n with
  | O => []
  | S m => Z.b2z (Z.testbit x (Z.of_nat m)) :: bits_msb m x
  end.

(** The number a sequence of bits writes, most significant bit first. *)
Definition bits_value (l : list Z) : Z :=
  fold_left (fun acc b => 2 * acc + b) l 0.

(** The bits a reader has still to deliver: the [head] bits it holds in
    the low end of the cache, then the bits of the bytes to come that the
    cache-filling loop does not skip. *)
Definition unread (bs : nal_bitstream) : list Z :=
  bits_msb (Z.to_nat (head bs)) (cache bs)
  ++ flat_map (bits_msb 8) (keep (data bs) (drop_flags (cache bs) (data bs))).

(** A reader over bytes, with a count of held bits that is not negative. *)
Definition reader_ok (bs : nal_bitstream) : Prop :=
  0 <= head bs /\ Forall is_byte (data bs).

(** [k] successive [nal_bs_read(bs, 8)] calls. *)
Fixpoint read_bytes (k : nat) (bs : nal_bitstream) : list Z :=
  match k with
  | O => []
  | S k' => let '(b, bs1) := nal_bs_read bs 8 in b :: read_bytes k' bs1
  end.


(** The zero bytes in front of an insertion point: either the last two
    raw bytes still to come are zero, or the cache already ends with the
    zero bytes that are missing. *)
Definition zeros_before (c : Z) (pre : list Z) : Prop :=
  (exists p0, pre = p0 ++ [0; 0])
  \/ (pre = [0] /\ Z.land c 0xff = 0)
  \/ (pre = [] /\ Z.land c 0xffff = 0).

Definition epb_rel (c : Z) (d d' : list Z) : Prop :=
  d' = d
  \/ exists pre post,
       d = pre ++ post /\ d' = pre ++ 3 :: post
       /\ post <> [] /\ hd 0 post <> 3 /\ zeros_before c pre.

Definition bs_rel (bs bs' : nal_bitstream) : Prop :=
  head bs' = head bs /\ cache bs' = cache bs
  /\ epb_rel (cache bs) (data bs) (data bs').

Definition ends0 (l : list Z) : Prop := exists ks, l = ks ++ [0].
Definition ends00 (l : list Z) : Prop := exists ks, l = ks ++ [0; 0].

(** The low bytes of the cache follow the bytes [hist] taken so far. *)
Definition cache_tracks (c : Z) (hist : list Z) : Prop :=
  (Z.land c 0xff = 0 <-> ends0 hist)
  /\ (Z.land c 0xffff = 0 <-> ends00 hist).


(** The settings of a converter that no Convert call changes: the NAL
    length size, the prologue, the direction and codec, and the conversion
    options. *)
Definition config_of (c : CBitstreamConverter) :=
  (length_size (m_sps_pps_context c), sps_pps_data (m_sps_pps_context c),
   size (m_sps_pps_context c), m_convert_bitstream c, m_to_annexb c,
   m_codec c, m_extraData c, m_convert_3byteTo4byteNALSize c,
   m_convert_bytestream c, m_intial_hdrType c, m_convert_dovi c,
   m_removeDovi c, m_removeHdr10Plus c, m_convert_Hdr10Plus c,
   m_prefer_Hdr10Plus_conversion c, m_dual_priority_Hdr10Plus c,
   m_convert_Hdr10Plus_peak_brightness_source c).

(** The single-track path that runs [BitstreamConvert]. *)
Definition conversion_active (c : CBitstreamConverter) : Prop :=
  m_to_annexb c = true /\ m_convert_bitstream c = true
  /\ codec_supported (m_codec c) = true
  /\ 0 <= length_size (m_sps_pps_context c).

(** [out'] holds the bytes of [out] followed by further bytes. *)
Definition appends (out out' : outbuf) : Prop :=
  outbuf_ok out' /\ exists more, bytes_of out' = bytes_of out ++ more.

(** The length-prefixed units of a packet, as the loop of
    [BitstreamConvert] walks them from offset [pos]: each entry is the
    offset of a unit's first byte and its size. *)
Inductive packet_nals (ls : Z) (pkt : list Z)
    : nat -> list (nat * Z) -> Prop :=
  | packet_nals_last (pos : nat) (n : Z) :
      Z.of_nat pos + ls <= len pkt ->
      n = read_nal_size ls pkt pos -> 0 < n ->
      Z.of_nat pos + ls + n = len pkt ->
      packet_nals ls pkt pos [((pos + Z.to_nat ls)%nat, n)]
  | packet_nals_more (pos : nat) (n : Z) (rest : list (nat * Z)) :
      Z.of_nat pos + ls <= len pkt ->
      n = read_nal_size ls pkt pos -> 0 < n ->
      Z.of_nat pos + ls + n < len pkt ->
      packet_nals ls pkt (pos + Z.to_nat ls + Z.to_nat n) rest ->
      packet_nals ls pkt pos (((pos + Z.to_nat ls)%nat, n) :: rest).

(** A packet in which the walk reaches a length field that declares a
    non-positive size or more bytes than are left. *)
Inductive declares_bad_length (ls : Z) (pkt : list Z) : nat -> Prop :=
  | bad_length_here (pos : nat) :
      Z.of_nat pos + ls <= len pkt ->
      read_nal_size ls pkt pos <= 0
      \/ Z.of_nat pos + ls + read_nal_size ls pkt pos > len pkt ->
      declares_bad_length ls pkt pos
  | bad_length_later (pos : nat) (n : Z) :
      Z.of_nat pos + ls <= len pkt ->
      n = read_nal_size ls pkt pos -> 0 < n ->
      Z.of_nat pos + ls + n < len pkt ->
      declares_bad_length ls pkt (pos + Z.to_nat ls + Z.to_nat n) ->
      declares_bad_length ls pkt pos.

(** The two flags that gate the prologue, [first_idr] and
    [idr_sps_pps_seen], as a state machine over unit types.  [idr],
    [slice] and [sps_pps] classify a unit type; the result also tells
    whether the prologue is written in front of the unit. *)
Definition idr_step (idr slice sps_pps : Z -> bool) (fl : Z * Z)
    (unit_type : Z) : Z * Z * bool :=
  let '(fi, seen) := fl in
  let seen1 := if negb (fi =? 0) && sps_pps unit_type then 1 else seen in
  if negb (fi =? 0) && idr unit_type && (seen1 =? 0) then (0, seen1, true)
  else if (fi =? 0) && slice unit_type then (1, 0, false)
  else (fi, seen1, false).

Fixpoint idr_run (idr slice sps_pps : Z -> bool) (fl : Z * Z)
    (unit_types : list Z) : Z * Z :=
  match unit_types with
  | [] => fl
  | t :: ts => idr_run idr slice sps_pps (fst (idr_step idr slice sps_pps fl t)) ts
  end.

Definition idr_flags (c : CBitstreamConverter) : Z * Z :=
  (first_idr (m_sps_pps_context c), idr_sps_pps_seen (m_sps_pps_context c)).

Definition is_sps_pps (codes : Z * Z * Z) (unit_type : Z) : bool :=
  let '(nal_sps, nal_pps, _) := codes in
  (unit_type =? nal_sps) || (unit_type =? nal_pps).

(** The test that sets the decode-start latch. *)
Definition starts_decode (c : CBitstreamConverter) (codes : Z * Z * Z)
    (unit_type : Z) (p : list Z) (nal_size : Z) : bool :=
  let '(nal_sps, _, nal_sei) := codes in
  (unit_type =? nal_sps) || IsIDR c unit_type
  || ((unit_type =? nal_sei)
      && has_sei_recovery_point p (Z.to_nat nal_size)).


(** The buffers a converter exposes. *)
Definition buffers_of (c : CBitstreamConverter) :=
  (m_convertBuffer c, m_convertSize c, m_inputBuffer c, m_inputSize c).

(** The first statements of both [Convert] overloads. *)
Definition reset_buffers (c : CBitstreamConverter) : CBitstreamConverter :=
  set_m_inputBuffer None
    (set_m_convertSize 0 (set_m_inputSize 0 (set_m_convertBuffer None c))).

(** ** SEI units as lists of messages *)

(** A payload type or payload size as the SEI syntax writes it: a byte
    0xFF for every 255 in it, then a last byte below 0xFF. *)
Definition ff_bytes (v : Z) : list Z :=
  repeat 0xFF (Z.to_nat (v / 255)) ++ [v mod 255].

(** An SEI message, given as its payload type and its payload bytes. *)
Definition sei_message (m : Z * list Z) : list Z :=
  ff_bytes (fst m) ++ ff_bytes (len (snd m)) ++ snd m.

(** An H.264 SEI unit: the header byte, the messages, and the byte 0x80
    of the trailing bits. *)
Definition sei_nal (header : Z) (msgs : list (Z * list Z)) : list Z :=
  header :: flat_map sei_message msgs ++ [0x80].

(** [recovery_frame_cnt], the Exp-Golomb number at the start of the
    payload of a recovery-point message. *)
Definition recovery_frame_cnt (payload : list Z) : Z :=
  fst (nal_bs_read_ue (nal_bs_init payload)).

(** Whether the first recovery-point message of a list of messages has a
    [recovery_frame_cnt] that is not negative. *)
Definition sei_recovery_point (msgs : list (Z * list Z)) : bool :=
  match find (fun m => fst m =? SEI_RECOVERY_POINT) msgs with
  | Some m => 0 <=? recovery_frame_cnt (snd m)
  | None => false
  end.

(** The units the loop of [BitstreamConvert] reaches with a valid length,
    from offset [pos] on: the offset of the first byte and the size of
    each.  The walk ends at the end of the packet, or at a length field
    that does not fit, or at a size that is not positive or runs over the
    end; every unit has a byte or more, so [fuel] above the number of
    bytes left does not cut it. *)
Fixpoint walk_nals (fuel : nat) (ls : Z) (pkt : list Z) (pos : nat)
    : list (nat * Z) :=
  match fuel with
  | O => []
  | S f =>
      if Z.of_nat pos + ls >? len pkt then []
      else
        let nal_size := read_nal_size ls pkt pos in
        let pos1 := (pos + Z.to_nat ls)%nat in
        if (Z.of_nat pos1 + nal_size >? len pkt) || (nal_size <=? 0)
        then []
        else
          (pos1, nal_size)
          :: (if Z.of_nat (pos1 + Z.to_nat nal_size) <? len pkt
              then walk_nals f ls pkt (pos1 + Z.to_nat nal_size)
              else [])
  end.

Definition encountered (ls : Z) (pkt : list Z) : list (nat * Z) :=
  walk_nals (S (length pkt)) ls pkt 0.

Section ConverterStatements.

Context {E : Collaborators}.

(** The loop of [BitstreamConvert] over the units of a well-formed
    packet, as a fold of [convert_nal]. *)
Fixpoint convert_nals (codes : Z * Z * Z) (c : CBitstreamConverter)
    (pkt : list Z) (nals : list (nat * Z)) (out : outbuf)
    (h : option Hdr10PlusMetadata)
    : CBitstreamConverter * outbuf * option Hdr10PlusMetadata :=
  match nals with
  | [] => (c, out, h)
  | (p, n) :: rest =>
      let '(c1, out1, h1) :=
        convert_nal c codes (unit_type_at c pkt p) (skipn p pkt) n out h in
      convert_nals codes c1 pkt rest out1 h1
  end.

(** Whether some unit of the list sets the decode-start latch. *)
Definition some_unit_starts_decode (c : CBitstreamConverter)
    (codes : Z * Z * Z) (pkt : list Z) (nals : list (nat * Z)) : bool :=
  existsb
    (fun pn =>
       starts_decode c codes (unit_type_at c pkt (fst pn))
         (skipn (fst pn) pkt) (snd pn))
    nals.

(** The converter a run of the loop leaves. *)
Definition loop_conv (r : loop_result) : CBitstreamConverter :=
  match r with
  | LoopFail c => c
  | LoopDone c _ _ => c
  end.

(** The [switch] on the unit type at the end of the loop body. *)
Definition dispatch (c : CBitstreamConverter) (unit_type : Z)
    (nal : list Z) (out : outbuf) (h : option Hdr10PlusMetadata)
    : CBitstreamConverter * outbuf * option Hdr10PlusMetadata :=
  if unit_type =? HEVC_NAL_SEI_PREFIX then ProcessSeiPrefix c nal out h
  else if unit_type =? HEVC_NAL_UNSPEC62 then
    if negb (m_removeDovi c) && negb (has_meta h)
    then let '(c4, out1) := ProcessDoViRpu c nal out in (c4, out1, h)
    else (c, out, h)
  else if unit_type =? HEVC_NAL_UNSPEC63 then
    if negb (m_removeDovi c) && negb (has_meta h)
       && (match m_convert_dovi c with MODE_NONE => true | _ => false end)
    then (c, BitstreamAllocAndCopy out None 0 nal unit_type, h)
    else (c, out, h)
  else (c, BitstreamAllocAndCopy out None 0 nal unit_type, h).

(** The unit types of a list of units. *)
Definition unit_types (c : CBitstreamConverter) (pkt : list Z)
    (nals : list (nat * Z)) : list Z :=
  map (fun pn => unit_type_at c pkt (fst pn)) nals.

(** The converter and the output at the end of [BitstreamConvert] on a
    well-formed packet. *)
Definition converted (codes : Z * Z * Z) (c : CBitstreamConverter)
    (pkt : list Z) (nals : list (nat * Z)) : CBitstreamConverter * outbuf :=
  let '(c1, out1, h1) :=
    convert_nals codes (reset_buffers c) pkt nals (None, 0) None in
  let '(c2, out2) :=
    match h1 with
    | Some meta => AddDoViRpuNalu c1 meta out1
    | None => (c1, out1)
    end in
  (set_m_first_frame false c2, out2).

End ConverterStatements.


(** What the handling of one unit leaves alone apart from the settings:
    the decode-start latch, the first-frame latch, the prologue flags,
    [m_combine] and the exposed buffers. *)
Definition same_frame (c c' : CBitstreamConverter) : Prop :=
  config_of c' = config_of c
  /\ m_start_decode c' = m_start_decode c
  /\ m_first_frame c' = m_first_frame c
  /\ idr_flags c' = idr_flags c
  /\ m_combine c' = m_combine c
  /\ buffers_of c' = buffers_of c.


(** The recorded prologue size is the number of prologue bytes. *)
Definition prologue_ok (c : CBitstreamConverter) : Prop :=
  size (m_sps_pps_context c)
  = len (prologue_of (sps_pps_data (m_sps_pps_context c))).

(** The unit types [BitstreamConvert] copies to the output whatever the
    options are. *)
Definition always_copied (unit_type : Z) : bool :=
  negb ((unit_type =? HEVC_NAL_SEI_PREFIX)
        || (unit_type =? HEVC_NAL_UNSPEC62)
        || (unit_type =? HEVC_NAL_UNSPEC63)).


(** The Annex-B bytes [BitstreamConvert] writes for units that are all
    copied: in front of each unit its start code, and in front of that
    the prologue when the flags ask for it.  [offset] is the size of the
    output so far. *)
Fixpoint annexb_of (idr slice sps_pps : Z -> bool) (prologue : list Z)
    (pkt : list Z) (unit_type : nat -> Z) (nals : list (nat * Z))
    (fl : Z * Z) (offset : Z) : list Z :=
  match nals with
  | [] => []
  | (p, n) :: rest =>
      let '(fl1, pro) := idr_step idr slice sps_pps fl (unit_type p) in
      let unit :=
        (if pro then prologue else []) ++ start_code offset (unit_type p)
        ++ firstn (Z.to_nat n) (skipn p pkt) in
      unit
      ++ annexb_of idr slice sps_pps prologue pkt unit_type rest fl1
           (offset + len unit)
  end.

(** The walk over the length fields of a packet, as a function: the units
    from offset [pos] on, or [None] when a length field is cut short, is
    not positive or declares more bytes than are left.  Each unit takes at
    least one byte, so [fuel] beyond the packet length is never used. *)
Fixpoint packet_walk (fuel : nat) (ls : Z) (pkt : list Z) (pos : nat)
    : option (list (nat * Z)) :=
  match fuel with
  | O => None
  | S f =>
      if Z.of_nat pos + ls <=? len pkt then
        let n := read_nal_size ls pkt pos in
        if 0 <? n then
          if Z.of_nat pos + ls + n =? len pkt
          then Some [((pos + Z.to_nat ls)%nat, n)]
          else if Z.of_nat pos + ls + n <? len pkt then
            match packet_walk f ls pkt (pos + Z.to_nat ls + Z.to_nat n) with
            | Some rest => Some (((pos + Z.to_nat ls)%nat, n) :: rest)
            | None => None
            end
          else None
        else None
      else None
  end.

(** A buffer that is empty or begins with the four-byte start code. *)
Definition starts_framed (l : list Z) : Prop :=
  l = [] \/ exists rest, l = [0; 0; 0; 1] ++ rest.

(** What [Open] leaves for the conversion to Annex B: the conversion is
    active, the recorded prologue size is right, the prologue is empty or
    begins with a start code, the NAL length size is between 1 and 4 and
    the prologue flags are armed. *)
Definition ready_for_annexb (c : CBitstreamConverter) : Prop :=
  conversion_active c /\ prologue_ok c
  /\ starts_framed (prologue_of (sps_pps_data (m_sps_pps_context c)))
  /\ 1 <= length_size (m_sps_pps_context c) <= 4
  /\ idr_flags c = (1, 0).

(** The running size and the bytes gathered so far, during the scan of a
    configuration record: the size is the number of bytes, it passed the
    size test, and the bytes begin with a start code. *)
Definition gathered (total : Z) (out : list Z) : Prop :=
  total = len out
  /\ total <= INT_MAX - AV_INPUT_BUFFER_PADDING_SIZE
  /\ starts_framed out.


(** [out'] is [out], or [out] after one call of [BitstreamAllocAndCopy]
    whose prologue, if any, is empty or begins with a start code. *)
Definition copied_once (out out' : outbuf) : Prop :=
  out' = out
  \/ exists sps_pps inp nal_type,
       starts_framed (prologue_of sps_pps)
       /\ out' = BitstreamAllocAndCopy out sps_pps
                   (len (prologue_of sps_pps)) inp nal_type.

(** An output buffer that holds as many bytes as its size says and is
    empty or begins with the four-byte start code. *)
Definition framed (out : outbuf) : Prop :=
  outbuf_ok out /\ starts_framed (bytes_of out).

(** The units of a buffer of 4-byte sizes, as the loops of the dual-track
    [Convert] walk it: the type and the payload of each, a size being cut
    to the bytes that are left.  Every unit takes more than four bytes, so
    [fuel] beyond the length of the buffer is never used. *)
Fixpoint units32 (fuel : nat) (r : list Z) : list (Z * list Z) :=
  match fuel with
  | O => []
  | S f =>
      if 4 <? len r
      then (nal_type32 r, nal_at32 r)
             :: units32 f (skipn (4 + Z.to_nat (nal_size32 r)) r)
      else []
  end.

(** The bytes the combine writes for base-layer units without SEI: each
    unit behind its header, except those of type 10, which are set
    aside. *)
Fixpoint bl_bytes (us : list (Z * list Z)) (offset : Z) : list Z :=
  match us with
  | [] => []
  | (t, u) :: rest =>
      if t =? AVC_NAL_END_SEQUENCE then bl_bytes rest offset
      else
        let b := start_code32 offset t ++ u in
        b ++ bl_bytes rest (offset + len b)
  end.

(** The bytes the combine writes for enhancement-layer units when
    nothing is removed or converted: an RPU behind a four-byte start
    code, any other unit behind the five-byte header of type 63. *)
Fixpoint el_bytes (us : list (Z * list Z)) (offset : Z) : list Z :=
  match us with
  | [] => []
  | (t, u) :: rest =>
      let b :=
        (if t =? HEVC_NAL_UNSPEC62 then [0; 0; 0; 1]
         else start_code32 offset HEVC_NAL_UNSPEC63) ++ u in
      b ++ el_bytes rest (offset + len b)
  end.

(** The unit of type 10 that is set aside last, if any. *)
Definition last_eos (us : list (Z * list Z)) (init : option (list Z))
    : option (list Z) :=
  fold_left
    (fun acc tu => if fst tu =? AVC_NAL_END_SEQUENCE then Some (snd tu)
                   else acc)
    us init.

(** ** [Close] and the extradata accessors *)

(** [Close]: the prologue and the output are freed, the stored record is
    dropped and the conversion flags are cleared.  The recorded prologue
    size, the direction and the latches are left as they are. *)
Definition Close (c : CBitstreamConverter) : CBitstreamConverter :=
  set_m_combine false
    (set_m_convert_3byteTo4byteNALSize false
       (set_m_convert_bytestream false
          (set_m_convert_bitstream false
             (set_m_inputBuffer None
                (set_m_inputSize 0
                   (set_m_extraData None
                      (set_m_convertSize 0
                         (set_m_convertBuffer None
                            (upd_ctx (set_sps_pps_data None) c))))))))).

Definition GetExtraData (c : CBitstreamConverter) : option (list Z) :=
  if m_convert_bitstream c then sps_pps_data (m_sps_pps_context c)
  else m_extraData c.

(** [FFmpegExtraData::GetSize] is 0 for an empty object. *)
Definition GetExtraSize (c : CBitstreamConverter) : Z :=
  if m_convert_bitstream c then size (m_sps_pps_context c)
  else match m_extraData c with Some e => len e | None => 0 end.

(** The number that a list of bytes spells, most significant byte
    first. *)
Definition be_value (l : list Z) : Z :=
  fold_left (fun a b => a * 256 + b) l 0.

(** A size as three bytes, most significant first, and packets of units
    behind 3-byte and behind 4-byte sizes. *)
Definition size3 (n : Z) : list Z :=
  [Z.land (Z.shiftr n 16) 0xff; Z.land (Z.shiftr n 8) 0xff; Z.land n 0xff].

Definition frame3 (us : list (list Z)) : list Z :=
  concat (map (fun u => size3 (len u) ++ u) us).

Definition frame4 (us : list (list Z)) : list Z :=
  concat (map (fun u => wb32 (len u) ++ u) us).

(** The H.264 record of [avc_record] announcing 3-byte NAL sizes, and the
    converter [Open(false)] leaves for it. *)
Definition avc_record3 : list Z :=
  [1; 0x64; 0; 0x28; 0xFE; 0xE1; 0; 2; 0x67; 0x64; 1; 0; 2; 0x68; 0xEE].

Definition avc_hints3 : CDVDStreamInfo :=
  {| codec := AV_CODEC_ID_H264; extradata := Some avc_record3;
     hdrType := HDR_TYPE_NONE; dovi := no_dovi; dovi_el_type := TYPE_NONE |}.

Definition avc_opened3 : CBitstreamConverter :=
  snd (Open (E := plain_collaborators) (CBitstreamConverter_new avc_hints3)
         false).

(** ** Annex-B start codes and the parser of byte streams *)

Module Avc.

(** [p[0] == 0 && p[1] == 0 && p[2] == 1], with [p] at index [i] of the
    buffer. *)
Definition startcode_at (buf : list Z) (i : Z) : bool :=
  (rd buf (Z.to_nat i) =? 0) && (rd buf (Z.to_nat (i + 1)) =? 0)
  && (rd buf (Z.to_nat (i + 2)) =? 1).

(** [for (; p < bound; p++) if (p[0] == 0 && p[1] == 0 && p[2] == 1)
    return p;]: [inl] is the [return], [inr] the value of [p] when the loop
    is left.  The loop runs [bound - p] times at most, which is the fuel its
    callers give. *)
Fixpoint byte_scan (buf : list Z) (fuel : nat) (bound p : Z) : Z + Z :=
  match fuel with
  | O => inr p
  | S f =>
      if p <? bound then
        if startcode_at buf p then inl p
        else byte_scan buf f bound (p + 1)
      else inr p
  end.

(** The [uint32_t] read at [p], on a little-endian machine. *)
Definition load32 (buf : list Z) (p : Z) : Z :=
  rd buf (Z.to_nat p) + rd buf (Z.to_nat (p + 1)) * 2 ^ 8
  + rd buf (Z.to_nat (p + 2)) * 2 ^ 16 + rd buf (Z.to_nat (p + 3)) * 2 ^ 24.

(** [(x - 0x01010101) & (~x) & 0x80808080] on [uint32_t], as a condition. *)
Definition zero_byte_test (x : Z) : bool :=
  negb (Z.land (Z.land (u32 (x - 0x01010101)) (u32 (Z.lnot x))) 0x80808080
        =? 0).

(** The tests on [p[0]] to [p[5]] inside the word loop. *)
Definition word_hit (buf : list Z) (p : Z) : option Z :=
  let b k := rd buf (Z.to_nat (p + k)) in
  if (b 1 =? 0) && ((b 0 =? 0) && (b 2 =? 1)) then Some p
  else if (b 1 =? 0) && ((b 2 =? 0) && (b 3 =? 1)) then Some (p + 1)
  else if (b 3 =? 0) && ((b 2 =? 0) && (b 4 =? 1)) then Some (p + 2)
  else if (b 3 =? 0) && ((b 4 =? 0) && (b 5 =? 1)) then Some (p + 3)
  else None.

(** [for (; p < bound; p += 4)], one aligned word a round. *)
Fixpoint word_scan (buf : list Z) (fuel : nat) (bound p : Z) : Z + Z :=
  match fuel with
  | O => inr p
  | S f =>
      if p <? bound then
        if zero_byte_test (load32 buf p) then
          match word_hit buf p with
          | Some r => inl r
          | None => word_scan buf f bound (p + 4)
          end
        else word_scan buf f bound (p + 4)
      else inr p
  end.

(** [avc_find_startcode_internal(p, end)].  [addr] is the address of
    [buf[0]], so that [(intptr_t)p] is [addr + p]; [p] and [e] are indices
    into [buf]. *)
Definition avc_find_startcode_internal (addr : Z) (buf : list Z) (p e : Z)
    : Z :=
  let a := p + 4 - Z.land (addr + p) 3 in
  let e3 := e - 3 in
  match byte_scan buf (Z.to_nat (Z.min a e3 - p)) (Z.min a e3) p with
  | inl r => r
  | inr p1 =>
      let e6 := e3 - 3 in
      match word_scan buf (Z.to_nat (e6 - p1)) e6 p1 with
      | inl r => r
      | inr p2 =>
          match byte_scan buf (Z.to_nat (e3 - p2)) e3 p2 with
          | inl r => r
          | inr _ => e3 + 3
          end
      end
  end.

(** [avc_find_startcode(p, end)]: a zero byte in front of the start code
    belongs to it. *)
Definition avc_find_startcode (addr : Z) (buf : list Z) (p e : Z) : Z :=
  let out := avc_find_startcode_internal addr buf p e in
  if (p <? out) && (out <? e) && (rd buf (Z.to_nat (out - 1)) =? 0)
  then out - 1 else out.

(** [while (nal_start < end && !*(nal_start++));]: the value of
    [nal_start] when the loop is left. *)
Fixpoint skip_zeros (buf : list Z) (fuel : nat) (e nal_start : Z) : Z :=
  match fuel with
  | O => nal_start
  | S f =>
      if nal_start <? e then
        if rd buf (Z.to_nat nal_start) =? 0
        then skip_zeros buf f e (nal_start + 1)
        else nal_start + 1
      else nal_start
  end.

(** The [for (;;)] of [avc_parse_nal_units]: the bytes written to [pb] and
    [size].  Every round moves [nal_start] forward, so [end - nal_start + 1]
    rounds are enough. *)
Fixpoint parse_loop (addr : Z) (buf : list Z) (fuel : nat) (e nal_start : Z)
    (pb : list Z) (size : Z) : list Z * Z :=
  match fuel with
  | O => (pb, size)
  | S f =>
      let nal_start :=
        skip_zeros buf (Z.to_nat (e - nal_start)) e nal_start in
      if nal_start =? e then (pb, size)
      else
        let nal_end := avc_find_startcode addr buf nal_start e in
        parse_loop addr buf f e nal_end
          (pb ++ wb32 (nal_end - nal_start)
              ++ span buf (Z.to_nat nal_start) (nal_end - nal_start))
          (s32 (size + 4 + (nal_end - nal_start)))
  end.

(** [avc_parse_nal_units(pb, buf_in, size)]: what is written to [pb], and
    the returned size. *)
Definition avc_parse_nal_units (addr : Z) (buf_in : list Z) (size : Z)
    : list Z * Z :=
  parse_loop addr buf_in (S (Z.to_nat size)) size
    (avc_find_startcode addr buf_in 0 size) [] 0.

(** [avc_parse_nal_units_buf(buf_in, buf, size)]: the return value, and
    the new buffer when the dynamic buffer opened ([ret] is what
    [avio_open_dyn_buf] returns); the new [*size] is its length. *)
Definition avc_parse_nal_units_buf (addr ret : Z) (buf_in : list Z)
    (size : Z) : Z * option (list Z) :=
  if ret <? 0 then (ret, None)
  else (0, Some (fst (avc_parse_nal_units addr buf_in size))).

(** [avio_wb16]. *)
Definition wb16 (v : Z) : list Z :=
  [Z.land (Z.shiftr v 8) 0xff; Z.land v 0xff].

Definition UINT16_MAX : Z := 65535.

(** The [while (end - buf > 4)] of [isom_write_avcc]: the last SPS and the
    last PPS, each as its offset and its size; [None] is the null
    pointer. *)
Fixpoint avcc_scan (buf : list Z) (fuel : nat) (e pos : Z)
    (sps pps : option (Z * Z)) : option (Z * Z) * option (Z * Z) :=
  match fuel with
  | O => (sps, pps)
  | S f =>
      if 4 <? e - pos then
        let size := Z.min (u32 (BS_RB32 buf (Z.to_nat pos)))
                      (u32 (e - pos - 4)) in
        let pos1 := pos + 4 in
        let nal_type := Z.land (rd buf (Z.to_nat pos1)) 0x1f in
        if nal_type =? 7 then
          avcc_scan buf f e (pos1 + size) (Some (pos1, size)) pps
        else if nal_type =? 8 then
          avcc_scan buf f e (pos1 + size) sps (Some (pos1, size))
        else avcc_scan buf f e (pos1 + size) sps pps
      else (sps, pps)
  end.

(** [isom_write_avcc(pb, data, len)]: the bytes written to [pb] and the
    return value; [None] is the failing [assert(0)]. *)
Definition isom_write_avcc (addr ret : Z) (data : list Z) (len0 : Z)
    : option (list Z * Z) :=
  if 6 <? len0 then
    if (BS_RB32 data 0 =? 1) || (BS_RB24 data 0 =? 1) then
      match avc_parse_nal_units_buf addr ret data len0 with
      | (r, None) => Some ([], r)
      | (_, Some buf) =>
          match avcc_scan buf (length buf) (len buf) 0 None None with
          | (Some (sps, sps_size), Some (pps, pps_size)) =>
              if (sps_size <? 4) || (UINT16_MAX <? sps_size)
                 || (UINT16_MAX <? pps_size)
              then None
              else
                Some
                  ([1; rd buf (Z.to_nat (sps + 1));
                    rd buf (Z.to_nat (sps + 2));
                    rd buf (Z.to_nat (sps + 3)); 0xff; 0xe1]
                   ++ wb16 sps_size ++ span buf (Z.to_nat sps) sps_size
                   ++ [1] ++ wb16 pps_size
                   ++ span buf (Z.to_nat pps) pps_size, 0)
          | _ => None
          end
      end
    else Some (span data 0 len0, 0)
  else Some ([], 0).

End Avc.

(** A byte stream of units, each behind a start code of three bytes or,
    where the flag is set, of four. *)
Definition start_code_of (long : bool) : list Z :=
  if long then [0; 0; 0; 1] else [0; 0; 1].

Definition byte_stream (us : list (bool * list Z)) : list Z :=
  concat (map (fun bu => start_code_of (fst bu) ++ snd bu) us).

(** What the byte stream format asks of a unit: bytes, the last of them not
    zero, and no 00 00 01 inside. *)
Definition annexb_unit (u : list Z) : Prop :=
  Forall is_byte u /\ last u 0 <> 0
  /\ forall i, 0 <= i -> Avc.startcode_at u i = false.

(** The units of a packet of 4-byte sizes that begins at offset [pos]:
    where each unit starts, and its size. *)
Fixpoint nals_at (pos : nat) (us : list (list Z)) : list (nat * Z) :=
  match us with
  | [] => []
  | u :: rest =>
      ((pos + 4)%nat, len u) :: nals_at (pos + 4 + length u) rest
  end.

(** The start codes [BitstreamConvert] gives to units it copies without a
    prologue: four bytes for the first unit of the output, three for the
    others. *)
Definition first_long (first : bool) (us : list (list Z))
    : list (bool * list Z) :=
  match us with
  | [] => []
  | u :: rest => (first, u) :: map (pair false) rest
  end.

(** The last unit of type [t] in a list of H.264 units, [acc] when there
    is none. *)
Fixpoint last_of_type (t : Z) (us : list (list Z)) (acc : option (list Z))
    : option (list Z) :=
  match us with
  | [] => acc
  | u :: rest =>
      last_of_type t rest
        (if Z.land (rd u 0) 0x1f =? t then Some u else acc)
  end.

(** The avcC record of one SPS and one PPS with 4-byte NAL sizes. *)
Definition avcc_record (sps pps : list Z) : list Z :=
  [1; rd sps 1; rd sps 2; rd sps 3; 0xff; 0xe1]
  ++ Avc.wb16 (len sps) ++ sps ++ [1] ++ Avc.wb16 (len pps) ++ pps.

(** The pointer and size [isom_write_avcc] holds for a parameter set:
    null when there is none, else the place of the unit [u] in [buf]. *)
Definition avcc_found (buf : list Z) (o : option (Z * Z))
    (u : option (list Z)) : Prop :=
  match o, u with
  | None, None => True
  | Some (p, sz), Some v =>
      0 <= p /\ sz = len v /\ span buf (Z.to_nat p) sz = v
  | _, _ => False
  end.

(** [annexb_unit], decided. *)
Definition annexb_unitb (u : list Z) : bool :=
  forallb (fun b => (0 <=? b) && (b <? 256)) u
  && negb (last u 0 =? 0)
  && forallb (fun i => negb (Avc.startcode_at u (Z.of_nat i)))
       (seq 0 (length u)).

(** A build like [plain_collaborators] in which the parser of byte streams
    and the writer of the avcC record are the functions above, for a
    buffer at address [addr]; where the assertion of [isom_write_avcc]
    fails, nothing is handed on. *)
Definition avc_collaborators (addr : Z) : Collaborators :=
  {| MasteringDisplayColourVolume := unit;
     maxLuminance := fun _ => 0;
     minLuminance := fun _ => 0;
     MasteringDisplayColourVolumeText := fun _ => EmptyString;
     ContentLightLevel := unit;
     maxContentLightLevel := fun _ => 0;
     maxFrameAverageLightLevel := fun _ => 0;
     Hdr10PlusMetadata := unit;
     SeiMessages := unit;
     ParseSeiRbspUnclearedEmulation := fun _ => tt;
     ExtractMasteringDisplayColourVolume := fun _ => None;
     ExtractContentLightLevel := fun _ => None;
     ExtractHdr10Plus := fun _ => None;
     RemoveHdr10PlusFromSeiNalu := fun b => b;
     create_rpu_nalu_for_hdr10plus := fun _ _ _ => [];
     HAVE_LIBDOVI := false;
     DoviRpuOpaque := list Z;
     dovi_parse_unspec62_nalu := fun b => b;
     dovi_rpu_get_header := fun _ => None;
     dovi_convert_rpu_with_mode := fun r _ => (-1, r);
     dovi_write_unspec62_nalu := fun _ => None;
     EqualsNoCase := String.eqb;
     avio_open_dyn_buf := 0;
     avc_parse_nal_units :=
       fun b => fst (Avc.avc_parse_nal_units addr b (len b));
     isom_write_avcc :=
       fun b =>
         match Avc.isom_write_avcc addr 0 b (len b) with
         | Some (r, _) => r
         | None => []
         end |}.

(** Annex-B extradata of one SPS and one PPS, and the converter
    [Open(false)] leaves for it. *)
Definition annexb_extradata : list Z :=
  [0; 0; 0; 1; 0x67; 0x64; 0; 0x28; 0; 0; 0; 1; 0x68; 0xEE].

Definition annexb_hints : CDVDStreamInfo :=
  {| codec := AV_CODEC_ID_H264; extradata := Some annexb_extradata;
     hdrType := HDR_TYPE_NONE; dovi := no_dovi; dovi_el_type := TYPE_NONE |}.

Definition annexb_opened : CBitstreamConverter :=
  snd (Open (E := avc_collaborators 0) (CBitstreamConverter_new annexb_hints)
         false).

(** * Properties *)

(** ** Lists and buffers *)

Lemma len_app (a b : list Z) : len (a ++ b) = len a + len b.
Proof. unfold len. rewrite length_app. lia. Qed.

Lemma len_nonneg (a : list Z) : 0 <= len a.
Proof. unfold len. lia. Qed.

Lemma len_repeat (k : Z) : 0 <= k -> len (repeat 0 (Z.to_nat k)) = k.
Proof. intros. unfold len. rewrite repeat_length. lia. Qed.

Lemma repeat_add (k1 k2 : Z) :
  0 <= k1 -> 0 <= k2 ->
  repeat 0 (Z.to_nat (k1 + k2))
  = repeat 0 (Z.to_nat k1) ++ repeat 0 (Z.to_nat k2).
Proof. intros. rewrite Z2Nat.inj_add by lia. apply repeat_app. Qed.

(** Growing a well-formed buffer keeps its bytes and adds [k] fresh ones. *)
Lemma av_realloc_grow (out : outbuf) (k : Z) :
  outbuf_ok out -> 0 <= k ->
  av_realloc (fst out) (snd out + k) = bytes_of out ++ repeat 0 (Z.to_nat k).
Proof.
  intros Hok Hk. unfold av_realloc, outbuf_ok, bytes_of in *.
  destruct out as [[l|] sz]; cbn [fst snd] in *; subst sz; unfold len.
  - rewrite firstn_all2 by lia. f_equal. f_equal. lia.
  - cbn [firstn length app]. rewrite firstn_nil. cbn [app]. f_equal. lia.
Qed.

(** A copy that exactly covers the middle part [x] of [a ++ x ++ b]. *)
Lemma memcpy_at (a x b src : list Z) (off n : Z) :
  len a = off -> len x = n -> len src = n ->
  memcpy (a ++ x ++ b) off src n = a ++ src ++ b.
Proof.
  unfold memcpy, len. intros Ha Hx Hs.
  assert (H1 : Z.to_nat off = length a) by lia.
  assert (H2 : Z.to_nat n = length x) by lia.
  assert (H3 : length src = length x) by lia.
  rewrite H1, H2.
  rewrite firstn_app, firstn_all, Nat.sub_diag, firstn_O, app_nil_r.
  f_equal.
  rewrite <- H3, firstn_all. f_equal.
  rewrite H3, app_assoc, skipn_app, length_app, Nat.sub_diag, skipn_O.
  rewrite skipn_all2 by (rewrite length_app; lia). reflexivity.
Qed.

Lemma start_code_len (o t : Z) :
  len (start_code o t)
  = if (o =? 0) || (t =? HEVC_NAL_UNSPEC62) then 4 else 3.
Proof.
  unfold start_code.
  destruct ((o =? 0) || (t =? HEVC_NAL_UNSPEC62)); reflexivity.
Qed.

Lemma start_code32_len (o t : Z) :
  len (start_code32 o t)
  = if t =? HEVC_NAL_UNSPEC62 then 4
    else if t =? HEVC_NAL_UNSPEC63 then 5
    else if o =? 0 then 4 else 3.
Proof.
  unfold start_code32.
  destruct (t =? HEVC_NAL_UNSPEC62), (t =? HEVC_NAL_UNSPEC63), (o =? 0);
    reflexivity.
Qed.

(** The overload with a prologue appends the prologue, the start code and
    the payload to the bytes already in the buffer. *)
Lemma BitstreamAllocAndCopy_spec (out : outbuf) (sps_pps : option (list Z))
    (sps_pps_size : Z) (inp : list Z) (nal_type : Z) :
  outbuf_ok out ->
  sps_pps_size = len (prologue_of sps_pps) ->
  BitstreamAllocAndCopy out sps_pps sps_pps_size inp nal_type =
    (Some (bytes_of out ++ prologue_of sps_pps
             ++ start_code (snd out) nal_type ++ inp),
     snd out
     + (sps_pps_size + len inp + len (start_code (snd out) nal_type))).
Proof.
  intros Hok Hp.
  assert (Hp0 := len_nonneg (prologue_of sps_pps)).
  assert (Hi0 := len_nonneg inp).
  assert (Ho0 := len_nonneg (bytes_of out)).
  pose proof Hok as Hok'. unfold outbuf_ok in Hok'.
  unfold BitstreamAllocAndCopy.
  set (H := if nal_type =? HEVC_NAL_UNSPEC62 then 4
            else if snd out =? 0 then 4 else 3).
  assert (HH : H = len (start_code (snd out) nal_type)).
  { rewrite start_code_len. unfold H.
    destruct (snd out =? 0), (nal_type =? HEVC_NAL_UNSPEC62); reflexivity. }
  assert (HH0 : 0 <= H) by (rewrite HH; apply len_nonneg).
  rewrite <- HH.
  rewrite av_realloc_grow by (auto; lia).
  replace (sps_pps_size + len inp + H)
    with (sps_pps_size + (H + len inp)) by lia.
  rewrite repeat_add by lia. rewrite (repeat_add H) by lia.
  set (zp := repeat 0 (Z.to_nat sps_pps_size)).
  set (zh := repeat 0 (Z.to_nat H)).
  set (zi := repeat 0 (Z.to_nat (len inp))).
  assert (Lzp : len zp = sps_pps_size) by (apply len_repeat; lia).
  assert (Lzh : len zh = H) by (apply len_repeat; lia).
  assert (Lzi : len zi = len inp) by (apply len_repeat; lia).
  assert (E1 : match sps_pps with
               | Some s =>
                   memcpy (bytes_of out ++ zp ++ zh ++ zi) (snd out) s
                     sps_pps_size
               | None => bytes_of out ++ zp ++ zh ++ zi
               end = bytes_of out ++ prologue_of sps_pps ++ zh ++ zi).
  { destruct sps_pps as [s|]; cbn [prologue_of] in *.
    - apply memcpy_at; lia.
    - assert (Hz : zp = []) by (unfold zp; rewrite Hp; reflexivity).
      rewrite Hz. reflexivity. }
  rewrite E1. clear E1.
  assert (E2 : memcpy (bytes_of out ++ prologue_of sps_pps ++ zh ++ zi)
                 (sps_pps_size + H + snd out) inp (len inp)
               = bytes_of out ++ prologue_of sps_pps ++ zh ++ inp).
  { replace (bytes_of out ++ prologue_of sps_pps ++ zh ++ zi)
      with ((bytes_of out ++ prologue_of sps_pps ++ zh) ++ zi ++ [])
      by (rewrite app_nil_r, <- !app_assoc; reflexivity).
    rewrite memcpy_at; try lia.
    - rewrite app_nil_r, <- !app_assoc; reflexivity.
    - rewrite !len_app. lia. }
  rewrite E2. clear E2.
  assert (E3 : forall hdr, len hdr = H ->
             memcpy (bytes_of out ++ prologue_of sps_pps ++ zh ++ inp)
               (snd out + sps_pps_size) hdr H
             = bytes_of out ++ prologue_of sps_pps ++ hdr ++ inp).
  { intros hdr Hh.
    replace (bytes_of out ++ prologue_of sps_pps ++ zh ++ inp)
      with ((bytes_of out ++ prologue_of sps_pps) ++ zh ++ inp)
      by (rewrite <- !app_assoc; reflexivity).
    rewrite memcpy_at; try lia.
    - rewrite <- !app_assoc; reflexivity.
    - rewrite !len_app. lia. }
  f_equal; try lia.
  f_equal.
  unfold start_code. unfold H in *.
  destruct (snd out =? 0) eqn:Ho.
  - apply Z.eqb_eq in Ho. cbn [orb].
    replace sps_pps_size with (snd out + sps_pps_size) at 1 by lia.
    destruct (nal_type =? HEVC_NAL_UNSPEC62);
      apply (E3 [0; 0; 0; 1]); reflexivity.
  - cbn [orb]. destruct (nal_type =? HEVC_NAL_UNSPEC62); cbn [Z.eqb].
    + apply (E3 [0; 0; 0; 1]). reflexivity.
    + apply (E3 [0; 0; 1]). reflexivity.
Qed.

(** The overload of the dual-track combine appends its header and the
    payload. *)
Lemma BitstreamAllocAndCopy32_spec (out : outbuf) (inp : list Z)
    (nal_type : Z) :
  outbuf_ok out ->
  BitstreamAllocAndCopy32 out inp nal_type =
    (Some (bytes_of out ++ start_code32 (snd out) nal_type ++ inp),
     snd out + (len inp + len (start_code32 (snd out) nal_type))).
Proof.
  intros Hok.
  assert (Hi0 := len_nonneg inp).
  assert (Ho0 := len_nonneg (bytes_of out)).
  pose proof Hok as Hok'. unfold outbuf_ok in Hok'.
  unfold BitstreamAllocAndCopy32.
  set (H := if nal_type =? HEVC_NAL_UNSPEC62 then 4
            else if nal_type =? HEVC_NAL_UNSPEC63 then 5
            else if snd out =? 0 then 4 else 3).
  assert (HH : H = len (start_code32 (snd out) nal_type))
    by (rewrite start_code32_len; reflexivity).
  assert (HH0 : 0 <= H) by (rewrite HH; apply len_nonneg).
  rewrite <- HH.
  rewrite av_realloc_grow by (auto; lia).
  replace (len inp + H) with (H + len inp) by lia.
  rewrite repeat_add by lia.
  set (zh := repeat 0 (Z.to_nat H)).
  set (zi := repeat 0 (Z.to_nat (len inp))).
  assert (Lzh : len zh = H) by (apply len_repeat; lia).
  assert (Lzi : len zi = len inp) by (apply len_repeat; lia).
  assert (E2 : memcpy (bytes_of out ++ zh ++ zi) (H + snd out) inp (len inp)
               = bytes_of out ++ zh ++ inp).
  { replace (bytes_of out ++ zh ++ zi)
      with ((bytes_of out ++ zh) ++ zi ++ [])
      by (rewrite app_nil_r, <- !app_assoc; reflexivity).
    rewrite memcpy_at; try lia.
    - rewrite app_nil_r, <- !app_assoc; reflexivity.
    - rewrite !len_app. lia. }
  rewrite E2. clear E2.
  assert (E3 : forall hdr, len hdr = H ->
             memcpy (bytes_of out ++ zh ++ inp) (snd out) hdr H
             = bytes_of out ++ hdr ++ inp).
  { intros hdr Hh. apply memcpy_at; lia. }
  f_equal; try lia.
  f_equal.
  unfold start_code32. unfold H in *.
  destruct (nal_type =? HEVC_NAL_UNSPEC62).
  - apply (E3 [0; 0; 0; 1]). reflexivity.
  - destruct (nal_type =? HEVC_NAL_UNSPEC63).
    + apply (E3 [0; 0; 1; 126; 1]). reflexivity.
    + destruct (snd out =? 0).
      * apply (E3 [0; 0; 0; 1]). reflexivity.
      * apply (E3 [0; 0; 1]). reflexivity.
Qed.

(** C4 (as amended).  On a well-formed output buffer both overloads append
    to the bytes already written: the prologue (first overload only), a
    start code and the payload.  The start code is 00 00 00 01 when the
    buffer is empty or the unit type is 62 and 00 00 01 otherwise; only the
    overload of the dual-track combine writes the five bytes
    00 00 01 7E 01 for unit type 63, and it does so also on an empty
    buffer. *)
Theorem BitstreamAllocAndCopy_framing (out : outbuf)
    (sps_pps : option (list Z)) (sps_pps_size : Z) (inp : list Z)
    (nal_type : Z) :
  outbuf_ok out ->
  sps_pps_size = len (prologue_of sps_pps) ->
  let r := BitstreamAllocAndCopy out sps_pps sps_pps_size inp nal_type in
  let r32 := BitstreamAllocAndCopy32 out inp nal_type in
  (exists hdr,
      fst r = Some (bytes_of out ++ prologue_of sps_pps ++ hdr ++ inp)
      /\ hdr = (if (snd out =? 0) || (nal_type =? 62) then [0; 0; 0; 1]
                else [0; 0; 1]))
  /\ (exists hdr,
         fst r32 = Some (bytes_of out ++ hdr ++ inp)
         /\ hdr = (if nal_type =? 62 then [0; 0; 0; 1]
                   else if nal_type =? 63 then [0; 0; 1; 126; 1]
                   else if snd out =? 0 then [0; 0; 0; 1]
                   else [0; 0; 1]))
  /\ outbuf_ok r /\ outbuf_ok r32.
Proof.
  intros Hok Hp r r32. subst r r32.
  rewrite BitstreamAllocAndCopy_spec, BitstreamAllocAndCopy32_spec by assumption.
  cbn [fst snd]. unfold outbuf_ok in *. cbn [fst snd bytes_of].
  repeat split.
  - eexists; split; reflexivity.
  - eexists; split; reflexivity.
  - rewrite !len_app. lia.
  - rewrite !len_app. lia.
Qed.

Lemma BitstreamAllocAndCopy_framing_witness :
  fst (BitstreamAllocAndCopy (Some [9], 1) (Some [0; 0; 0; 1; 103]) 5
         [101; 136] 5)
  = Some [9; 0; 0; 0; 1; 103; 0; 0; 1; 101; 136].
Proof.
  destruct (BitstreamAllocAndCopy_framing (Some [9], 1)
              (Some [0; 0; 0; 1; 103]) 5 [101; 136] 5 eq_refl eq_refl)
    as [[hdr [H1 H2]] _].
  rewrite H1, H2. reflexivity.
Defined.

(** C4 as stated fails for the first overload: a unit of type 63 appended
    to a non-empty buffer gets the three-byte start code, not the
    five-byte header. *)
Lemma BitstreamAllocAndCopy_type63_counterexample :
  let out := (Some [9], 1) in
  let inp := [126; 1; 170] in
  bytes_of (BitstreamAllocAndCopy out None 0 inp 63)
  = [9; 0; 0; 1; 126; 1; 170]
  /\ bytes_of (BitstreamAllocAndCopy out None 0 inp 63)
     <> bytes_of out ++ spec_start_code (snd out) 63 ++ inp.
Proof.
  split; [reflexivity | discriminate].
Qed.

(** ** Machine integers *)

Lemma s32_mod (x : Z) : s32 x mod 2 ^ 32 = x mod 2 ^ 32.
Proof.
  unfold s32.
  rewrite Zminus_mod, Zmod_mod, <- Zminus_mod.
  f_equal. lia.
Qed.

Lemma s32_congr (x y : Z) : x mod 2 ^ 32 = y mod 2 ^ 32 -> s32 x = s32 y.
Proof.
  intros H. unfold s32.
  rewrite (Zplus_mod x), (Zplus_mod y), H. reflexivity.
Qed.

Lemma s32_small (x : Z) : - 2 ^ 31 <= x < 2 ^ 31 -> s32 x = x.
Proof.
  intros H. unfold s32. rewrite Z.mod_small; lia.
Qed.

Lemma ue_value_eq (i v : Z) :
  0 <= i ->
  s32 (u32 (u32 (s32 (s32 (Z.shiftl 1 i) - 1)) + v)) = s32 (2 ^ i - 1 + v).
Proof.
  intros Hi. apply s32_congr. unfold u32.
  rewrite Zmod_mod.
  rewrite Zplus_mod, Zmod_mod, s32_mod.
  rewrite (Zminus_mod (s32 _)), s32_mod, <- Zminus_mod, <- Zplus_mod.
  rewrite Z.shiftl_1_l. reflexivity.
Qed.

Lemma land_1_odd (i : Z) : (Z.land i 1 =? 0) = negb (Z.odd i).
Proof.
  change 1 with (Z.ones 1). rewrite Z.land_ones by lia.
  change (2 ^ 1) with 2. rewrite Zmod_odd.
  destruct (Z.odd i); reflexivity.
Qed.

(** ** Exp-Golomb reads *)

(** The zero-counting loop: [k] single-bit reads return 0 and the next one
    ends the run. *)
Lemma ue_zeros_spec (rem : nat) (bs : nal_bitstream) :
  exists (k : nat) bs_k t bs_t,
    (k <= rem)%nat
    /\ read_bits1 k bs = (repeat 0 k, bs_k)
    /\ nal_bs_read bs_k 1 = (t, bs_t)
    /\ (k = rem \/ t <> 0 \/ nal_bs_eos bs_t = true)
    /\ ue_zeros rem bs = (31 - Z.of_nat rem + Z.of_nat k, bs_t).
Proof.
  revert bs. induction rem as [|r IH]; intros bs.
  - destruct (nal_bs_read bs 1) as [t bs_t] eqn:Hr.
    exists 0%nat, bs, t, bs_t. cbn [read_bits1 repeat ue_zeros].
    rewrite Hr. repeat split; auto.
  - cbn [ue_zeros]. destruct (nal_bs_read bs 1) as [b bs1] eqn:Hr.
    destruct ((b =? 0) && negb (nal_bs_eos bs1)) eqn:Hc.
    + apply andb_true_iff in Hc. destruct Hc as [Hb He].
      apply Z.eqb_eq in Hb. subst b.
      destruct (IH bs1) as (k & bs_k & t & bs_t & Hk & Hz & Ht & Hstop & Hu).
      exists (S k), bs_k, t, bs_t. repeat split.
      * lia.
      * cbn [read_bits1 repeat]. rewrite Hr, Hz. reflexivity.
      * exact Ht.
      * destruct Hstop as [-> | Hs]; [left; reflexivity | right; exact Hs].
      * rewrite Hu. f_equal. lia.
    + exists 0%nat, bs, b, bs1. cbn [read_bits1 repeat].
      repeat split; auto.
      * lia.
      * right. apply andb_false_iff in Hc. destruct Hc as [Hc | Hc].
        -- left. apply Z.eqb_neq. exact Hc.
        -- right. apply negb_false_iff. exact Hc.
      * f_equal. lia.
Qed.

(** ** The cache of the bit reader *)

Lemma land_shiftl_byte (c a : Z) :
  is_byte a -> Z.land (Z.shiftl c 8) a = 0.
Proof.
  intros [Ha0 Ha]. apply Z.bits_inj'. intros n Hn.
  rewrite Z.land_spec, Z.bits_0.
  destruct (Z.lt_ge_cases n 8) as [Hlt | Hge].
  - rewrite Z.shiftl_spec_low by lia. reflexivity.
  - destruct (Z.eq_dec a 0) as [-> | Hne].
    + rewrite Z.bits_0. apply andb_false_r.
    + rewrite (Z.bits_above_log2 a n); [apply andb_false_r | lia |].
      apply Z.lt_le_trans with 8; [| lia].
      apply Z.log2_lt_pow2; lia.
Qed.

Lemma lor_shiftl_byte (c a : Z) :
  is_byte a -> Z.lor (Z.shiftl c 8) a = c * 256 + a.
Proof.
  intros Ha. pose proof (Z.add_lor_land (Z.shiftl c 8) a) as H.
  rewrite land_shiftl_byte, Z.add_0_r in H by assumption.
  rewrite H. rewrite Z.shiftl_mul_pow2 by lia. reflexivity.
Qed.

Lemma cache_push_val (c a : Z) :
  is_byte a -> cache_push c a = (c * 256 + a) mod 2 ^ 64.
Proof.
  intros Ha. unfold cache_push, u64. rewrite lor_shiftl_byte by assumption.
  reflexivity.
Qed.

Lemma low16_push (c a : Z) :
  is_byte a ->
  Z.land (cache_push c a) 0xffff = Z.land c 0xff * 256 + a.
Proof.
  intros Ha. rewrite cache_push_val by assumption.
  change 0xffff with (Z.ones 16). change 0xff with (Z.ones 8).
  rewrite !Z.land_ones by lia.
  rewrite Z.mod_mod_divide by (exists (2 ^ 48); reflexivity).
  unfold is_byte in Ha.
  change (2 ^ 16) with 65536. change (2 ^ 8) with 256.
  pose proof (Z.mod_pos_bound c 256 ltac:(lia)).
  pose proof (Z.div_mod c 256 ltac:(lia)).
  replace (c * 256 + a) with ((c mod 256 * 256 + a) + (c / 256) * 65536)
    by lia.
  rewrite Z_mod_plus_full. apply Z.mod_small. lia.
Qed.

Lemma low8_push (c a : Z) :
  is_byte a -> Z.land (cache_push c a) 0xff = a.
Proof.
  intros Ha. rewrite cache_push_val by assumption.
  change 0xff with (Z.ones 8).
  rewrite !Z.land_ones by lia.
  rewrite Z.mod_mod_divide by (exists (2 ^ 56); reflexivity).
  unfold is_byte in Ha. change (2 ^ 8) with 256.
  rewrite Z.add_comm, Z_mod_plus_full. apply Z.mod_small. lia.
Qed.

Lemma low8_of_low16 (c : Z) :
  Z.land c 0xffff = 0 -> Z.land c 0xff = 0.
Proof.
  change 0xffff with (Z.ones 16). change 0xff with (Z.ones 8).
  rewrite !Z.land_ones by lia. intros H.
  rewrite <- (Z.mod_mod_divide c (2 ^ 16) (2 ^ 8))
    by (exists (2 ^ 8); reflexivity).
  rewrite H. reflexivity.
Qed.

Lemma is_byte_0 : is_byte 0.
Proof. unfold is_byte; lia. Qed.

(** ** Inserting an emulation-prevention byte *)

Lemma zeros_before_push (c a : Z) (pre : list Z) :
  zeros_before c (a :: pre) -> zeros_before (cache_push c a) pre.
Proof.
  intros [[p0 Hp] | [[Hp Hc] | [Hp _]]].
  - destruct p0 as [|x p0]; cbn in Hp; inversion Hp; subst.
    + right; left. split; [reflexivity|].
      apply low8_push, is_byte_0.
    + left. exists p0. reflexivity.
  - inversion Hp; subst. right; right. split; [reflexivity|].
    rewrite low16_push by apply is_byte_0. rewrite Hc. reflexivity.
  - discriminate.
Qed.

Lemma zeros_before_cons_not3 (c a : Z) (pre : list Z) :
  zeros_before c (a :: pre) -> pre = [] -> a = 0.
Proof.
  intros [[p0 Hp] | [[Hp Hc] | [Hp _]]] ->.
  - destruct p0 as [|x [|y p0]]; cbn in Hp; inversion Hp;
      try (destruct p0; discriminate).
  - inversion Hp; reflexivity.
  - discriminate.
Qed.

Lemma zeros_before_skip (c b : Z) (pre : list Z) :
  zeros_before c (3 :: b :: pre) -> zeros_before (cache_push c b) pre.
Proof.
  intros [[p0 Hp] | [[Hp _] | [Hp _]]]; try discriminate.
  destruct p0 as [|x [|y p0]]; cbn in Hp; inversion Hp; subst.
  - right; left. split; [reflexivity|]. apply low8_push, is_byte_0.
  - left. exists p0. reflexivity.
Qed.

Lemma fill_cache_done (d : list Z) (c h n : Z) :
  (h <? n) = false -> fill_cache d c h n = (d, c, h, n).
Proof. intros H. destruct d; cbn [fill_cache]; rewrite H; reflexivity. Qed.

Lemma fill_cache_epb (d d' : list Z) (c h n : Z) :
  epb_rel c d d' ->
  exists d1 d1' c1 h1 n1,
    fill_cache d c h n = (d1, c1, h1, n1)
    /\ fill_cache d' c h n = (d1', c1, h1, n1)
    /\ epb_rel c1 d1 d1'.
Proof.
  remember (length d) as m eqn:Hm.
  revert d d' c h Hm.
  induction m as [m IH] using lt_wf_ind. intros d d' c h Hm Hrel.
  destruct Hrel as [-> | (pre & post & Hd & Hd' & Hne & Hhd & Hz)].
  { destruct (fill_cache d c h n) as [[[d1 c1] h1] n1] eqn:Hf.
    exists d1, d1, c1, h1, n1. repeat split; auto. left; reflexivity. }
  destruct (h <? n) eqn:Hhn.
  2:{ exists d, d', c, h, n. rewrite !fill_cache_done by assumption.
      repeat split; auto. right. exists pre, post. repeat split; auto. }
  destruct pre as [|a pre].
  - (* the inserted byte is next *)
    destruct Hz as [[p0 Hp] | [[Hp _] | [_ Hc]]];
      [destruct p0; discriminate | discriminate |].
    destruct post as [|b post]; [contradiction|]. cbn [hd] in Hhd.
    cbn [app] in Hd, Hd'. subst d d'.
    assert (Hb : (b =? 3) = false) by (apply Z.eqb_neq; exact Hhd).
    cbn [fill_cache]. rewrite Hhn, Hb. cbn [andb].
    change (3 =? 3) with true. rewrite Hc. cbn [andb Z.eqb].
    destruct (fill_cache post (cache_push c b) (h + 8) n)
      as [[[d1 c1] h1] n1] eqn:Hf.
    exists d1, d1, c1, h1, n1. repeat split; auto. left; reflexivity.
  - cbn [app] in Hd, Hd'. subst d d'. cbn [fill_cache]. rewrite Hhn.
    destruct ((a =? 3) && (Z.land c 65535 =? 0)) eqn:Hdrop.
    + (* [a] is skipped and the byte after it is taken as it is *)
      destruct pre as [|b pre].
      * exfalso. apply andb_true_iff in Hdrop. destruct Hdrop as [Ha _].
        apply Z.eqb_eq in Ha.
        pose proof (zeros_before_cons_not3 _ _ _ Hz eq_refl). lia.
      * cbn [app].
        assert (Ha : a = 3).
        { apply andb_true_iff in Hdrop. destruct Hdrop as [Ha _].
          apply Z.eqb_eq in Ha. exact Ha. }
        subst a.
        assert (Hz' : zeros_before (cache_push c b) pre)
          by (apply zeros_before_skip; exact Hz).
        apply (IH (length (pre ++ post))).
        -- subst m. cbn [length]. rewrite !length_app. cbn [length]. lia.
        -- reflexivity.
        -- right. exists pre, post. repeat split; auto.
    + apply (IH (length (pre ++ post))).
      * subst m. cbn [length]. lia.
      * reflexivity.
      * right. exists pre, post. repeat split; auto.
        apply zeros_before_push. exact Hz.
Qed.

Lemma nal_bs_read_epb (bs bs' : nal_bitstream) (n : Z) :
  bs_rel bs bs' ->
  fst (nal_bs_read bs' n) = fst (nal_bs_read bs n)
  /\ bs_rel (snd (nal_bs_read bs n)) (snd (nal_bs_read bs' n)).
Proof.
  intros (Hh & Hc & Hrel). unfold nal_bs_read.
  destruct (n =? 0).
  - cbn [fst snd]. repeat split; assumption.
  - destruct (fill_cache_epb _ _ _ (head bs) n Hrel)
      as (d1 & d1' & c1 & h1 & n1 & H1 & H2 & Hrel1).
    rewrite Hh, Hc, H1, H2. cbn [fst snd].
    split; [reflexivity|]. repeat split; assumption.
Qed.

Lemma nal_bs_eos_epb (bs bs' : nal_bitstream) :
  bs_rel bs bs' -> nal_bs_eos bs' = nal_bs_eos bs.
Proof.
  intros (Hh & Hc & Hrel). unfold nal_bs_eos. rewrite Hh.
  destruct Hrel as [-> | (pre & post & -> & -> & Hne & _)];
    [reflexivity|].
  destruct pre; cbn [app]; [| reflexivity].
  destruct post; [contradiction | reflexivity].
Qed.

Lemma ue_zeros_epb (rem : nat) (bs bs' : nal_bitstream) :
  bs_rel bs bs' ->
  fst (ue_zeros rem bs') = fst (ue_zeros rem bs)
  /\ bs_rel (snd (ue_zeros rem bs)) (snd (ue_zeros rem bs')).
Proof.
  revert bs bs'. induction rem as [|r IH]; intros bs bs' Hrel;
    cbn [ue_zeros];
    destruct (nal_bs_read_epb _ _ 1 Hrel) as [Hv Hrel1];
    destruct (nal_bs_read bs 1) as [b bs1];
    destruct (nal_bs_read bs' 1) as [b' bs1'];
    cbn [fst snd] in *; subst b'.
  - split; [reflexivity | assumption].
  - rewrite (nal_bs_eos_epb _ _ Hrel1).
    destruct ((b =? 0) && negb (nal_bs_eos bs1)).
    + apply IH. assumption.
    + split; [reflexivity | assumption].
Qed.

Lemma nal_bs_read_ue_epb (bs bs' : nal_bitstream) :
  bs_rel bs bs' ->
  fst (nal_bs_read_ue bs') = fst (nal_bs_read_ue bs)
  /\ bs_rel (snd (nal_bs_read_ue bs)) (snd (nal_bs_read_ue bs')).
Proof.
  intros Hrel. unfold nal_bs_read_ue.
  destruct (ue_zeros_epb 31 _ _ Hrel) as [Hi Hrel1].
  destruct (ue_zeros 31 bs) as [i bs1].
  destruct (ue_zeros 31 bs') as [i' bs1'].
  cbn [fst snd] in *. subst i'.
  destruct (nal_bs_read_epb _ _ i Hrel1) as [Hv Hrel2].
  destruct (nal_bs_read bs1 i) as [v bs2].
  destruct (nal_bs_read bs1' i) as [v' bs2'].
  cbn [fst snd] in *. subst v'. split; [reflexivity | assumption].
Qed.

Lemma run_op_epb (op : bs_op) (bs bs' : nal_bitstream) :
  bs_rel bs bs' ->
  fst (run_op op bs') = fst (run_op op bs)
  /\ bs_rel (snd (run_op op bs)) (snd (run_op op bs')).
Proof.
  intros Hrel. destruct op; cbn [run_op].
  - apply nal_bs_read_epb. assumption.
  - apply nal_bs_read_ue_epb. assumption.
  - unfold nal_bs_read_se.
    destruct (nal_bs_read_ue_epb _ _ Hrel) as [Hv Hrel1].
    destruct (nal_bs_read_ue bs) as [i bs1].
    destruct (nal_bs_read_ue bs') as [i' bs1'].
    cbn [fst snd] in *. subst i'. split; [reflexivity | assumption].
  - cbn [fst snd]. rewrite (nal_bs_eos_epb _ _ Hrel).
    split; [reflexivity | assumption].
Qed.

Lemma run_ops_epb (ops : list bs_op) (bs bs' : nal_bitstream) :
  bs_rel bs bs' -> run_ops ops bs' = run_ops ops bs.
Proof.
  revert bs bs'. induction ops as [|op ops IH]; intros bs bs' Hrel;
    cbn [run_ops]; [reflexivity|].
  destruct (run_op_epb op _ _ Hrel) as [Hv Hrel1].
  destruct (run_op op bs) as [v bs1].
  destruct (run_op op bs') as [v' bs1'].
  cbn [fst snd] in *. subst v'. f_equal. apply IH. assumption.
Qed.

Lemma epb_insertion_invariant (pre post : list Z) (ops : list bs_op) :
  post <> [] -> hd 0 post <> 3 ->
  run_ops ops (nal_bs_init (pre ++ [0; 0; 3] ++ post))
  = run_ops ops (nal_bs_init (pre ++ [0; 0] ++ post)).
Proof.
  intros Hne Hhd. apply run_ops_epb.
  unfold bs_rel, nal_bs_init. cbn [head cache data].
  repeat split. right. exists (pre ++ [0; 0]), post.
  rewrite <- !app_assoc. cbn [app]. repeat split; auto.
  left. exists pre. reflexivity.
Qed.

(** ** Which bytes the reader skips *)

Lemma ends0_snoc (hist : list Z) (a : Z) : ends0 (hist ++ [a]) <-> a = 0.
Proof.
  split.
  - intros [ks H]. apply app_inj_tail in H. tauto.
  - intros ->. exists hist. reflexivity.
Qed.

Lemma ends00_snoc (hist : list Z) (a : Z) :
  ends00 (hist ++ [a]) <-> ends0 hist /\ a = 0.
Proof.
  split.
  - intros [ks H]. change (ks ++ [0; 0]) with (ks ++ [0] ++ [0]) in H.
    rewrite app_assoc in H. apply app_inj_tail in H. destruct H as [H1 H2].
    split; [exists ks; exact H1 | exact H2].
  - intros [[ks ->] ->]. exists ks. rewrite <- app_assoc. reflexivity.
Qed.

Lemma cache_tracks_init : cache_tracks 0xffffffff [].
Proof.
  split; split.
  - discriminate.
  - intros [ks H]. destruct ks; discriminate.
  - discriminate.
  - intros [ks H]. destruct ks; discriminate.
Qed.

Lemma cache_tracks_push (c a : Z) (hist : list Z) :
  is_byte a -> cache_tracks c hist ->
  cache_tracks (cache_push c a) (hist ++ [a]).
Proof.
  intros Ha [H8 H16]. split.
  - rewrite low8_push by assumption. symmetry. apply ends0_snoc.
  - rewrite low16_push by assumption. rewrite ends00_snoc, <- H8.
    assert (0 <= Z.land c 255) by (apply Z.land_nonneg; lia).
    unfold is_byte in Ha. split; lia.
Qed.

Lemma drop_flags_char (n : nat) :
  forall (d : list Z) (c : Z) (hist : list Z) (i : nat),
    (length d <= n)%nat ->
    Forall is_byte d -> cache_tracks c hist -> (i < length d)%nat ->
    nth i (drop_flags c d) false = true
    <-> (nth i d 0 = 3
         /\ ends00 (hist ++ keep (firstn i d) (firstn i (drop_flags c d)))
         /\ match i with
            | O => True
            | S j => nth j (drop_flags c d) false = false
            end).
Proof.
  induction n as [|n IH]; intros d c hist i Hn Hb Ht Hi.
  { destruct d; cbn in *; lia. }
  destruct d as [|a d1]; [cbn in Hi; lia|].
  inversion Hb as [|? ? Ha Hb1]; subst.
  cbn [drop_flags].
  destruct ((a =? 3) && (Z.land c 65535 =? 0)) eqn:Hdrop.
  - apply andb_true_iff in Hdrop. destruct Hdrop as [Ha3 Hc0].
    apply Z.eqb_eq in Ha3, Hc0. subst a.
    destruct i as [|[|j]].
    + cbn [nth firstn keep]. rewrite app_nil_r.
      split; [intros _ | reflexivity].
      repeat split. apply Ht. exact Hc0.
    + destruct d1 as [|b d2]; [cbn in Hi; lia|].
      cbn [nth]. split; [discriminate | intros (_ & _ & H); discriminate].
    + destruct d1 as [|b d2]; [cbn in Hi; lia|].
      inversion Hb1 as [|? ? Hbb Hb2]; subst.
      cbn [nth firstn keep].
      replace (hist ++ b :: keep (firstn j d2)
                 (firstn j (drop_flags (cache_push c b) d2)))
        with ((hist ++ [b]) ++ keep (firstn j d2)
                (firstn j (drop_flags (cache_push c b) d2)))
        by (rewrite <- app_assoc; reflexivity).
      rewrite (IH d2 (cache_push c b) (hist ++ [b]) j);
        [| cbn in Hn; lia | assumption
         | apply cache_tracks_push; assumption | cbn in Hi; lia].
      destruct j; cbn [nth]; tauto.
  - destruct i as [|j].
    + cbn [nth firstn keep]. rewrite app_nil_r.
      split; [discriminate|]. intros (H3 & H00 & _). exfalso.
      apply Ht in H00. subst a. rewrite H00 in Hdrop. discriminate.
    + cbn [nth firstn keep].
      replace (hist ++ a :: keep (firstn j d1)
                 (firstn j (drop_flags (cache_push c a) d1)))
        with ((hist ++ [a]) ++ keep (firstn j d1)
                (firstn j (drop_flags (cache_push c a) d1)))
        by (rewrite <- app_assoc; reflexivity).
      rewrite (IH d1 (cache_push c a) (hist ++ [a]) j);
        [| cbn in Hn; lia | assumption
         | apply cache_tracks_push; assumption | cbn in Hi; lia].
      destruct j; cbn [nth]; tauto.
Qed.

(** ** Reading whole bytes *)

Lemma u32_low8 (c : Z) : Z.land (u32 c) (int_mask 8) = Z.land c 0xff.
Proof.
  change (int_mask 8) with (Z.ones 8). change 0xff with (Z.ones 8).
  rewrite !Z.land_ones by lia. unfold u32.
  apply Z.mod_mod_divide. exists (2 ^ 24). reflexivity.
Qed.

Lemma read_bytes_keep (k : nat) :
  forall (d : list Z) (c : Z),
    Forall is_byte d ->
    (k <= length (keep d (drop_flags c d)))%nat ->
    read_bytes k {| data := d; head := 0; cache := c |}
    = firstn k (keep d (drop_flags c d)).
Proof.
  induction k as [|k IH]; intros d c Hb Hk; [reflexivity|].
  cbn [read_bytes]. unfold nal_bs_read. cbn [data head cache Z.eqb].
  destruct d as [|a d1]; [cbn in Hk; lia|].
  inversion Hb as [|? ? Ha Hb1]; subst.
  cbn [fill_cache drop_flags] in *. change (0 <? 8) with true. cbv iota.
  destruct ((a =? 3) && (Z.land c 65535 =? 0)).
  - destruct d1 as [|b d2]; [cbn in Hk; lia|].
    inversion Hb1 as [|? ? Hbb Hb2]; subst.
    rewrite fill_cache_done by reflexivity.
    cbn [keep] in *. change (0 + 8 - 8) with 0.
    change (0 <? 0) with false. change (8 <? 32) with true. cbv iota.
    rewrite u32_low8, low8_push by assumption.
    cbn [firstn]. f_equal. apply IH; [assumption | cbn in Hk; lia].
  - rewrite fill_cache_done by reflexivity.
    cbn [keep] in *. change (0 + 8 - 8) with 0.
    change (0 <? 0) with false. change (8 <? 32) with true. cbv iota.
    rewrite u32_low8, low8_push by assumption.
    cbn [firstn]. f_equal. apply IH; [assumption | cbn in Hk; lia].
Qed.

(** C6 (as amended).  Reading a NAL payload [d] from its start, the byte at
    position [i] is skipped exactly when it is 0x03, the last two bytes
    that entered the cache are both 0x00 and the byte before it was not
    itself skipped; the skipped bytes contribute no bits (whole-byte reads
    return the kept bytes).  Inserting a 0x03 after a pair 00 00 that is
    followed by at least one byte, and not by 0x03, leaves the values of
    every sequence of read_bits / read_ue / read_se / eos calls
    unchanged. *)
Theorem emulation_prevention (d pre post : list Z) (i k : nat)
    (ops : list bs_op) :
  Forall is_byte d -> (i < length d)%nat ->
  (k <= length (keep d (drop_flags 0xffffffff d)))%nat ->
  post <> [] -> hd 0 post <> 3 ->
  (discarded d i = true
   <-> (nth i d 0 = 3
        /\ (exists ks, kept_before d i = ks ++ [0; 0])
        /\ match i with O => True | S j => discarded d j = false end))
  /\ read_bytes k (nal_bs_init d)
     = firstn k (keep d (drop_flags 0xffffffff d))
  /\ run_ops ops (nal_bs_init (pre ++ [0; 0; 3] ++ post))
     = run_ops ops (nal_bs_init (pre ++ [0; 0] ++ post)).
Proof.
  intros Hb Hi Hk Hne Hhd. split; [| split].
  - unfold discarded, kept_before.
    rewrite (drop_flags_char (length d) d 0xffffffff [] i (le_n _) Hb
               cache_tracks_init Hi).
    cbn [app]. unfold ends00. reflexivity.
  - apply read_bytes_keep; assumption.
  - apply epb_insertion_invariant; assumption.
Qed.

Lemma emulation_prevention_witness :
  discarded [0; 0; 3; 1] 2 = true
  /\ read_bytes 3 (nal_bs_init [0; 0; 3; 1]) = [0; 0; 1]
  /\ run_ops [ReadBits 16; ReadUe] (nal_bs_init ([7] ++ [0; 0; 3] ++ [1]))
     = run_ops [ReadBits 16; ReadUe] (nal_bs_init ([7] ++ [0; 0] ++ [1])).
Proof.
  assert (Hb : Forall is_byte [0; 0; 3; 1])
    by (repeat constructor; unfold is_byte; lia).
  assert (Hi : (2 < length [0; 0; 3; 1]%Z)%nat) by (cbn; lia).
  assert (Hk : (3 <= length (keep [0; 0; 3; 1]%Z
                               (drop_flags 0xffffffff%Z [0; 0; 3; 1]%Z)))%nat)
    by (vm_compute; lia).
  assert (Hne : [1] <> []) by discriminate.
  assert (Hhd : hd 0 [1] <> 3) by (cbn; lia).
  destruct (emulation_prevention [0; 0; 3; 1] [7] [1] 2 3
              [ReadBits 16; ReadUe] Hb Hi Hk Hne Hhd) as (H1 & H2 & H3).
  split; [| split].
  - apply H1. split; [reflexivity|].
    split; [exists []; reflexivity | reflexivity].
  - rewrite H2. reflexivity.
  - exact H3.
Defined.

(** C6 as stated fails.  A 0x03 that follows a skipped 0x03 is kept
    although the last two bytes taken are zero; a 0x03 is skipped after the
    raw bytes 03 00 when the bytes taken before them were zero; inserting a
    0x03 in front of an existing 0x03, or after a pair that ends the
    stream, changes what is read. *)
Lemma emulation_prevention_counterexample :
  discarded [0; 0; 3; 3] 3 = false
  /\ kept_before [0; 0; 3; 3] 3 = [0; 0]
  /\ discarded [0; 0; 3; 0; 3] 4 = true
  /\ run_ops [ReadBits 8; ReadBits 8; ReadBits 8]
       (nal_bs_init ([] ++ [0; 0; 3] ++ [3; 1]))
     <> run_ops [ReadBits 8; ReadBits 8; ReadBits 8]
          (nal_bs_init ([] ++ [0; 0] ++ [3; 1]))
  /\ run_ops [ReadUe] (nal_bs_init ([] ++ [0; 0; 3] ++ []))
     <> run_ops [ReadUe] (nal_bs_init ([] ++ [0; 0] ++ [])).
Proof.
  repeat split; try reflexivity; vm_compute; discriminate.
Qed.


(** ** Further properties of the bit reader and of the length fields *)

Lemma be_value_fold (l : list Z) (x : Z) :
  fold_left (fun a b => a * 256 + b) l x
  = x * 256 ^ Z.of_nat (length l) + be_value l.
Proof.
  unfold be_value. revert x.
  induction l as [|b l IH] using rev_ind; intros x.
  - cbn. lia.
  - rewrite !fold_left_app. cbn [fold_left]. rewrite IH.
    rewrite length_app. cbn [length].
    replace (Z.of_nat (length l + 1)) with (Z.of_nat (length l) + 1) by lia.
    rewrite Z.pow_add_r by lia. lia.
Qed.

Lemma be_value_range (l : list Z) :
  Forall is_byte l -> 0 <= be_value l < 256 ^ Z.of_nat (length l).
Proof.
  induction l as [|b l IH] using rev_ind; intros Hb.
  - cbn. lia.
  - apply Forall_app in Hb. destruct Hb as [Hl Hb].
    inversion Hb as [|? ? [Hb0 Hb1] _]; subst.
    specialize (IH Hl). unfold be_value in *.
    rewrite fold_left_app. cbn [fold_left].
    rewrite length_app. cbn [length].
    replace (Z.of_nat (length l + 1)) with (Z.of_nat (length l) + 1) by lia.
    rewrite Z.pow_add_r by lia. lia.
Qed.

Lemma read_nal_size_fold (pkt : list Z) (pos : nat) (n : nat) :
  forall (a : nat) (x : Z),
    Forall is_byte (map (fun k => rd pkt (pos + k)) (seq a n)) ->
    fold_left
      (fun acc i => s32 (Z.lor (Z.shiftl acc 8) (rd pkt (pos + i))))
      (seq a n) (s32 x)
    = s32 (fold_left (fun v b => v * 256 + b)
             (map (fun k => rd pkt (pos + k)) (seq a n)) x).
Proof.
  induction n as [|n IH]; intros a x Hb; cbn [seq map fold_left].
  - reflexivity.
  - cbn [seq map] in Hb. inversion Hb as [|? ? Hb0 Hb1]; subst.
    rewrite lor_shiftl_byte by exact Hb0.
    replace (s32 (s32 x * 256 + rd pkt (pos + a)))
      with (s32 (x * 256 + rd pkt (pos + a))).
    + apply IH. exact Hb1.
    + apply s32_congr.
      rewrite (Zplus_mod (s32 x * 256)), (Zmult_mod (s32 x)), s32_mod,
        <- Zmult_mod, <- Zplus_mod.
      reflexivity.
Qed.

(** The length field in front of a unit is read most significant byte
    first, on [int32_t]: its value is the big-endian number of its bytes,
    wrapped to 32 bits.  A field of at most three bytes is never
    negative. *)
Theorem read_nal_size_big_endian (ls : Z) (pkt : list Z) (pos : nat) :
  Forall is_byte (span pkt pos ls) ->
  read_nal_size ls pkt pos = s32 (be_value (span pkt pos ls))
  /\ (ls <= 3 ->
      read_nal_size ls pkt pos = be_value (span pkt pos ls)
      /\ 0 <= read_nal_size ls pkt pos < 2 ^ 24).
Proof.
  intros Hb. unfold read_nal_size.
  assert (H : fold_left
                (fun acc i => s32 (Z.lor (Z.shiftl acc 8) (rd pkt (pos + i))))
                (seq 0 (Z.to_nat ls)) 0
              = s32 (be_value (span pkt pos ls))).
  { change 0 with (s32 0) at 1. unfold span in *.
    rewrite read_nal_size_fold by exact Hb. reflexivity. }
  split; [exact H|]. intros Hls. rewrite H.
  pose proof (be_value_range _ Hb) as Hr.
  assert (Hlen : (length (span pkt pos ls) <= 3)%nat)
    by (unfold span; rewrite length_map, length_seq; lia).
  assert (Hp : 256 ^ Z.of_nat (length (span pkt pos ls)) <= 2 ^ 24).
  { change (2 ^ 24) with (256 ^ 3).
    apply Z.pow_le_mono_r; lia. }
  rewrite s32_small by lia. split; [reflexivity | lia].
Qed.

Lemma int_mask_ones (n : Z) : 0 <= n < 32 -> int_mask n = Z.ones n.
Proof.
  intros Hn. unfold int_mask. rewrite Z.shiftl_1_l, Z.ones_equiv.
  assert (Hp : 0 < 2 ^ n <= 2 ^ 31)
    by (split; [apply Z.pow_pos_nonneg; lia | apply Z.pow_le_mono_r; lia]).
  destruct (Z.eq_dec n 31) as [-> | Hne].
  - reflexivity.
  - assert (2 ^ n <= 2 ^ 30) by (apply Z.pow_le_mono_r; lia).
    rewrite (s32_small (2 ^ n)) by lia.
    rewrite s32_small by lia. unfold u32. rewrite Z.mod_small; lia.
Qed.

Lemma fill_cache_head (k : nat) :
  forall (d : list Z) (c h n : Z),
    (length d <= k)%nat -> 0 <= h ->
    let '(d', c', h', n') := fill_cache d c h n in
    0 <= h' /\ n' <= h' /\ (n' = n \/ (n' = h' /\ h' < n)).
Proof.
  induction k as [|k IH]; intros d c h n Hk Hh;
    destruct d as [|a d]; cbn [fill_cache]; cbn [length] in Hk;
    try lia.
  - destruct (Z.ltb_spec h n); repeat split; auto; lia.
  - destruct (Z.ltb_spec h n); repeat split; auto; lia.
  - destruct (Z.ltb_spec h n); [| repeat split; auto; lia].
    destruct ((a =? 3) && (Z.land c 65535 =? 0)).
    + destruct d as [|b d2]; [repeat split; auto; lia|].
      apply IH; [cbn [length] in Hk; lia | lia].
    + apply IH; lia.
Qed.

(** A read of [n] bits returns a number of at most [n] bits, and the
    count of unread bits never goes below zero, also when the bytes run
    out. *)
Theorem nal_bs_read_range (bs : nal_bitstream) (n : Z) :
  0 <= head bs -> 0 <= n <= 32 ->
  0 <= fst (nal_bs_read bs n) < 2 ^ n
  /\ 0 <= head (snd (nal_bs_read bs n)).
Proof.
  intros Hh Hn. unfold nal_bs_read.
  destruct (Z.eqb_spec n 0) as [-> | Hne];
    [cbn [fst snd]; change (2 ^ 0) with 1; lia|].
  pose proof (fill_cache_head (length (data bs)) (data bs) (cache bs)
                (head bs) n (le_n _) Hh) as H.
  destruct (fill_cache (data bs) (cache bs) (head bs) n) as [[[d c] h] n'].
  destruct H as (H1 & H2 & H3). cbn [fst snd head].
  split; [| lia].
  set (res := if 0 <? h - n' then u32 (Z.shiftr c (h - n')) else u32 c).
  assert (Hres : 0 <= res < 2 ^ 32)
    by (subst res; destruct (0 <? h - n'); unfold u32;
        apply Z.mod_pos_bound; reflexivity).
  assert (Hn' : 0 <= n' <= n) by (destruct H3; lia).
  destruct (Z.ltb_spec n' 32) as [Hlt | Hge].
  - rewrite int_mask_ones by lia. rewrite Z.land_ones by lia.
    pose proof (Z.mod_pos_bound res (2 ^ n')
                  (Z.pow_pos_nonneg 2 n' eq_refl (proj1 Hn'))) as Hm.
    assert (2 ^ n' <= 2 ^ n) by (apply Z.pow_le_mono_r; lia). lia.
  - assert (n = 32) by lia. subst n. lia.
Qed.

(** At the end of the stream (no byte left, no bit held) every read
    returns 0 and leaves the reader where it is: so do the Exp-Golomb
    reads, whose loop over the leading zeros stops at once. *)
Theorem reader_at_end (bs : nal_bitstream) (n : Z) :
  data bs = [] -> head bs = 0 -> 0 <= n ->
  nal_bs_eos bs = true
  /\ nal_bs_read bs n = (0, bs)
  /\ nal_bs_read_ue bs = (0, bs)
  /\ nal_bs_read_se bs = (0, bs).
Proof.
  intros Hd Hh Hn. destruct bs as [d h c]. cbn [data head] in Hd, Hh.
  subst d h.
  assert (Hr : forall m, 0 <= m ->
                 nal_bs_read {| data := []; head := 0; cache := c |} m
                 = (0, {| data := []; head := 0; cache := c |})).
  { intros m Hm. unfold nal_bs_read. cbn [data head cache fill_cache].
    destruct (Z.eqb_spec m 0); [reflexivity|].
    destruct (Z.ltb_spec 0 m); [| lia].
    cbn [Z.sub Z.ltb Z.compare Z.opp Z.add].
    change (0 <? 32) with true. cbv iota.
    change (int_mask 0) with 0. rewrite Z.land_0_r. reflexivity. }
  assert (Hue : nal_bs_read_ue {| data := []; head := 0; cache := c |}
                = (0, {| data := []; head := 0; cache := c |})).
  { unfold nal_bs_read_ue.
    assert (Hz : ue_zeros 31 {| data := []; head := 0; cache := c |}
                 = (0, {| data := []; head := 0; cache := c |})).
    { cbn [ue_zeros]. rewrite Hr by lia. reflexivity. }
    rewrite Hz, Hr by lia. reflexivity. }
  split; [reflexivity|]. split; [apply Hr; exact Hn|].
  split; [exact Hue|]. unfold nal_bs_read_se. rewrite Hue. reflexivity.
Qed.

(** ** The bits ahead of the reader *)

Lemma bits_msb_length (n : nat) (x : Z) : length (bits_msb n x) = n.
Proof. induction n as [|n IH]; cbn [bits_msb length]; congruence. Qed.

Lemma bits_msb_ext (n : nat) (x y : Z) :
  (forall i, 0 <= i < Z.of_nat n -> Z.testbit x i = Z.testbit y i) ->
  bits_msb n x = bits_msb n y.
Proof.
  induction n as [|n IH]; intros H; cbn [bits_msb]; [reflexivity|].
  rewrite (H (Z.of_nat n)) by lia. f_equal. apply IH. intros i Hi.
  apply H. lia.
Qed.

Lemma bits_msb_app (n m : nat) (x : Z) :
  bits_msb (n + m) x
  = bits_msb n (Z.shiftr x (Z.of_nat m)) ++ bits_msb m x.
Proof.
  induction n as [|n IH]; cbn [Nat.add bits_msb app]; [reflexivity|].
  rewrite IH, Z.shiftr_spec by lia. do 3 f_equal. lia.
Qed.

Lemma bits_msb_bit (n : nat) (x : Z) :
  Forall (fun b => b = 0 \/ b = 1) (bits_msb n x).
Proof.
  induction n as [|n IH]; cbn [bits_msb]; constructor; [| exact IH].
  destruct (Z.testbit x (Z.of_nat n)); [right | left]; reflexivity.
Qed.

Lemma bits_value_acc (l : list Z) (a : Z) :
  fold_left (fun acc b => 2 * acc + b) l a
  = a * 2 ^ Z.of_nat (length l) + bits_value l.
Proof.
  unfold bits_value. revert a.
  induction l as [|b l IH]; intros a; cbn [fold_left length].
  - change (2 ^ Z.of_nat 0) with 1. lia.
  - rewrite (IH (2 * a + b)), (IH (2 * 0 + b)).
    rewrite Nat2Z.inj_succ, Z.pow_succ_r by lia. lia.
Qed.

Lemma bits_value_cons (b : Z) (l : list Z) :
  bits_value (b :: l) = b * 2 ^ Z.of_nat (length l) + bits_value l.
Proof.
  unfold bits_value at 1. cbn [fold_left]. rewrite bits_value_acc.
  replace (2 * 0 + b) with b by lia. reflexivity.
Qed.

Lemma bits_value_msb (n : nat) (x : Z) :
  bits_value (bits_msb n x) = x mod 2 ^ Z.of_nat n.
Proof.
  induction n as [|n IH]; cbn [bits_msb].
  - change (2 ^ Z.of_nat 0) with 1. rewrite Z.mod_1_r. reflexivity.
  - rewrite bits_value_cons, bits_msb_length, IH.
    rewrite Nat2Z.inj_succ, Z.pow_succ_r by lia.
    rewrite (Z.mul_comm 2), Z.rem_mul_r by lia.
    rewrite Z.testbit_spec' by lia. lia.
Qed.

Lemma bits_value_range (l : list Z) :
  Forall (fun b => b = 0 \/ b = 1) l ->
  0 <= bits_value l < 2 ^ Z.of_nat (length l).
Proof.
  induction l as [|b l IH]; intros H.
  - cbn. lia.
  - inversion H as [|? ? Hb Hl]; subst. specialize (IH Hl).
    rewrite bits_value_cons. cbn [length].
    rewrite Nat2Z.inj_succ, Z.pow_succ_r by lia.
    destruct Hb as [-> | ->]; lia.
Qed.

Lemma bits_value_zeros (k : nat) : bits_value (repeat 0 k) = 0.
Proof.
  induction k as [|k IH]; [reflexivity|].
  cbn [repeat]. rewrite bits_value_cons, IH. lia.
Qed.

(** A byte pushed into the cache puts its eight bits behind the bits the
    cache holds. *)
Lemma bits_msb_push (c a h : Z) :
  is_byte a -> 0 <= h <= 56 ->
  bits_msb (Z.to_nat (h + 8)) (cache_push c a)
  = bits_msb (Z.to_nat h) c ++ bits_msb 8 a.
Proof.
  intros Ha Hh.
  replace (Z.to_nat (h + 8)) with (Z.to_nat h + 8)%nat by lia.
  rewrite bits_msb_app. unfold cache_push, u64.
  assert (Hhigh : forall i, 0 <= i -> Z.testbit a (i + 8) = false).
  { intros i Hi. destruct Ha as [Ha0 Ha1].
    destruct (Z.eq_dec a 0) as [-> | Hne]; [apply Z.bits_0|].
    apply Z.bits_above_log2; [lia|].
    apply Z.lt_le_trans with 8; [| lia].
    apply Z.log2_lt_pow2; lia. }
  f_equal.
  - apply bits_msb_ext. intros i Hi.
    rewrite Z.shiftr_spec by lia.
    rewrite Z.mod_pow2_bits_low by lia.
    rewrite Z.lor_spec, Z.shiftl_spec by lia.
    rewrite Hhigh by lia. rewrite orb_false_r. f_equal. lia.
  - apply bits_msb_ext. intros i Hi.
    rewrite Z.mod_pow2_bits_low by lia.
    rewrite Z.lor_spec, Z.shiftl_spec_low by lia. reflexivity.
Qed.

(** Filling the cache changes nothing in the bits ahead; it ends with
    enough bits held, or with all the bytes taken. *)
Lemma fill_cache_unread (k : nat) :
  forall (d : list Z) (c h n : Z),
    (length d <= k)%nat -> Forall is_byte d -> 0 <= h -> n <= 32 ->
    let '(d', c', h', n') := fill_cache d c h n in
    bits_msb (Z.to_nat h') c'
      ++ flat_map (bits_msb 8) (keep d' (drop_flags c' d'))
    = bits_msb (Z.to_nat h) c
        ++ flat_map (bits_msb 8) (keep d (drop_flags c d))
    /\ Forall is_byte d' /\ 0 <= h'
    /\ (exists pre, d = pre ++ d')
    /\ ((n <= h' /\ n' = n) \/ (h' < n /\ d' = [] /\ n' = h')).
Proof.
  induction k as [|k IH]; intros d c h n Hk Hb Hh Hn;
    destruct d as [|a d]; cbn [length] in Hk; try lia;
    cbn [fill_cache].
  - destruct (Z.ltb_spec h n);
      (split; [reflexivity | split; [assumption | split; [assumption |
        split; [exists []; reflexivity |]]]]);
      [right | left]; repeat split; lia.
  - destruct (Z.ltb_spec h n);
      (split; [reflexivity | split; [assumption | split; [assumption |
        split; [exists []; reflexivity |]]]]);
      [right | left]; repeat split; lia.
  - inversion Hb as [|? ? Ha Hd]; subst.
    destruct (Z.ltb_spec h n) as [Hlt|Hge].
    2: { split; [reflexivity | split; [assumption | split; [assumption |
           split; [exists []; reflexivity | left; lia]]]]. }
    cbn [drop_flags].
    destruct ((a =? 3) && (Z.land c 65535 =? 0)).
    + destruct d as [|b d2].
      * cbn [keep flat_map drop_flags].
        split; [reflexivity |
          split; [constructor | split; [assumption |
            split; [exists [a]; reflexivity | right; repeat split; lia]]]].
      * inversion Hd as [|? ? Hbb Hd2]; subst.
        specialize (IH d2 (cache_push c b) (h + 8) n).
        destruct (fill_cache d2 (cache_push c b) (h + 8) n)
          as [[[d' c'] h'] n'].
        destruct IH as (H1 & H2 & H3 & (pre & H4) & H5);
          [cbn [length] in Hk; lia | assumption | lia | assumption |].
        split; [| split; [assumption | split; [assumption |
          split; [exists (a :: b :: pre); rewrite H4; reflexivity |
                  exact H5]]]].
        rewrite H1. cbn [keep flat_map].
        rewrite bits_msb_push by (auto; lia).
        rewrite <- app_assoc. reflexivity.
    + specialize (IH d (cache_push c a) (h + 8) n).
      destruct (fill_cache d (cache_push c a) (h + 8) n)
        as [[[d' c'] h'] n'].
      destruct IH as (H1 & H2 & H3 & (pre & H4) & H5);
        [lia | assumption | lia | assumption |].
      split; [| split; [assumption | split; [assumption |
        split; [exists (a :: pre); rewrite H4; reflexivity | exact H5]]]].
      rewrite H1. cbn [keep flat_map].
      rewrite bits_msb_push by (auto; lia).
      rewrite <- app_assoc. reflexivity.
Qed.

Lemma read_value (c shift n : Z) :
  0 <= shift -> 0 <= n <= 32 ->
  (let res := if 0 <? shift then u32 (Z.shiftr c shift) else u32 c in
   if n <? 32 then Z.land res (int_mask n) else res)
  = Z.shiftr c shift mod 2 ^ n.
Proof.
  intros Hs Hn. cbv zeta.
  assert (Hr : (if 0 <? shift then u32 (Z.shiftr c shift) else u32 c)
               = u32 (Z.shiftr c shift)).
  { destruct (Z.ltb_spec 0 shift); [reflexivity|].
    replace shift with 0 by lia. rewrite Z.shiftr_0_r. reflexivity. }
  rewrite Hr. unfold u32.
  destruct (Z.ltb_spec n 32) as [Hlt|Hge].
  - rewrite int_mask_ones by lia. rewrite Z.land_ones by lia.
    apply Z.mod_mod_divide. exists (2 ^ (32 - n)).
    rewrite <- Z.pow_add_r by lia. f_equal. lia.
  - replace n with 32 by lia. reflexivity.
Qed.

(** A read of [n] bits returns the number that the next [n] bits write
    (all the bits left, when fewer are left) and moves the reader past
    them. *)
Lemma nal_bs_read_unread (bs : nal_bitstream) (n : Z) :
  reader_ok bs -> 0 <= n <= 32 ->
  fst (nal_bs_read bs n) = bits_value (firstn (Z.to_nat n) (unread bs))
  /\ unread (snd (nal_bs_read bs n)) = skipn (Z.to_nat n) (unread bs)
  /\ reader_ok (snd (nal_bs_read bs n))
  /\ (exists pre, data bs = pre ++ data (snd (nal_bs_read bs n))).
Proof.
  intros [Hh Hb] Hn. unfold nal_bs_read.
  destruct (Z.eqb_spec n 0) as [-> | Hne].
  { cbn [fst snd Z.to_nat firstn skipn]. repeat split; auto.
    exists []. reflexivity. }
  pose proof (fill_cache_unread (length (data bs)) (data bs) (cache bs)
                (head bs) n (le_n _) Hb Hh (proj2 Hn)) as H.
  unfold unread at 1 3.
  destruct (fill_cache (data bs) (cache bs) (head bs) n)
    as [[[d c] h] n'].
  destruct H as (H1 & H2 & H3 & H4 & H5). rewrite <- H1.
  cbn [fst snd]. unfold unread, reader_ok. cbn [data head cache].
  destruct H5 as [[Hge ->] | (Hlt & -> & ->)].
  - rewrite read_value by lia.
    replace (Z.to_nat h) with (Z.to_nat n + Z.to_nat (h - n))%nat by lia.
    rewrite bits_msb_app, <- app_assoc.
    rewrite firstn_app, skipn_app, bits_msb_length.
    rewrite Nat.sub_diag. cbn [firstn skipn].
    rewrite app_nil_r.
    rewrite firstn_all2, skipn_all2 by (rewrite bits_msb_length; lia).
    rewrite bits_value_msb. cbn [app].
    rewrite !Z2Nat.id by lia.
    repeat split; auto; lia.
  - rewrite read_value by lia.
    cbn [drop_flags keep flat_map]. rewrite !app_nil_r.
    rewrite firstn_all2, skipn_all2 by (rewrite bits_msb_length; lia).
    rewrite bits_value_msb, Z.sub_diag, Z.shiftr_0_r.
    rewrite Z2Nat.id by lia. cbn [Z.to_nat bits_msb].
    repeat split; auto; lia.
Qed.

Lemma nal_bs_eos_unread (bs : nal_bitstream) :
  nal_bs_eos bs = true -> unread bs = [].
Proof.
  unfold nal_bs_eos, unread. destruct (data bs); [| discriminate].
  intros H. apply Z.eqb_eq in H. rewrite H. reflexivity.
Qed.

(** When the data does not end in 0x03, no byte is left once no bit is
    left. *)
Lemma unread_nil_eos (bs : nal_bitstream) :
  reader_ok bs -> last (data bs) 0 <> 3 -> unread bs = [] ->
  nal_bs_eos bs = true.
Proof.
  intros [Hh Hb] Hl Hu. unfold unread in Hu.
  apply app_eq_nil in Hu. destruct Hu as [H1 H2].
  assert (Hh0 : head bs = 0).
  { pose proof (bits_msb_length (Z.to_nat (head bs)) (cache bs)) as Hlen.
    rewrite H1 in Hlen. cbn [length] in Hlen. lia. }
  unfold nal_bs_eos. destruct (data bs) as [|a d] eqn:Hd.
  - rewrite Hh0. reflexivity.
  - exfalso. cbn [drop_flags] in H2.
    destruct ((a =? 3) && (Z.land (cache bs) 65535 =? 0)) eqn:Hc.
    + destruct d as [|b d2].
      * apply andb_true_iff in Hc. destruct Hc as [Hc _].
        apply Z.eqb_eq in Hc. subst a. apply Hl. reflexivity.
      * cbn [keep flat_map bits_msb app] in H2. discriminate.
    + cbn [keep flat_map bits_msb app] in H2. discriminate.
Qed.

Lemma last_suffix (pre d : list Z) :
  last (pre ++ d) 0 <> 3 -> last d 0 <> 3.
Proof.
  destruct d as [|a d]; [cbn; lia|].
  assert (H : last (pre ++ a :: d) 0 = last (a :: d) 0).
  { induction pre as [|p pre IH]; cbn [app]; [reflexivity|].
    rewrite <- IH. destruct (pre ++ a :: d) eqn:E; [| reflexivity].
    apply app_eq_nil in E. destruct E; discriminate. }
  rewrite H. auto.
Qed.

(** The zero-counting loop over bits that start with [k] zeros and a bit
    that stops the count. *)
Lemma ue_zeros_unread (k : nat) :
  forall (rem : nat) (bs : nal_bitstream) (b : Z) (tl : list Z),
    reader_ok bs -> (k <= rem)%nat ->
    unread bs = repeat 0 k ++ b :: tl ->
    ((k < rem)%nat -> b <> 0 \/ (tl = [] /\ last (data bs) 0 <> 3)) ->
    fst (ue_zeros rem bs) = 31 - Z.of_nat rem + Z.of_nat k
    /\ unread (snd (ue_zeros rem bs)) = tl
    /\ reader_ok (snd (ue_zeros rem bs))
    /\ (tl = [] -> last (data bs) 0 <> 3 ->
        nal_bs_eos (snd (ue_zeros rem bs)) = true).
Proof.
  induction k as [|k IH]; intros rem bs b tl Hok Hk Hu Hstop.
  - cbn [repeat app] in Hu.
    destruct (nal_bs_read_unread bs 1 Hok ltac:(lia))
      as (Hv & Hr & Hok1 & (pre & Hpre)).
    rewrite Hu in Hv, Hr.
    change (Z.to_nat 1) with 1%nat in Hv, Hr. cbn [firstn skipn] in Hv, Hr.
    assert (Heos : tl = [] -> last (data bs) 0 <> 3 ->
                   nal_bs_eos (snd (nal_bs_read bs 1)) = true).
    { intros -> Hl. apply unread_nil_eos; auto.
      rewrite Hpre in Hl. eapply last_suffix. exact Hl. }
    destruct rem as [|r]; cbn [ue_zeros];
      destruct (nal_bs_read bs 1) as [v bs1]; cbn [fst snd] in *.
    + split; [reflexivity | split; [exact Hr | split; [exact Hok1 |]]].
      exact Heos.
    + assert (Hc : (v =? 0) && negb (nal_bs_eos bs1) = false).
      { destruct (Hstop ltac:(lia)) as [Hb | [-> Hl]].
        - assert (v <> 0).
          { rewrite Hv. unfold bits_value. cbn [fold_left]. lia. }
          apply andb_false_iff. left. apply Z.eqb_neq. assumption.
        - rewrite (Heos eq_refl Hl). apply andb_false_r. }
      rewrite Hc. cbn [fst snd].
      split; [lia | split; [exact Hr | split; [exact Hok1 | exact Heos]]].
  - cbn [repeat app] in Hu.
    destruct (nal_bs_read_unread bs 1 Hok ltac:(lia))
      as (Hv & Hr & Hok1 & (pre & Hpre)).
    rewrite Hu in Hv, Hr.
    change (Z.to_nat 1) with 1%nat in Hv, Hr. cbn [firstn skipn] in Hv, Hr.
    destruct rem as [|r]; [lia|]. cbn [ue_zeros].
    destruct (nal_bs_read bs 1) as [v bs1] eqn:Hrd; cbn [fst snd] in *.
    assert (Hv0 : v = 0) by (rewrite Hv; reflexivity).
    assert (He : nal_bs_eos bs1 = false).
    { destruct (nal_bs_eos bs1) eqn:He; [| reflexivity].
      apply nal_bs_eos_unread in He. rewrite Hr in He.
      destruct k; discriminate. }
    rewrite Hv0, He. cbn [Z.eqb negb andb].
    destruct (IH r bs1 b tl Hok1 ltac:(lia) Hr) as (A1 & A2 & A3 & A4).
    { intros Hlt. destruct (Hstop ltac:(lia)) as [Hb | [-> Hl]];
        [left; exact Hb | right; split; [reflexivity|]].
      rewrite Hpre in Hl. eapply last_suffix. exact Hl. }
    split; [rewrite A1; lia | split; [exact A2 | split; [exact A3 |]]].
    intros Ht Hl. apply A4; [exact Ht|].
    rewrite Hpre in Hl. eapply last_suffix. exact Hl.
Qed.

Lemma unread_bits (bs : nal_bitstream) :
  Forall (fun b => b = 0 \/ b = 1) (unread bs).
Proof.
  unfold unread. apply Forall_app. split; [apply bits_msb_bit|].
  induction (keep (data bs) (drop_flags (cache bs) (data bs)))
    as [|a l IH]; [constructor|].
  cbn [flat_map]. apply Forall_app. split; [apply bits_msb_bit | exact IH].
Qed.

(** The read of a complete code: [k] zeros, the bit that stops the count
    and [k] bits [w]. *)
Lemma nal_bs_read_ue_code (bs : nal_bitstream) (k : nat) (b : Z)
    (w rest : list Z) :
  reader_ok bs ->
  unread bs = repeat 0 k ++ b :: w ++ rest -> length w = k ->
  ((k < 31)%nat /\ b = 1) \/ k = 31%nat ->
  fst (nal_bs_read_ue bs) = s32 (2 ^ Z.of_nat k - 1 + bits_value w)
  /\ unread (snd (nal_bs_read_ue bs)) = rest
  /\ ((k < 31)%nat ->
      fst (nal_bs_read_ue bs) = 2 ^ Z.of_nat k - 1 + bits_value w).
Proof.
  intros Hok Hu Hw Hstop.
  destruct (ue_zeros_unread k 31 bs b (w ++ rest) Hok) as (A1 & A2 & A3 & _);
    [lia | exact Hu | |].
  { intros Hlt. left. destruct Hstop as [[_ ->] | ->]; lia. }
  unfold nal_bs_read_ue.
  destruct (ue_zeros 31 bs) as [i bs1]. cbn [fst snd] in A1, A2, A3.
  replace (31 - Z.of_nat 31 + Z.of_nat k) with (Z.of_nat k) in A1 by lia.
  subst i.
  destruct (nal_bs_read_unread bs1 (Z.of_nat k) A3 ltac:(lia))
    as (Hv & Hr & _).
  destruct (nal_bs_read bs1 (Z.of_nat k)) as [v bs2].
  cbn [fst snd] in *.
  rewrite A2, Nat2Z.id in Hv, Hr.
  rewrite <- Hw in Hv at 1. rewrite <- Hw in Hr at 1.
  rewrite firstn_app, firstn_all, Nat.sub_diag in Hv.
  cbn [firstn] in Hv. rewrite app_nil_r in Hv.
  rewrite skipn_app, skipn_all, Nat.sub_diag in Hr. cbn [skipn app] in Hr.
  rewrite ue_value_eq by lia. subst v.
  split; [reflexivity | split; [exact Hr |]].
  intros Hlt. apply s32_small.
  assert (Hbits : Forall (fun b => b = 0 \/ b = 1) w).
  { pose proof (unread_bits bs) as Hall. rewrite Hu in Hall.
    apply Forall_app in Hall. destruct Hall as [_ Hall].
    inversion Hall as [|? ? _ Hall']; subst.
    apply Forall_app in Hall'. tauto. }
  pose proof (bits_value_range w Hbits) as Hrg. rewrite Hw in Hrg.
  assert (0 < 2 ^ Z.of_nat k <= 2 ^ 30)
    by (split; [apply Z.pow_pos_nonneg; lia
               | apply Z.pow_le_mono_r; lia]).
  lia.
Qed.

(** C5, as the code has it.  The bits ahead of the reader are the bits it
    holds and the bits of the bytes to come, skipped emulation prevention
    bytes left out.  A read of [n] bits returns the number that the next
    [n] of them write, or all that are left when fewer are left, and moves
    past them; the stream is exhausted only when no bit is ahead, and it
    is exhausted then unless the data ends in 0x03.  When the bits ahead
    are [k] zeros, a bit that stops the count (a 1 when [k < 31], any bit
    when [k] is 31) and [k] bits [w], [nal_bs_read_ue] consumes exactly
    these and returns [(1 << k) - 1 + w] as an [int], which is that number
    itself when [k < 31].  When they are [k + 1] zeros and nothing else,
    the data not ending in 0x03, the last zero ends the stream: it is
    consumed and not counted, nothing is left for [v], and the result is
    [(1 << k) - 1].  From every reader state the count is made by
    single-bit reads, [k <= 31] of them returning 0; the count stops on
    the next read, which returns a 1, or exhausts the stream, or comes
    after 31 zeros; [k] further bits [v] are read and [(1 << k) - 1 + v]
    is returned as an [int].  [nal_bs_read_se] returns [(i + 1) / 2] with
    sign [+1] for odd [i] and [-1] for even [i], [i] being the unsigned
    result.  Below [INT_MAX] nothing wraps. *)
Theorem exp_golomb_reads (bs : nal_bitstream) :
  (reader_ok bs ->
   (forall n : Z,
      0 <= n <= 32 ->
      fst (nal_bs_read bs n) = bits_value (firstn (Z.to_nat n) (unread bs))
      /\ unread (snd (nal_bs_read bs n)) = skipn (Z.to_nat n) (unread bs)
      /\ reader_ok (snd (nal_bs_read bs n)))
   /\ (nal_bs_eos bs = true -> unread bs = [])
   /\ (unread bs = [] -> last (data bs) 0 <> 3 -> nal_bs_eos bs = true)
   /\ (forall (k : nat) (b : Z) (w rest : list Z),
         unread bs = repeat 0 k ++ b :: w ++ rest -> length w = k ->
         ((k < 31)%nat /\ b = 1) \/ k = 31%nat ->
         fst (nal_bs_read_ue bs) = s32 (2 ^ Z.of_nat k - 1 + bits_value w)
         /\ unread (snd (nal_bs_read_ue bs)) = rest
         /\ ((k < 31)%nat ->
             fst (nal_bs_read_ue bs) = 2 ^ Z.of_nat k - 1 + bits_value w))
   /\ (forall k : nat,
         unread bs = repeat 0 (S k) -> (k <= 31)%nat ->
         last (data bs) 0 <> 3 ->
         fst (nal_bs_read_ue bs) = 2 ^ Z.of_nat k - 1
         /\ nal_bs_eos (snd (nal_bs_read_ue bs)) = true))
  /\ exists (k : nat) bs_k t bs_t v bs_v,
       (k <= 31)%nat
       /\ read_bits1 k bs = (repeat 0 k, bs_k)
       /\ nal_bs_read bs_k 1 = (t, bs_t)
       /\ (k = 31%nat \/ t <> 0 \/ nal_bs_eos bs_t = true)
       /\ nal_bs_read bs_t (Z.of_nat k) = (v, bs_v)
       /\ let i := s32 (2 ^ Z.of_nat k - 1 + v) in
          nal_bs_read_ue bs = (i, bs_v)
          /\ nal_bs_read_se bs
             = (s32 (Z.quot (s32 (i + 1)) 2 * (if Z.odd i then 1 else -1)),
                bs_v)
          /\ (0 <= 2 ^ Z.of_nat k - 1 + v < 2 ^ 31 - 1 ->
              i = 2 ^ Z.of_nat k - 1 + v
              /\ fst (nal_bs_read_se bs)
                 = (i + 1) / 2 * (if Z.odd i then 1 else -1)).
Proof.
  split.
  { intros Hok. split; [| split; [| split; [| split]]].
    - intros n Hn.
      destruct (nal_bs_read_unread bs n Hok Hn) as (H1 & H2 & H3 & _).
      auto.
    - apply nal_bs_eos_unread.
    - intros Hu Hl. apply unread_nil_eos; assumption.
    - intros k b w rest. apply nal_bs_read_ue_code. exact Hok.
    - intros k Hu Hk Hl.
      assert (Hu' : unread bs = repeat 0 k ++ [0])
        by (rewrite Hu; apply repeat_cons).
      destruct (ue_zeros_unread k 31 bs 0 [] Hok Hk Hu')
        as (A1 & A2 & A3 & A4).
      { intros _. right. split; [reflexivity | exact Hl]. }
      specialize (A4 eq_refl Hl).
      unfold nal_bs_read_ue.
      destruct (ue_zeros 31 bs) as [i bs1]. cbn [fst snd] in A1, A2, A3, A4.
      replace (31 - Z.of_nat 31 + Z.of_nat k) with (Z.of_nat k) in A1 by lia.
      subst i.
      destruct (nal_bs_read_unread bs1 (Z.of_nat k) A3 ltac:(lia))
        as (Hv & Hr & Hok2 & (pre & Hpre)).
      destruct (nal_bs_read bs1 (Z.of_nat k)) as [v bs2].
      cbn [fst snd] in *.
      rewrite A2 in Hv, Hr. rewrite firstn_nil in Hv. rewrite skipn_nil in Hr.
      change (bits_value []) with 0 in Hv. subst v.
      rewrite ue_value_eq by lia.
      assert (0 < 2 ^ Z.of_nat k <= 2 ^ 31)
        by (split; [apply Z.pow_pos_nonneg; lia
                   | apply Z.pow_le_mono_r; lia]).
      split; [rewrite s32_small by lia; lia|].
      apply unread_nil_eos; [exact Hok2 | | exact Hr].
      unfold nal_bs_eos in A4. destruct (data bs1) as [|a d1] eqn:Hd;
        [| discriminate].
      symmetry in Hpre. apply app_eq_nil in Hpre. destruct Hpre as [_ ->].
      cbn. lia. }
  destruct (ue_zeros_spec 31 bs)
    as (k & bs_k & t & bs_t & Hk & Hz & Ht & Hstop & Hu).
  destruct (nal_bs_read bs_t (Z.of_nat k)) as [v bs_v] eqn:Hv.
  exists k, bs_k, t, bs_t, v, bs_v.
  replace (31 - Z.of_nat 31 + Z.of_nat k) with (Z.of_nat k) in Hu by lia.
  assert (Hue : nal_bs_read_ue bs = (s32 (2 ^ Z.of_nat k - 1 + v), bs_v)).
  { unfold nal_bs_read_ue. rewrite Hu, Hv. rewrite ue_value_eq by lia.
    reflexivity. }
  assert (Hse : nal_bs_read_se bs
                = (s32 (Z.quot (s32 (s32 (2 ^ Z.of_nat k - 1 + v) + 1)) 2
                        * (if Z.odd (s32 (2 ^ Z.of_nat k - 1 + v))
                           then 1 else -1)), bs_v)).
  { unfold nal_bs_read_se. rewrite Hue. unfold se_of_ue.
    rewrite land_1_odd.
    destruct (Z.odd (s32 (2 ^ Z.of_nat k - 1 + v))); reflexivity. }
  repeat split; auto.
  - rewrite s32_small by lia. reflexivity.
  - rewrite Hse. cbn [fst].
    rewrite (s32_small (2 ^ Z.of_nat k - 1 + v)) by lia.
    set (m := 2 ^ Z.of_nat k - 1 + v) in *.
    rewrite (s32_small (m + 1)) by lia.
    rewrite Z.quot_div_nonneg by lia.
    assert (0 <= (m + 1) / 2 < 2 ^ 31).
    { split; [apply Z.div_pos; lia|].
      apply Z.div_lt_upper_bound; lia. }
    destruct (Z.odd m); apply s32_small; lia.
Qed.


Lemma sei_rounds_enough (p : list Z) (endo : nat) (f1 : nat) :
  forall (f2 offset : nat),
    (endo <= offset + 2 * f1 + 2)%nat -> (endo <= offset + 2 * f2 + 2)%nat ->
    sei_rounds f1 p endo offset = sei_rounds f2 p endo offset.
Proof.
  induction f1 as [|f1 IH]; intros f2 offset H1 H2;
    destruct f2 as [|f2]; cbn [sei_rounds]; try reflexivity.
  - destruct (read_ff (skipn offset p)) as [pt k1] eqn:E1.
    destruct (read_ff (skipn (offset + k1) p)) as [ps k2] eqn:E2.
    destruct (pt =? SEI_RECOVERY_POINT); [reflexivity|].
    assert (1 <= k1)%nat
      by (destruct (skipn offset p) as [|b l]; cbn [read_ff] in E1;
          [inversion E1; lia|];
          destruct (b =? 255); [destruct (read_ff l)|]; inversion E1; lia).
    assert (1 <= k2)%nat
      by (destruct (skipn (offset + k1) p) as [|b l]; cbn [read_ff] in E2;
          [inversion E2; lia|];
          destruct (b =? 255); [destruct (read_ff l)|]; inversion E2; lia).
    destruct (Nat.ltb_spec (offset + k1 + k2 + Z.to_nat ps) endo); [lia|].
    reflexivity.
  - destruct (read_ff (skipn offset p)) as [pt k1] eqn:E1.
    destruct (read_ff (skipn (offset + k1) p)) as [ps k2] eqn:E2.
    destruct (pt =? SEI_RECOVERY_POINT); [reflexivity|].
    assert (1 <= k1)%nat
      by (destruct (skipn offset p) as [|b l]; cbn [read_ff] in E1;
          [inversion E1; lia|];
          destruct (b =? 255); [destruct (read_ff l)|]; inversion E1; lia).
    assert (1 <= k2)%nat
      by (destruct (skipn (offset + k1) p) as [|b l]; cbn [read_ff] in E2;
          [inversion E2; lia|];
          destruct (b =? 255); [destruct (read_ff l)|]; inversion E2; lia).
    destruct (Nat.ltb_spec (offset + k1 + k2 + Z.to_nat ps) endo); [lia|].
    reflexivity.
  - destruct (read_ff (skipn offset p)) as [pt k1] eqn:E1.
    destruct (read_ff (skipn (offset + k1) p)) as [ps k2] eqn:E2.
    destruct (pt =? SEI_RECOVERY_POINT); [reflexivity|].
    assert (1 <= k1)%nat
      by (destruct (skipn offset p) as [|b l]; cbn [read_ff] in E1;
          [inversion E1; lia|];
          destruct (b =? 255); [destruct (read_ff l)|]; inversion E1; lia).
    assert (1 <= k2)%nat
      by (destruct (skipn (offset + k1) p) as [|b l]; cbn [read_ff] in E2;
          [inversion E2; lia|];
          destruct (b =? 255); [destruct (read_ff l)|]; inversion E2; lia).
    destruct ((offset + k1 + k2 + Z.to_nat ps <? endo)%nat
              && negb (rd p (offset + k1 + k2 + Z.to_nat ps) =? 128)) eqn:Hc;
      [| reflexivity].
    apply andb_true_iff in Hc. destruct Hc as [Hc _].
    apply Nat.ltb_lt in Hc. apply IH; lia.
Qed.


(** The first message of a SEI unit is looked at whatever size the unit
    is said to have.  When its payload type is 6, the answer is whether
    the Exp-Golomb number at the start of the payload is not negative as
    an [int]. *)
Theorem has_sei_recovery_point_first (h sz : Z) (rest : list Z)
    (endo : nat) :
  sz <> 0xFF ->
  has_sei_recovery_point (h :: SEI_RECOVERY_POINT :: sz :: rest) endo
  = (0 <=? fst (nal_bs_read_ue
                  (nal_bs_init
                     (span (h :: SEI_RECOVERY_POINT :: sz :: rest) 3 sz)))).
Proof.
  intros Hsz. unfold has_sei_recovery_point.
  apply Z.eqb_neq in Hsz.
  destruct endo as [|e]; cbn [sei_rounds skipn read_ff];
    change (SEI_RECOVERY_POINT =? 255) with false; cbv iota;
    cbn [Nat.add skipn read_ff]; rewrite Hsz;
    change (SEI_RECOVERY_POINT =? SEI_RECOVERY_POINT) with true;
    reflexivity.
Qed.

(** ** Packets of 3-byte sizes *)

Lemma span_length (p : list Z) (offset : nat) (n : Z) :
  0 <= n -> len (span p offset n) = n.
Proof.
  intros H. unfold span, len. rewrite length_map, length_seq. lia.
Qed.

Lemma span_exact (u : list Z) :
  forall (a rest : list Z), span (a ++ u ++ rest) (length a) (len u) = u.
Proof.
  unfold span, len. induction u as [|x u IH]; intros a rest.
  - reflexivity.
  - rewrite Nat2Z.id. cbn [length seq map]. f_equal.
    + unfold rd. rewrite Nat.add_0_r, app_nth2, Nat.sub_diag by lia.
      reflexivity.
    + rewrite <- seq_shift, map_map.
      specialize (IH (a ++ [x]) rest). rewrite Nat2Z.id in IH.
      rewrite <- IH at 2. apply map_ext. intros k.
      rewrite length_app, <- app_assoc. cbn [length app].
      f_equal. lia.
Qed.

Lemma rd_app_r (a l : list Z) (k : nat) :
  rd (a ++ l) (length a + k) = rd l k.
Proof.
  unfold rd. rewrite app_nth2 by lia. f_equal. lia.
Qed.

Lemma BS_RB24_size3 (n : Z) (a rest : list Z) :
  0 <= n < 2 ^ 24 -> BS_RB24 (a ++ size3 n ++ rest) (length a) = n.
Proof.
  intros Hn. unfold BS_RB24.
  rewrite <- (Nat.add_0_r (length a)) at 1.
  rewrite !rd_app_r. unfold rd. cbn [size3 app nth].
  change 0xff with (Z.ones 8).
  apply Z.bits_inj'. intros i Hi.
  rewrite !Z.lor_spec, !Z.shiftl_spec, !Z.land_spec by lia.
  destruct (Z.lt_ge_cases i 8) as [H8 | H8].
  - rewrite (Z.testbit_neg_r (Z.shiftr n 16) (i - 16)) by lia.
    rewrite (Z.testbit_neg_r (Z.shiftr n 8) (i - 8)) by lia.
    rewrite (Z.ones_spec_low 8 i) by lia. cbn [andb orb].
    apply andb_true_r.
  - destruct (Z.lt_ge_cases i 16) as [H16 | H16].
    + rewrite (Z.testbit_neg_r (Z.shiftr n 16) (i - 16)) by lia.
      rewrite !Z.shiftr_spec by lia.
      rewrite (Z.ones_spec_low 8 (i - 8)) by lia.
      rewrite (Z.ones_spec_high 8 i) by lia.
      rewrite andb_true_r, andb_false_r, orb_false_r. cbn [andb orb].
      f_equal. lia.
    + rewrite !Z.shiftr_spec by lia.
      rewrite (Z.ones_spec_high 8 i), (Z.ones_spec_high 8 (i - 8)) by lia.
      rewrite !andb_false_r, !orb_false_r.
      destruct (Z.lt_ge_cases i 24) as [H24 | H24].
      * rewrite (Z.ones_spec_low 8 (i - 16)) by lia.
        rewrite andb_true_r. f_equal. lia.
      * rewrite (Z.ones_spec_high 8 (i - 16)) by lia.
        rewrite andb_false_r.
        symmetry. destruct (Z.eq_dec n 0) as [-> | Hne];
          [apply Z.bits_0|].
        apply Z.bits_above_log2; [lia|].
        apply Z.lt_le_trans with 24; [| lia].
        apply Z.log2_lt_pow2; lia.
Qed.

Lemma nal3_to_nal4_step (pkt : list Z) (pos : nat) (acc : list Z) :
  nal3_to_nal4 pkt pos acc
  = if Z.of_nat pos <? len pkt
    then nal3_to_nal4 pkt (pos + 3 + Z.to_nat (BS_RB24 pkt pos))
           (acc ++ nal3_emit pkt pos)
    else acc.
Proof.
  funelim (nal3_to_nal4 pkt pos acc).
  - rewrite Hlt. reflexivity.
  - rewrite e. reflexivity.
Qed.

Lemma nal3_to_nal4_frames (us : list (list Z)) :
  Forall (fun u => len u < 2 ^ 24) us ->
  forall (pre acc : list Z),
    nal3_to_nal4 (pre ++ frame3 us) (length pre) acc = acc ++ frame4 us.
Proof.
  induction 1 as [|u us Hu Hus IH]; intros pre acc;
    rewrite nal3_to_nal4_step.
  - cbn [frame3 frame4 map concat]. rewrite !app_nil_r.
    destruct (Z.ltb_spec (Z.of_nat (length pre)) (len pre));
      [unfold len in *; lia | reflexivity].
  - unfold frame3, frame4. cbn [map concat]. fold (frame3 us) (frame4 us).
    rewrite <- !app_assoc.
    pose proof (len_nonneg u) as Hu0.
    destruct (Z.ltb_spec (Z.of_nat (length pre))
                (len (pre ++ size3 (len u) ++ u ++ frame3 us))) as [Hl|Hl].
    + unfold nal3_emit.
      rewrite BS_RB24_size3 by lia.
      replace (span (pre ++ size3 (len u) ++ u ++ frame3 us)
                 (length pre + 3) (len u)) with u.
      * replace (pre ++ size3 (len u) ++ u ++ frame3 us)
          with ((pre ++ size3 (len u) ++ u) ++ frame3 us)
          by (rewrite <- !app_assoc; reflexivity).
        replace (length pre + 3 + Z.to_nat (len u))%nat
          with (length (pre ++ size3 (len u) ++ u))
          by (rewrite !length_app; cbn [size3 length]; unfold len; lia).
        rewrite IH. rewrite <- !app_assoc. reflexivity.
      * replace (pre ++ size3 (len u) ++ u ++ frame3 us)
          with ((pre ++ size3 (len u)) ++ u ++ frame3 us)
          by (rewrite <- !app_assoc; reflexivity).
        replace (length pre + 3)%nat with (length (pre ++ size3 (len u)))
          by (rewrite length_app; reflexivity).
        symmetry. apply span_exact.
    + rewrite !len_app in Hl. unfold len in Hl. cbn [size3 length] in Hl.
      lia.
Qed.

(** ** Annex-B start codes *)

Lemma zero_byte_test_complete (b0 b1 b2 b3 : Z) :
  is_byte b0 -> is_byte b1 -> is_byte b2 -> is_byte b3 ->
  b0 = 0 \/ b1 = 0 \/ b2 = 0 \/ b3 = 0 ->
  Avc.zero_byte_test (b0 + b1 * 2 ^ 8 + b2 * 2 ^ 16 + b3 * 2 ^ 24) = true.
Proof.
  unfold is_byte. intros H0 H1 H2 H3 Hz.
  set (x := b0 + b1 * 2 ^ 8 + b2 * 2 ^ 16 + b3 * 2 ^ 24).
  assert (Hbit : exists n, 0 <= n < 32
            /\ Z.testbit 0x80808080 n = true
            /\ Z.testbit x n = false
            /\ Z.testbit (x - 0x01010101) n = true).
  { destruct (Z.eq_dec b0 0) as [E0 | N0].
    { exists 7. repeat split; try lia; try reflexivity.
      - apply Z.testbit_false; [lia|]. subst x.
        change (2 ^ 7) with 128. change (2 ^ 8) with 256.
        change (2 ^ 16) with 65536. change (2 ^ 24) with 16777216.
        Z.div_mod_to_equations. lia.
      - apply Z.testbit_true; [lia|]. subst x.
        change (2 ^ 7) with 128. change (2 ^ 8) with 256.
        change (2 ^ 16) with 65536. change (2 ^ 24) with 16777216.
        Z.div_mod_to_equations. lia. }
    destruct (Z.eq_dec b1 0) as [E1 | N1].
    { exists 15. repeat split; try lia; try reflexivity.
      - apply Z.testbit_false; [lia|]. subst x.
        change (2 ^ 15) with 32768. change (2 ^ 8) with 256.
        change (2 ^ 16) with 65536. change (2 ^ 24) with 16777216.
        Z.div_mod_to_equations. lia.
      - apply Z.testbit_true; [lia|]. subst x.
        change (2 ^ 15) with 32768. change (2 ^ 8) with 256.
        change (2 ^ 16) with 65536. change (2 ^ 24) with 16777216.
        Z.div_mod_to_equations. lia. }
    destruct (Z.eq_dec b2 0) as [E2 | N2].
    { exists 23. repeat split; try lia; try reflexivity.
      - apply Z.testbit_false; [lia|]. subst x.
        change (2 ^ 23) with 8388608. change (2 ^ 8) with 256.
        change (2 ^ 16) with 65536. change (2 ^ 24) with 16777216.
        Z.div_mod_to_equations. lia.
      - apply Z.testbit_true; [lia|]. subst x.
        change (2 ^ 23) with 8388608. change (2 ^ 8) with 256.
        change (2 ^ 16) with 65536. change (2 ^ 24) with 16777216.
        Z.div_mod_to_equations. lia. }
    assert (E3 : b3 = 0) by lia.
    exists 31. repeat split; try lia; try reflexivity.
    - apply Z.testbit_false; [lia|]. subst x.
      change (2 ^ 31) with 2147483648. change (2 ^ 8) with 256.
      change (2 ^ 16) with 65536. change (2 ^ 24) with 16777216.
      Z.div_mod_to_equations. lia.
    - apply Z.testbit_true; [lia|]. subst x.
      change (2 ^ 31) with 2147483648. change (2 ^ 8) with 256.
      change (2 ^ 16) with 65536. change (2 ^ 24) with 16777216.
      Z.div_mod_to_equations. lia. }
  destruct Hbit as (n & Hn & Hm & Hx & Hs).
  unfold Avc.zero_byte_test. apply negb_true_iff, Z.eqb_neq. intros Heq.
  apply (f_equal (fun v => Z.testbit v n)) in Heq.
  rewrite Z.bits_0, !Z.land_spec, Hm in Heq. unfold u32 in Heq.
  rewrite !Z.mod_pow2_bits_low, Z.lnot_spec, Hx, Hs in Heq by lia.
  discriminate.
Qed.

Lemma rd_is_byte (buf : list Z) (i : nat) :
  Forall is_byte buf -> is_byte (rd buf i).
Proof.
  intros H. unfold rd. destruct (Nat.lt_ge_cases i (length buf)) as [Hi | Hi].
  - rewrite Forall_forall in H. apply H, nth_In, Hi.
  - rewrite nth_overflow by exact Hi. unfold is_byte. lia.
Qed.

Lemma byte_scan_spec (buf : list Z) (fuel : nat) (bound p : Z) :
  (Z.to_nat (bound - p) <= fuel)%nat ->
  match Avc.byte_scan buf fuel bound p with
  | inl r => p <= r < bound /\ Avc.startcode_at buf r = true
             /\ (forall i, p <= i < r -> Avc.startcode_at buf i = false)
  | inr q => q = Z.max p bound
             /\ (forall i, p <= i < q -> Avc.startcode_at buf i = false)
  end.
Proof.
  revert p. induction fuel as [|f IH]; intros p Hf; cbn [Avc.byte_scan].
  - split; [lia | intros i Hi; lia].
  - destruct (Z.ltb_spec p bound) as [Hlt | Hge].
    + destruct (Avc.startcode_at buf p) eqn:Hs.
      * split; [lia | split; [exact Hs | intros i Hi; lia]].
      * specialize (IH (p + 1) ltac:(lia)).
        destruct (Avc.byte_scan buf f bound (p + 1)) as [r | q].
        -- destruct IH as (Hr & Hsr & Hn). split; [lia | split; [exact Hsr|]].
           intros i Hi. destruct (Z.eq_dec i p) as [-> | Hne];
             [exact Hs | apply Hn; lia].
        -- destruct IH as (Hq & Hn). split; [lia|].
           intros i Hi. destruct (Z.eq_dec i p) as [-> | Hne];
             [exact Hs | apply Hn; lia].
    + split; [lia | intros i Hi; lia].
Qed.

Lemma word_hit_first (buf : list Z) (p : Z) :
  Avc.word_hit buf p
  = if Avc.startcode_at buf p then Some p
    else if Avc.startcode_at buf (p + 1) then Some (p + 1)
    else if Avc.startcode_at buf (p + 2) then Some (p + 2)
    else if Avc.startcode_at buf (p + 3) then Some (p + 3)
    else None.
Proof.
  unfold Avc.word_hit, Avc.startcode_at.
  replace (p + 1 + 1) with (p + 2) by lia.
  replace (p + 1 + 2) with (p + 3) by lia.
  replace (p + 2 + 1) with (p + 3) by lia.
  replace (p + 2 + 2) with (p + 4) by lia.
  replace (p + 3 + 1) with (p + 4) by lia.
  replace (p + 3 + 2) with (p + 5) by lia.
  rewrite Z.add_0_r.
  repeat match goal with
         | |- context [?x =? ?y] => destruct (x =? y)
         end; reflexivity.
Qed.

Lemma word_hit_spec (buf : list Z) (p : Z) :
  match Avc.word_hit buf p with
  | Some r => p <= r <= p + 3 /\ Avc.startcode_at buf r = true
              /\ (forall i, p <= i < r -> Avc.startcode_at buf i = false)
  | None => forall i, p <= i <= p + 3 -> Avc.startcode_at buf i = false
  end.
Proof.
  assert (Hall : forall (P : Z -> Prop) k,
             (0 < k -> P p) -> (1 < k -> P (p + 1)) ->
             (2 < k -> P (p + 2)) -> (3 < k -> P (p + 3)) ->
             k <= 4 -> forall i, p <= i < p + k -> P i).
  { intros P k H0 H1 H2 H3 Hk i Hi.
    assert (Hc : i = p \/ i = p + 1 \/ i = p + 2 \/ i = p + 3) by lia.
    destruct Hc as [-> | [-> | [-> | ->]]];
      [apply H0 | apply H1 | apply H2 | apply H3]; lia. }
  rewrite word_hit_first.
  destruct (Avc.startcode_at buf p) eqn:S0.
  { split; [lia | split; [exact S0 | intros i Hi; lia]]. }
  destruct (Avc.startcode_at buf (p + 1)) eqn:S1.
  { split; [lia | split; [exact S1|]].
    apply (Hall _ 1); intros; try assumption; lia. }
  destruct (Avc.startcode_at buf (p + 2)) eqn:S2.
  { split; [lia | split; [exact S2|]].
    apply (Hall _ 2); intros; try assumption; lia. }
  destruct (Avc.startcode_at buf (p + 3)) eqn:S3.
  { split; [lia | split; [exact S3|]].
    apply (Hall _ 3); intros; try assumption; lia. }
  intros i Hi. revert i Hi.
  assert (Hi4 : forall i, p <= i < p + 4 -> Avc.startcode_at buf i = false)
    by (apply (Hall _ 4); intros; try assumption; lia).
  intros i Hi. apply Hi4. lia.
Qed.

Lemma word_miss (buf : list Z) (p : Z) :
  Forall is_byte buf ->
  Avc.zero_byte_test (Avc.load32 buf p) = false ->
  forall i, p <= i <= p + 3 -> Avc.startcode_at buf i = false.
Proof.
  intros Hb Ht i Hi.
  destruct (Avc.startcode_at buf i) eqn:Hs; [|reflexivity].
  rewrite <- Ht. symmetry. unfold Avc.load32.
  apply zero_byte_test_complete; try (apply rd_is_byte; exact Hb).
  unfold Avc.startcode_at in Hs.
  apply andb_prop in Hs as [Hs _]. apply andb_prop in Hs as [Hs _].
  apply Z.eqb_eq in Hs.
  assert (Hc : i = p \/ i = p + 1 \/ i = p + 2 \/ i = p + 3) by lia.
  destruct Hc as [-> | [-> | [-> | ->]]]; auto.
Qed.

Lemma word_scan_spec (buf : list Z) (fuel : nat) (bound p : Z) :
  Forall is_byte buf ->
  (Z.to_nat (bound - p) <= fuel)%nat ->
  match Avc.word_scan buf fuel bound p with
  | inl r => p <= r <= bound + 2 /\ Avc.startcode_at buf r = true
             /\ (forall i, p <= i < r -> Avc.startcode_at buf i = false)
  | inr q => p <= q /\ bound <= q
             /\ (forall i, p <= i < q -> Avc.startcode_at buf i = false)
  end.
Proof.
  intros Hb. revert p. induction fuel as [|f IH]; intros p Hf;
    cbn [Avc.word_scan].
  - split; [lia | split; [lia | intros i Hi; lia]].
  - destruct (Z.ltb_spec p bound) as [Hlt | Hge];
      [| split; [lia | split; [lia | intros i Hi; lia]]].
    assert (Hnext : (forall i, p <= i <= p + 3 ->
                               Avc.startcode_at buf i = false) ->
              match Avc.word_scan buf f bound (p + 4) with
              | inl r => p <= r <= bound + 2
                         /\ Avc.startcode_at buf r = true
                         /\ (forall i, p <= i < r ->
                                       Avc.startcode_at buf i = false)
              | inr q => p <= q /\ bound <= q
                         /\ (forall i, p <= i < q ->
                                       Avc.startcode_at buf i = false)
              end).
    { intros Hnone. specialize (IH (p + 4) ltac:(lia)).
      destruct (Avc.word_scan buf f bound (p + 4)) as [r | q].
      - destruct IH as (Hr & Hs & Hn). split; [lia | split; [exact Hs|]].
        intros i Hi. destruct (Z.lt_ge_cases i (p + 4));
          [apply Hnone | apply Hn]; lia.
      - destruct IH as (Hq & Hq' & Hn). split; [lia | split; [lia|]].
        intros i Hi. destruct (Z.lt_ge_cases i (p + 4));
          [apply Hnone | apply Hn]; lia. }
    destruct (Avc.zero_byte_test (Avc.load32 buf p)) eqn:Ht.
    + pose proof (word_hit_spec buf p) as Hh.
      destruct (Avc.word_hit buf p) as [r|].
      * destruct Hh as (Hr & Hs & Hn).
        split; [lia | split; [exact Hs | exact Hn]].
      * apply Hnext. exact Hh.
    + apply Hnext. apply word_miss; assumption.
Qed.

Lemma internal_spec (addr : Z) (buf : list Z) (p e : Z) :
  Forall is_byte buf ->
  let r := Avc.avc_find_startcode_internal addr buf p e in
  (r = e \/ (p <= r <= e - 4 /\ Avc.startcode_at buf r = true))
  /\ (forall i, p <= i < r -> i <= e - 4 -> Avc.startcode_at buf i = false).
Proof.
  intros Hb. unfold Avc.avc_find_startcode_internal.
  assert (Ha : 0 <= Z.land (addr + p) 3 < 4).
  { change 3 with (Z.ones 2). rewrite Z.land_ones by lia.
    apply Z.mod_pos_bound. lia. }
  set (a := p + 4 - Z.land (addr + p) 3).
  pose proof (byte_scan_spec buf (Z.to_nat (Z.min a (e - 3) - p))
                (Z.min a (e - 3)) p (Nat.le_refl _)) as H1.
  destruct (Avc.byte_scan buf _ (Z.min a (e - 3)) p) as [r | p1].
  { destruct H1 as (Hr & Hs & Hn). cbv zeta.
    split; [right; split; [lia | exact Hs] | intros i Hi _; apply Hn, Hi]. }
  destruct H1 as (Hp1 & Hn1).
  pose proof (word_scan_spec buf (Z.to_nat (e - 3 - 3 - p1)) (e - 3 - 3)
                p1 Hb (Nat.le_refl _)) as H2.
  destruct (Avc.word_scan buf _ (e - 3 - 3) p1) as [r | p2].
  { destruct H2 as (Hr & Hs & Hn). cbv zeta.
    split; [right; split; [lia | exact Hs]|].
    intros i Hi _. destruct (Z.lt_ge_cases i p1);
      [apply Hn1 | apply Hn]; lia. }
  destruct H2 as (Hp2 & Hp2' & Hn2).
  pose proof (byte_scan_spec buf (Z.to_nat (e - 3 - p2)) (e - 3) p2
                (Nat.le_refl _)) as H3.
  destruct (Avc.byte_scan buf _ (e - 3) p2) as [r | q].
  { destruct H3 as (Hr & Hs & Hn). cbv zeta.
    split; [right; split; [lia | exact Hs]|].
    intros i Hi _. destruct (Z.lt_ge_cases i p1); [apply Hn1; lia|].
    destruct (Z.lt_ge_cases i p2); [apply Hn2 | apply Hn]; lia. }
  destruct H3 as (Hq & Hn3). cbv zeta.
  split; [left; lia|].
  intros i Hi Hi'. destruct (Z.lt_ge_cases i p1); [apply Hn1; lia|].
  destruct (Z.lt_ge_cases i p2); [apply Hn2 | apply Hn3]; lia.
Qed.

(** The position [internal_spec] describes is unique. *)
Lemma first_startcode_unique (buf : list Z) (p e r r' : Z) :
  (r = e \/ (p <= r <= e - 4 /\ Avc.startcode_at buf r = true)) ->
  (forall i, p <= i < r -> i <= e - 4 -> Avc.startcode_at buf i = false) ->
  (r' = e \/ (p <= r' <= e - 4 /\ Avc.startcode_at buf r' = true)) ->
  (forall i, p <= i < r' -> i <= e - 4 -> Avc.startcode_at buf i = false) ->
  r' = r.
Proof.
  intros H1 H2 H1' H2'.
  destruct (Z.lt_trichotomy r' r) as [Hlt | [Heq | Hgt]]; [| exact Heq |].
  - destruct H1' as [-> | ((Hp & Hr) & Hs)].
    + destruct H1 as [-> | ((Hp & Hr) & _)]; lia.
    + rewrite H2 in Hs by lia. discriminate.
  - destruct H1 as [-> | ((Hp & Hr) & Hs)].
    + destruct H1' as [Hr' | ((Hp & Hr') & _)]; lia.
    + rewrite H2' in Hs by lia. discriminate.
Qed.

(** [avc_find_startcode_internal] returns the first position from [p] on
    that holds 00 00 01 and has a byte behind it before [end], or [end]
    when there is none.  The answer does not depend on how the buffer is
    aligned, although the alignment decides which of the three loops looks
    at which byte. *)
Theorem avc_find_startcode_internal_first (addr : Z) (buf : list Z)
    (p e : Z) :
  Forall is_byte buf ->
  let r := Avc.avc_find_startcode_internal addr buf p e in
  (r = e \/ (p <= r <= e - 4 /\ Avc.startcode_at buf r = true))
  /\ (forall i, p <= i < r -> i <= e - 4 -> Avc.startcode_at buf i = false)
  /\ (forall addr', Avc.avc_find_startcode_internal addr' buf p e = r).
Proof.
  intros Hb r. destruct (internal_spec addr buf p e Hb) as (H1 & H2).
  fold r in H1, H2. split; [exact H1 | split; [exact H2|]].
  intros addr'. destruct (internal_spec addr' buf p e Hb) as (H1' & H2').
  exact (first_startcode_unique buf p e r _ H1 H2 H1' H2').
Qed.

(** ** Byte streams *)

Lemma rd_mid (pre u rest : list Z) (j : Z) :
  0 <= j < len u ->
  rd (pre ++ u ++ rest) (Z.to_nat (len pre + j)) = rd u (Z.to_nat j).
Proof.
  intros Hj. unfold len in *.
  replace (Z.to_nat (Z.of_nat (length pre) + j))
    with (length pre + Z.to_nat j)%nat by lia.
  rewrite rd_app_r. unfold rd. apply app_nth1. lia.
Qed.

Lemma rd_rest (pre u rest : list Z) (j : Z) :
  0 <= j ->
  rd (pre ++ u ++ rest) (Z.to_nat (len pre + len u + j))
  = rd rest (Z.to_nat j).
Proof.
  intros Hj. unfold len in *.
  replace (Z.to_nat (Z.of_nat (length pre) + Z.of_nat (length u) + j))
    with (length pre + (length u + Z.to_nat j))%nat by lia.
  rewrite !rd_app_r. reflexivity.
Qed.

Lemma rd_last (u : list Z) :
  u <> [] -> rd u (Z.to_nat (len u - 1)) = last u 0.
Proof.
  intros Hu. destruct (exists_last Hu) as (u' & x & ->).
  rewrite last_last. unfold rd, len. rewrite length_app. cbn [length].
  rewrite app_nth2 by lia.
  replace (Z.to_nat (Z.of_nat (length u' + 1) - 1) - length u')%nat
    with 0%nat by lia.
  reflexivity.
Qed.

Lemma annexb_unit_nonempty (u : list Z) : annexb_unit u -> 1 <= len u.
Proof.
  intros (_ & Hl & _). destruct u; [cbn in Hl; congruence|].
  unfold len. cbn [length]. lia.
Qed.

(** Inside a unit of the stream no start code begins. *)
Lemma no_startcode_in_unit (pre u rest : list Z) (i : Z) :
  annexb_unit u -> len pre <= i < len pre + len u ->
  Avc.startcode_at (pre ++ u ++ rest) i = false.
Proof.
  intros Hu Hi. pose proof (annexb_unit_nonempty u Hu) as Hn.
  destruct Hu as (_ & Hl & Hs).
  assert (Hne : u <> []) by (intros ->; cbn in Hl; congruence).
  pose proof (rd_last u Hne) as Hlast.
  unfold Avc.startcode_at.
  replace i with (len pre + (i - len pre)) by lia.
  set (j := i - len pre). assert (Hj : 0 <= j < len u) by lia.
  rewrite rd_mid by lia.
  destruct (Z.eq_dec j (len u - 1)) as [E1 | N1].
  { rewrite E1, Hlast. destruct (Z.eqb_spec (last u 0) 0); [congruence|].
    reflexivity. }
  replace (len pre + j + 1) with (len pre + (j + 1)) by lia.
  rewrite rd_mid by lia.
  destruct (Z.eq_dec j (len u - 2)) as [E2 | N2].
  { replace (j + 1) with (len u - 1) by lia. rewrite Hlast.
    destruct (Z.eqb_spec (last u 0) 0); [congruence|].
    rewrite andb_false_r. reflexivity. }
  replace (len pre + j + 2) with (len pre + (j + 2)) by lia.
  rewrite rd_mid by lia.
  apply (Hs j). lia.
Qed.

Lemma byte_stream_cons (b : bool) (u : list Z) (us : list (bool * list Z)) :
  byte_stream ((b, u) :: us) = start_code_of b ++ u ++ byte_stream us.
Proof. unfold byte_stream. cbn [map concat fst snd]. rewrite app_assoc. reflexivity. Qed.

Lemma byte_stream_bytes (us : list (bool * list Z)) :
  Forall annexb_unit (map snd us) -> Forall is_byte (byte_stream us).
Proof.
  induction us as [|[b u] us IH]; intros H; [constructor|].
  cbn [map snd] in H. inversion H as [|? ? (Hu & _) Hus]. subst.
  rewrite byte_stream_cons. apply Forall_app. split.
  - destruct b; repeat constructor; unfold is_byte; lia.
  - apply Forall_app. split; [exact Hu | apply IH, Hus].
Qed.

(** From the first byte of a unit, [avc_find_startcode] returns the end of
    the unit. *)
Lemma find_unit_end (addr : Z) (pre u : list Z) (us : list (bool * list Z)) :
  Forall is_byte pre -> annexb_unit u -> Forall annexb_unit (map snd us) ->
  Avc.avc_find_startcode addr (pre ++ u ++ byte_stream us) (len pre)
    (len (pre ++ u ++ byte_stream us))
  = len pre + len u.
Proof.
  intros Hpre Hu Hus.
  set (buf := pre ++ u ++ byte_stream us). set (e := len buf).
  assert (He : e = len pre + len u + len (byte_stream us))
    by (unfold e, buf; rewrite !len_app; lia).
  assert (Hb : Forall is_byte buf).
  { unfold buf. apply Forall_app. split; [exact Hpre|].
    apply Forall_app. split; [apply Hu | apply byte_stream_bytes, Hus]. }
  pose proof (annexb_unit_nonempty u Hu) as Hn.
  assert (Hlast : rd buf (Z.to_nat (len pre + len u - 1)) <> 0).
  { unfold buf. replace (len pre + len u - 1) with (len pre + (len u - 1))
      by lia.
    rewrite rd_mid by lia. rewrite rd_last; [apply Hu|].
    intros ->. unfold len in Hn. cbn in Hn. lia. }
  destruct (internal_spec addr buf (len pre) e Hb) as (H1 & H2).
  unfold Avc.avc_find_startcode.
  set (r := Avc.avc_find_startcode_internal addr buf (len pre) e) in *.
  destruct us as [|[b u'] us'].
  - (* the last unit: no start code is left *)
    assert (Hr : r = e).
    { apply (first_startcode_unique buf (len pre) e e r);
        [left; reflexivity | | exact H1 | exact H2].
      intros i Hi _. apply no_startcode_in_unit; [exact Hu|].
      unfold byte_stream in He. cbn in He. change (len []) with 0 in He.
      lia. }
    rewrite Hr. rewrite (Z.ltb_irrefl e), andb_false_r. cbn [andb].
    unfold byte_stream in He. cbn in He. change (len []) with 0 in He. lia.
  - cbn [map snd] in Hus. inversion Hus as [|? ? Hu' Hus']. subst.
    pose proof (annexb_unit_nonempty u' Hu') as Hn'.
    rewrite byte_stream_cons in He. rewrite !len_app in He.
    pose proof (len_nonneg (byte_stream us')) as Hnn.
    assert (Hsc : len (start_code_of b) = if b then 4 else 3)
      by (destruct b; reflexivity).
    rewrite Hsc in He.
    assert (Hrest : forall j, 0 <= j ->
               rd buf (Z.to_nat (len pre + len u + j))
               = rd (start_code_of b ++ u' ++ byte_stream us') (Z.to_nat j)).
    { intros j Hj. unfold buf. rewrite rd_rest by lia.
      rewrite byte_stream_cons. reflexivity. }
    assert (Hr : r = len pre + len u + (if b then 1 else 0)).
    { apply (first_startcode_unique buf (len pre) e _ r);
        [right | | exact H1 | exact H2].
      - split.
        + destruct b; lia.
        + unfold Avc.startcode_at.
          destruct b.
          * replace (len pre + len u + 1 + 1) with (len pre + len u + 2)
              by lia.
            replace (len pre + len u + 1 + 2) with (len pre + len u + 3)
              by lia.
            rewrite !Hrest by lia. reflexivity.
          * rewrite Z.add_0_r.
            rewrite <- (Z.add_0_r (len pre + len u)) at 1.
            rewrite !Hrest by lia. reflexivity.
      - intros i Hi _.
        destruct (Z.lt_ge_cases i (len pre + len u)) as [Hlt | Hge].
        + apply no_startcode_in_unit; [exact Hu | lia].
        + destruct b; [|lia]. assert (i = len pre + len u) as -> by lia.
          unfold Avc.startcode_at.
          rewrite <- (Z.add_0_r (len pre + len u)) at 1.
          rewrite !Hrest by lia. reflexivity. }
    rewrite Hr. destruct b.
    + replace (len pre + len u + 1 - 1) with (len pre + len u + 0) by lia.
      rewrite Hrest by lia.
      destruct (Z.ltb_spec (len pre) (len pre + len u + 1)); [|lia].
      destruct (Z.ltb_spec (len pre + len u + 1) e); [|lia].
      cbn. lia.
    + rewrite Z.add_0_r.
      destruct (Z.eqb_spec (rd buf (Z.to_nat (len pre + len u - 1))) 0);
        [contradiction|].
      rewrite andb_false_r. reflexivity.
Qed.

Lemma rd_at_len (pre : list Z) (x : Z) (rest : list Z) :
  rd (pre ++ x :: rest) (Z.to_nat (len pre)) = x.
Proof.
  unfold len. rewrite Nat2Z.id.
  rewrite <- (Nat.add_0_r (length pre)) at 1. apply rd_app_r.
Qed.

Lemma skip_zeros_run (k : nat) :
  forall (pre rest : list Z) (fuel : nat),
    (k < fuel)%nat ->
    Avc.skip_zeros (pre ++ repeat 0 k ++ 1 :: rest) fuel
      (len (pre ++ repeat 0 k ++ 1 :: rest)) (len pre)
    = len pre + Z.of_nat k + 1.
Proof.
  induction k as [|k IH]; intros pre rest fuel Hf;
    (destruct fuel as [|f]; [lia|]); cbn [Avc.skip_zeros repeat app];
    rewrite rd_at_len.
  - assert (Hlt : len pre < len (pre ++ 1 :: rest))
      by (rewrite len_app; unfold len; cbn [length]; lia).
    destruct (Z.ltb_spec (len pre) (len (pre ++ 1 :: rest))); [|lia].
    cbn. lia.
  - assert (Hlt : len pre < len (pre ++ 0 :: repeat 0 k ++ 1 :: rest))
      by (rewrite len_app; unfold len; cbn [length]; lia).
    destruct (Z.ltb_spec (len pre)
                (len (pre ++ 0 :: repeat 0 k ++ 1 :: rest))); [|lia].
    cbn [Z.eqb].
    assert (Hl : pre ++ 0 :: repeat 0 k ++ 1 :: rest
                 = (pre ++ [0]) ++ repeat 0 k ++ 1 :: rest)
      by (rewrite <- app_assoc; reflexivity).
    rewrite Hl.
    replace (len pre + 1) with (len (pre ++ [0]))
      by (rewrite len_app; reflexivity).
    rewrite IH by lia. rewrite len_app. change (len [0]) with 1. lia.
Qed.

Lemma skip_start_code (b : bool) (pre rest : list Z) (fuel : nat) :
  (3 < fuel)%nat ->
  Avc.skip_zeros (pre ++ start_code_of b ++ rest) fuel
    (len (pre ++ start_code_of b ++ rest)) (len pre)
  = len pre + len (start_code_of b).
Proof.
  intros Hf. destruct b.
  - change (start_code_of true ++ rest) with (repeat 0 3 ++ 1 :: rest).
    rewrite skip_zeros_run by lia. change (len (start_code_of true)) with 4.
    lia.
  - change (start_code_of false ++ rest) with (repeat 0 2 ++ 1 :: rest).
    rewrite skip_zeros_run by lia. change (len (start_code_of false)) with 3.
    lia.
Qed.

Lemma frame4_cons (u : list Z) (us : list (list Z)) :
  frame4 (u :: us) = wb32 (len u) ++ u ++ frame4 us.
Proof. unfold frame4. cbn [map concat]. rewrite app_assoc. reflexivity. Qed.

Lemma s32_add_l (x y : Z) : s32 (s32 x + y) = s32 (x + y).
Proof.
  apply s32_congr. rewrite Zplus_mod, s32_mod, <- Zplus_mod. reflexivity.
Qed.

Lemma parse_loop_stream (addr : Z) (us : list (bool * list Z)) :
  forall (pre pb : list Z) (sz : Z) (fuel : nat),
    Forall is_byte pre -> Forall annexb_unit (map snd us) ->
    (length us < fuel)%nat ->
    Avc.parse_loop addr (pre ++ byte_stream us) fuel
      (len (pre ++ byte_stream us)) (len pre) pb (s32 sz)
    = (pb ++ frame4 (map snd us), s32 (sz + len (frame4 (map snd us)))).
Proof.
  induction us as [|[b u] us IH]; intros pre pb sz fuel Hpre Hus Hf;
    (destruct fuel as [|f]; [cbn [length] in Hf; lia|]);
    cbn [Avc.parse_loop].
  - unfold byte_stream. cbn [map concat]. rewrite app_nil_r.
    rewrite Z.sub_diag. cbn [Z.to_nat Avc.skip_zeros].
    rewrite Z.eqb_refl. cbn [map]. unfold frame4. cbn [map concat].
    rewrite app_nil_r. change (len []) with 0. rewrite Z.add_0_r.
    reflexivity.
  - cbn [map snd] in Hus. inversion Hus as [|? ? Hu Hus']. subst.
    pose proof (annexb_unit_nonempty u Hu) as Hn.
    rewrite byte_stream_cons.
    set (sc := start_code_of b).
    assert (Hsc : 3 <= len sc <= 4) by (subst sc; destruct b; cbn; lia).
    set (buf := pre ++ sc ++ u ++ byte_stream us).
    assert (He : len buf = len pre + len sc + len u + len (byte_stream us))
      by (unfold buf; rewrite !len_app; lia).
    pose proof (len_nonneg (byte_stream us)) as Hnn.
    assert (Hskip : Avc.skip_zeros buf (Z.to_nat (len buf - len pre))
                      (len buf) (len pre) = len pre + len sc)
      by (unfold buf, sc; apply skip_start_code; fold sc; fold buf; lia).
    rewrite !Hskip.
    destruct (Z.eqb_spec (len pre + len sc) (len buf)); [lia|].
    assert (Hpre' : Forall is_byte (pre ++ sc)).
    { apply Forall_app. split; [exact Hpre|].
      subst sc. destruct b; repeat constructor; unfold is_byte; lia. }
    assert (Hbuf : buf = (pre ++ sc) ++ u ++ byte_stream us)
      by (unfold buf; rewrite <- app_assoc; reflexivity).
    assert (Hend : Avc.avc_find_startcode addr buf (len pre + len sc)
                     (len buf) = len pre + len sc + len u).
    { rewrite Hbuf. rewrite <- (len_app pre sc).
      apply find_unit_end; assumption. }
    rewrite Hend.
    replace (len pre + len sc + len u - (len pre + len sc)) with (len u)
      by lia.
    assert (Hspan : span buf (Z.to_nat (len pre + len sc)) (len u) = u).
    { rewrite Hbuf, <- (len_app pre sc). unfold len at 1.
      rewrite Nat2Z.id. apply span_exact. }
    rewrite Hspan.
    replace (s32 sz + 4 + len u) with (s32 sz + (4 + len u)) by lia.
    rewrite s32_add_l.
    assert (Hbuf2 : buf = (pre ++ sc ++ u) ++ byte_stream us)
      by (unfold buf; rewrite <- !app_assoc; reflexivity).
    rewrite Hbuf2 at 1 2.
    replace (len pre + len sc + len u) with (len (pre ++ sc ++ u))
      by (rewrite !len_app; lia).
    rewrite IH.
    + cbn [map snd]. rewrite frame4_cons, <- !app_assoc. f_equal.
      f_equal. rewrite !len_app. change (len (wb32 (len u))) with 4. lia.
    + rewrite app_assoc. apply Forall_app. split; [exact Hpre' | apply Hu].
    + exact Hus'.
    + cbn [length] in Hf. lia.
Qed.

Lemma find_stream_start (addr : Z) (us : list (bool * list Z)) :
  Forall annexb_unit (map snd us) ->
  Avc.avc_find_startcode addr (byte_stream us) 0 (len (byte_stream us)) = 0.
Proof.
  intros Hus. pose proof (byte_stream_bytes us Hus) as Hb.
  destruct (internal_spec addr (byte_stream us) 0 (len (byte_stream us)) Hb)
    as (H1 & H2).
  unfold Avc.avc_find_startcode.
  set (r := Avc.avc_find_startcode_internal addr (byte_stream us) 0
              (len (byte_stream us))) in *.
  clearbody r.
  destruct us as [|[b u] us].
  - unfold byte_stream in *. cbn [map concat] in *.
    change (len []) with 0 in *.
    assert (r = 0) as -> by (destruct H1 as [? | ((? & ?) & _)]; lia).
    reflexivity.
  - cbn [map snd] in Hus. inversion Hus as [|? ? Hu Hus']. subst.
    pose proof (annexb_unit_nonempty u Hu) as Hn.
    pose proof (len_nonneg (byte_stream us)) as Hnn.
    rewrite byte_stream_cons in *.
    assert (He : len (start_code_of b ++ u ++ byte_stream us)
                 = (if b then 4 else 3) + len u + len (byte_stream us)).
    { rewrite !len_app.
      assert (Hsc : len (start_code_of b) = if b then 4 else 3)
        by (destruct b; reflexivity).
      lia. }
    rewrite He in *.
    assert (Hr : r = if b then 1 else 0).
    { apply (first_startcode_unique
               (start_code_of b ++ u ++ byte_stream us) 0
               ((if b then 4 else 3) + len u + len (byte_stream us)) _ r);
        [right | | exact H1 | exact H2].
      - split; [destruct b; lia | destruct b; reflexivity].
      - intros i Hi _. destruct b; [|lia].
        assert (i = 0) as -> by lia. reflexivity. }
    rewrite Hr. destruct b; [|reflexivity].
    destruct (Z.ltb_spec 1 (4 + len u + len (byte_stream us))); [|lia].
    reflexivity.
Qed.

Lemma byte_stream_long (us : list (bool * list Z)) :
  (length us <= length (byte_stream us))%nat.
Proof.
  induction us as [|[b u] us IH]; [cbn; lia|].
  rewrite byte_stream_cons, !length_app. cbn [length].
  destruct b; cbn [start_code_of length]; lia.
Qed.

(** A byte stream of units, each behind a start code of three or of four
    bytes, comes out of [avc_parse_nal_units] as the same units in the
    same order, each behind its size as four bytes; the returned size is
    the number of bytes written. *)
Theorem avc_parse_nal_units_frames (addr : Z) (us : list (bool * list Z)) :
  Forall annexb_unit (map snd us) ->
  Avc.avc_parse_nal_units addr (byte_stream us) (len (byte_stream us))
  = (frame4 (map snd us), s32 (len (frame4 (map snd us)))).
Proof.
  intros Hus. unfold Avc.avc_parse_nal_units.
  rewrite find_stream_start by exact Hus.
  pose proof (parse_loop_stream addr us [] [] 0
                (S (Z.to_nat (len (byte_stream us)))) (Forall_nil _) Hus)
    as H.
  cbn [app] in H. change (len []) with 0 in H. change (s32 0) with 0 in H.
  rewrite Z.add_0_l in H. apply H.
  pose proof (byte_stream_long us). unfold len. lia.
Qed.






(** ** The avcC record *)

Lemma parse_stream_fst (addr : Z) (us : list (bool * list Z)) :
  Forall annexb_unit (map snd us) ->
  fst (Avc.avc_parse_nal_units addr (byte_stream us) (len (byte_stream us)))
  = frame4 (map snd us).
Proof.
  intros Hus. unfold Avc.avc_parse_nal_units.
  rewrite find_stream_start by exact Hus.
  pose proof (parse_loop_stream addr us [] [] 0
                (S (Z.to_nat (len (byte_stream us)))) (Forall_nil _) Hus)
    as H.
  cbn [app] in H. change (len []) with 0 in H. change (s32 0) with 0 in H.
  rewrite H; [reflexivity|].
  pose proof (byte_stream_long us). unfold len. lia.
Qed.

Lemma lor4_be (b0 b1 b2 b3 : Z) :
  is_byte b1 -> is_byte b2 -> is_byte b3 ->
  Z.lor (Z.lor (Z.lor (Z.shiftl b0 24) (Z.shiftl b1 16)) (Z.shiftl b2 8)) b3
  = be_value [b0; b1; b2; b3].
Proof.
  intros H1 H2 H3. unfold be_value. cbn [fold_left].
  change (Z.shiftl b0 24) with (Z.shiftl b0 (8 + 8 + 8)).
  change (Z.shiftl b1 16) with (Z.shiftl b1 (8 + 8)).
  rewrite <- (Z.shiftl_shiftl b0 (8 + 8) 8) by lia.
  rewrite <- (Z.shiftl_shiftl b0 8 8) by lia.
  rewrite <- (Z.shiftl_shiftl b1 8 8) by lia.
  rewrite <- !Z.shiftl_lor.
  rewrite !lor_shiftl_byte by assumption. lia.
Qed.

Lemma be_value_wb32 (n : Z) : 0 <= n < 2 ^ 32 -> be_value (wb32 n) = n.
Proof.
  intros Hn. unfold be_value, wb32. cbn [fold_left].
  rewrite !Z.shiftr_div_pow2 by lia. change 0xff with (Z.ones 8).
  rewrite !Z.land_ones by lia.
  change (2 ^ 24) with 16777216. change (2 ^ 16) with 65536.
  change (2 ^ 8) with 256. change (2 ^ 32) with 4294967296 in Hn.
  Z.div_mod_to_equations. lia.
Qed.

Lemma wb32_bytes (n : Z) : Forall is_byte (wb32 n).
Proof.
  unfold wb32, is_byte. change 0xff with (Z.ones 8).
  repeat constructor; rewrite Z.land_ones by lia;
    apply Z.mod_pos_bound; lia.
Qed.

Lemma BS_RB32_wb32 (pre rest : list Z) (n : Z) :
  0 <= n < 2 ^ 32 -> BS_RB32 (pre ++ wb32 n ++ rest) (length pre) = n.
Proof.
  intros Hn. unfold BS_RB32.
  rewrite <- (Nat.add_0_r (length pre)) at 1. rewrite !rd_app_r.
  pose proof (wb32_bytes n) as Hb. pose proof (be_value_wb32 n Hn) as Hv.
  unfold wb32 in *. unfold rd. cbn [app nth].
  apply Forall_cons_iff in Hb. destruct Hb as [_ Hb].
  apply Forall_cons_iff in Hb. destruct Hb as [B1 Hb].
  apply Forall_cons_iff in Hb. destruct Hb as [B2 Hb].
  apply Forall_cons_iff in Hb. destruct Hb as [B3 _].
  rewrite lor4_be by assumption. exact Hv.
Qed.

Lemma span_rd (buf : list Z) (p : nat) (sz : Z) (k : nat) :
  (k < Z.to_nat sz)%nat -> rd (span buf p sz) k = rd buf (p + k).
Proof.
  intros Hk. unfold span, rd.
  rewrite (nth_indep _ 0 ((fun j => nth (p + j) buf 0) 0%nat))
    by (rewrite length_map, length_seq; exact Hk).
  rewrite (map_nth (fun j => nth (p + j) buf 0)).
  rewrite seq_nth by exact Hk. reflexivity.
Qed.

Lemma avcc_scan_fuel (buf : list Z) (e : Z) :
  forall (fuel fuel' : nat) (pos : Z) (sps pps : option (Z * Z)),
    (Z.to_nat (e - pos) <= fuel)%nat -> (Z.to_nat (e - pos) <= fuel')%nat ->
    Avc.avcc_scan buf fuel e pos sps pps
    = Avc.avcc_scan buf fuel' e pos sps pps.
Proof.
  induction fuel as [|f IH]; intros fuel' pos sps pps Hf Hf'.
  - destruct fuel' as [|f']; [reflexivity|]. cbn [Avc.avcc_scan].
    destruct (Z.ltb_spec 4 (e - pos)); [lia | reflexivity].
  - destruct fuel' as [|f']; cbn [Avc.avcc_scan];
      destruct (Z.ltb_spec 4 (e - pos)); try lia; try reflexivity.
    assert (Hsz : 0 <= Z.min (u32 (BS_RB32 buf (Z.to_nat pos)))
                         (u32 (e - pos - 4))).
    { unfold u32. apply Z.min_glb; apply Z.mod_pos_bound; lia. }
    destruct (_ =? 7); [apply IH; lia|].
    destruct (_ =? 8); apply IH; lia.
Qed.

Lemma frame4_long (us : list (list Z)) :
  (length us <= length (frame4 us))%nat.
Proof.
  induction us as [|u us IH]; [cbn; lia|].
  rewrite frame4_cons, !length_app. cbn [wb32 length]. lia.
Qed.

Lemma avcc_scan_frames (us : list (list Z)) :
  forall (pre : list Z) (fuel : nat) (sps pps : option (Z * Z))
         (su pu : option (list Z)),
    len (pre ++ frame4 us) < 2 ^ 32 ->
    Forall (fun u => u <> []) us -> (length us <= fuel)%nat ->
    avcc_found (pre ++ frame4 us) sps su ->
    avcc_found (pre ++ frame4 us) pps pu ->
    avcc_found (pre ++ frame4 us)
      (fst (Avc.avcc_scan (pre ++ frame4 us) fuel (len (pre ++ frame4 us))
              (len pre) sps pps))
      (last_of_type 7 us su)
    /\ avcc_found (pre ++ frame4 us)
         (snd (Avc.avcc_scan (pre ++ frame4 us) fuel
                 (len (pre ++ frame4 us)) (len pre) sps pps))
         (last_of_type 8 us pu).
Proof.
  induction us as [|u us IH]; intros pre fuel sps pps su pu Hlen Hne Hf Hs Hp.
  - change (frame4 []) with (@nil Z) in *. rewrite app_nil_r in *.
    cbn [last_of_type].
    destruct fuel as [|f]; cbn [Avc.avcc_scan fst snd]; [split; assumption|].
    rewrite Z.sub_diag. cbn [Z.ltb Z.compare fst snd]. split; assumption.
  - inversion Hne as [|? ? Hu Hne']. subst.
    destruct fuel as [|f]; [cbn [length] in Hf; lia|].
    cbn [Avc.avcc_scan last_of_type]. rewrite frame4_cons in *.
    set (buf := pre ++ wb32 (len u) ++ u ++ frame4 us) in *.
    assert (He : len buf = len pre + 4 + len u + len (frame4 us)).
    { unfold buf. rewrite !len_app. change (len (wb32 (len u))) with 4. lia. }
    pose proof (len_nonneg (frame4 us)) as Hnn.
    pose proof (len_nonneg pre) as Hnp.
    assert (Hlu : 0 < len u)
      by (destruct u; [congruence | unfold len; cbn [length]; lia]).
    destruct (Z.ltb_spec 4 (len buf - len pre)); [|lia].
    assert (Hrb : BS_RB32 buf (Z.to_nat (len pre)) = len u).
    { unfold len at 1. rewrite Nat2Z.id. apply BS_RB32_wb32. lia. }
    rewrite Hrb.
    assert (Hsz : Z.min (u32 (len u)) (u32 (len buf - len pre - 4)) = len u).
    { unfold u32. rewrite !Z.mod_small by lia. lia. }
    rewrite Hsz.
    assert (Hbuf : buf = (pre ++ wb32 (len u)) ++ u ++ frame4 us)
      by (unfold buf; rewrite <- app_assoc; reflexivity).
    assert (Hl4 : Z.to_nat (len pre + 4) = length (pre ++ wb32 (len u)))
      by (rewrite length_app; unfold len; cbn [wb32 length]; lia).
    assert (Hty : rd buf (Z.to_nat (len pre + 4)) = rd u 0).
    { rewrite Hl4, Hbuf. rewrite <- (Nat.add_0_r (length _)).
      rewrite rd_app_r. destruct u; [congruence | reflexivity]. }
    rewrite Hty.
    assert (Hthis : avcc_found buf (Some (len pre + 4, len u)) (Some u)).
    { cbn [avcc_found]. split; [lia | split; [reflexivity|]].
      rewrite Hl4, Hbuf. apply span_exact. }
    assert (Hbuf2 : buf = (pre ++ wb32 (len u) ++ u) ++ frame4 us)
      by (unfold buf; rewrite <- !app_assoc; reflexivity).
    assert (Hpos : len pre + 4 + len u = len (pre ++ wb32 (len u) ++ u))
      by (rewrite !len_app; change (len (wb32 (len u))) with 4; lia).
    rewrite Hpos.
    specialize (IH (pre ++ wb32 (len u) ++ u) f).
    rewrite <- Hbuf2 in IH.
    cbn [length] in Hf.
    destruct (Z.land (rd u 0) 31 =? 7) eqn:E7.
    + assert (E8 : (Z.land (rd u 0) 31 =? 8) = false)
        by (apply Z.eqb_eq in E7; rewrite E7; reflexivity).
      rewrite E8. apply IH; try assumption; lia.
    + destruct (Z.land (rd u 0) 31 =? 8) eqn:E8;
        apply IH; try assumption; lia.
Qed.

Lemma last_of_type_in (t : Z) (us : list (list Z)) :
  forall (acc : option (list Z)) (u : list Z),
    last_of_type t us acc = Some u -> acc = Some u \/ In u us.
Proof.
  induction us as [|v us IH]; intros acc u H; cbn [last_of_type] in H;
    [left; exact H|].
  destruct (IH _ _ H) as [Ha | Hin]; [| right; right; exact Hin].
  destruct (Z.land (rd v 0) 31 =? t); [| left; exact Ha].
  inversion Ha. right. left. reflexivity.
Qed.

Lemma byte_stream_in (us : list (bool * list Z)) (u : list Z) :
  In u (map snd us) -> len u + 3 <= len (byte_stream us).
Proof.
  induction us as [|[b v] us IH]; intros Hin; [destruct Hin|].
  rewrite byte_stream_cons, !len_app.
  pose proof (len_nonneg (byte_stream us)). pose proof (len_nonneg v).
  assert (Hsc : 3 <= len (start_code_of b)) by (destruct b; cbn; lia).
  destruct Hin as [<- | Hin]; [cbn [snd]; lia|].
  specialize (IH Hin). lia.
Qed.

Lemma frame4_len (us : list (bool * list Z)) :
  len (frame4 (map snd us)) <= len (byte_stream us) + Z.of_nat (length us).
Proof.
  induction us as [|[b u] us IH]; [cbn; lia|].
  cbn [map snd length]. rewrite frame4_cons, byte_stream_cons, !len_app.
  change (len (wb32 (len u))) with 4.
  assert (Hsc : 3 <= len (start_code_of b)) by (destruct b; cbn; lia).
  lia.
Qed.

Lemma isom_write_avcc_record (addr ret : Z) (us : list (bool * list Z))
    (sps pps : list Z) :
  0 <= ret -> Forall annexb_unit (map snd us) ->
  len (byte_stream us) < 2 ^ 31 ->
  last_of_type 7 (map snd us) None = Some sps ->
  last_of_type 8 (map snd us) None = Some pps ->
  4 <= len sps <= 65535 -> len pps <= 65535 ->
  Avc.isom_write_avcc addr ret (byte_stream us) (len (byte_stream us))
  = Some (avcc_record sps pps, 0).
Proof.
  intros Hret Hus Hlen H7 H8 Hsps Hpps.
  assert (Hin : In sps (map snd us))
    by (destruct (last_of_type_in _ _ _ _ H7); [discriminate | assumption]).
  pose proof (byte_stream_in us sps Hin) as Hl.
  assert (Hstart : (BS_RB32 (byte_stream us) 0 =? 1)
                   || (BS_RB24 (byte_stream us) 0 =? 1) = true).
  { destruct us as [|[b u] us']; [destruct Hin|].
    rewrite byte_stream_cons. destruct b.
    - reflexivity.
    - apply orb_true_iff. right. reflexivity. }
  unfold Avc.isom_write_avcc.
  destruct (Z.ltb_spec 6 (len (byte_stream us))); [|lia].
  rewrite Hstart. unfold Avc.avc_parse_nal_units_buf.
  destruct (Z.ltb_spec ret 0); [lia|].
  rewrite parse_stream_fst by exact Hus.
  set (buf := frame4 (map snd us)).
  assert (Hne : Forall (fun u => u <> []) (map snd us)).
  { rewrite Forall_forall in *. intros u Hu ->.
    pose proof (annexb_unit_nonempty [] (Hus _ Hu)) as Hnil.
    unfold len in Hnil. cbn in Hnil. lia. }
  assert (Hbl : len buf < 2 ^ 32).
  { pose proof (frame4_len us). pose proof (byte_stream_long us).
    unfold buf. unfold len in *. lia. }
  destruct (avcc_scan_frames (map snd us) [] (length buf) None None None None)
    as [F7 F8]; try exact I; try assumption.
  { unfold buf. apply frame4_long. }
  cbn [app] in F7, F8. change (len []) with 0 in F7, F8. fold buf in F7, F8.
  rewrite H7 in F7. rewrite H8 in F8.
  destruct (Avc.avcc_scan buf (length buf) (len buf) 0 None None)
    as [[[p7 s7]|] [[p8 s8]|]]; cbn [fst snd avcc_found] in F7, F8;
    try contradiction.
  destruct F7 as (P7 & -> & S7). destruct F8 as (P8 & -> & S8).
  unfold Avc.UINT16_MAX.
  destruct (Z.ltb_spec (len sps) 4); [lia|].
  destruct (Z.ltb_spec 65535 (len sps)); [lia|].
  destruct (Z.ltb_spec 65535 (len pps)); [lia|].
  cbn [orb]. rewrite S7, S8. unfold avcc_record.
  assert (Hrd : forall k, (k < 4)%nat ->
              rd buf (Z.to_nat (p7 + Z.of_nat k)) = rd sps k).
  { intros k Hk. rewrite <- S7 at 1. rewrite span_rd by lia.
    f_equal. lia. }
  pose proof (Hrd 1%nat ltac:(lia)) as R1.
  pose proof (Hrd 2%nat ltac:(lia)) as R2.
  pose proof (Hrd 3%nat ltac:(lia)) as R3.
  change (Z.of_nat 1) with 1 in R1. change (Z.of_nat 2) with 2 in R2.
  change (Z.of_nat 3) with 3 in R3.
  rewrite R1, R2, R3. reflexivity.
Qed.

Lemma annexb_unitb_sound (u : list Z) :
  annexb_unitb u = true -> annexb_unit u.
Proof.
  unfold annexb_unitb, annexb_unit. intros H.
  apply andb_prop in H as [H H3]. apply andb_prop in H as [H1 H2].
  apply negb_true_iff, Z.eqb_neq in H2.
  split; [| split; [exact H2|]].
  - rewrite forallb_forall in H1. apply Forall_forall. intros b Hb.
    specialize (H1 b Hb). apply andb_prop in H1 as [Ha Hc].
    apply Z.leb_le in Ha. apply Z.ltb_lt in Hc. unfold is_byte. lia.
  - intros i Hi. rewrite forallb_forall in H3.
    destruct (Nat.lt_ge_cases (Z.to_nat i) (length u)) as [Hlt | Hge].
    + specialize (H3 (Z.to_nat i)). rewrite Z2Nat.id in H3 by lia.
      apply negb_true_iff, H3, in_seq. lia.
    + unfold Avc.startcode_at, rd.
      rewrite (nth_overflow u 0 (n := Z.to_nat (i + 2))) by lia.
      rewrite andb_false_r. reflexivity.
Qed.

(** ** The converter: what a call leaves unchanged *)

(** ** The SEI probe on a unit given by its messages *)

Lemma read_ff_repeat (q : nat) (r : Z) (l : list Z) :
  r <> 0xFF ->
  read_ff (repeat 0xFF q ++ r :: l) = (255 * Z.of_nat q + r, S q).
Proof.
  intros Hr. induction q as [|q IH].
  - cbn [repeat app read_ff]. apply Z.eqb_neq in Hr. rewrite Hr.
    f_equal; lia.
  - cbn [repeat app read_ff]. change (255 =? 255) with true. cbv iota.
    rewrite IH. f_equal; lia.
Qed.

Lemma ff_bytes_length (v : Z) :
  length (ff_bytes v) = S (Z.to_nat (v / 255)).
Proof.
  unfold ff_bytes. rewrite length_app, repeat_length. cbn [length]. lia.
Qed.

Lemma read_ff_ff_bytes (v : Z) (l : list Z) :
  0 <= v -> read_ff (ff_bytes v ++ l) = (v, length (ff_bytes v)).
Proof.
  intros Hv. rewrite ff_bytes_length. unfold ff_bytes.
  rewrite <- app_assoc. cbn [app].
  pose proof (Z.mod_pos_bound v 255 ltac:(lia)) as Hm.
  rewrite read_ff_repeat by lia. f_equal.
  rewrite Z2Nat.id by (apply Z.div_pos; lia).
  pose proof (Z.div_mod v 255 ltac:(lia)). lia.
Qed.

Lemma ff_bytes_head (v : Z) (l : list Z) :
  0 <= v -> v <> 128 -> hd 0 (ff_bytes v ++ l) <> 128.
Proof.
  intros Hv Hne. unfold ff_bytes.
  destruct (Z.to_nat (v / 255)) as [|q] eqn:Hq; cbn [repeat app hd];
    [| lia].
  assert (v / 255 = 0) by (pose proof (Z.div_pos v 255 Hv); lia).
  pose proof (Z.div_mod v 255 ltac:(lia)). lia.
Qed.

Lemma read_ff_count (l : list Z) : (1 <= snd (read_ff l))%nat.
Proof.
  destruct l as [|b l]; cbn [read_ff]; [cbn; lia|].
  destruct (b =? 255); [destruct (read_ff l)|]; cbn [snd]; lia.
Qed.

(** The walk over the messages of a unit: it answers at the first
    recovery-point message, and stops with no answer at the byte 0x80
    behind the last message. *)
Lemma sei_rounds_messages (msgs : list (Z * list Z)) :
  forall (fuel : nat) (pre following : list Z),
    msgs <> [] -> (length msgs <= S fuel)%nat ->
    Forall (fun m => 0 <= fst m /\ fst m <> 128) msgs ->
    sei_rounds fuel
      (pre ++ flat_map sei_message msgs ++ 0x80 :: following)
      (length pre + length (flat_map sei_message msgs) + 1)
      (length pre)
    = sei_recovery_point msgs.
Proof.
  induction msgs as [|[t pl] rest IH]; intros fuel pre following Hne Hf Hall;
    [congruence|].
  inversion Hall as [|? ? [Ht H128] Hrest]; subst. cbn [fst snd] in Ht, H128.
  cbn [flat_map].
  change (sei_message (t, pl)) with (ff_bytes t ++ ff_bytes (len pl) ++ pl).
  set (tb := ff_bytes t). set (sb := ff_bytes (len pl)).
  set (tail := flat_map sei_message rest ++ 128 :: following).
  assert (Hp : pre ++ ((tb ++ sb ++ pl) ++ flat_map sei_message rest)
                 ++ 128 :: following
               = pre ++ tb ++ sb ++ pl ++ tail).
  { subst tail. rewrite <- !app_assoc. reflexivity. }
  rewrite Hp.
  assert (E1 : read_ff (skipn (length pre) (pre ++ tb ++ sb ++ pl ++ tail))
               = (t, length tb)).
  { rewrite skipn_app, skipn_all, Nat.sub_diag. cbn [skipn app].
    apply read_ff_ff_bytes. exact Ht. }
  assert (E2 : read_ff (skipn (length pre + length tb)
                          (pre ++ tb ++ sb ++ pl ++ tail))
               = (len pl, length sb)).
  { rewrite (app_assoc pre tb), <- length_app.
    rewrite skipn_app, skipn_all, Nat.sub_diag. cbn [skipn app].
    apply read_ff_ff_bytes. unfold len. lia. }
  assert (E3 : span (pre ++ tb ++ sb ++ pl ++ tail)
                 (length pre + length tb + length sb) (len pl) = pl).
  { rewrite (app_assoc pre tb), (app_assoc (pre ++ tb) sb).
    rewrite <- !length_app. apply span_exact. }
  unfold sei_recovery_point. cbn [find fst snd].
  destruct fuel as [|f]; cbn [sei_rounds]; rewrite E1, E2, E3;
    destruct (t =? SEI_RECOVERY_POINT); try reflexivity.
  - destruct rest; [reflexivity | cbn [length] in Hf; lia].
  - set (o3 := (length pre + length tb + length sb + Z.to_nat (len pl))%nat).
    assert (Ho3 : o3 = length (pre ++ tb ++ sb ++ pl)).
    { subst o3. rewrite !length_app. unfold len. lia. }
    assert (Hlt : (o3 <? length pre
                     + length ((tb ++ sb ++ pl) ++ flat_map sei_message rest)
                     + 1)%nat = true).
    { apply Nat.ltb_lt. rewrite Ho3, !length_app. lia. }
    rewrite Hlt. cbn [andb].
    assert (Hrd : rd (pre ++ tb ++ sb ++ pl ++ tail) o3 = hd 0 tail).
    { replace (pre ++ tb ++ sb ++ pl ++ tail)
        with ((pre ++ tb ++ sb ++ pl) ++ tail)
        by (rewrite <- !app_assoc; reflexivity).
      rewrite Ho3. unfold rd. rewrite app_nth2, Nat.sub_diag by lia.
      destruct tail; reflexivity. }
    rewrite Hrd.
    destruct rest as [|m rest'].
    + subst tail. cbn [flat_map app hd]. reflexivity.
    + assert (Hm : hd 0 tail <> 128).
      { subst tail. cbn [flat_map].
        change (sei_message m)
          with (ff_bytes (fst m) ++ ff_bytes (len (snd m)) ++ snd m).
        rewrite <- !app_assoc. inversion Hrest as [|? ? [Hm0 Hm1] _]; subst.
        apply ff_bytes_head; assumption. }
      apply Z.eqb_neq in Hm. rewrite Hm. cbn [negb].
      specialize (IH f (pre ++ tb ++ sb ++ pl) following
                    ltac:(discriminate) ltac:(cbn [length] in *; lia) Hrest).
      unfold sei_recovery_point in IH. rewrite <- IH.
      rewrite Ho3. f_equal.
      * subst tail. rewrite <- !app_assoc. reflexivity.
      * rewrite !length_app. lia.
Qed.

Lemma sei_message_length (m : Z * list Z) :
  (2 <= length (sei_message m))%nat.
Proof.
  unfold sei_message. rewrite !length_app, !ff_bytes_length. lia.
Qed.

Lemma flat_map_messages_length (msgs : list (Z * list Z)) :
  (2 * length msgs <= length (flat_map sei_message msgs))%nat.
Proof.
  induction msgs as [|m msgs IH]; cbn [flat_map length]; [lia|].
  rewrite length_app. pose proof (sei_message_length m). lia.
Qed.

(** [has_sei_recovery_point] on an SEI unit given by its messages, with
    whatever follows the unit in the packet. *)
Lemma has_sei_recovery_point_messages (header : Z)
    (msgs : list (Z * list Z)) (following : list Z) :
  Forall (fun m => 0 <= fst m /\ fst m <> 128) msgs ->
  has_sei_recovery_point (sei_nal header msgs ++ following)
    (length (sei_nal header msgs))
  = sei_recovery_point msgs.
Proof.
  intros Hall. unfold has_sei_recovery_point, sei_nal.
  destruct msgs as [|m msgs].
  - cbn [flat_map app length sei_rounds skipn read_ff].
    change (128 =? 255) with false. cbv iota. cbn [Nat.add skipn].
    pose proof (read_ff_count following) as Hk.
    destruct (read_ff following) as [ps k2]. cbn [snd] in Hk.
    change (128 =? SEI_RECOVERY_POINT) with false. cbv iota.
    destruct (Nat.ltb_spec (2 + k2 + Z.to_nat ps) 2); [lia | reflexivity].
  - pose proof (flat_map_messages_length (m :: msgs)) as Hl.
    cbn [length] in Hl |- *.
    rewrite length_app. cbn [length].
    pose proof (sei_rounds_messages (m :: msgs)
                  (length (flat_map sei_message (m :: msgs)) + 1)
                  [header] following ltac:(discriminate)
                  ltac:(cbn [length]; lia) Hall) as H.
    cbn [length app] in H.
    cbn [app]. rewrite <- app_assoc. cbn [app].
    replace (S (length (flat_map sei_message (m :: msgs)) + 1))
      with (1 + length (flat_map sei_message (m :: msgs)) + 1)%nat by lia.
    rewrite <- H.
    apply sei_rounds_enough; lia.
Qed.

Section ConverterProperties.

Context {E : Collaborators}.

(** Unfolding of the field updates and projections of the records. *)
Ltac record_simpl :=
  cbv beta iota delta [
    set_dv_profile set_el_present_flag set_bl_present_flag
    set_dv_bl_signal_compatibility_id set_extradata set_hdrType set_dovi
    set_dovi_el_type set_length_size set_first_idr set_idr_sps_pps_seen
    set_sps_pps_data set_size set_m_convertBuffer set_m_convertSize
    set_m_inputBuffer set_m_inputSize set_m_sps_pps_size
    set_m_sps_pps_context
    set_m_convert_bitstream set_m_to_annexb set_m_combine set_m_extraData
    set_m_convert_3byteTo4byteNALSize set_m_convert_bytestream set_m_codec
    set_m_hints set_m_intial_hdrType set_m_start_decode set_m_first_frame
    set_m_hdrStaticMetadataInfo set_m_convert_dovi set_m_removeDovi
    set_m_removeHdr10Plus set_m_convert_Hdr10Plus
    set_m_prefer_Hdr10Plus_conversion set_m_dual_priority_Hdr10Plus
    m_convertBuffer m_convertSize m_inputBuffer m_inputSize
    m_sps_pps_size m_sps_pps_context m_convert_bitstream m_to_annexb m_combine m_extraData
    m_convert_3byteTo4byteNALSize m_convert_bytestream m_codec m_hints
    m_intial_hdrType m_start_decode m_convert_dovi m_removeDovi
    m_removeHdr10Plus m_convert_Hdr10Plus m_prefer_Hdr10Plus_conversion
    m_dual_priority_Hdr10Plus m_convert_Hdr10Plus_peak_brightness_source
    m_first_frame m_hdrStaticMetadataInfo length_size first_idr
    idr_sps_pps_seen sps_pps_data size codec extradata hdrType dovi
    dovi_el_type dv_version_major dv_version_minor dv_profile dv_level
    rpu_present_flag el_present_flag bl_present_flag
    dv_bl_signal_compatibility_id upd_ctx upd_hints upd_dovi].

Ltac proj_simpl :=
  cbn [
    set_dv_profile set_el_present_flag set_bl_present_flag
    set_dv_bl_signal_compatibility_id set_extradata set_hdrType set_dovi
    set_dovi_el_type set_length_size set_first_idr set_idr_sps_pps_seen
    set_sps_pps_data set_size set_m_convertBuffer set_m_convertSize
    set_m_inputBuffer set_m_inputSize set_m_sps_pps_size
    set_m_sps_pps_context
    set_m_convert_bitstream set_m_to_annexb set_m_combine set_m_extraData
    set_m_convert_3byteTo4byteNALSize set_m_convert_bytestream set_m_codec
    set_m_hints set_m_intial_hdrType set_m_start_decode set_m_first_frame
    set_m_hdrStaticMetadataInfo set_m_convert_dovi set_m_removeDovi
    set_m_removeHdr10Plus set_m_convert_Hdr10Plus
    set_m_prefer_Hdr10Plus_conversion set_m_dual_priority_Hdr10Plus
    m_convertBuffer m_convertSize m_inputBuffer m_inputSize
    m_sps_pps_size m_sps_pps_context m_convert_bitstream m_to_annexb m_combine m_extraData
    m_convert_3byteTo4byteNALSize m_convert_bytestream m_codec m_hints
    m_intial_hdrType m_start_decode m_convert_dovi m_removeDovi
    m_removeHdr10Plus m_convert_Hdr10Plus m_prefer_Hdr10Plus_conversion
    m_dual_priority_Hdr10Plus m_convert_Hdr10Plus_peak_brightness_source
    m_first_frame m_hdrStaticMetadataInfo length_size first_idr
    idr_sps_pps_seen sps_pps_data size codec extradata hdrType dovi
    dovi_el_type dv_version_major dv_version_minor dv_profile dv_level
    rpu_present_flag el_present_flag bl_present_flag
    dv_bl_signal_compatibility_id upd_ctx upd_hints upd_dovi fst snd negb andb orb].

Ltac record_simpl_in H :=
  cbv beta iota delta [
    set_dv_profile set_el_present_flag set_bl_present_flag
    set_dv_bl_signal_compatibility_id set_extradata set_hdrType set_dovi
    set_dovi_el_type set_length_size set_first_idr set_idr_sps_pps_seen
    set_sps_pps_data set_size set_m_convertBuffer set_m_convertSize
    set_m_inputBuffer set_m_inputSize set_m_sps_pps_size
    set_m_sps_pps_context
    set_m_convert_bitstream set_m_to_annexb set_m_combine set_m_extraData
    set_m_convert_3byteTo4byteNALSize set_m_convert_bytestream set_m_codec
    set_m_hints set_m_intial_hdrType set_m_start_decode set_m_first_frame
    set_m_hdrStaticMetadataInfo set_m_convert_dovi set_m_removeDovi
    set_m_removeHdr10Plus set_m_convert_Hdr10Plus
    set_m_prefer_Hdr10Plus_conversion set_m_dual_priority_Hdr10Plus
    m_convertBuffer m_convertSize m_inputBuffer m_inputSize
    m_sps_pps_size m_sps_pps_context m_convert_bitstream m_to_annexb m_combine m_extraData
    m_convert_3byteTo4byteNALSize m_convert_bytestream m_codec m_hints
    m_intial_hdrType m_start_decode m_convert_dovi m_removeDovi
    m_removeHdr10Plus m_convert_Hdr10Plus m_prefer_Hdr10Plus_conversion
    m_dual_priority_Hdr10Plus m_convert_Hdr10Plus_peak_brightness_source
    m_first_frame m_hdrStaticMetadataInfo length_size first_idr
    idr_sps_pps_seen sps_pps_data size codec extradata hdrType dovi
    dovi_el_type dv_version_major dv_version_minor dv_profile dv_level
    rpu_present_flag el_present_flag bl_present_flag
    dv_bl_signal_compatibility_id upd_ctx upd_hints upd_dovi] in H.

(** Case analysis on every [match] and [if] of a goal. *)
Ltac break_goal :=
  repeat match goal with
         | |- context [match ?x with _ => _ end] => destruct x eqn:?
         end.

Lemma outbuf_ok_empty : outbuf_ok (None, 0).
Proof. reflexivity. Qed.

Lemma appends_refl (out : outbuf) : outbuf_ok out -> appends out out.
Proof. intros H. split; [exact H | exists []; rewrite app_nil_r; reflexivity]. Qed.

Lemma appends_trans (o1 o2 o3 : outbuf) :
  appends o1 o2 -> appends o2 o3 -> appends o1 o3.
Proof.
  intros [_ [m1 H1]] [Hok [m2 H2]]. split; [exact Hok|].
  exists (m1 ++ m2). rewrite H2, H1, app_assoc. reflexivity.
Qed.

Lemma appends_copy (out : outbuf) (inp : list Z) (t : Z) :
  outbuf_ok out -> appends out (BitstreamAllocAndCopy out None 0 inp t).
Proof.
  intros Hok. rewrite BitstreamAllocAndCopy_spec by (auto; reflexivity).
  unfold appends, outbuf_ok in *. cbn [fst snd bytes_of prologue_of app].
  split.
  - rewrite !len_app. lia.
  - eexists. reflexivity.
Qed.

Lemma appends_copy32 (out : outbuf) (inp : list Z) (t : Z) :
  outbuf_ok out -> appends out (BitstreamAllocAndCopy32 out inp t).
Proof.
  intros Hok. rewrite BitstreamAllocAndCopy32_spec by auto.
  unfold appends, outbuf_ok in *. cbn [fst snd bytes_of].
  split.
  - rewrite !len_app. lia.
  - eexists. reflexivity.
Qed.

Lemma same_frame_refl (c : CBitstreamConverter) : same_frame c c.
Proof. repeat split. Qed.

Lemma same_frame_trans (c1 c2 c3 : CBitstreamConverter) :
  same_frame c1 c2 -> same_frame c2 c3 -> same_frame c1 c3.
Proof.
  intros (A1 & A2 & A3 & A4 & A5 & A6) (B1 & B2 & B3 & B4 & B5 & B6).
  repeat split; congruence.
Qed.

Lemma same_frame_hints (c : CBitstreamConverter) (hn : CDVDStreamInfo) :
  same_frame c (set_m_hints hn c).
Proof. repeat split. Qed.

Lemma same_frame_hdr (c : CBitstreamConverter) (i : HDRStaticMetadataInfo) :
  same_frame c (set_m_hdrStaticMetadataInfo i c).
Proof. repeat split. Qed.

(** *** [ProcessSeiPrefix] *)

Lemma ApplyMasteringDisplayColourVolume_frame (c : CBitstreamConverter)
    (m : MasteringDisplayColourVolume) (u : bool) :
  same_frame c (fst (ApplyMasteringDisplayColourVolume c m u))
  /\ m_hints (fst (ApplyMasteringDisplayColourVolume c m u)) = m_hints c.
Proof.
  unfold ApplyMasteringDisplayColourVolume.
  destruct (_ || _); cbn [fst]; split; try reflexivity;
    auto using same_frame_refl, same_frame_hdr.
Qed.

Lemma ApplyContentLightLevel_frame (c : CBitstreamConverter)
    (m : ContentLightLevel) (u : bool) :
  same_frame c (fst (ApplyContentLightLevel c m u))
  /\ m_hints (fst (ApplyContentLightLevel c m u)) = m_hints c.
Proof.
  unfold ApplyContentLightLevel.
  destruct (_ || _); cbn [fst]; split; try reflexivity;
    auto using same_frame_refl, same_frame_hdr.
Qed.

Lemma ProcessSeiPrefix_frame (c : CBitstreamConverter) (buf : list Z)
    (out : outbuf) (h : option Hdr10PlusMetadata) :
  let c' := fst (fst (ProcessSeiPrefix c buf out h)) in
  same_frame c c' /\ dovi (m_hints c') = dovi (m_hints c).
Proof.
  unfold ProcessSeiPrefix.
  set (messages := ParseSeiRbspUnclearedEmulation buf).
  assert (H1 : exists c1 u1,
             match ExtractMasteringDisplayColourVolume messages with
             | Some colourVolume =>
                 ApplyMasteringDisplayColourVolume c colourVolume false
             | None => (c, false)
             end = (c1, u1)
             /\ same_frame c c1 /\ m_hints c1 = m_hints c).
  { destruct (ExtractMasteringDisplayColourVolume messages) as [m|].
    - pose proof (ApplyMasteringDisplayColourVolume_frame c m false) as H.
      destruct (ApplyMasteringDisplayColourVolume c m false) as [c1 u1].
      exists c1, u1. cbn [fst] in H. tauto.
    - exists c, false. auto using same_frame_refl. }
  destruct H1 as (c1 & u1 & -> & F1 & Hh1).
  assert (H2 : exists c2 u2,
             match ExtractContentLightLevel messages with
             | Some lightLevel => ApplyContentLightLevel c1 lightLevel u1
             | None => (c1, u1)
             end = (c2, u2)
             /\ same_frame c1 c2 /\ m_hints c2 = m_hints c1).
  { destruct (ExtractContentLightLevel messages) as [m|].
    - pose proof (ApplyContentLightLevel_frame c1 m u1) as H.
      destruct (ApplyContentLightLevel c1 m u1) as [c2 u2].
      exists c2, u2. cbn [fst] in H. tauto.
    - exists c1, u1. auto using same_frame_refl. }
  destruct H2 as (c2 & u2 & -> & F2 & Hh2).
  assert (F : same_frame c c2) by (eapply same_frame_trans; eauto).
  assert (Hh : dovi (m_hints c2) = dovi (m_hints c)) by congruence.
  assert (F3 : forall hn, same_frame c (set_m_hints hn c2))
    by (intros; eapply same_frame_trans; eauto using same_frame_hints).
  break_goal; cbn [fst snd upd_hints]; split; auto.
Qed.

Lemma ProcessSeiPrefix_appends (c : CBitstreamConverter) (buf : list Z)
    (out : outbuf) (h : option Hdr10PlusMetadata) :
  outbuf_ok out -> appends out (snd (fst (ProcessSeiPrefix c buf out h))).
Proof.
  intros Hok. unfold ProcessSeiPrefix.
  break_goal; cbn [fst snd];
    try (apply appends_copy; assumption); apply appends_refl; assumption.
Qed.

(** *** [ProcessDoViRpu] and [AddDoViRpuNalu] *)

Lemma ProcessDoViRpu_frame (c : CBitstreamConverter) (nal : list Z)
    (out : outbuf) :
  same_frame c (fst (ProcessDoViRpu c nal out)).
Proof.
  unfold ProcessDoViRpu, run_get_dovi_rpu_info, upd_dovi, upd_hints.
  destruct HAVE_LIBDOVI; [| apply same_frame_refl].
  destruct (m_convert_dovi c) eqn:Hm;
    try destruct (convert_dovi_rpu_nal nal _);
    cbn [fst]; repeat split; cbn; try rewrite Hm; reflexivity.
Qed.

Lemma ProcessDoViRpu_appends (c : CBitstreamConverter) (nal : list Z)
    (out : outbuf) :
  outbuf_ok out -> appends out (snd (ProcessDoViRpu c nal out)).
Proof.
  intros Hok. unfold ProcessDoViRpu.
  break_goal; cbn [fst snd]; apply appends_copy; assumption.
Qed.

Lemma AddDoViRpuNalu_frame (c : CBitstreamConverter)
    (meta : Hdr10PlusMetadata) (out : outbuf) :
  same_frame c (fst (AddDoViRpuNalu c meta out)).
Proof.
  unfold AddDoViRpuNalu, run_get_dovi_rpu_info, upd_hints.
  break_goal; cbn [fst]; repeat split; reflexivity.
Qed.

Lemma AddDoViRpuNalu_appends (c : CBitstreamConverter)
    (meta : Hdr10PlusMetadata) (out : outbuf) :
  outbuf_ok out -> appends out (snd (AddDoViRpuNalu c meta out)).
Proof.
  intros Hok. unfold AddDoViRpuNalu.
  break_goal; cbn [fst snd];
    try (apply appends_copy; assumption); apply appends_refl; assumption.
Qed.

(** *** One unit of the single-track loop *)

Lemma IsIDR_codec (c c' : CBitstreamConverter) (t : Z) :
  m_codec c' = m_codec c -> IsIDR c' t = IsIDR c t.
Proof. unfold IsIDR. intros ->. reflexivity. Qed.

Lemma IsSlice_codec (c c' : CBitstreamConverter) (t : Z) :
  m_codec c' = m_codec c -> IsSlice c' t = IsSlice c t.
Proof. unfold IsSlice. intros ->. reflexivity. Qed.

Lemma config_codec (c c' : CBitstreamConverter) :
  config_of c' = config_of c -> m_codec c' = m_codec c.
Proof. unfold config_of. intros H. inversion H. reflexivity. Qed.

Lemma dispatch_frame (c : CBitstreamConverter) (t : Z) (nal : list Z)
    (out : outbuf) (h : option Hdr10PlusMetadata) :
  same_frame c (fst (fst (dispatch c t nal out h))).
Proof.
  unfold dispatch.
  destruct (t =? HEVC_NAL_SEI_PREFIX); [apply ProcessSeiPrefix_frame|].
  destruct (t =? HEVC_NAL_UNSPEC62).
  - destruct (_ && _); [| apply same_frame_refl].
    pose proof (ProcessDoViRpu_frame c nal out) as H.
    destruct (ProcessDoViRpu c nal out). exact H.
  - destruct (t =? HEVC_NAL_UNSPEC63); [destruct (_ && _)|];
      apply same_frame_refl.
Qed.

Lemma dispatch_appends (c : CBitstreamConverter) (t : Z) (nal : list Z)
    (out : outbuf) (h : option Hdr10PlusMetadata) :
  outbuf_ok out -> appends out (snd (fst (dispatch c t nal out h))).
Proof.
  intros Hok. unfold dispatch.
  destruct (t =? HEVC_NAL_SEI_PREFIX); [apply ProcessSeiPrefix_appends; auto|].
  destruct (t =? HEVC_NAL_UNSPEC62).
  - destruct (_ && _); [| apply appends_refl; auto].
    pose proof (ProcessDoViRpu_appends c nal out Hok) as H.
    destruct (ProcessDoViRpu c nal out). exact H.
  - destruct (t =? HEVC_NAL_UNSPEC63); [destruct (_ && _)|];
      cbn [fst snd]; auto using appends_refl, appends_copy.
Qed.

(** [convert_nal] in three steps: the two flag updates, then either the
    prologue copy or the re-arming and the dispatch. *)
Lemma convert_nal_eq (c : CBitstreamConverter) (codes : Z * Z * Z)
    (t : Z) (p : list Z) (n : Z) (out : outbuf)
    (h : option Hdr10PlusMetadata) :
  let nal := firstn (Z.to_nat n) p in
  let '(fi, seen, pro) :=
    idr_step (IsIDR c) (IsSlice c) (is_sps_pps codes) (idr_flags c) t in
  let c2 :=
    set_m_start_decode (m_start_decode c || starts_decode c codes t p n)
      (upd_ctx (fun x => set_idr_sps_pps_seen seen (set_first_idr fi x)) c) in
  convert_nal c codes t p n out h
  = if pro
    then (c2,
          BitstreamAllocAndCopy out (sps_pps_data (m_sps_pps_context c))
            (size (m_sps_pps_context c)) nal t, h)
    else dispatch c2 t nal out h.
Proof.
  destruct codes as [[nal_sps nal_pps] nal_sei].
  unfold convert_nal, idr_step, idr_flags, starts_decode, is_sps_pps,
    dispatch. cbv zeta.
  unfold IsIDR, IsSlice.
  set (idr := match m_codec c with
              | AV_CODEC_ID_H264 => t =? AVC_NAL_IDR_SLICE
              | AV_CODEC_ID_HEVC =>
                  (t =? HEVC_NAL_IDR_W_RADL) || (t =? HEVC_NAL_IDR_N_LP)
                  || (t =? HEVC_NAL_CRA_NUT)
              | AV_CODEC_ID_OTHER => false
              end).
  set (trig := (t =? nal_sps) || idr
               || (t =? nal_sei) && has_sei_recovery_point p (Z.to_nat n)).
  destruct (first_idr (m_sps_pps_context c) =? 0) eqn:HA;
    destruct ((t =? nal_sps) || (t =? nal_pps)) eqn:HB; proj_simpl;
    fold idr; fold trig;
    destruct (m_start_decode c) eqn:HD; proj_simpl;
    try (destruct trig eqn:HT; proj_simpl);
    rewrite ?HA; fold idr; proj_simpl;
    destruct idr eqn:HI; proj_simpl;
    try change (1 =? 0) with false; proj_simpl;
    try (destruct (idr_sps_pps_seen (m_sps_pps_context c) =? 0) eqn:HS;
         proj_simpl);
    repeat match goal with
           | |- context [if match m_codec c with _ => _ end then _ else _] =>
               destruct (match m_codec c with
                         | AV_CODEC_ID_H264 => t =? AVC_NAL_SLICE
                         | AV_CODEC_ID_HEVC => _
                         | AV_CODEC_ID_OTHER => false
                         end) eqn:HL; proj_simpl
           end.
  all: clear HA HB; try clear HT; try clear HS; try clear HL;
    try clear HI; try clear trig; try clear idr;
    destruct c as [cb cs ib isz sps [ls fi seen spd sz] bs ta cmb ed c34 cby cd
                     hn ih sd md rd rh ch ph dh pk ff hi];
    cbn [m_start_decode] in HD; subst sd; reflexivity.
Qed.

Lemma convert_nal_frame (c : CBitstreamConverter) (codes : Z * Z * Z)
    (t : Z) (p : list Z) (n : Z) (out : outbuf)
    (h : option Hdr10PlusMetadata) :
  let c' := fst (fst (convert_nal c codes t p n out h)) in
  config_of c' = config_of c
  /\ m_first_frame c' = m_first_frame c
  /\ m_combine c' = m_combine c
  /\ m_start_decode c' = m_start_decode c || starts_decode c codes t p n
  /\ idr_flags c'
     = fst (idr_step (IsIDR c) (IsSlice c) (is_sps_pps codes)
              (idr_flags c) t)
  /\ buffers_of c' = buffers_of c.
Proof.
  pose proof (convert_nal_eq c codes t p n out h) as H. cbv zeta in H.
  destruct (idr_step (IsIDR c) (IsSlice c) (is_sps_pps codes)
              (idr_flags c) t) as [[fi seen] pro].
  rewrite H. clear H. cbn [fst].
  set (c2 := set_m_start_decode _ _).
  assert (H2 : config_of c2 = config_of c /\ m_first_frame c2 = m_first_frame c
               /\ m_combine c2 = m_combine c
               /\ m_start_decode c2
                  = m_start_decode c || starts_decode c codes t p n
               /\ idr_flags c2 = (fi, seen)
               /\ buffers_of c2 = buffers_of c) by (repeat split).
  destruct pro; [exact H2|].
  destruct (dispatch_frame c2 t (firstn (Z.to_nat n) p) out h)
    as (A1 & A2 & A3 & A4 & A5 & A6).
  destruct H2 as (B1 & B2 & B3 & B4 & B5 & B6).
  repeat split; congruence.
Qed.

Lemma convert_nal_appends (c : CBitstreamConverter) (codes : Z * Z * Z)
    (t : Z) (p : list Z) (n : Z) (out : outbuf)
    (h : option Hdr10PlusMetadata) :
  prologue_ok c -> outbuf_ok out ->
  appends out (snd (fst (convert_nal c codes t p n out h))).
Proof.
  intros Hp Hok.
  pose proof (convert_nal_eq c codes t p n out h) as H. cbv zeta in H.
  destruct (idr_step (IsIDR c) (IsSlice c) (is_sps_pps codes)
              (idr_flags c) t) as [[fi seen] pro].
  rewrite H. clear H. destruct pro.
  - cbn [fst snd]. rewrite BitstreamAllocAndCopy_spec by assumption.
    unfold appends, outbuf_ok, prologue_ok in *. cbn [fst snd bytes_of].
    split.
    + rewrite !len_app. lia.
    + eexists. reflexivity.
  - apply dispatch_appends. assumption.
Qed.

Lemma prologue_ok_config (c c' : CBitstreamConverter) :
  config_of c' = config_of c -> prologue_ok c -> prologue_ok c'.
Proof.
  unfold prologue_ok, config_of. intros H. inversion H. congruence.
Qed.

(** *** The loop over the units of a packet *)

Lemma nal_loop_step (codes : Z * Z * Z) (c : CBitstreamConverter)
    (pkt : list Z) (pos : nat) (out : outbuf)
    (h : option Hdr10PlusMetadata) :
  nal_loop codes c pkt pos out h
  = match nal_body c codes pkt pos out h with
    | IterFail c1 => LoopFail c1
    | IterNext c1 out1 h1 pos2 =>
        if Z.of_nat pos2 <? len pkt
        then nal_loop codes c1 pkt pos2 out1 h1
        else LoopDone c1 out1 h1
    end.
Proof.
  funelim (nal_loop codes c pkt pos out h).
  - rewrite e. reflexivity.
  - rewrite Hb, Hlt. reflexivity.
  - rewrite Hb, e. reflexivity.
Qed.

Lemma nal_body_unit (c : CBitstreamConverter) (codes : Z * Z * Z)
    (pkt : list Z) (pos : nat) (out : outbuf)
    (h : option Hdr10PlusMetadata) (n : Z) :
  let ls := length_size (m_sps_pps_context c) in
  0 <= ls -> Z.of_nat pos + ls <= len pkt ->
  n = read_nal_size ls pkt pos -> 0 < n ->
  Z.of_nat pos + ls + n <= len pkt ->
  nal_body c codes pkt pos out h
  = let '(c1, out1, h1) :=
      convert_nal c codes (unit_type_at c pkt (pos + Z.to_nat ls))
        (skipn (pos + Z.to_nat ls) pkt) n out h in
    IterNext c1 out1 h1 (pos + Z.to_nat ls + Z.to_nat n).
Proof.
  intros ls Hls H1 Hn Hpos H2. unfold nal_body. fold ls. rewrite <- Hn.
  destruct (Z.gtb_spec (Z.of_nat pos + ls) (len pkt)); [lia|].
  destruct (Z.gtb_spec (Z.of_nat (pos + Z.to_nat ls) + n) (len pkt));
    [lia|].
  destruct (Z.leb_spec n 0); [lia|]. reflexivity.
Qed.

Lemma nal_body_bad (c : CBitstreamConverter) (codes : Z * Z * Z)
    (pkt : list Z) (pos : nat) (out : outbuf)
    (h : option Hdr10PlusMetadata) :
  let ls := length_size (m_sps_pps_context c) in
  0 <= ls ->
  read_nal_size ls pkt pos <= 0
  \/ Z.of_nat pos + ls + read_nal_size ls pkt pos > len pkt ->
  nal_body c codes pkt pos out h = IterFail c.
Proof.
  intros ls Hls Hbad. unfold nal_body. fold ls.
  destruct (Z.gtb_spec (Z.of_nat pos + ls) (len pkt)); [reflexivity|].
  destruct (Z.gtb_spec (Z.of_nat (pos + Z.to_nat ls)
                        + read_nal_size ls pkt pos) (len pkt));
    [reflexivity|].
  destruct (Z.leb_spec (read_nal_size ls pkt pos) 0); [reflexivity|].
  lia.
Qed.

Lemma config_length_size (c c' : CBitstreamConverter) :
  config_of c' = config_of c ->
  length_size (m_sps_pps_context c') = length_size (m_sps_pps_context c).
Proof. unfold config_of. intros H. inversion H. reflexivity. Qed.

(** On a well-formed packet the loop is the fold of [convert_nal] over
    the units. *)
Lemma nal_loop_nals (codes : Z * Z * Z) (pkt : list Z) (ls : Z)
    (pos : nat) (nals : list (nat * Z)) :
  packet_nals ls pkt pos nals ->
  forall (c : CBitstreamConverter) (out : outbuf)
         (h : option Hdr10PlusMetadata),
    length_size (m_sps_pps_context c) = ls -> 0 <= ls ->
    nal_loop codes c pkt pos out h
    = let '(c1, out1, h1) := convert_nals codes c pkt nals out h in
      LoopDone c1 out1 h1.
Proof.
  induction 1 as [pos n H1 Hn Hpos H2 | pos n rest H1 Hn Hpos H2 Hrest IH];
    intros c out h Hls Hls0; subst ls.
  - rewrite nal_loop_step, (nal_body_unit c codes pkt pos out h n)
      by (auto; lia).
    cbn [convert_nals].
    destruct (convert_nal c codes _ _ n out h) as [[c1 out1] h1].
    destruct (Z.ltb_spec
                (Z.of_nat (pos + Z.to_nat (length_size (m_sps_pps_context c))
                           + Z.to_nat n)) (len pkt)); [lia | reflexivity].
  - rewrite nal_loop_step, (nal_body_unit c codes pkt pos out h n)
      by (auto; lia).
    cbn [convert_nals].
    pose proof (convert_nal_frame c codes
                  (unit_type_at c pkt
                     (pos + Z.to_nat (length_size (m_sps_pps_context c))))
                  (skipn (pos + Z.to_nat (length_size (m_sps_pps_context c)))
                     pkt) n out h) as (Hc & _).
    destruct (convert_nal c codes _ _ n out h) as [[c1 out1] h1].
    cbn [fst] in Hc.
    destruct (Z.ltb_spec
                (Z.of_nat (pos + Z.to_nat (length_size (m_sps_pps_context c))
                           + Z.to_nat n)) (len pkt)); [| lia].
    apply IH; [apply config_length_size; exact Hc | assumption].
Qed.

(** A packet with a bad length field makes the loop fail; the settings
    stay as they were. *)
Lemma nal_loop_bad (codes : Z * Z * Z) (pkt : list Z) (ls : Z) (pos : nat) :
  declares_bad_length ls pkt pos ->
  forall (c : CBitstreamConverter) (out : outbuf)
         (h : option Hdr10PlusMetadata),
    length_size (m_sps_pps_context c) = ls -> 0 <= ls ->
    exists c1,
      nal_loop codes c pkt pos out h = LoopFail c1
      /\ config_of c1 = config_of c
      /\ m_combine c1 = m_combine c
      /\ buffers_of c1 = buffers_of c.
Proof.
  induction 1 as [pos H1 Hbad | pos n H1 Hn Hpos H2 Hrest IH];
    intros c out h Hls Hls0; subst ls.
  - exists c. rewrite nal_loop_step, nal_body_bad by auto.
    repeat split.
  - rewrite nal_loop_step, (nal_body_unit c codes pkt pos out h n)
      by (auto; lia).
    pose proof (convert_nal_frame c codes
                  (unit_type_at c pkt
                     (pos + Z.to_nat (length_size (m_sps_pps_context c))))
                  (skipn (pos + Z.to_nat (length_size (m_sps_pps_context c)))
                     pkt) n out h) as (Hc & _ & Hm & _ & _ & Hb).
    destruct (convert_nal c codes _ _ n out h) as [[c1 out1] h1].
    cbn [fst] in Hc, Hm, Hb.
    destruct (Z.ltb_spec
                (Z.of_nat (pos + Z.to_nat (length_size (m_sps_pps_context c))
                           + Z.to_nat n)) (len pkt)); [| lia].
    destruct (IH c1 out1 h1) as (c2 & Hl & Hc2 & Hm2 & Hb2);
      [apply config_length_size; exact Hc | assumption |].
    exists c2. repeat split; congruence.
Qed.

Lemma existsb_eq {A : Type} (f g : A -> bool) (l : list A) :
  (forall a, f a = g a) -> existsb f l = existsb g l.
Proof.
  intros H. induction l as [|a l IH]; cbn [existsb]; [reflexivity|].
  rewrite H, IH. reflexivity.
Qed.

Lemma convert_nals_app (codes : Z * Z * Z) (pkt : list Z)
    (l1 l2 : list (nat * Z)) :
  forall (c : CBitstreamConverter) (out : outbuf)
         (h : option Hdr10PlusMetadata),
    convert_nals codes c pkt (l1 ++ l2) out h
    = let '(c1, out1, h1) := convert_nals codes c pkt l1 out h in
      convert_nals codes c1 pkt l2 out1 h1.
Proof.
  induction l1 as [|[p n] l1 IH]; intros c out h; cbn [convert_nals app].
  - reflexivity.
  - destruct (convert_nal c codes _ _ n out h) as [[c1 out1] h1]. apply IH.
Qed.

Lemma unit_type_at_codec (c c' : CBitstreamConverter) (pkt : list Z)
    (p : nat) :
  m_codec c' = m_codec c -> unit_type_at c' pkt p = unit_type_at c pkt p.
Proof. unfold unit_type_at. intros ->. reflexivity. Qed.

Lemma starts_decode_codec (c c' : CBitstreamConverter) (codes : Z * Z * Z)
    (t : Z) (p : list Z) (n : Z) :
  m_codec c' = m_codec c ->
  starts_decode c' codes t p n = starts_decode c codes t p n.
Proof.
  intros H. unfold starts_decode. destruct codes as [[? ?] ?].
  rewrite (IsIDR_codec _ _ _ H). reflexivity.
Qed.

Lemma idr_step_ext (i1 i2 s1 s2 sp : Z -> bool) (fl : Z * Z) (t : Z) :
  i1 t = i2 t -> s1 t = s2 t ->
  idr_step i1 s1 sp fl t = idr_step i2 s2 sp fl t.
Proof. unfold idr_step. intros -> ->. reflexivity. Qed.

(** What the fold over the units of a packet keeps and how it moves the
    decode-start latch and the prologue flags. *)
Lemma convert_nals_frame (codes : Z * Z * Z) (pkt : list Z)
    (nals : list (nat * Z)) :
  forall (c : CBitstreamConverter) (out : outbuf)
         (h : option Hdr10PlusMetadata),
    let c' := fst (fst (convert_nals codes c pkt nals out h)) in
    config_of c' = config_of c
    /\ m_first_frame c' = m_first_frame c
    /\ m_combine c' = m_combine c
    /\ m_start_decode c'
       = m_start_decode c || some_unit_starts_decode c codes pkt nals
    /\ idr_flags c'
       = idr_run (IsIDR c) (IsSlice c) (is_sps_pps codes) (idr_flags c)
           (unit_types c pkt nals)
    /\ buffers_of c' = buffers_of c.
Proof.
  induction nals as [|[p n] nals IH]; intros c out h.
  - cbn. rewrite orb_false_r. repeat split.
  - cbn [convert_nals].
    pose proof (convert_nal_frame c codes (unit_type_at c pkt p)
                  (skipn p pkt) n out h) as (A1 & A2 & A3 & A4 & A5 & A6).
    destruct (convert_nal c codes _ _ n out h) as [[c1 out1] h1].
    cbn [fst] in A1, A2, A3, A4, A5, A6.
    destruct (IH c1 out1 h1) as (B1 & B2 & B3 & B4 & B5 & B6).
    pose proof (config_codec _ _ A1) as Hcd.
    assert (Hs : some_unit_starts_decode c1 codes pkt nals
                 = some_unit_starts_decode c codes pkt nals).
    { unfold some_unit_starts_decode. apply existsb_eq. intros [q m].
      cbn [fst snd]. rewrite (unit_type_at_codec _ _ _ _ Hcd).
      apply starts_decode_codec. exact Hcd. }
    assert (Ht : unit_types c1 pkt nals = unit_types c pkt nals).
    { unfold unit_types. apply map_ext. intros [q m].
      apply unit_type_at_codec. exact Hcd. }
    assert (Hr : forall fl l,
               idr_run (IsIDR c1) (IsSlice c1) (is_sps_pps codes) fl l
               = idr_run (IsIDR c) (IsSlice c) (is_sps_pps codes) fl l).
    { intros fl l. revert fl. induction l as [|t l IHl]; intros fl;
        cbn [idr_run]; [reflexivity|].
      rewrite (idr_step_ext (IsIDR c1) (IsIDR c) (IsSlice c1) (IsSlice c))
        by (auto using IsIDR_codec, IsSlice_codec).
      apply IHl. }
    repeat split.
    + congruence.
    + congruence.
    + congruence.
    + rewrite B4, A4, Hs. unfold some_unit_starts_decode at 2.
      cbn [existsb fst snd]. rewrite orb_assoc. reflexivity.
    + rewrite B5, A5, Ht, Hr. reflexivity.
    + congruence.
Qed.

Lemma convert_nals_appends (codes : Z * Z * Z) (pkt : list Z)
    (nals : list (nat * Z)) :
  forall (c : CBitstreamConverter) (out : outbuf)
         (h : option Hdr10PlusMetadata),
    prologue_ok c -> outbuf_ok out ->
    appends out (snd (fst (convert_nals codes c pkt nals out h))).
Proof.
  induction nals as [|[p n] nals IH]; intros c out h Hp Hok.
  - cbn. apply appends_refl. exact Hok.
  - cbn [convert_nals].
    pose proof (convert_nal_frame c codes (unit_type_at c pkt p)
                  (skipn p pkt) n out h) as (A1 & _).
    pose proof (convert_nal_appends c codes (unit_type_at c pkt p)
                  (skipn p pkt) n out h Hp Hok) as A.
    destruct (convert_nal c codes _ _ n out h) as [[c1 out1] h1].
    cbn [fst snd] in A1, A.
    eapply appends_trans; [exact A|].
    apply IH; [eapply prologue_ok_config; eauto | apply A].
Qed.

(** An IDR unit is neither a parameter set nor one of the unit types the
    dispatch treats specially. *)
Lemma IsIDR_plain (c : CBitstreamConverter) (codes : Z * Z * Z) (t : Z) :
  nal_codes (m_codec c) = Some codes -> IsIDR c t = true ->
  is_sps_pps codes t = false
  /\ (t =? HEVC_NAL_SEI_PREFIX) = false
  /\ (t =? HEVC_NAL_UNSPEC62) = false
  /\ (t =? HEVC_NAL_UNSPEC63) = false.
Proof.
  unfold nal_codes, IsIDR, is_sps_pps.
  destruct (m_codec c); intros Hc Hi; inversion Hc; subst; clear Hc.
  - apply Z.eqb_eq in Hi. subst t. repeat split.
  - apply orb_true_iff in Hi. destruct Hi as [Hi | Hi];
      [apply orb_true_iff in Hi; destruct Hi as [Hi | Hi]|];
      apply Z.eqb_eq in Hi; subst t; repeat split.
Qed.

(** What an IDR unit adds to the output: the prologue when the flags allow
    it, then the start code and the unit. *)
Lemma convert_nal_idr (c : CBitstreamConverter) (codes : Z * Z * Z)
    (t : Z) (p : list Z) (n : Z) (out : outbuf)
    (h : option Hdr10PlusMetadata) :
  nal_codes (m_codec c) = Some codes -> IsIDR c t = true ->
  prologue_ok c -> outbuf_ok out ->
  let armed :=
    negb (first_idr (m_sps_pps_context c) =? 0)
    && (idr_sps_pps_seen (m_sps_pps_context c) =? 0) in
  bytes_of (snd (fst (convert_nal c codes t p n out h)))
  = bytes_of out
      ++ (if armed
          then prologue_of (sps_pps_data (m_sps_pps_context c)) else [])
      ++ start_code (snd out) t ++ firstn (Z.to_nat n) p.
Proof.
  intros Hcodes Hidr Hp Hok armed.
  destruct (IsIDR_plain c codes t Hcodes Hidr) as (Hsp & H39 & H62 & H63).
  pose proof (convert_nal_eq c codes t p n out h) as H. cbv zeta in H.
  unfold idr_step, idr_flags in H. rewrite Hsp, Hidr in H.
  rewrite andb_false_r, andb_true_r in H.
  fold armed in H. destruct armed.
  - rewrite H. cbn [fst snd].
    rewrite BitstreamAllocAndCopy_spec by assumption. reflexivity.
  - destruct ((first_idr (m_sps_pps_context c) =? 0) && IsSlice c t);
      rewrite H; unfold dispatch; rewrite H39, H62, H63; cbn [fst snd];
      rewrite BitstreamAllocAndCopy_spec by (auto; reflexivity);
      reflexivity.
Qed.


(** *** Single-track [Convert] *)

Lemma reset_buffers_frame (c : CBitstreamConverter) :
  config_of (reset_buffers c) = config_of c
  /\ m_start_decode (reset_buffers c) = m_start_decode c
  /\ m_first_frame (reset_buffers c) = m_first_frame c
  /\ idr_flags (reset_buffers c) = idr_flags c
  /\ m_combine (reset_buffers c) = m_combine c
  /\ m_hints (reset_buffers c) = m_hints c
  /\ buffers_of (reset_buffers c) = (None, 0, None, 0).
Proof. repeat split. Qed.

Lemma conversion_active_config (c c' : CBitstreamConverter) :
  config_of c' = config_of c -> conversion_active c -> conversion_active c'.
Proof.
  unfold conversion_active, config_of. intros H. inversion H. congruence.
Qed.

Lemma conversion_active_codes (c : CBitstreamConverter) :
  conversion_active c -> exists codes, nal_codes (m_codec c) = Some codes.
Proof.
  intros (_ & _ & H & _). destruct (m_codec c); try discriminate;
    eexists; reflexivity.
Qed.

(** With conversion active, [Convert] runs [BitstreamConvert] on the
    packet, starting from an empty output. *)
Lemma Convert_active (c : CBitstreamConverter) (pkt : list Z) :
  conversion_active c ->
  Convert c (Some pkt)
  = let '(_, c1, (bytestream_buff, bytestream_size)) :=
      BitstreamConvert (reset_buffers c) pkt (None, 0) in
    match bytestream_buff with
    | Some b =>
        if 0 <? bytestream_size
        then (true,
              set_m_convertBuffer (Some b)
                (set_m_convertSize bytestream_size c1))
        else (false, set_m_convertBuffer None (set_m_convertSize 0 c1))
    | None => (false, set_m_convertBuffer None (set_m_convertSize 0 c1))
    end.
Proof.
  intros (H1 & H2 & H3 & _). unfold Convert. cbv zeta.
  change (set_m_inputBuffer None
            (set_m_convertSize 0 (set_m_inputSize 0 (set_m_convertBuffer None c))))
    with (reset_buffers c).
  change (m_codec (reset_buffers c)) with (m_codec c).
  change (m_to_annexb (reset_buffers c)) with (m_to_annexb c).
  change (m_convert_bitstream (reset_buffers c)) with (m_convert_bitstream c).
  rewrite H1, H2, H3. reflexivity.
Qed.

Lemma BitstreamConvert_bad (c : CBitstreamConverter) (pkt : list Z)
    (out : outbuf) :
  conversion_active c ->
  declares_bad_length (length_size (m_sps_pps_context c)) pkt 0 ->
  exists c1,
    BitstreamConvert c pkt out = (false, c1, (None, 0))
    /\ config_of c1 = config_of c
    /\ m_combine c1 = m_combine c
    /\ buffers_of c1 = buffers_of c.
Proof.
  intros Ha Hbad. destruct (conversion_active_codes c Ha) as (codes & Hc).
  destruct Ha as (_ & _ & _ & Hls).
  destruct (nal_loop_bad codes pkt _ 0 Hbad c out None eq_refl Hls)
    as (c1 & Hl & H).
  exists c1. unfold BitstreamConvert. rewrite Hc, Hl. split; [reflexivity | exact H].
Qed.

Lemma appends_ok (out out' : outbuf) : appends out out' -> outbuf_ok out'.
Proof. intros [H _]. exact H. Qed.

Lemma appends_size (out out' : outbuf) :
  outbuf_ok out -> appends out out' -> snd out <= snd out'.
Proof.
  unfold appends, outbuf_ok. intros H (H' & more & Hm).
  rewrite H, H', Hm, len_app. pose proof (len_nonneg more). lia.
Qed.

Lemma outbuf_ok_some (out : outbuf) :
  outbuf_ok out -> 0 < snd out -> fst out = Some (bytes_of out).
Proof.
  unfold outbuf_ok, bytes_of. destruct out as [[b|] sz]; cbn [fst snd].
  - reflexivity.
  - intros ->. cbn. lia.
Qed.

Lemma copy_size (out : outbuf) (sps_pps : option (list Z)) (inp : list Z)
    (t : Z) :
  outbuf_ok out ->
  0 < snd (BitstreamAllocAndCopy out sps_pps (len (prologue_of sps_pps))
             inp t).
Proof.
  intros Hok. rewrite BitstreamAllocAndCopy_spec by auto. cbn [snd].
  rewrite start_code_len. unfold outbuf_ok in Hok.
  pose proof (len_nonneg (bytes_of out)).
  pose proof (len_nonneg (prologue_of sps_pps)).
  pose proof (len_nonneg inp).
  destruct (_ || _); lia.
Qed.

(** A unit of a type that is always copied leaves a non-empty output. *)
Lemma convert_nal_copied (c : CBitstreamConverter) (codes : Z * Z * Z)
    (t : Z) (p : list Z) (n : Z) (out : outbuf)
    (h : option Hdr10PlusMetadata) :
  prologue_ok c -> outbuf_ok out -> always_copied t = true ->
  0 < snd (snd (fst (convert_nal c codes t p n out h))).
Proof.
  intros Hp Hok Ht.
  pose proof (convert_nal_eq c codes t p n out h) as H. cbv zeta in H.
  destruct (idr_step (IsIDR c) (IsSlice c) (is_sps_pps codes)
              (idr_flags c) t) as [[fi seen] pro].
  rewrite H. clear H. destruct pro.
  - cbn [fst snd]. rewrite Hp. apply copy_size. exact Hok.
  - unfold dispatch. unfold always_copied in Ht.
    apply negb_true_iff in Ht. apply orb_false_iff in Ht.
    destruct Ht as [Ht H63]. apply orb_false_iff in Ht.
    destruct Ht as [H39 H62]. rewrite H39, H62, H63. cbn [fst snd].
    apply (copy_size out None). exact Hok.
Qed.

Lemma convert_nals_copied (codes : Z * Z * Z) (pkt : list Z)
    (nals : list (nat * Z)) :
  forall (c : CBitstreamConverter) (out : outbuf)
         (h : option Hdr10PlusMetadata),
    prologue_ok c -> outbuf_ok out ->
    existsb always_copied (unit_types c pkt nals) = true \/ 0 < snd out ->
    0 < snd (snd (fst (convert_nals codes c pkt nals out h))).
Proof.
  induction nals as [|[p n] nals IH]; intros c out h Hp Hok Hex.
  - cbn in *. destruct Hex; [discriminate | assumption].
  - cbn [convert_nals].
    pose proof (convert_nal_frame c codes (unit_type_at c pkt p)
                  (skipn p pkt) n out h) as (A1 & _).
    pose proof (convert_nal_appends c codes (unit_type_at c pkt p)
                  (skipn p pkt) n out h Hp Hok) as A.
    pose proof (convert_nal_copied c codes (unit_type_at c pkt p)
                  (skipn p pkt) n out h Hp Hok) as B.
    destruct (convert_nal c codes _ _ n out h) as [[c1 out1] h1].
    cbn [fst snd] in A1, A, B.
    apply IH; [eapply prologue_ok_config; eauto | apply A |].
    cbn [unit_types map existsb fst] in Hex.
    assert (Ht : unit_types c1 pkt nals = unit_types c pkt nals).
    { unfold unit_types. apply map_ext. intros [q m].
      apply unit_type_at_codec. apply config_codec. exact A1. }
    rewrite Ht.
    destruct Hex as [Hex | Hex].
    + apply orb_true_iff in Hex. destruct Hex as [Hex | Hex]; auto.
    + right. pose proof (appends_size out out1 Hok A). lia.
Qed.

(** [BitstreamConvert] on a well-formed packet. *)
Lemma BitstreamConvert_nals (c : CBitstreamConverter) (codes : Z * Z * Z)
    (pkt : list Z) (nals : list (nat * Z)) (out : outbuf) :
  nal_codes (m_codec c) = Some codes ->
  0 <= length_size (m_sps_pps_context c) ->
  packet_nals (length_size (m_sps_pps_context c)) pkt 0 nals ->
  BitstreamConvert c pkt out
  = let '(c1, out1, h1) := convert_nals codes c pkt nals out None in
    let '(c2, out2) :=
      match h1 with
      | Some meta => AddDoViRpuNalu c1 meta out1
      | None => (c1, out1)
      end in
    (true, set_m_first_frame false c2, out2).
Proof.
  intros Hc Hls Hn. unfold BitstreamConvert. rewrite Hc.
  rewrite (nal_loop_nals codes pkt _ 0 nals Hn c out None eq_refl Hls).
  destruct (convert_nals codes c pkt nals out None) as [[c1 out1] h1].
  reflexivity.
Qed.

Lemma converted_ok (codes : Z * Z * Z) (c : CBitstreamConverter)
    (pkt : list Z) (nals : list (nat * Z)) :
  prologue_ok c ->
  let out1 :=
    snd (fst (convert_nals codes (reset_buffers c) pkt nals (None, 0) None)) in
  appends out1 (snd (converted codes c pkt nals)).
Proof.
  intros Hp out1. unfold converted. subst out1.
  pose proof (convert_nals_appends codes pkt nals (reset_buffers c) (None, 0)
                None Hp outbuf_ok_empty) as A.
  destruct (convert_nals codes (reset_buffers c) pkt nals (None, 0) None)
    as [[c1 o1] h1].
  cbn [fst snd] in *. destruct h1 as [meta|].
  - pose proof (AddDoViRpuNalu_appends c1 meta o1 (appends_ok _ _ A)) as B.
    destruct (AddDoViRpuNalu c1 meta o1) as [c2 o2]. exact B.
  - apply appends_refl. apply A.
Qed.

(** [Convert] on a well-formed packet: the call succeeds when the output
    is not empty, and then exposes it. *)
Lemma Convert_nals (c : CBitstreamConverter) (codes : Z * Z * Z)
    (pkt : list Z) (nals : list (nat * Z)) :
  conversion_active c -> prologue_ok c ->
  nal_codes (m_codec c) = Some codes ->
  packet_nals (length_size (m_sps_pps_context c)) pkt 0 nals ->
  let '(c2, out2) := converted codes c pkt nals in
  Convert c (Some pkt)
  = if 0 <? snd out2
    then (true,
          set_m_convertBuffer (Some (bytes_of out2))
            (set_m_convertSize (snd out2) c2))
    else (false, set_m_convertBuffer None (set_m_convertSize 0 c2)).
Proof.
  intros Ha Hp Hc Hn. rewrite (Convert_active c pkt Ha).
  rewrite (BitstreamConvert_nals (reset_buffers c) codes pkt nals (None, 0))
    by (try exact Hc; try exact Hn; apply Ha).
  pose proof (converted_ok codes c pkt nals Hp) as A. cbv zeta in A.
  apply appends_ok in A. unfold converted in *.
  destruct (convert_nals codes (reset_buffers c) pkt nals (None, 0) None)
    as [[c1 o1] h1].
  destruct (match h1 with
            | Some meta => AddDoViRpuNalu c1 meta o1
            | None => (c1, o1)
            end) as [c2 out2].
  cbn [snd] in A.
  destruct (Z.ltb_spec 0 (snd out2)) as [Hpos | Hpos].
  - pose proof (outbuf_ok_some out2 A Hpos) as Hs.
    destruct out2 as [bb sz]. cbn [fst snd] in *. rewrite Hs.
    apply Z.ltb_lt in Hpos. rewrite Hpos. reflexivity.
  - destruct out2 as [[b|] sz]; cbn [fst snd] in *; [| reflexivity].
    apply Z.ltb_ge in Hpos. rewrite Hpos. reflexivity.
Qed.

Lemma config_bitstream (c c' : CBitstreamConverter) :
  config_of c' = config_of c ->
  m_convert_bitstream c' = m_convert_bitstream c.
Proof. unfold config_of. intros H. inversion H. reflexivity. Qed.

(** What the conversion of a well-formed packet keeps, and how it moves
    the latches and the prologue flags. *)
Lemma converted_frame (codes : Z * Z * Z) (c : CBitstreamConverter)
    (pkt : list Z) (nals : list (nat * Z)) :
  let c2 := fst (converted codes c pkt nals) in
  config_of c2 = config_of c
  /\ m_first_frame c2 = false
  /\ m_combine c2 = m_combine c
  /\ m_start_decode c2
     = m_start_decode c || some_unit_starts_decode c codes pkt nals
  /\ idr_flags c2
     = idr_run (IsIDR c) (IsSlice c) (is_sps_pps codes) (idr_flags c)
         (unit_types c pkt nals)
  /\ buffers_of c2 = (None, 0, None, 0).
Proof.
  unfold converted.
  pose proof (convert_nals_frame codes pkt nals (reset_buffers c)
                (None, 0) None) as (F1 & F2 & F3 & F4 & F5 & F6).
  destruct (convert_nals codes (reset_buffers c) pkt nals (None, 0) None)
    as [[d1 o1] h1].
  cbn [fst] in F1, F2, F3, F4, F5, F6.
  assert (G : same_frame d1
                (fst match h1 with
                     | Some meta => AddDoViRpuNalu d1 meta o1
                     | None => (d1, o1)
                     end)).
  { destruct h1 as [meta|]; [apply AddDoViRpuNalu_frame |
                             apply same_frame_refl]. }
  destruct (match h1 with
            | Some meta => AddDoViRpuNalu d1 meta o1
            | None => (d1, o1)
            end) as [d2 o2].
  cbn [fst] in G |- *. destruct G as (G1 & G2 & G3 & G4 & G5 & G6).
  change (config_of d2 = config_of c /\ false = false
          /\ m_combine d2 = m_combine c
          /\ m_start_decode d2
             = m_start_decode c || some_unit_starts_decode c codes pkt nals
          /\ idr_flags d2
             = idr_run (IsIDR c) (IsSlice c) (is_sps_pps codes) (idr_flags c)
                 (unit_types c pkt nals)
          /\ buffers_of d2 = (None, 0, None, 0)).
  repeat split.
  - rewrite G1, F1. reflexivity.
  - rewrite G5, F3. reflexivity.
  - rewrite G2, F4. reflexivity.
  - rewrite G4, F5. reflexivity.
  - rewrite G6, F6. reflexivity.
Qed.

(** The result of [Convert] on a well-formed packet. *)
Lemma Convert_nals_result (c : CBitstreamConverter) (codes : Z * Z * Z)
    (pkt : list Z) (nals : list (nat * Z)) :
  conversion_active c -> prologue_ok c ->
  nal_codes (m_codec c) = Some codes ->
  packet_nals (length_size (m_sps_pps_context c)) pkt 0 nals ->
  let out2 := snd (converted codes c pkt nals) in
  let r := Convert c (Some pkt) in
  (config_of (snd r) = config_of c
   /\ m_first_frame (snd r) = false
   /\ m_combine (snd r) = m_combine c
   /\ m_start_decode (snd r)
      = m_start_decode c || some_unit_starts_decode c codes pkt nals
   /\ idr_flags (snd r)
      = idr_run (IsIDR c) (IsSlice c) (is_sps_pps codes) (idr_flags c)
          (unit_types c pkt nals))
  /\ outbuf_ok out2
  /\ fst r = (0 <? snd out2)
  /\ (0 < snd out2 ->
      GetConvertBuffer (snd r) = Some (bytes_of out2)
      /\ GetConvertSize (snd r) = snd out2)
  /\ (snd out2 <= 0 ->
      GetConvertBuffer (snd r) = None /\ GetConvertSize (snd r) = 0).
Proof.
  intros Ha Hp Hc Hn out2 r. subst out2 r.
  pose proof (Convert_nals c codes pkt nals Ha Hp Hc Hn) as HC.
  pose proof (converted_ok codes c pkt nals Hp) as HA. cbv zeta in HA.
  apply appends_ok in HA.
  pose proof (converted_frame codes c pkt nals) as HF. cbv zeta in HF.
  destruct (converted codes c pkt nals) as [c2 out2].
  cbn [fst snd] in *. destruct HF as (F1 & F2 & F3 & F4 & F5 & F6).
  assert (Hbit : m_convert_bitstream c2 = true)
    by (rewrite (config_bitstream _ _ F1); apply Ha).
  assert (Hin : m_inputBuffer c2 = None /\ m_inputSize c2 = 0).
  { unfold buffers_of in F6. inversion F6. split; reflexivity. }
  destruct Hin as [Hin1 Hin2].
  rewrite HC. clear HC.
  destruct (Z.ltb_spec 0 (snd out2)) as [Hpos | Hpos]; cbn [fst snd].
  - split; [repeat split; assumption|]. split; [assumption|].
    split; [reflexivity|]. split; [| lia].
    intros _. unfold GetConvertBuffer, GetConvertSize. proj_simpl.
    rewrite Hbit. split; reflexivity.
  - split; [repeat split; assumption|]. split; [assumption|].
    split; [reflexivity|]. split; [lia|].
    intros _. unfold GetConvertBuffer, GetConvertSize. proj_simpl.
    rewrite andb_false_r. split; assumption.
Qed.

(** C7.  With conversion active, a packet in which some length field is
    not positive or declares more bytes than the packet has left makes
    [Convert] return false; the output is dropped ([m_convertBuffer] is
    NULL and [m_convertSize] is 0), the accessors expose nothing, the
    settings of the converter are those it had, and a later [Convert] on a
    well-formed packet with a unit that is always copied succeeds and
    exposes a non-empty output. *)
Theorem Convert_bad_length (c : CBitstreamConverter) (pkt : list Z) :
  conversion_active c ->
  declares_bad_length (length_size (m_sps_pps_context c)) pkt 0 ->
  let c' := snd (Convert c (Some pkt)) in
  fst (Convert c (Some pkt)) = false
  /\ m_convertBuffer c' = None /\ m_convertSize c' = 0
  /\ GetConvertBuffer c' = None /\ GetConvertSize c' = 0
  /\ config_of c' = config_of c
  /\ (prologue_ok c ->
      forall (pkt2 : list Z) (nals : list (nat * Z)),
        packet_nals (length_size (m_sps_pps_context c)) pkt2 0 nals ->
        existsb always_copied (unit_types c pkt2 nals) = true ->
        fst (Convert c' (Some pkt2)) = true
        /\ 0 < GetConvertSize (snd (Convert c' (Some pkt2)))
        /\ exists b, GetConvertBuffer (snd (Convert c' (Some pkt2))) = Some b
                     /\ len b = GetConvertSize (snd (Convert c' (Some pkt2)))).
Proof.
  intros Ha Hbad c'. subst c'.
  rewrite (Convert_active c pkt Ha).
  destruct (BitstreamConvert_bad (reset_buffers c) pkt (None, 0) Ha Hbad)
    as (c1 & Hb & Hcfg & Hcomb & Hbuf).
  rewrite Hb. cbn [fst snd].
  assert (Hcfg' : config_of (set_m_convertBuffer None (set_m_convertSize 0 c1))
                  = config_of c) by exact Hcfg.
  assert (Hin : m_inputBuffer c1 = None /\ m_inputSize c1 = 0).
  { unfold buffers_of in Hbuf. inversion Hbuf. split; reflexivity. }
  destruct Hin as [Hin1 Hin2].
  split; [reflexivity|]. split; [reflexivity|]. split; [reflexivity|].
  split; [| split; [| split]].
  - unfold GetConvertBuffer. proj_simpl. rewrite andb_false_r. exact Hin1.
  - unfold GetConvertSize. proj_simpl. rewrite andb_false_r. exact Hin2.
  - exact Hcfg'.
  - intros Hp pkt2 nals Hn Hex.
    set (c2 := set_m_convertBuffer None (set_m_convertSize 0 c1)) in *.
    assert (Ha2 : conversion_active c2)
      by (eapply conversion_active_config; eauto).
    assert (Hp2 : prologue_ok c2) by (eapply prologue_ok_config; eauto).
    destruct (conversion_active_codes c2 Ha2) as (codes & Hc2).
    assert (Hls : length_size (m_sps_pps_context c2)
                  = length_size (m_sps_pps_context c))
      by (apply config_length_size; exact Hcfg').
    rewrite <- Hls in Hn.
    destruct (Convert_nals_result c2 codes pkt2 nals Ha2 Hp2 Hc2 Hn)
      as (_ & Hok & Hr & Hex1 & _).
    pose proof (converted_ok codes c2 pkt2 nals Hp2) as HA. cbv zeta in HA.
    pose proof (convert_nals_copied codes pkt2 nals (reset_buffers c2)
                  (None, 0) None Hp2 outbuf_ok_empty) as HS.
    pose proof (convert_nals_appends codes pkt2 nals (reset_buffers c2)
                  (None, 0) None Hp2 outbuf_ok_empty) as HO.
    assert (Htypes : unit_types (reset_buffers c2) pkt2 nals
                     = unit_types c pkt2 nals).
    { unfold unit_types. apply map_ext. intros [q m].
      apply unit_type_at_codec. apply config_codec. exact Hcfg'. }
    rewrite Htypes in HS. specialize (HS (or_introl Hex)).
    pose proof (appends_size _ _ (appends_ok _ _ HO) HA) as Hsz.
    assert (Hpos : 0 < snd (snd (converted codes c2 pkt2 nals))) by lia.
    destruct (Hex1 Hpos) as [Hb1 Hb2].
    rewrite Hr, Hb1, Hb2. apply Z.ltb_lt in Hpos. rewrite Hpos.
    split; [reflexivity|]. apply Z.ltb_lt in Hpos. split; [exact Hpos|].
    eexists. split; [reflexivity|]. symmetry. exact Hok.
Qed.

(** *** The prologue in front of an IDR unit *)

(** While [first_idr] is set and no IDR unit comes, the flags only record
    whether a parameter set was seen. *)
Lemma idr_run_no_idr (idr slice sp : Z -> bool) (l : list Z) :
  forall fi seen,
    fi <> 0 -> existsb idr l = false ->
    idr_run idr slice sp (fi, seen) l
    = (fi, if existsb sp l then 1 else seen).
Proof.
  induction l as [|t l IH]; intros fi seen Hfi Hl; cbn [idr_run existsb] in *.
  - reflexivity.
  - apply orb_false_iff in Hl. destruct Hl as [Ht Hl].
    unfold idr_step. rewrite Ht.
    apply Z.eqb_neq in Hfi. rewrite Hfi. cbn [negb andb fst].
    apply Z.eqb_neq in Hfi. rewrite (IH _ _ Hfi Hl).
    destruct (sp t); cbn [orb]; [destruct (existsb sp l)|]; reflexivity.
Qed.

Lemma appends_bytes (out out' : outbuf) :
  appends out out' -> exists more, bytes_of out' = bytes_of out ++ more.
Proof. intros [_ H]. exact H. Qed.

(** C1, as the code has it.  In a [Convert] of a well-formed packet the
    bytes written for an IDR unit follow the output of the units before
    it; the prologue comes immediately in front of the unit's start code
    exactly when, at that unit, [first_idr] is set and [idr_sps_pps_seen]
    is clear, the two flags being carried from call to call by the rule
    [idr_step].  When the call starts with [first_idr] set and
    [idr_sps_pps_seen] clear and no IDR unit comes earlier in the packet,
    that is the case exactly when no SPS or PPS unit comes earlier in the
    packet.  A slice unit met while [first_idr] is clear sets [first_idr]
    to 1 and [idr_sps_pps_seen] to 0. *)
Theorem idr_prologue (c : CBitstreamConverter) (codes : Z * Z * Z)
    (pkt : list Z) (pre post : list (nat * Z)) (p : nat) (n : Z) :
  conversion_active c -> prologue_ok c ->
  nal_codes (m_codec c) = Some codes ->
  packet_nals (length_size (m_sps_pps_context c)) pkt 0
    (pre ++ (p, n) :: post) ->
  IsIDR c (unit_type_at c pkt p) = true ->
  let fl :=
    idr_run (IsIDR c) (IsSlice c) (is_sps_pps codes) (idr_flags c)
      (unit_types c pkt pre) in
  let armed := negb (fst fl =? 0) && (snd fl =? 0) in
  let front :=
    bytes_of
      (snd (fst (convert_nals codes (reset_buffers c) pkt pre (None, 0)
                   None))) in
  let c' := snd (Convert c (Some pkt)) in
  fst (Convert c (Some pkt)) = true
  /\ (exists back,
        GetConvertBuffer c'
        = Some (front
                ++ (if armed
                    then prologue_of (sps_pps_data (m_sps_pps_context c))
                    else [])
                ++ start_code (len front) (unit_type_at c pkt p)
                ++ firstn (Z.to_nat n) (skipn p pkt) ++ back))
  /\ idr_flags c'
     = idr_run (IsIDR c) (IsSlice c) (is_sps_pps codes) (idr_flags c)
         (unit_types c pkt (pre ++ (p, n) :: post))
  /\ (first_idr (m_sps_pps_context c) <> 0 ->
      idr_sps_pps_seen (m_sps_pps_context c) = 0 ->
      existsb (IsIDR c) (unit_types c pkt pre) = false ->
      armed = negb (existsb (is_sps_pps codes) (unit_types c pkt pre)))
  /\ (forall (d : CBitstreamConverter) (t : Z) (q : list Z) (m : Z)
             (out : outbuf) (h : option Hdr10PlusMetadata),
        first_idr (m_sps_pps_context d) = 0 -> IsSlice d t = true ->
        idr_flags (fst (fst (convert_nal d codes t q m out h))) = (1, 0)).
Proof.
  intros Ha Hp Hc Hn Hidr fl armed front c'.
  destruct (Convert_nals_result c codes pkt (pre ++ (p, n) :: post)
              Ha Hp Hc Hn) as ((_ & _ & _ & _ & Hfl) & Hok & Hr & Hex & _).
  pose proof (converted_ok codes c pkt (pre ++ (p, n) :: post) Hp) as HA.
  cbv zeta in HA.
  assert (Hbytes : exists back,
             bytes_of (snd (converted codes c pkt (pre ++ (p, n) :: post)))
             = front
                 ++ (if armed
                     then prologue_of (sps_pps_data (m_sps_pps_context c))
                     else [])
                 ++ start_code (len front) (unit_type_at c pkt p)
                 ++ firstn (Z.to_nat n) (skipn p pkt) ++ back).
  { destruct (appends_bytes _ _ HA) as (more2 & Hm2). rewrite Hm2. clear Hm2.
    rewrite convert_nals_app. subst front.
    pose proof (convert_nals_frame codes pkt pre (reset_buffers c) (None, 0)
                  None) as (F1 & _ & _ & _ & F5 & _).
    pose proof (convert_nals_appends codes pkt pre (reset_buffers c) (None, 0)
                  None Hp outbuf_ok_empty) as A1.
    destruct (convert_nals codes (reset_buffers c) pkt pre (None, 0) None)
      as [[c1 o1] h1].
    cbn [fst snd] in F1, F5, A1 |- *. cbn [convert_nals].
    change (config_of c1 = config_of c) in F1.
    change (idr_flags c1 = fl) in F5.
    pose proof (config_codec _ _ F1) as Hcd.
    assert (Hp1 : prologue_ok c1) by (eapply prologue_ok_config; eauto).
    assert (Hc1 : nal_codes (m_codec c1) = Some codes) by (rewrite Hcd; exact Hc).
    rewrite (unit_type_at_codec _ _ pkt p Hcd).
    assert (Hidr1 : IsIDR c1 (unit_type_at c pkt p) = true)
      by (rewrite (IsIDR_codec _ _ _ Hcd); exact Hidr).
    pose proof (convert_nal_idr c1 codes (unit_type_at c pkt p) (skipn p pkt)
                  n o1 h1 Hc1 Hidr1 Hp1 (appends_ok _ _ A1)) as B.
    cbv zeta in B.
    pose proof (convert_nal_frame c1 codes (unit_type_at c pkt p)
                  (skipn p pkt) n o1 h1) as (G1 & _).
    pose proof (convert_nal_appends c1 codes (unit_type_at c pkt p)
                  (skipn p pkt) n o1 h1 Hp1 (appends_ok _ _ A1)) as A2.
    destruct (convert_nal c1 codes (unit_type_at c pkt p) (skipn p pkt) n
                o1 h1) as [[c2 o2] h2].
    cbn [fst snd] in B, G1, A2.
    assert (Hp2 : prologue_ok c2) by (eapply prologue_ok_config; eauto).
    pose proof (convert_nals_appends codes pkt post c2 o2 h2 Hp2
                  (appends_ok _ _ A2)) as A3.
    destruct (appends_bytes _ _ A3) as (more1 & Hm1). rewrite Hm1, B.
    assert (Harm : negb (first_idr (m_sps_pps_context c1) =? 0)
                   && (idr_sps_pps_seen (m_sps_pps_context c1) =? 0)
                   = armed).
    { subst armed. rewrite <- F5. reflexivity. }
    rewrite Harm.
    assert (Hpro : sps_pps_data (m_sps_pps_context c1)
                   = sps_pps_data (m_sps_pps_context c))
      by (unfold config_of in F1; inversion F1; reflexivity).
    rewrite Hpro.
    assert (Hsz : snd o1 = len (bytes_of o1)) by (apply A1).
    rewrite Hsz. exists (more1 ++ more2).
    rewrite <- !app_assoc. reflexivity. }
  destruct Hbytes as (back & Hback).
  assert (Hpos : 0 < snd (snd (converted codes c pkt (pre ++ (p, n) :: post)))).
  { rewrite Hok, Hback, !len_app, start_code_len.
    pose proof (len_nonneg front).
    pose proof (len_nonneg (if armed
                            then prologue_of
                                   (sps_pps_data (m_sps_pps_context c))
                            else [])).
    pose proof (len_nonneg (firstn (Z.to_nat n) (skipn p pkt))).
    pose proof (len_nonneg back).
    destruct (_ || _); lia. }
  destruct (Hex Hpos) as [Hb1 _].
  split; [| split; [| split; [| split]]].
  - rewrite Hr. apply Z.ltb_lt. exact Hpos.
  - exists back. subst c'. rewrite Hb1, Hback. reflexivity.
  - exact Hfl.
  - intros Hfi Hseen Hno. subst armed fl. unfold idr_flags.
    rewrite Hseen, (idr_run_no_idr _ _ _ _ _ _ Hfi Hno). cbn [fst snd].
    apply Z.eqb_neq in Hfi. rewrite Hfi.
    destruct (existsb (is_sps_pps codes) _); reflexivity.
  - intros d t q m out h Hfi Hsl.
    pose proof (convert_nal_frame d codes t q m out h)
      as (_ & _ & _ & _ & Hf & _).
    rewrite Hf. unfold idr_step, idr_flags. rewrite Hfi, Hsl. reflexivity.
Qed.

(** *** Invariants of the loops, whatever the packet *)

Lemma nal_body_cases (c : CBitstreamConverter) (codes : Z * Z * Z)
    (pkt : list Z) (pos : nat) (out : outbuf)
    (h : option Hdr10PlusMetadata) :
  nal_body c codes pkt pos out h = IterFail c
  \/ exists t p n pos2,
       (pos < pos2)%nat
       /\ nal_body c codes pkt pos out h
          = IterNext (fst (fst (convert_nal c codes t p n out h)))
              (snd (fst (convert_nal c codes t p n out h)))
              (snd (convert_nal c codes t p n out h)) pos2.
Proof.
  unfold nal_body.
  destruct (_ >? _); [left; reflexivity|].
  destruct (_ || _) eqn:Hc; [left; reflexivity|].
  apply orb_false_iff in Hc. destruct Hc as [_ Hc]. apply Z.leb_gt in Hc.
  right.
  exists (unit_type_at c pkt
            (pos + Z.to_nat (length_size (m_sps_pps_context c)))),
    (skipn (pos + Z.to_nat (length_size (m_sps_pps_context c))) pkt),
    (read_nal_size (length_size (m_sps_pps_context c)) pkt pos),
    (pos + Z.to_nat (length_size (m_sps_pps_context c))
     + Z.to_nat (read_nal_size (length_size (m_sps_pps_context c)) pkt pos))%nat.
  split; [lia|].
  destruct (convert_nal _ _ _ _ _ _ _) as [[c1 out1] h1]. reflexivity.
Qed.

(** A reflexive and transitive relation that every unit respects holds
    between the converter before the loop and the one after it. *)
Lemma nal_loop_rel (R : CBitstreamConverter -> CBitstreamConverter -> Prop)
    (codes : Z * Z * Z) (pkt : list Z) :
  (forall c, R c c) ->
  (forall a b c, R a b -> R b c -> R a c) ->
  (forall c t p n out h, R c (fst (fst (convert_nal c codes t p n out h)))) ->
  forall (pos : nat) (c : CBitstreamConverter) (out : outbuf)
         (h : option Hdr10PlusMetadata),
    R c (loop_conv (nal_loop codes c pkt pos out h)).
Proof.
  intros Hrefl Htrans Hstep.
  assert (H : forall k pos c out h,
             (length pkt - pos <= k)%nat ->
             R c (loop_conv (nal_loop codes c pkt pos out h))).
  { induction k as [|k IH]; intros pos c out h Hk;
      rewrite nal_loop_step;
      destruct (nal_body_cases c codes pkt pos out h)
        as [Hf | (t & p & n & pos2 & Hlt & Hn)].
    - rewrite Hf. apply Hrefl.
    - rewrite Hn. destruct (Z.ltb_spec (Z.of_nat pos2) (len pkt)) as [Hl|Hl];
        [unfold len in Hl; lia | apply Hstep].
    - rewrite Hf. apply Hrefl.
    - rewrite Hn. destruct (Z.ltb_spec (Z.of_nat pos2) (len pkt)) as [Hl|Hl];
        [| apply Hstep].
      eapply Htrans; [apply Hstep|]. apply IH. unfold len in Hl. lia. }
  intros pos c out h. apply (H (length pkt - pos)%nat). lia.
Qed.

Lemma nal_loop32_step (body : combine_state -> list Z -> combine_state)
    (s : combine_state) (r : list Z) :
  nal_loop32 body s r
  = if 4 <? len r
    then nal_loop32 body (body s r) (skipn (4 + Z.to_nat (nal_size32 r)) r)
    else (s, r).
Proof.
  funelim (nal_loop32 body s r).
  - rewrite Hlt. reflexivity.
  - rewrite e. reflexivity.
Qed.

Lemma nal_loop32_rel (R : combine_state -> combine_state -> Prop)
    (body : combine_state -> list Z -> combine_state) :
  (forall s, R s s) ->
  (forall a b c, R a b -> R b c -> R a c) ->
  (forall s r, R s (body s r)) ->
  forall (r : list Z) (s : combine_state),
    R s (fst (nal_loop32 body s r)).
Proof.
  intros Hrefl Htrans Hstep.
  assert (H : forall k r s, (length r <= k)%nat ->
                            R s (fst (nal_loop32 body s r))).
  { induction k as [|k IH]; intros r s Hk; rewrite nal_loop32_step;
      destruct (Z.ltb_spec 4 (len r)) as [Hl|Hl]; unfold len in Hl;
      try apply Hrefl; try lia.
    eapply Htrans; [apply Hstep|]. apply IH.
    rewrite length_skipn. lia. }
  intros r s. apply (H (length r)). lia.
Qed.

Section SingleTrackInvariant.

Variable R : CBitstreamConverter -> CBitstreamConverter -> Prop.
Hypothesis R_refl : forall c, R c c.
Hypothesis R_trans : forall a b c, R a b -> R b c -> R a c.
Hypothesis R_nal :
  forall c codes t p n out h,
    R c (fst (fst (convert_nal c codes t p n out h))).
Hypothesis R_add : forall c meta out, R c (fst (AddDoViRpuNalu c meta out)).
Hypothesis R_convertBuffer : forall c b, R c (set_m_convertBuffer b c).
Hypothesis R_convertSize : forall c n, R c (set_m_convertSize n c).
Hypothesis R_inputBuffer : forall c b, R c (set_m_inputBuffer b c).
Hypothesis R_inputSize : forall c n, R c (set_m_inputSize n c).
Hypothesis R_first_frame : forall c, R c (set_m_first_frame false c).

Ltac rel_step :=
  first [ assumption
        | apply R_refl
        | eapply R_trans;
          [| first [ apply R_convertBuffer | apply R_convertSize
                   | apply R_inputBuffer | apply R_inputSize
                   | apply R_first_frame ] ] ].

Lemma BitstreamConvert_rel (c : CBitstreamConverter) (pkt : list Z)
    (out : outbuf) :
  R c (snd (fst (BitstreamConvert c pkt out))).
Proof.
  unfold BitstreamConvert. destruct (nal_codes (m_codec c)) as [codes|];
    [| apply R_refl].
  pose proof (nal_loop_rel R codes pkt R_refl R_trans
                (fun c => R_nal c codes) 0%nat c out None) as H.
  destruct (nal_loop codes c pkt 0 out None) as [c1 | c1 out1 h1];
    cbn [loop_conv] in H; [exact H|].
  destruct h1 as [meta|].
  - pose proof (R_add c1 meta out1) as H1.
    destruct (AddDoViRpuNalu c1 meta out1) as [c2 out2]. cbn [fst snd] in *.
    eapply R_trans; [| apply R_first_frame]. eapply R_trans; eassumption.
  - cbn [fst snd]. repeat rel_step.
Qed.

Lemma reset_buffers_rel (c : CBitstreamConverter) : R c (reset_buffers c).
Proof. unfold reset_buffers. repeat rel_step. Qed.

Lemma Convert_rel (c : CBitstreamConverter) (pData : option (list Z)) :
  R c (snd (Convert c pData)).
Proof.
  pose proof (reset_buffers_rel c) as H0.
  unfold Convert. cbv zeta.
  change (set_m_inputBuffer None
            (set_m_convertSize 0 (set_m_inputSize 0 (set_m_convertBuffer None c))))
    with (reset_buffers c).
  destruct pData as [pkt|]; [| exact H0].
  destruct (codec_supported _); [| exact H0].
  destruct (m_to_annexb _).
  - destruct (m_convert_bitstream _); [| cbn [snd]; repeat rel_step].
    pose proof (BitstreamConvert_rel (reset_buffers c) pkt (None, 0)) as H1.
    destruct (BitstreamConvert (reset_buffers c) pkt (None, 0))
      as [[ok c1] [bb bs]].
    cbn [fst snd] in H1. pose proof (R_trans _ _ _ H0 H1) as H2.
    destruct bb as [b|]; [destruct (0 <? bs)|]; cbn [snd]; repeat rel_step.
  - destruct (m_convert_bytestream _);
      [| destruct (m_convert_3byteTo4byteNALSize _)];
      try destruct (avio_open_dyn_buf <? 0); cbn [snd]; repeat rel_step.
Qed.

End SingleTrackInvariant.

Section DualTrackInvariant.

Variable R : CBitstreamConverter -> CBitstreamConverter -> Prop.
Hypothesis R_refl : forall c, R c c.
Hypothesis R_trans : forall a b c, R a b -> R b c -> R a c.
Hypothesis R_sei :
  forall c buf out h, R c (fst (fst (ProcessSeiPrefix c buf out h))).
Hypothesis R_rpu : forall c nal out, R c (fst (ProcessDoViRpu c nal out)).
Hypothesis R_add : forall c meta out, R c (fst (AddDoViRpuNalu c meta out)).
Hypothesis R_bl : forall c, R c (upd_dovi (set_bl_present_flag 1) c).
Hypothesis R_el : forall c, R c (upd_dovi (set_el_present_flag 1) c).
Hypothesis R_combine : forall c, R c (set_m_combine true c).
Hypothesis R_convertBuffer : forall c b, R c (set_m_convertBuffer b c).
Hypothesis R_convertSize : forall c n, R c (set_m_convertSize n c).
Hypothesis R_inputBuffer : forall c b, R c (set_m_inputBuffer b c).
Hypothesis R_inputSize : forall c n, R c (set_m_inputSize n c).
Hypothesis R_first_frame : forall c, R c (set_m_first_frame false c).

Ltac rel_step2 :=
  first [ assumption
        | apply R_refl
        | eapply R_trans;
          [| first [ apply R_convertBuffer | apply R_convertSize
                   | apply R_inputBuffer | apply R_inputSize
                   | apply R_first_frame | apply R_combine
                   | apply R_bl | apply R_el ] ] ].

Lemma bl_nal_rel (s : combine_state) (r : list Z) :
  R (cs_conv s) (cs_conv (bl_nal s r)).
Proof.
  unfold bl_nal. cbv zeta. destruct (nal_type32 r =? HEVC_NAL_SEI_PREFIX).
  - pose proof (R_sei (cs_conv s) (nal_at32 r) (cs_out s) (cs_meta s)) as H.
    destruct (ProcessSeiPrefix _ _ _ _) as [[c1 out1] h1].
    cbn [fst cs_conv] in *. repeat rel_step2.
  - destruct (nal_type32 r =? AVC_NAL_END_SEQUENCE); cbn [cs_conv];
      repeat rel_step2.
Qed.

Lemma el_nal_rel (s : combine_state) (r : list Z) :
  R (cs_conv s) (cs_conv (el_nal s r)).
Proof.
  unfold el_nal. cbv zeta. destruct (nal_type32 r =? HEVC_NAL_UNSPEC62).
  - destruct (_ && _); cbn [cs_conv]; [| repeat rel_step2].
    pose proof (R_rpu (cs_conv s) (nal_at32 r) (cs_out s)) as H.
    destruct (ProcessDoViRpu _ _ _) as [c1 out1].
    cbn [fst cs_conv] in *. repeat rel_step2.
  - destruct (_ && _); cbn [cs_conv]; repeat rel_step2.
Qed.

Lemma Convert_bl_el_rel (c : CBitstreamConverter)
    (pData_bl pData_el : option (list Z)) :
  R c (snd (Convert_bl_el c pData_bl pData_el)).
Proof.
  assert (H0 : R c (reset_buffers c))
    by (unfold reset_buffers; repeat rel_step2).
  unfold Convert_bl_el. cbv zeta.
  change (set_m_inputBuffer None
            (set_m_convertSize 0 (set_m_inputSize 0 (set_m_convertBuffer None c))))
    with (reset_buffers c).
  destruct pData_bl as [bl|]; [destruct pData_el as [el|]|];
    try (cbn [snd]; repeat rel_step2).
  destruct (_ && _); [exact H0|].
  set (Rs := fun s s' : combine_state => R (cs_conv s) (cs_conv s')).
  assert (Rs_refl : forall s, Rs s s) by (intros; apply R_refl).
  assert (Rs_trans : forall a b d, Rs a b -> Rs b d -> Rs a d)
    by (unfold Rs; intros; eapply R_trans; eauto).
  match goal with
  | |- context [nal_loop32 bl_nal ?s0 ?b] =>
      pose proof (nal_loop32_rel Rs bl_nal Rs_refl Rs_trans bl_nal_rel b s0)
        as H1;
      destruct (nal_loop32 bl_nal s0 b) as [s1 rest]
  end.
  match goal with
  | |- context [nal_loop32 el_nal s1 ?b] =>
      pose proof (nal_loop32_rel Rs el_nal Rs_refl Rs_trans el_nal_rel b s1)
        as H2;
      destruct (nal_loop32 el_nal s1 b) as [s2 rest2]
  end.
  unfold Rs in H1, H2. cbn [fst cs_conv] in H1, H2.
  assert (H3 : R c (cs_conv s2)) by (eapply R_trans; [exact H0|];
                                     eapply R_trans; eassumption).
  destruct (cs_meta s2) as [meta|].
  - pose proof (R_add (cs_conv s2) meta (cs_out s2)) as H4.
    destruct (AddDoViRpuNalu _ _ _) as [c3 out3]. cbn [fst snd] in *.
    pose proof (R_trans _ _ _ H3 H4). repeat rel_step2.
  - cbn [snd]. repeat rel_step2.
Qed.

End DualTrackInvariant.

(** *** The decode-start latch *)

Lemma same_frame_start (c c' : CBitstreamConverter) :
  same_frame c c' -> m_start_decode c' = m_start_decode c.
Proof. intros (_ & H & _). exact H. Qed.

(** No single-track [Convert] clears the latch. *)
Lemma Convert_start_decode_kept (c : CBitstreamConverter)
    (pData : option (list Z)) :
  m_start_decode c = true -> m_start_decode (snd (Convert c pData)) = true.
Proof.
  apply (Convert_rel
           (fun a b => m_start_decode a = true -> m_start_decode b = true));
    try (intros; assumption); try (intros; auto; fail).
  - intros d codes t p n out h Hd.
    pose proof (convert_nal_frame d codes t p n out h)
      as (_ & _ & _ & Hs & _).
    rewrite Hs, Hd. reflexivity.
  - intros d meta out Hd.
    rewrite (same_frame_start _ _ (AddDoViRpuNalu_frame d meta out)).
    exact Hd.
Qed.

(** The dual-track [Convert] leaves the latch as it is. *)
Lemma Convert_bl_el_start_decode (c : CBitstreamConverter)
    (pData_bl pData_el : option (list Z)) :
  m_start_decode (snd (Convert_bl_el c pData_bl pData_el)) = m_start_decode c.
Proof.
  apply (Convert_bl_el_rel
           (fun a b => m_start_decode b = m_start_decode a));
    try reflexivity.
  - intros a b d H1 H2. congruence.
  - intros d buf out h.
    apply same_frame_start, ProcessSeiPrefix_frame.
  - intros d nal out. apply same_frame_start.
    pose proof (ProcessDoViRpu_frame d nal out) as H.
    destruct (ProcessDoViRpu d nal out). exact H.
  - intros d meta out. apply same_frame_start, AddDoViRpuNalu_frame.
Qed.

(** The test of a unit looks at the converter for its codec only. *)
Lemma some_unit_starts_decode_config (c c' : CBitstreamConverter)
    (codes : Z * Z * Z) (pkt : list Z) (l : list (nat * Z)) :
  config_of c' = config_of c ->
  some_unit_starts_decode c' codes pkt l
  = some_unit_starts_decode c codes pkt l.
Proof.
  intros H. assert (Hc : m_codec c' = m_codec c)
    by (unfold config_of in H; congruence).
  unfold some_unit_starts_decode, starts_decode, unit_type_at, IsIDR.
  rewrite Hc. reflexivity.
Qed.

(** The loop sets the latch at the units it reaches, also when it fails
    further on. *)
Lemma nal_loop_start_decode (codes : Z * Z * Z) (pkt : list Z) :
  forall (fuel pos : nat) (c : CBitstreamConverter) (out : outbuf)
         (h : option Hdr10PlusMetadata),
    (length pkt - pos < fuel)%nat ->
    m_start_decode (loop_conv (nal_loop codes c pkt pos out h))
    = m_start_decode c
      || some_unit_starts_decode c codes pkt
           (walk_nals fuel (length_size (m_sps_pps_context c)) pkt pos).
Proof.
  induction fuel as [|f IH]; intros pos c out h Hf; [lia|].
  rewrite nal_loop_step. unfold nal_body. cbn [walk_nals].
  set (ls := length_size (m_sps_pps_context c)).
  destruct (Z.of_nat pos + ls >? len pkt);
    [cbn [loop_conv some_unit_starts_decode existsb];
     unfold some_unit_starts_decode; cbn [existsb];
     rewrite orb_false_r; reflexivity|].
  set (n := read_nal_size ls pkt pos).
  set (pos1 := (pos + Z.to_nat ls)%nat).
  destruct ((Z.of_nat pos1 + n >? len pkt) || (n <=? 0)) eqn:Hc;
    [unfold some_unit_starts_decode; cbn [loop_conv existsb];
     rewrite orb_false_r; reflexivity|].
  apply orb_false_iff in Hc. destruct Hc as [_ Hn]. apply Z.leb_gt in Hn.
  pose proof (convert_nal_frame c codes (unit_type_at c pkt pos1)
                (skipn pos1 pkt) n out h) as (Hcfg & _ & _ & Hs & _).
  destruct (convert_nal c codes (unit_type_at c pkt pos1) (skipn pos1 pkt)
              n out h) as [[c1 out1] h1].
  cbn [fst snd] in Hcfg, Hs.
  unfold some_unit_starts_decode. cbn [existsb fst snd].
  fold (some_unit_starts_decode c codes pkt).
  destruct (Z.ltb_spec (Z.of_nat (pos1 + Z.to_nat n)) (len pkt)) as [Hl|Hl].
  - rewrite IH by (unfold len in Hl; lia).
    rewrite (some_unit_starts_decode_config c c1) by exact Hcfg.
    assert (Hls : length_size (m_sps_pps_context c1) = ls)
      by (subst ls; unfold config_of in Hcfg; congruence).
    rewrite Hls, Hs, orb_assoc. reflexivity.
  - cbn [loop_conv]. rewrite Hs.
    unfold some_unit_starts_decode. cbn [existsb].
    rewrite orb_false_r. reflexivity.
Qed.

(** On the converting path the latch after [Convert] is the latch before
    or the test at some unit the loop reached. *)
Lemma Convert_start_decode (c : CBitstreamConverter) (codes : Z * Z * Z)
    (pkt : list Z) :
  conversion_active c -> nal_codes (m_codec c) = Some codes ->
  m_start_decode (snd (Convert c (Some pkt)))
  = m_start_decode c
    || some_unit_starts_decode c codes pkt
         (encountered (length_size (m_sps_pps_context c)) pkt).
Proof.
  intros (Ha & Hb & Hs & _) Hc. unfold Convert. cbv zeta.
  change (set_m_inputBuffer None
            (set_m_convertSize 0 (set_m_inputSize 0 (set_m_convertBuffer None c))))
    with (reset_buffers c).
  change (m_codec (reset_buffers c)) with (m_codec c).
  change (m_to_annexb (reset_buffers c)) with (m_to_annexb c).
  change (m_convert_bitstream (reset_buffers c)) with (m_convert_bitstream c).
  rewrite Hs, Ha, Hb.
  assert (H : m_start_decode
                (snd (fst (BitstreamConvert (reset_buffers c) pkt (None, 0))))
              = m_start_decode c
                || some_unit_starts_decode c codes pkt
                     (encountered (length_size (m_sps_pps_context c)) pkt)).
  { unfold BitstreamConvert.
    change (m_codec (reset_buffers c)) with (m_codec c). rewrite Hc.
    pose proof (nal_loop_start_decode codes pkt (S (length pkt)) 0
                  (reset_buffers c) (None, 0) None ltac:(lia)) as HL.
    rewrite (some_unit_starts_decode_config c (reset_buffers c)) in HL
      by reflexivity.
    change (length_size (m_sps_pps_context (reset_buffers c)))
      with (length_size (m_sps_pps_context c)) in HL.
    change (m_start_decode (reset_buffers c)) with (m_start_decode c) in HL.
    fold (encountered (length_size (m_sps_pps_context c)) pkt) in HL.
    rewrite <- HL.
    destruct (nal_loop codes (reset_buffers c) pkt 0 (None, 0) None)
      as [c1 | c1 out1 h1]; cbn [loop_conv fst snd]; [reflexivity|].
    destruct h1 as [meta|]; [| reflexivity].
    pose proof (AddDoViRpuNalu_frame c1 meta out1) as (_ & HF & _).
    destruct (AddDoViRpuNalu c1 meta out1) as [c2 out2].
    cbn [fst snd] in *. exact HF. }
  destruct (BitstreamConvert (reset_buffers c) pkt (None, 0))
    as [[ok c1] [bb bs]].
  cbn [fst snd] in H.
  destruct bb as [b|]; [destruct (0 <? bs)|]; exact H.
Qed.

(** A single-track [Convert] that does not run the conversion leaves the
    latch as it is. *)
Lemma Convert_start_decode_passed (c : CBitstreamConverter)
    (pData : option (list Z)) :
  m_to_annexb c = false \/ m_convert_bitstream c = false
  \/ codec_supported (m_codec c) = false ->
  m_start_decode (snd (Convert c pData)) = m_start_decode c.
Proof.
  intros H. unfold Convert. cbv zeta.
  change (set_m_inputBuffer None
            (set_m_convertSize 0 (set_m_inputSize 0 (set_m_convertBuffer None c))))
    with (reset_buffers c).
  change (m_codec (reset_buffers c)) with (m_codec c).
  change (m_to_annexb (reset_buffers c)) with (m_to_annexb c).
  change (m_convert_bitstream (reset_buffers c)) with (m_convert_bitstream c).
  destruct pData as [pkt|]; [| reflexivity].
  destruct (codec_supported (m_codec c)) eqn:Hs; [| reflexivity].
  destruct (m_to_annexb c) eqn:Ha.
  - destruct (m_convert_bitstream c) eqn:Hb; [| reflexivity].
    destruct H as [H | [H | H]]; discriminate.
  - destruct (m_convert_bytestream _);
      [| destruct (m_convert_3byteTo4byteNALSize _)];
      try destruct (avio_open_dyn_buf <? 0); reflexivity.
Qed.

(** On a well-formed packet the loop reaches every unit. *)
Lemma walk_nals_packet (ls : Z) (pkt : list Z) (pos : nat)
    (nals : list (nat * Z)) :
  0 <= ls -> packet_nals ls pkt pos nals ->
  forall fuel, (length pkt - pos < fuel)%nat ->
    walk_nals fuel ls pkt pos = nals.
Proof.
  intros Hls Hp. induction Hp as [pos n H1 H2 H3 H4 | pos n rest H1 H2 H3 H4 Hp IH];
    intros fuel Hf; (destruct fuel as [|f]; [lia|]); cbn [walk_nals];
    rewrite <- H2.
  - destruct (Z.gtb_spec (Z.of_nat pos + ls) (len pkt)); [lia|].
    destruct (Z.gtb_spec (Z.of_nat (pos + Z.to_nat ls) + n) (len pkt));
      [lia|].
    destruct (Z.leb_spec n 0); [lia|]. cbn [orb].
    destruct (Z.ltb_spec (Z.of_nat (pos + Z.to_nat ls + Z.to_nat n))
                (len pkt)); [lia | reflexivity].
  - destruct (Z.gtb_spec (Z.of_nat pos + ls) (len pkt)); [lia|].
    destruct (Z.gtb_spec (Z.of_nat (pos + Z.to_nat ls) + n) (len pkt));
      [lia|].
    destruct (Z.leb_spec n 0); [lia|]. cbn [orb].
    destruct (Z.ltb_spec (Z.of_nat (pos + Z.to_nat ls + Z.to_nat n))
                (len pkt)) as [Hl|Hl]; [| lia].
    rewrite IH by (unfold len in *; lia). reflexivity.
Qed.

(** C2, as the code has it.  On the single-track path that runs the
    conversion, a [Convert] of any packet leaves the latch set exactly
    when it was set before or the test passes at some unit the loop
    reached with a valid length, also in a packet that it rejects further
    on; on a well-formed packet these are all its units.  The test passes
    at an SPS and at an IDR unit (what [IsIDR] accepts) and fails at every
    other unit that is not an SEI.  At an H.264 SEI unit made of a header
    byte, messages without payload type 128 and the byte 0x80, it passes
    exactly when the first recovery-point message has a
    [recovery_frame_cnt] that is not negative, which is so whenever the
    payload starts with a complete Exp-Golomb code of up to 30 zeros.
    Nothing is said of an HEVC SEI unit.  No single-track [Convert] clears
    the latch; one that does not run the conversion leaves it as it is,
    and so does the dual-track [Convert]; [ResetStartDecode] clears
    it. *)
Theorem start_decode_latch (c : CBitstreamConverter) :
  (forall (codes : Z * Z * Z) (pkt : list Z),
     conversion_active c -> nal_codes (m_codec c) = Some codes ->
     m_start_decode (snd (Convert c (Some pkt)))
     = m_start_decode c
       || some_unit_starts_decode c codes pkt
            (encountered (length_size (m_sps_pps_context c)) pkt))
  /\ (forall (pkt : list Z) (nals : list (nat * Z)),
        conversion_active c ->
        packet_nals (length_size (m_sps_pps_context c)) pkt 0 nals ->
        encountered (length_size (m_sps_pps_context c)) pkt = nals)
  /\ (forall (nal_sps nal_pps nal_sei t : Z) (p : list Z) (n : Z),
        nal_codes (m_codec c) = Some (nal_sps, nal_pps, nal_sei) ->
        (t = nal_sps \/ IsIDR c t = true ->
         starts_decode c (nal_sps, nal_pps, nal_sei) t p n = true)
        /\ (t <> nal_sps -> IsIDR c t = false -> t <> nal_sei ->
            starts_decode c (nal_sps, nal_pps, nal_sei) t p n = false))
  /\ (forall (header : Z) (msgs : list (Z * list Z)) (following : list Z),
        m_codec c = AV_CODEC_ID_H264 ->
        Forall (fun m => 0 <= fst m /\ fst m <> 128) msgs ->
        starts_decode c (AVC_NAL_SPS, AVC_NAL_PPS, AVC_NAL_SEI) AVC_NAL_SEI
          (sei_nal header msgs ++ following) (len (sei_nal header msgs))
        = sei_recovery_point msgs)
  /\ (forall (payload : list Z) (k : nat) (w rest : list Z),
        Forall is_byte payload -> (k < 31)%nat -> length w = k ->
        unread (nal_bs_init payload) = repeat 0 k ++ 1 :: w ++ rest ->
        recovery_frame_cnt payload = 2 ^ Z.of_nat k - 1 + bits_value w
        /\ 0 <= recovery_frame_cnt payload)
  /\ (forall pData : option (list Z),
        m_start_decode c = true ->
        m_start_decode (snd (Convert c pData)) = true)
  /\ (forall pData : option (list Z),
        m_to_annexb c = false \/ m_convert_bitstream c = false
        \/ codec_supported (m_codec c) = false ->
        m_start_decode (snd (Convert c pData)) = m_start_decode c)
  /\ (forall pData_bl pData_el : option (list Z),
        m_start_decode (snd (Convert_bl_el c pData_bl pData_el))
        = m_start_decode c)
  /\ m_start_decode (ResetStartDecode c) = false.
Proof.
  split; [| split; [| split; [| split; [| split; [| split; [| split;
    [| split]]]]]]].
  - intros codes pkt. apply Convert_start_decode.
  - intros pkt nals (_ & _ & _ & Hls) Hn. unfold encountered.
    apply walk_nals_packet; [exact Hls | exact Hn | lia].
  - intros nal_sps nal_pps nal_sei t p n _. unfold starts_decode. split.
    + intros [-> | ->]; [rewrite Z.eqb_refl; reflexivity|].
      rewrite orb_true_r. reflexivity.
    + intros H1 H2 H3. apply Z.eqb_neq in H1, H3. rewrite H1, H2, H3.
      reflexivity.
  - intros header msgs following Hc Hall. unfold starts_decode, IsIDR.
    rewrite Hc. change (AVC_NAL_SEI =? AVC_NAL_SPS) with false.
    change (AVC_NAL_SEI =? AVC_NAL_IDR_SLICE) with false.
    rewrite Z.eqb_refl. cbn [orb andb].
    unfold len. rewrite Nat2Z.id.
    apply has_sei_recovery_point_messages. exact Hall.
  - intros payload k w rest Hb Hk Hw Hu.
    assert (Hok : reader_ok (nal_bs_init payload))
      by (split; [cbn; lia | exact Hb]).
    destruct (nal_bs_read_ue_code (nal_bs_init payload) k 1 w rest Hok Hu Hw
                (or_introl (conj Hk eq_refl))) as (_ & _ & H).
    unfold recovery_frame_cnt. rewrite (H Hk). split; [reflexivity|].
    assert (Hbits : Forall (fun b => b = 0 \/ b = 1) w).
    { pose proof (unread_bits (nal_bs_init payload)) as Hall.
      rewrite Hu in Hall.
      apply Forall_app in Hall. destruct Hall as [_ Hall].
      inversion Hall as [|? ? _ Hall']; subst.
      apply Forall_app in Hall'. tauto. }
    pose proof (bits_value_range w Hbits) as Hrg.
    assert (0 < 2 ^ Z.of_nat (length w))
      by (apply Z.pow_pos_nonneg; lia).
    lia.
  - intros pData. apply Convert_start_decode_kept.
  - intros pData. apply Convert_start_decode_passed.
  - apply Convert_bl_el_start_decode.
  - reflexivity.
Qed.

(** *** The enhancement-layer flag of the hints *)





















(** *** [Open] *)

(** C8, as the code has it.  [Open] returns false when the configuration
    record is missing or shorter than 7 bytes (H.264; 23 bytes for HEVC).
    Towards Annex B it returns false for an H.264 record whose first byte
    is not 1, and for an HEVC record exactly when the first two bytes are
    zero and the third is at most 1.  For a record of either codec that is
    long enough and starts with 1 it returns true in both directions. *)
Theorem Open_record_check (c : CBitstreamConverter) (to_annexb : bool) :
  let cd := codec (m_hints c) in
  let need := match cd with AV_CODEC_ID_HEVC => 23 | _ => 7 end in
  (extradata (m_hints c) = None -> fst (Open c to_annexb) = false)
  /\ (forall ed, extradata (m_hints c) = Some ed -> len ed < need ->
                 fst (Open c to_annexb) = false)
  /\ (forall ed, extradata (m_hints c) = Some ed ->
                 cd = AV_CODEC_ID_H264 -> to_annexb = true ->
                 rd ed 0 <> 1 -> fst (Open c to_annexb) = false)
  /\ (forall ed, extradata (m_hints c) = Some ed ->
                 cd = AV_CODEC_ID_HEVC -> to_annexb = true ->
                 need <= len ed ->
                 fst (Open c to_annexb)
                 = negb ((rd ed 0 =? 0) && (rd ed 1 =? 0) && (rd ed 2 <=? 1)))
  /\ (forall ed, extradata (m_hints c) = Some ed ->
                 cd <> AV_CODEC_ID_OTHER -> need <= len ed ->
                 rd ed 0 = 1 -> fst (Open c to_annexb) = true).
Proof.
  intros cd need. subst cd need. unfold Open. cbv zeta.
  proj_simpl.
  split; [| split; [| split; [| split]]].
  - intros ->. destruct (codec (m_hints c)); reflexivity.
  - intros ed -> Hlen. destruct (codec (m_hints c)).
    + apply Z.ltb_lt in Hlen. rewrite Hlen. reflexivity.
    + apply Z.ltb_lt in Hlen. rewrite Hlen. reflexivity.
    + reflexivity.
  - intros ed -> -> -> Hv. apply Z.eqb_neq in Hv. rewrite Hv.
    destruct (len ed <? 7); reflexivity.
  - intros ed -> -> -> Hlen.
    destruct (Z.ltb_spec (len ed) 23); [lia|].
    replace (1 <? rd ed 2) with (negb (rd ed 2 <=? 1))
      by (rewrite Z.leb_antisym, negb_involutive; reflexivity).
    destruct (rd ed 0 =? 0), (rd ed 1 =? 0), (rd ed 2 <=? 1);
      cbn [negb orb andb]; try reflexivity;
      destruct (BitstreamConvertInitHEVC _ _); reflexivity.
  - intros ed -> Hcd Hlen Hv.
    destruct (codec (m_hints c)); [| | congruence].
    + destruct (Z.ltb_spec (len ed) 7); [lia|]. rewrite Hv. cbn [Z.eqb negb].
      destruct to_annexb.
      * change (1 =? 1) with true. cbv iota.
        destruct (BitstreamConvertInitAVC _ _); reflexivity.
      * change (negb (1 =? 1)) with false. cbv iota.
        destruct (rd ed 4 =? 254); reflexivity.
    + destruct (Z.ltb_spec (len ed) 23); [lia|]. rewrite Hv.
      destruct to_annexb.
      * change (negb (1 =? 0)) with true. cbn [orb].
        destruct (BitstreamConvertInitHEVC _ _); reflexivity.
      * change (negb (1 =? 1)) with false. cbv iota.
        destruct (Z.land (rd ed 4) 3 =? 2); reflexivity.
Qed.

(** *** The dual-track [Convert] without one of its inputs *)

(** C10.  When either pointer is NULL the dual-track [Convert] returns
    true, leaves no output ([m_convertBuffer] is NULL, [m_convertSize] is
    0, the accessors give NULL and 0) and clears the first-frame latch. *)
Theorem Convert_bl_el_null (c : CBitstreamConverter)
    (pData_bl pData_el : option (list Z)) :
  pData_bl = None \/ pData_el = None ->
  let r := Convert_bl_el c pData_bl pData_el in
  fst r = true
  /\ m_convertBuffer (snd r) = None /\ m_convertSize (snd r) = 0
  /\ GetConvertBuffer (snd r) = None /\ GetConvertSize (snd r) = 0
  /\ m_first_frame (snd r) = false.
Proof.
  intros H r. subst r. unfold Convert_bl_el. cbv zeta.
  assert (Hr : match pData_bl, pData_el with
               | Some _, Some _ => False
               | _, _ => True
               end)
    by (destruct H as [-> | ->]; [| destruct pData_bl]; exact I).
  destruct pData_bl as [bl|]; [destruct pData_el as [el|]; [contradiction|]|];
    unfold GetConvertBuffer, GetConvertSize; proj_simpl;
    rewrite andb_false_r; repeat split.
Qed.


(** ** Further properties of the two [Convert] overloads *)

(** No [Convert] call changes the settings of the converter: the NAL
    length size, the prologue, the direction, the codec and the options
    are those the call found, whatever the packets hold. *)
Theorem Convert_keeps_settings (c : CBitstreamConverter) :
  (forall pData : option (list Z),
     config_of (snd (Convert c pData)) = config_of c)
  /\ (forall pData_bl pData_el : option (list Z),
        config_of (snd (Convert_bl_el c pData_bl pData_el)) = config_of c).
Proof.
  split.
  - intros pData.
    apply (Convert_rel (fun a b => config_of b = config_of a));
      try reflexivity.
    + intros a b d H1 H2. congruence.
    + intros d codes t p n out h. apply convert_nal_frame.
    + intros d meta out. apply AddDoViRpuNalu_frame.
  - intros pData_bl pData_el.
    apply (Convert_bl_el_rel (fun a b => config_of b = config_of a));
      try reflexivity.
    + intros a b d H1 H2. congruence.
    + intros d buf out h. apply ProcessSeiPrefix_frame.
    + intros d nal out.
      pose proof (ProcessDoViRpu_frame d nal out) as H.
      destruct (ProcessDoViRpu d nal out). apply H.
    + intros d meta out. apply AddDoViRpuNalu_frame.
Qed.

(** Towards Annex B, when the configuration record could not be turned
    into a prologue ([m_convert_bitstream] is false), [Convert] succeeds
    and exposes the packet as it came. *)
Theorem Convert_passthrough (c : CBitstreamConverter) (pkt : list Z) :
  codec_supported (m_codec c) = true ->
  m_to_annexb c = true -> m_convert_bitstream c = false ->
  m_convert_bytestream c = false ->
  m_convert_3byteTo4byteNALSize c = false -> m_combine c = false ->
  let r := Convert c (Some pkt) in
  fst r = true
  /\ GetConvertBuffer (snd r) = Some pkt
  /\ GetConvertSize (snd r) = len pkt
  /\ m_first_frame (snd r) = m_first_frame c
  /\ m_start_decode (snd r) = m_start_decode c.
Proof.
  intros Hc Ha Hb H1 H2 H3 r. subst r. unfold Convert. cbv zeta.
  proj_simpl. rewrite Hc, Ha, Hb.
  unfold GetConvertBuffer, GetConvertSize. proj_simpl.
  rewrite Hb, H1, H2, H3. repeat split.
Qed.

(** A NULL packet and a codec other than H.264 and HEVC make the
    single-track [Convert] return false with nothing exposed; the latches
    and the prologue flags stay as they were. *)
Theorem Convert_rejects (c : CBitstreamConverter)
    (pData : option (list Z)) :
  pData = None \/ codec_supported (m_codec c) = false ->
  let r := Convert c pData in
  fst r = false
  /\ GetConvertBuffer (snd r) = None /\ GetConvertSize (snd r) = 0
  /\ m_first_frame (snd r) = m_first_frame c
  /\ m_start_decode (snd r) = m_start_decode c
  /\ idr_flags (snd r) = idr_flags c.
Proof.
  intros H r. subst r. unfold Convert. cbv zeta. proj_simpl.
  assert (Hr : match pData with
               | None => True
               | Some _ => codec_supported (m_codec c) = false
               end)
    by (destruct H as [-> | H]; [exact I | destruct pData; auto]).
  destruct pData as [pkt|]; [rewrite Hr|];
    unfold GetConvertBuffer, GetConvertSize; proj_simpl;
    rewrite andb_false_r; repeat split.
Qed.

(** The first-frame latch is never set by a [Convert] call.  The
    dual-track overload clears it whenever it returns true; the
    single-track overload
    clears it when [BitstreamConvert] gets through a well-formed packet
    and leaves it alone when the packet has a bad length field. *)
Theorem first_frame_latch (c : CBitstreamConverter) :
  (forall pData : option (list Z),
     m_first_frame c = false -> m_first_frame (snd (Convert c pData)) = false)
  /\ (forall pData_bl pData_el : option (list Z),
        fst (Convert_bl_el c pData_bl pData_el) = true ->
        m_first_frame (snd (Convert_bl_el c pData_bl pData_el)) = false)
  /\ (forall (codes : Z * Z * Z) (pkt : list Z) (nals : list (nat * Z)),
        conversion_active c -> prologue_ok c ->
        nal_codes (m_codec c) = Some codes ->
        packet_nals (length_size (m_sps_pps_context c)) pkt 0 nals ->
        m_first_frame (snd (Convert c (Some pkt))) = false)
  /\ (forall pkt : list Z,
        conversion_active c ->
        declares_bad_length (length_size (m_sps_pps_context c)) pkt 0 ->
        m_first_frame (snd (Convert c (Some pkt))) = m_first_frame c).
Proof.
  split; [| split; [| split]].
  - intros pData.
    apply (Convert_rel
             (fun a b => m_first_frame a = false -> m_first_frame b = false));
      try (intros; assumption); try (intros; auto; fail).
    + intros d codes t p n out h Hd.
      pose proof (convert_nal_frame d codes t p n out h) as (_ & H & _).
      congruence.
    + intros d meta out Hd.
      pose proof (AddDoViRpuNalu_frame d meta out) as (_ & _ & H & _).
      congruence.
  - intros pData_bl pData_el. unfold Convert_bl_el. cbv zeta.
    destruct pData_bl as [bl|]; [destruct pData_el as [el|]|];
      try reflexivity.
    destruct (_ && _); [discriminate|]. intros _.
    repeat match goal with
           | |- context [let '(_, _) := ?x in _] => destruct x
           end.
    reflexivity.
  - intros codes pkt nals Ha Hp Hc Hn.
    destruct (Convert_nals_result c codes pkt nals Ha Hp Hc Hn)
      as ((_ & H & _) & _).
    exact H.
  - intros pkt Ha Hbad. rewrite (Convert_active c pkt Ha).
    destruct (conversion_active_codes c Ha) as (codes & Hc).
    unfold BitstreamConvert.
    change (m_codec (reset_buffers c)) with (m_codec c). rewrite Hc.
    pose proof (nal_loop_rel
                  (fun a b => m_first_frame b = m_first_frame a) codes pkt
                  (fun a => eq_refl)
                  (fun a b d H1 H2 => eq_trans H2 H1)
                  (fun a t p n out h =>
                     proj1 (proj2 (convert_nal_frame a codes t p n out h)))
                  0%nat (reset_buffers c) (None, 0) None) as Hff.
    destruct (nal_loop_bad codes pkt _ 0 Hbad (reset_buffers c) (None, 0)
                None eq_refl (proj2 (proj2 (proj2 Ha)))) as (c1 & Hl & _).
    rewrite Hl in Hff |- *. cbn [loop_conv] in Hff. exact Hff.
Qed.

(** *** Packets whose units are all copied *)

Lemma annexb_of_ext (idr idr' slice slice' sp : Z -> bool)
    (prologue pkt : list Z) (ut ut' : nat -> Z) (nals : list (nat * Z)) :
  (forall t, idr t = idr' t) -> (forall t, slice t = slice' t) ->
  (forall p, ut p = ut' p) ->
  forall (fl : Z * Z) (offset : Z),
    annexb_of idr slice sp prologue pkt ut nals fl offset
    = annexb_of idr' slice' sp prologue pkt ut' nals fl offset.
Proof.
  intros Hi Hs Hu.
  induction nals as [|[p n] nals IH]; intros fl offset; cbn [annexb_of];
    [reflexivity|].
  rewrite <- Hu, (idr_step_ext idr idr' slice slice') by auto.
  destruct (idr_step idr' slice' sp fl (ut p)) as [fl1 pro].
  rewrite IH. reflexivity.
Qed.

(** A unit of a type that is always copied goes to the output after its
    start code, behind the prologue when the flags ask for it. *)
Lemma convert_nal_copy (c : CBitstreamConverter) (codes : Z * Z * Z)
    (t : Z) (p : list Z) (n : Z) (out : outbuf)
    (h : option Hdr10PlusMetadata) :
  prologue_ok c -> outbuf_ok out -> always_copied t = true ->
  snd (convert_nal c codes t p n out h) = h
  /\ bytes_of (snd (fst (convert_nal c codes t p n out h)))
     = bytes_of out
         ++ (if snd (idr_step (IsIDR c) (IsSlice c) (is_sps_pps codes)
                       (idr_flags c) t)
             then prologue_of (sps_pps_data (m_sps_pps_context c)) else [])
         ++ start_code (snd out) t ++ firstn (Z.to_nat n) p.
Proof.
  intros Hp Hok Ht.
  pose proof (convert_nal_eq c codes t p n out h) as H. cbv zeta in H.
  destruct (idr_step (IsIDR c) (IsSlice c) (is_sps_pps codes)
              (idr_flags c) t) as [[fi seen] pro].
  rewrite H. clear H. cbn [snd]. destruct pro.
  - cbn [fst snd]. rewrite BitstreamAllocAndCopy_spec by assumption.
    split; reflexivity.
  - unfold dispatch. unfold always_copied in Ht.
    apply negb_true_iff in Ht. apply orb_false_iff in Ht.
    destruct Ht as [Ht H63]. apply orb_false_iff in Ht.
    destruct Ht as [H39 H62]. rewrite H39, H62, H63. cbn [fst snd].
    rewrite BitstreamAllocAndCopy_spec by (auto; reflexivity).
    split; reflexivity.
Qed.

Lemma convert_nals_copy (codes : Z * Z * Z) (pkt : list Z)
    (nals : list (nat * Z)) :
  forall (c : CBitstreamConverter) (out : outbuf)
         (h : option Hdr10PlusMetadata),
    prologue_ok c -> outbuf_ok out ->
    forallb always_copied (unit_types c pkt nals) = true ->
    snd (convert_nals codes c pkt nals out h) = h
    /\ bytes_of (snd (fst (convert_nals codes c pkt nals out h)))
       = bytes_of out
           ++ annexb_of (IsIDR c) (IsSlice c) (is_sps_pps codes)
                (prologue_of (sps_pps_data (m_sps_pps_context c))) pkt
                (unit_type_at c pkt) nals (idr_flags c) (snd out).
Proof.
  induction nals as [|[p n] nals IH]; intros c out h Hp Hok Hall.
  - cbn. rewrite app_nil_r. split; reflexivity.
  - cbn [unit_types map forallb fst] in Hall.
    apply andb_true_iff in Hall. destruct Hall as [Ht Hall].
    cbn [convert_nals annexb_of].
    pose proof (convert_nal_copy c codes (unit_type_at c pkt p)
                  (skipn p pkt) n out h Hp Hok Ht) as (B1 & B2).
    pose proof (convert_nal_frame c codes (unit_type_at c pkt p)
                  (skipn p pkt) n out h) as (A1 & _ & _ & _ & A5 & _).
    pose proof (convert_nal_appends c codes (unit_type_at c pkt p)
                  (skipn p pkt) n out h Hp Hok) as A.
    destruct (convert_nal c codes _ _ n out h) as [[c1 out1] h1].
    cbn [fst snd] in B1, B2, A1, A5, A. subst h1.
    pose proof (config_codec _ _ A1) as Hcd.
    assert (Hp1 : prologue_ok c1) by (eapply prologue_ok_config; eauto).
    assert (Hall1 : forallb always_copied (unit_types c1 pkt nals) = true).
    { replace (unit_types c1 pkt nals) with (unit_types c pkt nals);
        [exact Hall|].
      unfold unit_types. apply map_ext. intros [q m]. symmetry.
      apply unit_type_at_codec. exact Hcd. }
    destruct (IH c1 out1 h Hp1 (appends_ok _ _ A) Hall1) as (C1 & C2).
    split; [exact C1|]. rewrite C2, B2.
    destruct (idr_step (IsIDR c) (IsSlice c) (is_sps_pps codes)
                (idr_flags c) (unit_type_at c pkt p)) as [fl1 pro].
    cbn [fst snd] in *.
    rewrite (annexb_of_ext (IsIDR c1) (IsIDR c) (IsSlice c1) (IsSlice c) _ _
               _ (unit_type_at c1 pkt) (unit_type_at c pkt))
      by (intros; auto using IsIDR_codec, IsSlice_codec, unit_type_at_codec).
    assert (Hpro : sps_pps_data (m_sps_pps_context c1)
                   = sps_pps_data (m_sps_pps_context c))
      by (unfold config_of in A1; inversion A1; reflexivity).
    rewrite Hpro, A5.
    assert (Hsz : snd out1
                  = snd out
                    + len ((if pro
                            then prologue_of
                                   (sps_pps_data (m_sps_pps_context c))
                            else [])
                           ++ start_code (snd out) (unit_type_at c pkt p)
                           ++ firstn (Z.to_nat n) (skipn p pkt))).
    { destruct A as [A _]. unfold outbuf_ok in A, Hok.
      rewrite A, B2, len_app, Hok. reflexivity. }
    rewrite Hsz, <- !app_assoc. reflexivity.
Qed.

(** Every unit of an H.264 packet is of a type that is always copied. *)
Lemma avc_always_copied (c : CBitstreamConverter) (pkt : list Z)
    (nals : list (nat * Z)) :
  m_codec c = AV_CODEC_ID_H264 ->
  forallb always_copied (unit_types c pkt nals) = true.
Proof.
  intros Hc. unfold unit_types. rewrite forallb_forall. intros t Ht.
  apply in_map_iff in Ht. destruct Ht as ([p n] & <- & _).
  unfold unit_type_at. rewrite Hc. cbn [fst].
  assert (H : 0 <= Z.land (rd pkt p) 0x1f < 32).
  { change 0x1f with (Z.ones 5). rewrite Z.land_ones by lia.
    apply Z.mod_pos_bound. reflexivity. }
  unfold always_copied, HEVC_NAL_SEI_PREFIX, HEVC_NAL_UNSPEC62,
    HEVC_NAL_UNSPEC63.
  destruct (Z.eqb_spec (Z.land (rd pkt p) 31) 39); [lia|].
  destruct (Z.eqb_spec (Z.land (rd pkt p) 31) 62); [lia|].
  destruct (Z.eqb_spec (Z.land (rd pkt p) 31) 63); [lia|]. reflexivity.
Qed.

(** The conversion to Annex B of a well-formed packet all of whose units
    are of types that are always copied, as every unit of an H.264 packet
    is: [Convert] succeeds and exposes the units in their order, each
    behind its start code, with the prologue where the flags ask for
    it. *)
Theorem Convert_annexb (c : CBitstreamConverter) (codes : Z * Z * Z)
    (pkt : list Z) (nals : list (nat * Z)) :
  conversion_active c -> prologue_ok c ->
  nal_codes (m_codec c) = Some codes ->
  packet_nals (length_size (m_sps_pps_context c)) pkt 0 nals ->
  m_codec c = AV_CODEC_ID_H264
  \/ forallb always_copied (unit_types c pkt nals) = true ->
  let bytes :=
    annexb_of (IsIDR c) (IsSlice c) (is_sps_pps codes)
      (prologue_of (sps_pps_data (m_sps_pps_context c))) pkt
      (unit_type_at c pkt) nals (idr_flags c) 0 in
  fst (Convert c (Some pkt)) = true
  /\ GetConvertBuffer (snd (Convert c (Some pkt))) = Some bytes
  /\ GetConvertSize (snd (Convert c (Some pkt))) = len bytes.
Proof.
  intros Ha Hp Hc Hn Hall0 bytes.
  assert (Hall : forallb always_copied (unit_types c pkt nals) = true)
    by (destruct Hall0; auto using avc_always_copied).
  destruct (Convert_nals_result c codes pkt nals Ha Hp Hc Hn)
    as (_ & Hok & Hr & Hex & _).
  destruct (convert_nals_copy codes pkt nals (reset_buffers c) (None, 0) None
              Hp outbuf_ok_empty Hall) as (C1 & C2).
  assert (Hb : bytes_of (snd (converted codes c pkt nals)) = bytes).
  { unfold converted.
    destruct (convert_nals codes (reset_buffers c) pkt nals (None, 0) None)
      as [[c1 out1] h1].
    cbn [fst snd] in C1, C2. subst h1. cbn [snd]. exact C2. }
  assert (Hpos : 0 < snd (snd (converted codes c pkt nals))).
  { pose proof (converted_ok codes c pkt nals Hp) as HA. cbv zeta in HA.
    pose proof (convert_nals_appends codes pkt nals (reset_buffers c)
                  (None, 0) None Hp outbuf_ok_empty) as HO.
    pose proof (convert_nals_copied codes pkt nals (reset_buffers c)
                  (None, 0) None Hp outbuf_ok_empty) as HS.
    pose proof (appends_size _ _ (appends_ok _ _ HO) HA).
    assert (existsb always_copied (unit_types c pkt nals) = true).
    { destruct Hn; cbn [unit_types map forallb existsb fst] in *;
        apply andb_true_iff in Hall; destruct Hall as [-> _]; reflexivity. }
    specialize (HS (or_introl H0)). lia. }
  destruct (Hex Hpos) as [Hb1 Hb2].
  split; [rewrite Hr; apply Z.ltb_lt; exact Hpos|].
  split; [rewrite Hb1, Hb; reflexivity|].
  rewrite Hb2, Hok, Hb. reflexivity.
Qed.



(** *** Well-formed packets, decided *)

Lemma packet_walk_sound (ls : Z) (pkt : list Z) (fuel : nat) :
  forall (pos : nat) (nals : list (nat * Z)),
    packet_walk fuel ls pkt pos = Some nals -> packet_nals ls pkt pos nals.
Proof.
  induction fuel as [|f IH]; intros pos nals; cbn [packet_walk];
    [discriminate|].
  destruct (Z.leb_spec (Z.of_nat pos + ls) (len pkt)); [| discriminate].
  destruct (Z.ltb_spec 0 (read_nal_size ls pkt pos)); [| discriminate].
  destruct (Z.eqb_spec (Z.of_nat pos + ls + read_nal_size ls pkt pos)
              (len pkt)).
  - intros Heq. inversion Heq; subst. apply packet_nals_last; auto.
  - destruct (Z.ltb_spec (Z.of_nat pos + ls + read_nal_size ls pkt pos)
                (len pkt)); [| discriminate].
    destruct (packet_walk f ls pkt _) as [rest|] eqn:Hw; [| discriminate].
    intros Heq. inversion Heq; subst. apply packet_nals_more; auto.
Qed.

(** When the walk finds no well-formed list of units, the loop of
    [BitstreamConvert] fails. *)
Lemma packet_walk_fails (codes : Z * Z * Z) (ls : Z) (pkt : list Z)
    (fuel : nat) :
  0 <= ls ->
  forall (pos : nat) (c : CBitstreamConverter) (out : outbuf)
         (h : option Hdr10PlusMetadata),
    (length pkt < fuel + pos)%nat ->
    length_size (m_sps_pps_context c) = ls ->
    packet_walk fuel ls pkt pos = None ->
    exists c1, nal_loop codes c pkt pos out h = LoopFail c1.
Proof.
  intros Hls0.
  induction fuel as [|f IH]; intros pos c out h Hf Hls Hw;
    rewrite nal_loop_step; unfold nal_body; rewrite Hls.
  - destruct (Z.gtb_spec (Z.of_nat pos + ls) (len pkt)); [eauto|].
    unfold len in *. lia.
  - cbn [packet_walk] in Hw.
    destruct (Z.gtb_spec (Z.of_nat pos + ls) (len pkt)); [eauto|].
    destruct (Z.leb_spec (Z.of_nat pos + ls) (len pkt)); [| lia].
    destruct (Z.leb_spec (read_nal_size ls pkt pos) 0);
      [rewrite orb_true_r; eauto|].
    destruct (Z.ltb_spec 0 (read_nal_size ls pkt pos)); [| lia].
    rewrite orb_false_r.
    destruct (Z.gtb_spec (Z.of_nat (pos + Z.to_nat ls)
                          + read_nal_size ls pkt pos) (len pkt)); [eauto|].
    destruct (Z.eqb_spec (Z.of_nat pos + ls + read_nal_size ls pkt pos)
                (len pkt)); [discriminate|].
    destruct (Z.ltb_spec (Z.of_nat pos + ls + read_nal_size ls pkt pos)
                (len pkt)); [| lia].
    pose proof (convert_nal_frame c codes
                  (unit_type_at c pkt (pos + Z.to_nat ls))
                  (skipn (pos + Z.to_nat ls) pkt)
                  (read_nal_size ls pkt pos) out h) as (Hc & _).
    destruct (convert_nal c codes _ _ _ out h) as [[c1 out1] h1].
    cbn [fst] in Hc.
    destruct (Z.ltb_spec
                (Z.of_nat (pos + Z.to_nat ls
                           + Z.to_nat (read_nal_size ls pkt pos)))
                (len pkt)); [| lia].
    destruct (packet_walk f ls pkt _) as [rest|] eqn:Hw1; [discriminate|].
    apply (IH _ c1 out1 h1); [lia | | exact Hw1].
    rewrite <- Hls. apply config_length_size. exact Hc.
Qed.

(** For H.264 the single-track conversion to Annex B succeeds exactly on
    the well-formed packets: those in which every length field is whole
    and positive and the last unit ends with the packet. *)
Theorem Convert_succeeds_iff_well_formed (c : CBitstreamConverter)
    (pkt : list Z) :
  conversion_active c -> prologue_ok c ->
  m_codec c = AV_CODEC_ID_H264 ->
  (fst (Convert c (Some pkt)) = true
   <-> exists nals,
         packet_nals (length_size (m_sps_pps_context c)) pkt 0 nals).
Proof.
  intros Ha Hp Hcd.
  destruct (conversion_active_codes c Ha) as (codes & Hc).
  split.
  - intros Hr.
    destruct (packet_walk (S (length pkt))
                (length_size (m_sps_pps_context c)) pkt 0) as [nals|] eqn:Hw.
    + exists nals. eapply packet_walk_sound; eauto.
    + exfalso. rewrite (Convert_active c pkt Ha) in Hr.
      unfold BitstreamConvert in Hr.
      change (m_codec (reset_buffers c)) with (m_codec c) in Hr.
      rewrite Hc in Hr.
      destruct (packet_walk_fails codes _ pkt (S (length pkt))
                  (proj2 (proj2 (proj2 Ha))) 0%nat (reset_buffers c)
                  (None, 0) None) as (c1 & Hl); [lia | reflexivity | exact Hw |].
      rewrite Hl in Hr. discriminate.
  - intros (nals & Hn).
    destruct (Convert_nals_result c codes pkt nals Ha Hp Hc Hn)
      as (_ & _ & Hr & _).
    rewrite Hr. apply Z.ltb_lt.
    pose proof (converted_ok codes c pkt nals Hp) as HA. cbv zeta in HA.
    pose proof (convert_nals_appends codes pkt nals (reset_buffers c)
                  (None, 0) None Hp outbuf_ok_empty) as HO.
    pose proof (convert_nals_copied codes pkt nals (reset_buffers c)
                  (None, 0) None Hp outbuf_ok_empty) as HS.
    pose proof (appends_size _ _ (appends_ok _ _ HO) HA).
    pose proof (avc_always_copied c pkt nals Hcd) as Hall.
    assert (Hex : existsb always_copied (unit_types c pkt nals) = true).
    { destruct Hn; cbn [unit_types map forallb existsb fst] in *;
        apply andb_true_iff in Hall; destruct Hall as [-> _]; reflexivity. }
    specialize (HS (or_introl Hex)). lia.
Qed.

(** ** [Open] and the prologue *)

Lemma land3_range (x : Z) : 1 <= Z.land x 0x3 + 1 <= 4.
Proof.
  change 0x3 with (Z.ones 2). rewrite Z.land_ones by lia.
  pose proof (Z.mod_pos_bound x (2 ^ 2) eq_refl). lia.
Qed.

Lemma RB16_range (p : list Z) (pos : nat) : 0 <= RB16 p pos < 2 ^ 16.
Proof. unfold RB16. apply Z.mod_pos_bound. reflexivity. Qed.

Lemma starts_framed_app (a b : list Z) :
  starts_framed a -> a <> [] -> starts_framed (a ++ b).
Proof.
  intros [-> | (r & ->)] Hne; [congruence|]. right. exists (r ++ b).
  rewrite <- app_assoc. reflexivity.
Qed.

Lemma starts_framed_unit (a u : list Z) :
  starts_framed a -> starts_framed (a ++ [0; 0; 0; 1] ++ u).
Proof.
  intros [-> | (r & ->)]; right.
  - exists u. reflexivity.
  - exists (r ++ [0; 0; 0; 1] ++ u). rewrite <- app_assoc. reflexivity.
Qed.

Lemma gathered_step (total unit_size : Z) (out u : list Z) :
  gathered total out -> 0 <= unit_size < 2 ^ 16 -> len u = unit_size ->
  (u32 (total + unit_size + 4) >? INT_MAX - AV_INPUT_BUFFER_PADDING_SIZE)
  = false ->
  gathered (u32 (total + unit_size + 4)) (out ++ [0; 0; 0; 1] ++ u).
Proof.
  intros (Ht & Hle & Hf) Hu Hl Hc.
  destruct (Z.gtb_spec (u32 (total + unit_size + 4))
              (INT_MAX - AV_INPUT_BUFFER_PADDING_SIZE)); [discriminate|].
  pose proof (len_nonneg out).
  assert (Hs : u32 (total + unit_size + 4) = total + unit_size + 4).
  { unfold u32, INT_MAX, AV_INPUT_BUFFER_PADDING_SIZE in *.
    apply Z.mod_small. lia. }
  split; [| split].
  - rewrite Hs, !len_app, Hl, Ht. change (len [0; 0; 0; 1]) with 4. lia.
  - assumption.
  - apply starts_framed_unit. exact Hf.
Qed.

Lemma avc_pps_gathered (p : list Z) (s : avc_init) :
  ai_total_size (avc_pps p s) = ai_total_size s
  /\ ai_out (avc_pps p s) = ai_out s.
Proof.
  unfold avc_pps.
  repeat match goal with
         | |- context [if ?b then _ else _] => destruct b
         end; split; reflexivity.
Qed.

Lemma avc_units_gathered (p : list Z) (s s' : avc_init) :
  avc_units p s = Some s' ->
  gathered (ai_total_size s) (ai_out s) ->
  gathered (ai_total_size s') (ai_out s').
Proof.
  funelim (avc_units p s); intros Hr Hg.
  - inversion Hr; subst. exact Hg.
  - apply H; [exact Hr|].
    destruct (avc_pps_gathered p s1) as [-> ->].
    clear H H0 H1 Heqcall. unfold avc_unit in Hu.
    destruct (_ || _) eqn:Hc; [discriminate|].
    apply orb_false_iff in Hc. destruct Hc as [Hc1 Hc2].
    inversion Hu; subst; clear Hu. cbn [ai_total_size ai_out].
    apply gathered_step; auto using RB16_range.
    apply span_length. apply RB16_range.
  - discriminate Hr.
Qed.

Lemma hevc_units_gathered (nal_type : Z) (p : list Z) (unit_nb : nat) :
  forall (s s' : nat * Z * list Z),
    hevc_units unit_nb nal_type p s = Some s' ->
    gathered (snd (fst s)) (snd s) -> gathered (snd (fst s')) (snd s').
Proof.
  induction unit_nb as [|n IH]; intros [[pos total] out] s' Hr Hg;
    cbn [hevc_units] in Hr.
  - inversion Hr; subst. exact Hg.
  - destruct (negb _ && _ && _).
    + apply (IH _ _ Hr). exact Hg.
    + destruct (_ || _) eqn:Hc; [discriminate|].
      apply orb_false_iff in Hc. destruct Hc as [Hc1 Hc2].
      apply (IH _ _ Hr). cbn [fst snd] in *.
      apply gathered_step; auto using RB16_range.
      apply span_length. apply RB16_range.
Qed.

Lemma hevc_arrays_gathered (p : list Z) (array_nb : nat) :
  forall (s s' : nat * Z * list Z),
    hevc_arrays array_nb p s = Some s' ->
    gathered (snd (fst s)) (snd s) -> gathered (snd (fst s')) (snd s').
Proof.
  induction array_nb as [|n IH]; intros [[pos total] out] s' Hr Hg;
    cbn [hevc_arrays] in Hr.
  - inversion Hr; subst. exact Hg.
  - destruct (hevc_units _ _ p _) as [s1|] eqn:Hu; [| discriminate].
    apply (IH _ _ Hr). apply (hevc_units_gathered _ _ _ _ _ Hu). exact Hg.
Qed.

Lemma gathered_empty : gathered 0 [].
Proof.
  split; [reflexivity|]. split; [| left; reflexivity].
  unfold INT_MAX, AV_INPUT_BUFFER_PADDING_SIZE. lia.
Qed.

Lemma BitstreamConvertInitHEVC_scan (c : CBitstreamConverter)
    (in_extradata : option (list Z)) :
  let r := BitstreamConvertInitHEVC c in_extradata in
  (fst r = true ->
   prologue_ok (snd r)
   /\ starts_framed (prologue_of (sps_pps_data (m_sps_pps_context (snd r))))
   /\ 1 <= length_size (m_sps_pps_context (snd r)) <= 4
   /\ idr_flags (snd r) = (1, 0))
  /\ (fst r = false -> sps_pps_data (m_sps_pps_context (snd r)) = None)
  /\ set_m_sps_pps_size (m_sps_pps_size c)
       (set_m_sps_pps_context (m_sps_pps_context c) (snd r)) = c.
Proof.
  intros r. subst r.
  unfold BitstreamConvertInitHEVC. cbv zeta.
  destruct in_extradata as [p|];
    [| cbn [fst snd]; split; [discriminate|];
       split; [reflexivity | destruct c; reflexivity]].
  destruct (len p <? 23);
    [cbn [fst snd]; split; [discriminate|];
     split; [reflexivity | destruct c; reflexivity]|].
  destruct (hevc_arrays _ p _) as [[[pos total] out]|] eqn:Hr;
    [| cbn [fst snd]; split; [discriminate|];
       split; [reflexivity | destruct c; reflexivity]].
  pose proof (hevc_arrays_gathered _ _ _ _ Hr gathered_empty)
    as (G1 & G2 & G3).
  cbn [fst snd] in *. split; [| split; [discriminate | destruct c; reflexivity]].
  intros _. unfold prologue_ok. proj_simpl.
  assert (Hpo : prologue_of (match out with
                             | [] => None
                             | _ :: _ => Some out
                             end) = out) by (destruct out; reflexivity).
  rewrite Hpo. repeat split; auto; apply land3_range.
Qed.

Lemma BitstreamConvertInitAVC_scan (c : CBitstreamConverter)
    (in_extradata : option (list Z)) :
  let r := BitstreamConvertInitAVC c in_extradata in
  (fst r = true ->
   prologue_ok (snd r)
   /\ starts_framed (prologue_of (sps_pps_data (m_sps_pps_context (snd r))))
   /\ 1 <= length_size (m_sps_pps_context (snd r)) <= 4
   /\ idr_flags (snd r) = (1, 0))
  /\ (fst r = false -> sps_pps_data (m_sps_pps_context (snd r)) = None)
  /\ set_m_sps_pps_size (m_sps_pps_size c)
       (set_m_sps_pps_context (m_sps_pps_context c) (snd r)) = c.
Proof.
  intros r. subst r.
  unfold BitstreamConvertInitAVC. cbv zeta.
  destruct in_extradata as [p|];
    [| cbn [fst snd]; split; [discriminate|];
       split; [reflexivity | destruct c; reflexivity]].
  destruct (len p <? 6);
    [cbn [fst snd]; split; [discriminate|];
     split; [reflexivity | destruct c; reflexivity]|].
  match goal with
  | |- context [match ?x with Some _ => _ | None => _ end] =>
      destruct x as [s|] eqn:Hr
  end;
    [| cbn [fst snd]; split; [discriminate|];
       split; [reflexivity | destruct c; reflexivity]].
  assert (G : gathered (ai_total_size s) (ai_out s)).
  { destruct (_ =? 0) in Hr.
    - apply (avc_units_gathered _ _ _ Hr).
      destruct (avc_pps_gathered p
                  {| ai_pos := 6; ai_unit_nb := Z.land (rd p 5) 31;
                     ai_total_size := 0; ai_out := []; ai_sps_done := 0;
                     ai_mvc_done := 0 |}) as [-> ->].
      apply gathered_empty.
    - apply (avc_units_gathered _ _ _ Hr). apply gathered_empty. }
  destruct G as (G1 & G2 & G3).
  cbn [fst snd] in *. split; [| split; [discriminate | destruct c; reflexivity]].
  intros _. unfold prologue_ok. proj_simpl.
  assert (Hpo : prologue_of (match ai_out s with
                             | [] => None
                             | z :: l => Some (z :: l)
                             end) = ai_out s)
    by (destruct (ai_out s); reflexivity).
  rewrite Hpo. repeat split; auto; apply land3_range.
Qed.

(** What a scan of the configuration record leaves in the converter, for
    both codecs.  A successful scan leaves the prologue gathered from the
    record with its size, the armed flags and a NAL length size between 1
    and 4; a failed scan leaves no prologue.  Either way [m_sps_pps_size]
    is 0 afterwards, and of the converter only that member and
    [m_sps_pps_context] are written. *)
Theorem BitstreamConvertInit_prologue (c : CBitstreamConverter)
    (in_extradata : option (list Z)) (hevc : bool) :
  let r :=
    if hevc then BitstreamConvertInitHEVC c in_extradata
    else BitstreamConvertInitAVC c in_extradata in
  let ctx := m_sps_pps_context (snd r) in
  (fst r = true ->
   prologue_ok (snd r)
   /\ starts_framed (prologue_of (sps_pps_data ctx))
   /\ 1 <= length_size ctx <= 4
   /\ idr_flags (snd r) = (1, 0))
  /\ (fst r = false -> sps_pps_data ctx = None)
  /\ m_sps_pps_size (snd r) = 0
  /\ set_m_sps_pps_size (m_sps_pps_size c)
       (set_m_sps_pps_context (m_sps_pps_context c) (snd r)) = c.
Proof.
  intros r ctx.
  assert (Hz : m_sps_pps_size (snd r) = 0).
  { subst r. destruct hevc.
    - unfold BitstreamConvertInitHEVC. cbv zeta.
      destruct in_extradata as [p|]; [| reflexivity].
      destruct (len p <? 23); [reflexivity|].
      destruct (hevc_arrays _ p _) as [[[pos total] out]|]; reflexivity.
    - unfold BitstreamConvertInitAVC. cbv zeta.
      destruct in_extradata as [p|]; [| reflexivity].
      destruct (len p <? 6); [reflexivity|].
      match goal with
      | |- context [match ?u with Some _ => _ | None => _ end] =>
          destruct u; reflexivity
      end. }
  subst r ctx. destruct hevc.
  - destruct (BitstreamConvertInitHEVC_scan c in_extradata) as (A & B & C).
    repeat split; try assumption; apply A; assumption.
  - destruct (BitstreamConvertInitAVC_scan c in_extradata) as (A & B & C).
    repeat split; try assumption; apply A; assumption.
Qed.

Lemma scan_keeps (c c2 : CBitstreamConverter) :
  set_m_sps_pps_size (m_sps_pps_size c)
    (set_m_sps_pps_context (m_sps_pps_context c) c2) = c ->
  m_to_annexb c2 = m_to_annexb c /\ m_codec c2 = m_codec c
  /\ m_start_decode c2 = m_start_decode c
  /\ m_first_frame c2 = m_first_frame c /\ m_hints c2 = m_hints c.
Proof. intros <-. repeat split. Qed.

(** When [Open(true)] succeeds and leaves [m_convert_bitstream] set, the
    converter is ready for the conversion to Annex B: the conversion is
    active, the prologue has its recorded size and is empty or begins
    with a start code, the NAL length size is between 1 and 4 and the
    prologue flags are armed.  [Open] touches neither latch. *)
Theorem Open_ready (c : CBitstreamConverter) :
  fst (Open c true) = true ->
  m_convert_bitstream (snd (Open c true)) = true ->
  ready_for_annexb (snd (Open c true))
  /\ m_start_decode (snd (Open c true)) = m_start_decode c
  /\ m_first_frame (snd (Open c true)) = m_first_frame c.
Proof.
  unfold Open. cbv zeta. proj_simpl.
  destruct (codec (m_hints c)) eqn:Hcd; [| | discriminate].
  - destruct (extradata (m_hints c)) as [ed|]; [| discriminate].
    destruct (len ed <? 7); [discriminate|].
    destruct (rd ed 0 =? 1); [| discriminate].
    match goal with
    | |- context [BitstreamConvertInitAVC ?c1 ?e] =>
        pose proof (BitstreamConvertInitAVC_scan c1 e) as (S1 & _ & S3);
        cbv zeta in S1, S3;
        destruct (BitstreamConvertInitAVC c1 e) as [r c2]
    end.
    cbn [fst snd] in *. intros _ Hr.
    change (r = true) in Hr. subst r.
    destruct (S1 eq_refl) as (P1 & P2 & P3 & P4).
    destruct (scan_keeps _ _ S3) as (K1 & K2 & K3 & K4 & K5).
    split; [| split; [exact K3 | exact K4]].
    split; [| split; [exact P1 | split; [exact P2 | split; [exact P3 |
                                                             exact P4]]]].
    unfold conversion_active.
    change (m_to_annexb c2 = true /\ true = true
            /\ codec_supported (m_codec c2) = true
            /\ 0 <= length_size (m_sps_pps_context c2)).
    rewrite K1, K2. proj_simpl. repeat split; lia.
  - destruct (extradata (m_hints c)) as [ed|]; [| discriminate].
    destruct (len ed <? 23); [discriminate|].
    destruct (_ || _); [| discriminate].
    match goal with
    | |- context [BitstreamConvertInitHEVC ?c1 ?e] =>
        pose proof (BitstreamConvertInitHEVC_scan c1 e) as (S1 & _ & S3);
        cbv zeta in S1, S3;
        destruct (BitstreamConvertInitHEVC c1 e) as [r c2]
    end.
    cbn [fst snd] in *. intros _ Hr.
    change (r = true) in Hr. subst r.
    destruct (S1 eq_refl) as (P1 & P2 & P3 & P4).
    destruct (scan_keeps _ _ S3) as (K1 & K2 & K3 & K4 & K5).
    split; [| split; [exact K3 | exact K4]].
    split; [| split; [exact P1 | split; [exact P2 | split; [exact P3 |
                                                             exact P4]]]].
    unfold conversion_active.
    change (m_to_annexb c2 = true /\ true = true
            /\ codec_supported (m_codec c2) = true
            /\ 0 <= length_size (m_sps_pps_context c2)).
    rewrite K1, K2. proj_simpl. repeat split; lia.
Qed.

(** ** The shape of the Annex-B output *)

Lemma copied_once_framed (out out' : outbuf) :
  framed out -> copied_once out out' -> framed out'.
Proof.
  intros [Hok Hf] [-> | (sp & inp & t & Hsp & ->)]; [split; assumption|].
  rewrite BitstreamAllocAndCopy_spec by auto. split.
  - unfold outbuf_ok. cbn [fst snd bytes_of]. rewrite !len_app.
    unfold outbuf_ok in Hok. lia.
  - cbn [fst snd bytes_of].
    destruct Hf as [He | (r & Hr)].
    + rewrite He. cbn [app].
      assert (H0 : snd out = 0) by (rewrite Hok, He; reflexivity).
      rewrite H0. unfold start_code. cbn [Z.eqb orb].
      destruct Hsp as [-> | (r & ->)]; right; eexists; reflexivity.
    + rewrite Hr. right. eexists. rewrite <- app_assoc. reflexivity.
Qed.

Lemma copied_once_plain (out : outbuf) (inp : list Z) (t : Z) :
  copied_once out (BitstreamAllocAndCopy out None 0 inp t).
Proof.
  right. exists None, inp, t. split; [left; reflexivity | reflexivity].
Qed.

Lemma copied_once_refl (out : outbuf) : copied_once out out.
Proof. left. reflexivity. Qed.

Lemma ProcessSeiPrefix_once (c : CBitstreamConverter) (buf : list Z)
    (out : outbuf) (h : option Hdr10PlusMetadata) :
  copied_once out (snd (fst (ProcessSeiPrefix c buf out h))).
Proof.
  unfold ProcessSeiPrefix.
  break_goal; cbn [fst snd];
    auto using copied_once_refl, copied_once_plain.
Qed.

Lemma ProcessDoViRpu_once (c : CBitstreamConverter) (nal : list Z)
    (out : outbuf) :
  copied_once out (snd (ProcessDoViRpu c nal out)).
Proof.
  unfold ProcessDoViRpu.
  break_goal; cbn [fst snd];
    auto using copied_once_refl, copied_once_plain.
Qed.

Lemma AddDoViRpuNalu_once (c : CBitstreamConverter)
    (meta : Hdr10PlusMetadata) (out : outbuf) :
  copied_once out (snd (AddDoViRpuNalu c meta out)).
Proof.
  unfold AddDoViRpuNalu.
  break_goal; cbn [fst snd];
    auto using copied_once_refl, copied_once_plain.
Qed.

Lemma dispatch_once (c : CBitstreamConverter) (t : Z) (nal : list Z)
    (out : outbuf) (h : option Hdr10PlusMetadata) :
  copied_once out (snd (fst (dispatch c t nal out h))).
Proof.
  unfold dispatch.
  destruct (t =? HEVC_NAL_SEI_PREFIX); [apply ProcessSeiPrefix_once|].
  destruct (t =? HEVC_NAL_UNSPEC62).
  - destruct (_ && _); [| apply copied_once_refl].
    pose proof (ProcessDoViRpu_once c nal out) as H.
    destruct (ProcessDoViRpu c nal out). exact H.
  - destruct (t =? HEVC_NAL_UNSPEC63); [destruct (_ && _)|];
      cbn [fst snd]; auto using copied_once_refl, copied_once_plain.
Qed.

(** One round of the loop adds at most one copy to the output. *)
Lemma convert_nal_once (c : CBitstreamConverter) (codes : Z * Z * Z)
    (t : Z) (p : list Z) (n : Z) (out : outbuf)
    (h : option Hdr10PlusMetadata) :
  prologue_ok c ->
  starts_framed (prologue_of (sps_pps_data (m_sps_pps_context c))) ->
  copied_once out (snd (fst (convert_nal c codes t p n out h))).
Proof.
  intros Hp Hf.
  pose proof (convert_nal_eq c codes t p n out h) as H. cbv zeta in H.
  destruct (idr_step (IsIDR c) (IsSlice c) (is_sps_pps codes)
              (idr_flags c) t) as [[fi seen] pro].
  rewrite H. clear H. destruct pro; [| apply dispatch_once].
  cbn [fst snd]. right.
  exists (sps_pps_data (m_sps_pps_context c)), (firstn (Z.to_nat n) p), t.
  split; [exact Hf|]. rewrite <- Hp. reflexivity.
Qed.

Lemma convert_nals_framed (codes : Z * Z * Z) (pkt : list Z)
    (nals : list (nat * Z)) :
  forall (c : CBitstreamConverter) (out : outbuf)
         (h : option Hdr10PlusMetadata),
    prologue_ok c ->
    starts_framed (prologue_of (sps_pps_data (m_sps_pps_context c))) ->
    framed out ->
    framed (snd (fst (convert_nals codes c pkt nals out h))).
Proof.
  induction nals as [|[p n] nals IH]; intros c out h Hp Hf Hout.
  - exact Hout.
  - cbn [convert_nals].
    pose proof (convert_nal_frame c codes (unit_type_at c pkt p)
                  (skipn p pkt) n out h) as (A1 & _).
    pose proof (convert_nal_once c codes (unit_type_at c pkt p)
                  (skipn p pkt) n out h Hp Hf) as A.
    destruct (convert_nal c codes _ _ n out h) as [[c1 out1] h1].
    cbn [fst snd] in A1, A.
    apply IH.
    + eapply prologue_ok_config; eauto.
    + replace (sps_pps_data (m_sps_pps_context c1))
        with (sps_pps_data (m_sps_pps_context c));
        [exact Hf | unfold config_of in A1; inversion A1; reflexivity].
    + eapply copied_once_framed; eauto.
Qed.

Lemma converted_framed (codes : Z * Z * Z) (c : CBitstreamConverter)
    (pkt : list Z) (nals : list (nat * Z)) :
  prologue_ok c ->
  starts_framed (prologue_of (sps_pps_data (m_sps_pps_context c))) ->
  framed (snd (converted codes c pkt nals)).
Proof.
  intros Hp Hf. unfold converted.
  pose proof (convert_nals_framed codes pkt nals (reset_buffers c) (None, 0)
                None Hp Hf) as A.
  destruct (convert_nals codes (reset_buffers c) pkt nals (None, 0) None)
    as [[c1 o1] h1].
  cbn [fst snd] in A.
  assert (A0 : framed o1)
    by (apply A; split; [reflexivity | left; reflexivity]).
  destruct h1 as [meta|]; [| exact A0].
  pose proof (AddDoViRpuNalu_once c1 meta o1) as B.
  destruct (AddDoViRpuNalu c1 meta o1) as [c2 o2].
  eapply copied_once_framed; eauto.
Qed.

(** A run of the loop that fails makes [Convert] fail with nothing
    exposed. *)
Lemma Convert_loop_fails (c : CBitstreamConverter) (codes : Z * Z * Z)
    (pkt : list Z) (c1 : CBitstreamConverter) :
  conversion_active c -> nal_codes (m_codec c) = Some codes ->
  nal_loop codes (reset_buffers c) pkt 0 (None, 0) None = LoopFail c1 ->
  fst (Convert c (Some pkt)) = false
  /\ GetConvertBuffer (snd (Convert c (Some pkt))) = None
  /\ GetConvertSize (snd (Convert c (Some pkt))) = 0.
Proof.
  intros Ha Hc Hl. rewrite (Convert_active c pkt Ha).
  unfold BitstreamConvert.
  change (m_codec (reset_buffers c)) with (m_codec c). rewrite Hc, Hl.
  pose proof (nal_loop_rel
                (fun a b => buffers_of b = buffers_of a) codes pkt
                (fun a => eq_refl)
                (fun a b d H1 H2 => eq_trans H2 H1)
                (fun a t p n out h =>
                   proj2 (proj2 (proj2 (proj2 (proj2
                     (convert_nal_frame a codes t p n out h))))))
                0%nat (reset_buffers c) (None, 0) None) as Hb.
  rewrite Hl in Hb. cbn [loop_conv] in Hb.
  assert (B3 : m_inputBuffer c1 = None)
    by (apply (f_equal (fun x => snd (fst x))) in Hb; exact Hb).
  assert (B4 : m_inputSize c1 = 0) by (apply (f_equal snd) in Hb; exact Hb).
  cbn [fst snd]. unfold GetConvertBuffer, GetConvertSize. proj_simpl.
  rewrite andb_false_r. repeat split; assumption.
Qed.

(** Whatever the packet holds, the conversion to Annex B either fails
    with nothing exposed, or succeeds and exposes bytes that begin with
    the four-byte start code 00 00 00 01, as many as the reported
    size. *)
Theorem Convert_output_framed (c : CBitstreamConverter) (pkt : list Z) :
  conversion_active c -> prologue_ok c ->
  starts_framed (prologue_of (sps_pps_data (m_sps_pps_context c))) ->
  let r := Convert c (Some pkt) in
  (fst r = false
   /\ GetConvertBuffer (snd r) = None /\ GetConvertSize (snd r) = 0)
  \/ (fst r = true
      /\ exists rest,
           GetConvertBuffer (snd r) = Some ([0; 0; 0; 1] ++ rest)
           /\ GetConvertSize (snd r) = 4 + len rest).
Proof.
  intros Ha Hp Hf r. subst r.
  destruct (conversion_active_codes c Ha) as (codes & Hc).
  destruct (packet_walk (S (length pkt))
              (length_size (m_sps_pps_context c)) pkt 0) as [nals|] eqn:Hw.
  - apply packet_walk_sound in Hw.
    destruct (Convert_nals_result c codes pkt nals Ha Hp Hc Hw)
      as (_ & Hok & Hr & Hex & Hno).
    destruct (converted_framed codes c pkt nals Hp Hf) as [_ Hfr].
    destruct (Z.ltb_spec 0 (snd (snd (converted codes c pkt nals))))
      as [Hpos | Hpos].
    + right. destruct (Hex Hpos) as [Hb1 Hb2].
      split; [exact Hr|]. rewrite Hb1, Hb2.
      destruct Hfr as [He | (rest & Hrest)].
      * unfold outbuf_ok in Hok. rewrite He in Hok. cbn in Hok. lia.
      * exists rest. rewrite Hok, Hrest. split; [reflexivity|].
        rewrite len_app. reflexivity.
    + left. destruct (Hno Hpos) as [Hb1 Hb2]. auto.
  - left.
    destruct (packet_walk_fails codes _ pkt (S (length pkt))
                (proj2 (proj2 (proj2 Ha))) 0%nat (reset_buffers c)
                (None, 0) None) as (c1 & Hl); [lia | reflexivity | exact Hw |].
    apply (Convert_loop_fails c codes pkt c1 Ha Hc Hl).
Qed.

(** ** The dual-track combine *)

Lemma bl_nal_appends (s : combine_state) (r : list Z) :
  outbuf_ok (cs_out s) -> appends (cs_out s) (cs_out (bl_nal s r)).
Proof.
  intros Hok. unfold bl_nal. cbv zeta.
  destruct (nal_type32 r =? HEVC_NAL_SEI_PREFIX).
  - pose proof (ProcessSeiPrefix_appends (cs_conv s) (nal_at32 r) (cs_out s)
                  (cs_meta s) Hok) as H.
    destruct (ProcessSeiPrefix _ _ _ _) as [[c1 out1] h1]. exact H.
  - destruct (nal_type32 r =? AVC_NAL_END_SEQUENCE); cbn [cs_out];
      auto using appends_refl, appends_copy32.
Qed.

Lemma el_nal_appends (s : combine_state) (r : list Z) :
  outbuf_ok (cs_out s) -> appends (cs_out s) (cs_out (el_nal s r)).
Proof.
  intros Hok. unfold el_nal. cbv zeta.
  destruct (nal_type32 r =? HEVC_NAL_UNSPEC62).
  - destruct (_ && _); cbn [cs_out]; [| apply appends_refl; exact Hok].
    pose proof (ProcessDoViRpu_appends (cs_conv s) (nal_at32 r) (cs_out s)
                  Hok) as H.
    destruct (ProcessDoViRpu _ _ _) as [c1 out1]. exact H.
  - destruct (_ && _); cbn [cs_out];
      auto using appends_refl, appends_copy32.
Qed.

Lemma nal_loop32_appends
    (body : combine_state -> list Z -> combine_state) :
  (forall s r, outbuf_ok (cs_out s) ->
               appends (cs_out s) (cs_out (body s r))) ->
  forall (r : list Z) (s : combine_state),
    outbuf_ok (cs_out s) ->
    appends (cs_out s) (cs_out (fst (nal_loop32 body s r))).
Proof.
  intros Hb.
  apply (nal_loop32_rel
           (fun a b => outbuf_ok (cs_out a) ->
                       appends (cs_out a) (cs_out b))).
  - intros s. apply appends_refl.
  - intros a b d H1 H2 Ha. eapply appends_trans; [apply H1; exact Ha|].
    apply H2. eapply appends_ok. apply H1. exact Ha.
  - exact Hb.
Qed.

Lemma bl_nal_buffers (s : combine_state) (r : list Z) :
  buffers_of (cs_conv (bl_nal s r)) = buffers_of (cs_conv s).
Proof.
  unfold bl_nal. cbv zeta. destruct (nal_type32 r =? HEVC_NAL_SEI_PREFIX).
  - pose proof (ProcessSeiPrefix_frame (cs_conv s) (nal_at32 r) (cs_out s)
                  (cs_meta s)) as ((_ & _ & _ & _ & _ & H) & _).
    destruct (ProcessSeiPrefix _ _ _ _) as [[c1 out1] h1]. exact H.
  - destruct (nal_type32 r =? AVC_NAL_END_SEQUENCE); reflexivity.
Qed.

Lemma el_nal_buffers (s : combine_state) (r : list Z) :
  buffers_of (cs_conv (el_nal s r)) = buffers_of (cs_conv s).
Proof.
  unfold el_nal. cbv zeta. destruct (nal_type32 r =? HEVC_NAL_UNSPEC62).
  - destruct (_ && _); [| reflexivity].
    pose proof (ProcessDoViRpu_frame (cs_conv s) (nal_at32 r) (cs_out s))
      as H.
    destruct (ProcessDoViRpu _ _ _) as [c1 out1].
    destruct H as (_ & _ & _ & _ & _ & H). exact H.
  - destruct (_ && _); reflexivity.
Qed.

Lemma nal_loop32_buffers
    (body : combine_state -> list Z -> combine_state) :
  (forall s r, buffers_of (cs_conv (body s r)) = buffers_of (cs_conv s)) ->
  forall (r : list Z) (s : combine_state),
    buffers_of (cs_conv (fst (nal_loop32 body s r)))
    = buffers_of (cs_conv s).
Proof.
  intros Hb.
  apply (nal_loop32_rel
           (fun x y => buffers_of (cs_conv y) = buffers_of (cs_conv x)));
    [reflexivity | intros; congruence | exact Hb].
Qed.

(** The dual-track [Convert] does not fail on what the packets hold: once
    it has its buffer (the inputs are converted in place, or the dynamic
    buffer opens) it returns true for any two packets, marks the output
    as combined, and exposes as many bytes as the reported size. *)
Theorem Convert_bl_el_total (c : CBitstreamConverter) (bl el : list Z) :
  m_convert_bitstream c = true \/ 0 <= avio_open_dyn_buf ->
  let r := Convert_bl_el c (Some bl) (Some el) in
  fst r = true
  /\ m_combine (snd r) = true
  /\ GetConvertSize (snd r)
     = match GetConvertBuffer (snd r) with Some b => len b | None => 0 end.
Proof.
  intros H r. subst r. unfold Convert_bl_el. cbv zeta.
  change (set_m_inputBuffer None
            (set_m_convertSize 0
               (set_m_inputSize 0 (set_m_convertBuffer None c))))
    with (reset_buffers c).
  change (m_convert_bitstream (reset_buffers c)) with (m_convert_bitstream c).
  assert (Hc : negb (m_convert_bitstream c) && (avio_open_dyn_buf <? 0)
               = false).
  { destruct H as [-> | H]; [reflexivity|].
    destruct (Z.ltb_spec avio_open_dyn_buf 0); [lia|].
    apply andb_false_r. }
  rewrite Hc.
  match goal with
  | |- context [nal_loop32 bl_nal ?s0 ?bb] =>
      pose proof (nal_loop32_appends bl_nal bl_nal_appends bb s0
                    outbuf_ok_empty) as H1;
      pose proof (nal_loop32_buffers bl_nal bl_nal_buffers bb s0) as B1;
      destruct (nal_loop32 bl_nal s0 bb) as [s1 rest]
  end.
  cbn [fst cs_out cs_conv] in H1, B1.
  match goal with
  | |- context [nal_loop32 el_nal s1 ?bb] =>
      pose proof (nal_loop32_appends el_nal el_nal_appends bb s1
                    (appends_ok _ _ H1)) as H2;
      pose proof (nal_loop32_buffers el_nal el_nal_buffers bb s1) as B2;
      destruct (nal_loop32 el_nal s1 bb) as [s2 rest2]
  end.
  cbn [fst] in H2, B2. apply appends_ok in H2.
  assert (H3 : outbuf_ok
                 (snd match cs_meta s2 with
                      | Some meta =>
                          AddDoViRpuNalu (cs_conv s2) meta (cs_out s2)
                      | None => (cs_conv s2, cs_out s2)
                      end)
               /\ buffers_of
                    (fst match cs_meta s2 with
                         | Some meta =>
                             AddDoViRpuNalu (cs_conv s2) meta (cs_out s2)
                         | None => (cs_conv s2, cs_out s2)
                         end) = buffers_of (cs_conv s2)).
  { destruct (cs_meta s2) as [meta|]; [| split; [exact H2 | reflexivity]].
    split.
    - apply (appends_ok (cs_out s2)). apply AddDoViRpuNalu_appends. exact H2.
    - apply AddDoViRpuNalu_frame. }
  destruct (match cs_meta s2 with
            | Some meta => AddDoViRpuNalu (cs_conv s2) meta (cs_out s2)
            | None => (cs_conv s2, cs_out s2)
            end) as [c3 out3].
  cbn [fst snd] in H3. destruct H3 as [H3 B3].
  assert (Hb : buffers_of c3 = buffers_of (reset_buffers c)) by congruence.
  assert (Hin : m_inputSize c3 = 0)
    by (apply (f_equal snd) in Hb; exact Hb).
  assert (Hib : m_inputBuffer c3 = None)
    by (apply (f_equal (fun x => snd (fst x))) in Hb; exact Hb).
  assert (H4 : outbuf_ok
                 match cs_eos s2 with
                 | Some eos =>
                     BitstreamAllocAndCopy32 out3 eos AVC_NAL_END_SEQUENCE
                 | None => out3
                 end).
  { destruct (cs_eos s2) as [eos|]; [| exact H3].
    apply (appends_ok out3). apply appends_copy32. exact H3. }
  destruct (match cs_eos s2 with
            | Some eos =>
                BitstreamAllocAndCopy32 out3 eos AVC_NAL_END_SEQUENCE
            | None => out3
            end) as [b4 sz4].
  cbn [fst snd]. unfold GetConvertBuffer, GetConvertSize. proj_simpl.
  rewrite !orb_true_r. cbn [andb].
  unfold outbuf_ok, bytes_of in H4. cbn [fst snd] in H4.
  destruct b4 as [b|]; cbn [andb]; repeat split; try assumption.
  rewrite Hib. exact Hin.
Qed.



(** *** What the combine writes *)

Lemma ProcessDoViRpu_plain (c : CBitstreamConverter) (nal : list Z)
    (out : outbuf) :
  m_convert_dovi c = MODE_NONE ->
  snd (ProcessDoViRpu c nal out)
  = BitstreamAllocAndCopy out None 0 nal HEVC_NAL_UNSPEC62.
Proof.
  intros Hm. unfold ProcessDoViRpu. rewrite Hm.
  destruct HAVE_LIBDOVI; reflexivity.
Qed.

Lemma copy32_bytes (out : outbuf) (inp : list Z) (t : Z) :
  outbuf_ok out ->
  bytes_of (BitstreamAllocAndCopy32 out inp t)
  = bytes_of out ++ start_code32 (snd out) t ++ inp
  /\ snd (BitstreamAllocAndCopy32 out inp t)
     = snd out + len (start_code32 (snd out) t ++ inp).
Proof.
  intros Hok. rewrite BitstreamAllocAndCopy32_spec by exact Hok.
  cbn [fst snd bytes_of]. rewrite len_app. split; [reflexivity | lia].
Qed.

Lemma bl_loop_bytes (fuel : nat) :
  forall (r : list Z) (s : combine_state),
    (length r <= fuel)%nat -> outbuf_ok (cs_out s) ->
    forallb (fun tu => negb (fst tu =? HEVC_NAL_SEI_PREFIX))
      (units32 fuel r) = true ->
    let s' := fst (nal_loop32 bl_nal s r) in
    bytes_of (cs_out s')
    = bytes_of (cs_out s) ++ bl_bytes (units32 fuel r) (snd (cs_out s))
    /\ outbuf_ok (cs_out s')
    /\ cs_meta s' = cs_meta s
    /\ cs_eos s' = last_eos (units32 fuel r) (cs_eos s)
    /\ config_of (cs_conv s') = config_of (cs_conv s).
Proof.
  induction fuel as [|f IH]; intros r s Hlen Hok Hno s'; subst s';
    rewrite nal_loop32_step.
  - destruct (Z.ltb_spec 4 (len r)); [unfold len in *; lia|].
    cbn. rewrite app_nil_r. repeat split. exact Hok.
  - cbn [units32] in *.
    destruct (Z.ltb_spec 4 (len r)) as [Hl|Hl];
      [| cbn; rewrite app_nil_r; repeat split; exact Hok].
    cbn [forallb fst] in Hno. apply andb_true_iff in Hno.
    destruct Hno as [H39 Hno]. apply negb_true_iff in H39.
    assert (Hlen' : (length (skipn (4 + Z.to_nat (nal_size32 r)) r) <= f)%nat)
      by (rewrite length_skipn; unfold len in Hl; lia).
    assert (Hb : exists out1 eos1,
               bl_nal s r
               = {| cs_conv := upd_dovi (set_bl_present_flag 1) (cs_conv s);
                    cs_out := out1; cs_meta := cs_meta s; cs_eos := eos1 |}
               /\ outbuf_ok out1
               /\ eos1 = (if nal_type32 r =? AVC_NAL_END_SEQUENCE
                          then Some (nal_at32 r) else cs_eos s)
               /\ bytes_of out1
                  = bytes_of (cs_out s)
                      ++ (if nal_type32 r =? AVC_NAL_END_SEQUENCE then []
                          else start_code32 (snd (cs_out s)) (nal_type32 r)
                                 ++ nal_at32 r)
               /\ snd out1
                  = snd (cs_out s)
                    + len (if nal_type32 r =? AVC_NAL_END_SEQUENCE then []
                           else start_code32 (snd (cs_out s)) (nal_type32 r)
                                  ++ nal_at32 r)).
    { unfold bl_nal. rewrite H39.
      destruct (nal_type32 r =? AVC_NAL_END_SEQUENCE).
      - do 2 eexists. split; [reflexivity|].
        change (len (@nil Z)) with 0.
        rewrite app_nil_r, Z.add_0_r. repeat split; auto.
      - destruct (copy32_bytes (cs_out s) (nal_at32 r) (nal_type32 r) Hok)
          as [C1 C2].
        do 2 eexists. split; [reflexivity|].
        split; [apply (appends_ok (cs_out s)), appends_copy32; exact Hok|].
        repeat split; assumption. }
    destruct Hb as (out1 & eos1 & -> & Hok1 & -> & Hb1 & Hs1).
    destruct (IH _ {| cs_conv := upd_dovi (set_bl_present_flag 1) (cs_conv s);
                      cs_out := out1; cs_meta := cs_meta s;
                      cs_eos := (if nal_type32 r =? AVC_NAL_END_SEQUENCE
                                 then Some (nal_at32 r) else cs_eos s) |}
                Hlen' Hok1 Hno) as (A1 & A2 & A3 & A4 & A5).
    cbn [cs_out cs_meta cs_eos cs_conv] in *.
    split; [| split; [exact A2 | split; [exact A3 | split; [| exact A5]]]].
    + rewrite A1, Hb1, Hs1. cbn [bl_bytes].
      destruct (nal_type32 r =? AVC_NAL_END_SEQUENCE).
      * change (len (@nil Z)) with 0.
        rewrite app_nil_r, Z.add_0_r. reflexivity.
      * rewrite <- !app_assoc. reflexivity.
    + rewrite A4. unfold last_eos. cbn [fold_left fst snd]. reflexivity.
Qed.

Lemma config_dovi_options (c c' : CBitstreamConverter) :
  config_of c' = config_of c ->
  m_removeDovi c' = m_removeDovi c /\ m_convert_dovi c' = m_convert_dovi c.
Proof. unfold config_of. intros H. inversion H. split; reflexivity. Qed.

Lemma el_loop_bytes (fuel : nat) :
  forall (r : list Z) (s : combine_state),
    (length r <= fuel)%nat -> outbuf_ok (cs_out s) ->
    cs_meta s = None -> m_removeDovi (cs_conv s) = false ->
    m_convert_dovi (cs_conv s) = MODE_NONE ->
    let s' := fst (nal_loop32 el_nal s r) in
    bytes_of (cs_out s')
    = bytes_of (cs_out s) ++ el_bytes (units32 fuel r) (snd (cs_out s))
    /\ outbuf_ok (cs_out s')
    /\ cs_meta s' = None
    /\ cs_eos s' = cs_eos s.
Proof.
  induction fuel as [|f IH]; intros r s Hlen Hok Hmeta Hrm Hmode s';
    subst s'; rewrite nal_loop32_step.
  - destruct (Z.ltb_spec 4 (len r)); [unfold len in *; lia|].
    cbn. rewrite app_nil_r. repeat split; assumption.
  - cbn [units32] in *.
    destruct (Z.ltb_spec 4 (len r)) as [Hl|Hl];
      [| cbn; rewrite app_nil_r; repeat split; assumption].
    assert (Hlen' : (length (skipn (4 + Z.to_nat (nal_size32 r)) r) <= f)%nat)
      by (rewrite length_skipn; unfold len in Hl; lia).
    set (b := (if nal_type32 r =? HEVC_NAL_UNSPEC62 then [0; 0; 0; 1]
               else start_code32 (snd (cs_out s)) HEVC_NAL_UNSPEC63)
              ++ nal_at32 r).
    assert (Hb : outbuf_ok (cs_out (el_nal s r))
                 /\ bytes_of (cs_out (el_nal s r)) = bytes_of (cs_out s) ++ b
                 /\ snd (cs_out (el_nal s r)) = snd (cs_out s) + len b
                 /\ cs_meta (el_nal s r) = None
                 /\ cs_eos (el_nal s r) = cs_eos s
                 /\ m_removeDovi (cs_conv (el_nal s r)) = false
                 /\ m_convert_dovi (cs_conv (el_nal s r)) = MODE_NONE).
    { pose proof (el_nal_appends s r Hok) as Happ. apply appends_ok in Happ.
      split; [exact Happ|]. clear Happ.
      unfold el_nal. cbv zeta. rewrite Hrm, Hmode, Hmeta. cbn [negb andb has_meta].
      subst b. destruct (nal_type32 r =? HEVC_NAL_UNSPEC62).
      - pose proof (ProcessDoViRpu_plain (cs_conv s) (nal_at32 r) (cs_out s)
                      Hmode) as P.
        pose proof (ProcessDoViRpu_frame (cs_conv s) (nal_at32 r) (cs_out s))
          as F.
        destruct (ProcessDoViRpu _ _ _) as [c1 out1].
        cbn [fst snd] in P, F. subst out1. destruct F as (F1 & _).
        destruct (config_dovi_options _ _ F1) as [D1 D2].
        cbn [cs_out cs_meta cs_eos cs_conv].
        rewrite BitstreamAllocAndCopy_spec by (auto; reflexivity).
        cbn [fst snd bytes_of prologue_of app].
        replace (start_code (snd (cs_out s)) HEVC_NAL_UNSPEC62)
          with [0; 0; 0; 1]
          by (unfold start_code; rewrite orb_true_r; reflexivity).
        split; [reflexivity|].
        split; [unfold len; cbn [length]; lia|].
        split; [reflexivity|]. split; [reflexivity|].
        split; [rewrite <- Hrm; exact D1 | rewrite <- Hmode; exact D2].
      - cbn [cs_out cs_meta cs_eos cs_conv].
        destruct (copy32_bytes (cs_out s) (nal_at32 r) HEVC_NAL_UNSPEC63 Hok)
          as [C1 C2].
        repeat split; assumption. }
    destruct Hb as (Hok1 & Hb1 & Hs1 & Hm1 & He1 & Hr1 & Hd1).
    destruct (IH _ (el_nal s r) Hlen' Hok1 Hm1 Hr1 Hd1) as (A1 & A2 & A3 & A4).
    split; [| split; [exact A2 | split; [exact A3 | congruence]]].
    rewrite A1, Hb1, Hs1. cbn [el_bytes]. fold b.
    rewrite <- !app_assoc. reflexivity.
Qed.

(** The dual-track [Convert] on two packets of 4-byte sizes, when nothing
    is removed or converted and the base layer holds no SEI: the output
    is the base-layer units, each behind its start code, then the
    enhancement-layer units (an RPU behind 00 00 00 01, any other unit
    behind the header 00 00 01 7E 01), and last the base-layer unit of
    type 10 that was set aside, if there is one. *)
Theorem Convert_bl_el_combines (c : CBitstreamConverter) (bl el : list Z) :
  m_convert_bitstream c = true -> m_removeDovi c = false ->
  m_convert_dovi c = MODE_NONE ->
  forallb (fun tu => negb (fst tu =? HEVC_NAL_SEI_PREFIX))
    (units32 (length bl) bl) = true ->
  let b1 := bl_bytes (units32 (length bl) bl) 0 in
  let b2 := el_bytes (units32 (length el) el) (len b1) in
  let b3 :=
    match last_eos (units32 (length bl) bl) None with
    | Some eos =>
        start_code32 (len b1 + len b2) AVC_NAL_END_SEQUENCE ++ eos
    | None => []
    end in
  let r := Convert_bl_el c (Some bl) (Some el) in
  fst r = true
  /\ bytes_of (m_convertBuffer (snd r), m_convertSize (snd r))
     = b1 ++ b2 ++ b3
  /\ m_convertSize (snd r) = len (b1 ++ b2 ++ b3).
Proof.
  intros Hb Hrm Hmode Hno b1 b2 b3 r. subst r. unfold Convert_bl_el.
  cbv zeta.
  change (set_m_inputBuffer None
            (set_m_convertSize 0
               (set_m_inputSize 0 (set_m_convertBuffer None c))))
    with (reset_buffers c).
  change (m_convert_bitstream (reset_buffers c)) with (m_convert_bitstream c).
  rewrite Hb. cbn [negb andb].
  pose proof (bl_loop_bytes (length bl) bl
                {| cs_conv := reset_buffers c; cs_out := (None, 0);
                   cs_meta := None; cs_eos := None |} (le_n _)
                outbuf_ok_empty Hno) as (A1 & A2 & A3 & A4 & A5).
  destruct (nal_loop32 bl_nal _ bl) as [s1 rest].
  cbn [fst snd cs_out cs_meta cs_eos cs_conv bytes_of app] in A1, A2, A3, A4, A5.
  fold b1 in A1.
  destruct (config_dovi_options _ _ A5) as [D1 D2].
  pose proof (el_loop_bytes (length el) el s1 (le_n _) A2 A3
                (eq_trans D1 Hrm) (eq_trans D2 Hmode)) as (B1 & B2 & B3 & B4).
  destruct (nal_loop32 el_nal s1 el) as [s2 rest2].
  cbn [fst] in B1, B2, B3, B4.
  assert (Hs1 : snd (cs_out s1) = len b1) by (rewrite A2, A1; reflexivity).
  rewrite Hs1 in B1. fold b2 in B1. rewrite A1 in B1.
  rewrite B3, B4, A4.
  assert (Hs2 : snd (cs_out s2) = len b1 + len b2)
    by (rewrite B2, B1, len_app; reflexivity).
  destruct (last_eos (units32 (length bl) bl) None) as [eos|] eqn:He.
  - destruct (copy32_bytes (cs_out s2) eos AVC_NAL_END_SEQUENCE B2)
      as [C1 C2].
    cbn [fst snd]. proj_simpl.
    rewrite Hs2 in C1, C2. rewrite B1 in C1.
    split; [reflexivity|]. split.
    + unfold bytes_of in *. cbn [fst snd] in *. rewrite C1.
      subst b3. rewrite <- app_assoc. reflexivity.
    + rewrite C2. subst b3. rewrite !len_app. lia.
  - cbn [fst snd]. proj_simpl. subst b3. rewrite app_nil_r.
    split; [reflexivity|]. split.
    + exact B1.
    + rewrite Hs2, len_app. reflexivity.
Qed.



(** ** [Close] and the extradata *)

(** A closed converter converts nothing: it hands out no extradata, and
    for H.264 and HEVC a later [Convert] succeeds and exposes the packet
    as it came, in either direction. *)
Theorem Close_passthrough (c : CBitstreamConverter) (pkt : list Z) :
  codec_supported (m_codec c) = true ->
  let r := Convert (Close c) (Some pkt) in
  GetExtraData (Close c) = None /\ GetExtraSize (Close c) = 0
  /\ GetConvertBuffer (Close c) = None /\ GetConvertSize (Close c) = 0
  /\ fst r = true
  /\ GetConvertBuffer (snd r) = Some pkt
  /\ GetConvertSize (snd r) = len pkt.
Proof.
  intros Hc r. subst r.
  split; [reflexivity|]. split; [reflexivity|].
  split; [reflexivity|]. split; [reflexivity|].
  unfold Convert. cbv zeta. unfold Close. proj_simpl. rewrite Hc.
  destruct (m_to_annexb c); repeat split.
Qed.

(** After a successful [Open(true)] the extradata accessors agree: the
    size is the number of bytes handed out.  With the conversion set up
    that is the prologue gathered from the configuration record, and
    otherwise the record itself. *)
Theorem Open_extradata (c : CBitstreamConverter) :
  fst (Open c true) = true ->
  let c' := snd (Open c true) in
  GetExtraSize c' = len (prologue_of (GetExtraData c'))
  /\ (m_convert_bitstream c' = false ->
      GetExtraData c' = extradata (m_hints c)).
Proof.
  intros Ho c'. subst c'. revert Ho. unfold Open. cbv zeta. proj_simpl.
  destruct (codec (m_hints c)); [| | discriminate].
  - destruct (extradata (m_hints c)) as [ed|]; [| discriminate].
    destruct (len ed <? 7); [discriminate|].
    destruct (rd ed 0 =? 1); [| discriminate].
    match goal with
    | |- context [BitstreamConvertInitAVC ?c1 ?e] =>
        pose proof (BitstreamConvertInitAVC_scan c1 e) as (S1 & _ & S3);
        cbv zeta in S1, S3;
        destruct (BitstreamConvertInitAVC c1 e) as [r c2]
    end.
    cbn [fst snd] in *. intros _.
    unfold GetExtraSize, GetExtraData.
    change (m_convert_bitstream (set_m_convert_bitstream r c2)) with r.
    destruct r.
    + destruct (S1 eq_refl) as (P1 & _).
      split; [exact P1 | discriminate].
    + apply (f_equal m_extraData) in S3. cbn in S3.
      change (m_extraData (set_m_convert_bitstream false c2))
        with (m_extraData c2).
      rewrite S3. split; [reflexivity | intros _; reflexivity].
  - destruct (extradata (m_hints c)) as [ed|]; [| discriminate].
    destruct (len ed <? 23); [discriminate|].
    destruct (_ || _); [| discriminate].
    match goal with
    | |- context [BitstreamConvertInitHEVC ?c1 ?e] =>
        pose proof (BitstreamConvertInitHEVC_scan c1 e) as (S1 & _ & S3);
        cbv zeta in S1, S3;
        destruct (BitstreamConvertInitHEVC c1 e) as [r c2]
    end.
    cbn [fst snd] in *. intros _.
    unfold GetExtraSize, GetExtraData.
    change (m_convert_bitstream (set_m_convert_bitstream r c2)) with r.
    destruct r.
    + destruct (S1 eq_refl) as (P1 & _).
      split; [exact P1 | discriminate].
    + apply (f_equal m_extraData) in S3. cbn in S3.
      change (m_extraData (set_m_convert_bitstream false c2))
        with (m_extraData c2).
      rewrite S3. split; [reflexivity | intros _; reflexivity].
Qed.

(** ** Packets of 3-byte sizes *)

(** In the other direction, with [m_convert_3byteTo4byteNALSize] set, a
    packet of units behind 3-byte sizes comes out as the same units
    behind 4-byte sizes, one byte longer per unit. *)
Theorem Convert_3byte_sizes (c : CBitstreamConverter)
    (us : list (list Z)) :
  codec_supported (m_codec c) = true -> m_to_annexb c = false ->
  m_convert_bytestream c = false ->
  m_convert_3byteTo4byteNALSize c = true -> 0 <= avio_open_dyn_buf ->
  Forall (fun u => len u < 2 ^ 24) us ->
  let r := Convert c (Some (frame3 us)) in
  fst r = true
  /\ GetConvertBuffer (snd r) = Some (frame4 us)
  /\ GetConvertSize (snd r) = len (frame4 us)
  /\ len (frame4 us) = len (frame3 us) + Z.of_nat (length us).
Proof.
  intros Hc Ha Hb H3 Hio Hus r. subst r.
  unfold Convert. cbv zeta. proj_simpl. rewrite Hc, Ha, Hb, H3.
  destruct (Z.ltb_spec avio_open_dyn_buf 0); [lia|].
  pose proof (nal3_to_nal4_frames us Hus [] []) as Hf.
  cbn [app length] in Hf. rewrite Hf.
  cbn [fst snd]. unfold GetConvertBuffer, GetConvertSize. proj_simpl.
  rewrite H3. rewrite !orb_true_r. cbn [andb].
  repeat split.
  clear. induction us as [|u us IH]; [reflexivity|].
  unfold frame3, frame4 in *. cbn [map concat length].
  rewrite !len_app, IH.
  change (len (wb32 (len u))) with 4. change (len (size3 (len u))) with 3.
  lia.
Qed.

(** In the direction away from Annex B, a configuration record that
    announces 3-byte NAL sizes (byte 4 is 0xFE for H.264, ends in the bits
    10 for HEVC) makes [Open] succeed, set the conversion of 3-byte sizes
    and rewrite byte 4 to announce 4-byte sizes, both in the converter's
    copy of the record and in the record of the hints; no other byte
    changes, and what [Open] leaves is what [Convert] needs to rewrite
    the sizes. *)
Theorem Open_patches_length_size (c : CBitstreamConverter) (ed : list Z)
    (v : Z) :
  extradata (m_hints c) = Some ed -> rd ed 0 = 1 ->
  (codec (m_hints c) = AV_CODEC_ID_H264 /\ 7 <= len ed
   /\ rd ed 4 = 0xFE /\ v = 0xFF)
  \/ (codec (m_hints c) = AV_CODEC_ID_HEVC /\ 23 <= len ed
      /\ Z.land (rd ed 4) 0x3 = 2 /\ v = Z.lor (rd ed 4) 0x03) ->
  let c' := snd (Open c false) in
  fst (Open c false) = true
  /\ m_convert_3byteTo4byteNALSize c' = true
  /\ m_extraData c' = Some (poke4 v ed)
  /\ extradata (m_hints c') = Some (poke4 v ed)
  /\ rd (poke4 v ed) 4 = v
  /\ (forall i, i <> 4%nat -> rd (poke4 v ed) i = rd ed i)
  /\ Z.land v 0x3 = 3
  /\ codec_supported (m_codec c') = true /\ m_to_annexb c' = false
  /\ m_convert_bytestream c' = m_convert_bytestream c.
Proof.
  intros He Hv Hcase c'. subst c'.
  assert (Hlen : 5 <= len ed) by (destruct Hcase as [H | H]; lia).
  assert (Hp4 : rd (poke4 v ed) 4 = v).
  { unfold poke4, rd. rewrite app_nth2; rewrite length_firstn;
      unfold len in Hlen; [| lia].
    replace (4 - Nat.min 4 (length ed))%nat with 0%nat by lia.
    reflexivity. }
  assert (Hpi : forall i, i <> 4%nat -> rd (poke4 v ed) i = rd ed i).
  { intros i Hi. unfold poke4, rd. unfold len in Hlen.
    destruct (Nat.lt_ge_cases i 4) as [Hlt | Hge].
    - rewrite app_nth1 by (rewrite length_firstn; lia).
      rewrite nth_firstn.
      destruct (Nat.ltb_spec i 4); [reflexivity | lia].
    - rewrite app_nth2 by (rewrite length_firstn; lia).
      rewrite length_firstn.
      replace (i - Nat.min 4 (length ed))%nat with (S (i - 5)) by lia.
      cbn [nth]. rewrite nth_skipn. f_equal. lia. }
  unfold Open. cbv zeta. proj_simpl. rewrite He.
  destruct Hcase as [(Hcd & Hl & H4 & ->) | (Hcd & Hl & H4 & ->)];
    rewrite Hcd.
  - destruct (Z.ltb_spec (len ed) 7); [lia|]. rewrite Hv, H4.
    cbn [Z.eqb negb Pos.eqb].
    repeat split; try assumption; reflexivity.
  - destruct (Z.ltb_spec (len ed) 23); [lia|]. rewrite Hv, H4.
    cbn [Z.eqb negb Pos.eqb].
    repeat split; try assumption; try reflexivity.
    change 3 with (Z.ones 2). rewrite Z.land_lor_distr_l, Z.land_diag.
    apply Z.bits_inj'. intros i Hi.
    rewrite Z.lor_spec, Z.land_spec.
    destruct (Z.testbit (Z.ones 2) i); [apply orb_true_r|].
    rewrite andb_false_r. reflexivity.
Qed.

(** Units that are dropped leave nothing to expose.  With [remove_dovi]
    set, a well-formed packet that holds only RPU units (type 62) is
    walked to its end without an error, and yet [Convert] returns false
    with a NULL buffer; the first-frame latch is cleared all the same. *)
Theorem Convert_only_dropped_units (c : CBitstreamConverter)
    (codes : Z * Z * Z) (pkt : list Z) (nals : list (nat * Z)) :
  conversion_active c -> prologue_ok c ->
  nal_codes (m_codec c) = Some codes -> m_removeDovi c = true ->
  packet_nals (length_size (m_sps_pps_context c)) pkt 0 nals ->
  Forall (fun t => t = HEVC_NAL_UNSPEC62) (unit_types c pkt nals) ->
  let r := Convert c (Some pkt) in
  fst r = false
  /\ GetConvertBuffer (snd r) = None /\ GetConvertSize (snd r) = 0
  /\ m_first_frame (snd r) = false.
Proof.
  intros Ha Hp Hc Hrm Hn Hall r. subst r.
  destruct (Convert_nals_result c codes pkt nals Ha Hp Hc Hn)
    as ((_ & Hff & _) & _ & Hr & _ & Hno).
  assert (Hout : snd (converted codes c pkt nals) = (None, 0)).
  { unfold converted.
    assert (H : forall d out h,
               m_removeDovi d = true -> m_codec d = m_codec c ->
               convert_nals codes d pkt nals out h
               = (fst (fst (convert_nals codes d pkt nals out h)), out, h)).
    { clear Hn Hr Hno Hff. induction nals as [|[p n] nals IH];
        intros d out h Hd Hcd; [reflexivity|].
      cbn [unit_types map fst] in Hall. inversion Hall as [|? ? Ht Hall'].
      subst. cbn [convert_nals].
      rewrite (unit_type_at_codec c d pkt p Hcd) in *. 
      pose proof (convert_nal_eq d codes (unit_type_at c pkt p) (skipn p pkt)
                    n out h) as Eq. cbv zeta in Eq.
      pose proof (convert_nal_frame d codes (unit_type_at c pkt p)
                    (skipn p pkt) n out h) as (F1 & _).
      assert (Hidr : IsIDR d (unit_type_at c pkt p) = false).
      { rewrite Ht. unfold IsIDR. destruct (m_codec d); reflexivity. }
      unfold idr_step in Eq. destruct (idr_flags d) as [fi seen].
      rewrite Hidr, andb_false_r in Eq. cbn [andb] in Eq.
      assert (E' : convert_nal d codes (unit_type_at c pkt p) (skipn p pkt)
                     n out h
                   = (fst (fst (convert_nal d codes (unit_type_at c pkt p)
                                  (skipn p pkt) n out h)), out, h)).
      { destruct ((fi =? 0) && IsSlice d (unit_type_at c pkt p));
          rewrite Eq; unfold dispatch; rewrite Ht;
          change (HEVC_NAL_UNSPEC62 =? HEVC_NAL_SEI_PREFIX) with false;
          change (HEVC_NAL_UNSPEC62 =? HEVC_NAL_UNSPEC62) with true;
          cbv iota; proj_simpl; rewrite Hd; reflexivity. }
      rewrite E'. 
      destruct (config_dovi_options _ _ F1) as [D1 _].
      apply IH; [exact Hall' | congruence |].
      rewrite (config_codec _ _ F1). exact Hcd. }
    rewrite (H (reset_buffers c) (None, 0) None Hrm eq_refl). reflexivity. }
  rewrite Hout in *. cbn [snd] in *.
  destruct (Hno ltac:(lia)) as [H1 H2].
  repeat split; assumption.
Qed.

(** ** Byte streams and packets of sizes *)

Lemma read_nal_size_wb32 (pre rest : list Z) (n : Z) :
  0 <= n < 2 ^ 31 ->
  read_nal_size 4 (pre ++ wb32 n ++ rest) (length pre) = n.
Proof.
  intros Hn. unfold read_nal_size. change 0 with (s32 0) at 1.
  assert (Hs : map (fun k => rd (pre ++ wb32 n ++ rest) (length pre + k))
                 (seq 0 (Z.to_nat 4)) = wb32 n)
    by (apply (span_exact (wb32 n) pre rest)).
  rewrite read_nal_size_fold by (rewrite Hs; apply wb32_bytes).
  rewrite Hs. fold (be_value (wb32 n)). rewrite be_value_wb32 by lia.
  apply s32_small. lia.
Qed.

Lemma frame4_nals (us : list (list Z)) :
  us <> [] -> Forall (fun u => 0 < len u < 2 ^ 31) us ->
  forall pre : list Z,
    packet_nals 4 (pre ++ frame4 us) (length pre) (nals_at (length pre) us).
Proof.
  induction us as [|u us IH]; intros Hne Hus pre; [congruence|].
  inversion Hus as [|? ? Hu Hus']. subst.
  rewrite frame4_cons. cbn [nals_at].
  assert (Hr : read_nal_size 4 (pre ++ wb32 (len u) ++ u ++ frame4 us)
                 (length pre) = len u)
    by (apply read_nal_size_wb32; lia).
  assert (Hl : len (pre ++ wb32 (len u) ++ u ++ frame4 us)
               = Z.of_nat (length pre) + 4 + len u + len (frame4 us)).
  { rewrite !len_app. change (len (wb32 (len u))) with 4. unfold len. lia. }
  pose proof (len_nonneg (frame4 us)) as Hnn.
  destruct us as [|u' us'].
  - change (frame4 []) with (@nil Z) in *. change (len []) with 0 in *.
    change 4%nat with (Z.to_nat 4).
    apply packet_nals_last; first [lia | symmetry; exact Hr].
  - change 4%nat with (Z.to_nat 4) at 1.
    inversion Hus' as [|? ? Hu' _]. subst.
    assert (Hl' : 4 <= len (frame4 (u' :: us'))).
    { rewrite frame4_cons, !len_app. change (len (wb32 (len u'))) with 4.
      pose proof (len_nonneg (frame4 us')). lia. }
    apply packet_nals_more; try lia.
    specialize (IH ltac:(discriminate) Hus' (pre ++ wb32 (len u) ++ u)).
    rewrite <- !app_assoc in IH.
    replace (length pre + Z.to_nat 4 + Z.to_nat (len u))%nat
      with (length (pre ++ wb32 (len u) ++ u))
      by (rewrite !length_app; unfold len; cbn [wb32 length]; lia).
    replace (length pre + 4 + length u)%nat
      with (length (pre ++ wb32 (len u) ++ u))
      by (rewrite !length_app; cbn [wb32 length]; lia).
    exact IH.
Qed.

Lemma first_long_false (us : list (list Z)) :
  first_long false us = map (pair false) us.
Proof. destruct us; reflexivity. Qed.

Lemma byte_stream_short_cons (b : bool) (u : list Z) (us : list (list Z)) :
  byte_stream (first_long b (u :: us))
  = start_code_of b ++ u ++ byte_stream (first_long false us).
Proof.
  cbn [first_long]. rewrite byte_stream_cons, first_long_false. reflexivity.
Qed.

Lemma annexb_of_frames (idr slice sps_pps : Z -> bool) (prologue : list Z)
    (unit_type : nat -> Z) (us : list (list Z)) :
  forall (pre : list Z) (fl : Z * Z) (offset : Z),
    0 <= offset ->
    (forall p n, In (p, n) (nals_at (length pre) us) ->
                 idr (unit_type p) = false
                 /\ unit_type p <> HEVC_NAL_UNSPEC62) ->
    annexb_of idr slice sps_pps prologue (pre ++ frame4 us) unit_type
      (nals_at (length pre) us) fl offset
    = byte_stream (first_long (offset =? 0) us).
Proof.
  induction us as [|u us IH]; intros pre fl offset Ho Hty; [reflexivity|].
  cbn [nals_at annexb_of]. rewrite byte_stream_short_cons.
  destruct (Hty (length pre + 4)%nat (len u)) as [Hidr H62];
    [cbn [nals_at]; left; reflexivity|].
  unfold idr_step. destruct fl as [fi seen]. rewrite Hidr.
  rewrite andb_false_r. cbn [andb].
  assert (Hpro : forall (x : Z * Z * bool) (A : Type) (f : Z * Z -> bool -> A),
             snd x = false ->
             (let '(fl1, pro) := x in f fl1 pro) = f (fst x) false).
  { intros [a b] A f. cbn. intros ->. reflexivity. }
  rewrite Hpro
    by (destruct ((fi =? 0) && slice (unit_type (length pre + 4)%nat));
        reflexivity).
  cbn [app].
  assert (Hsc : start_code offset (unit_type (length pre + 4)%nat)
                = start_code_of (offset =? 0)).
  { unfold start_code.
    destruct (Z.eqb_spec (unit_type (length pre + 4)%nat) HEVC_NAL_UNSPEC62)
      as [E62 | _]; [destruct (H62 E62)|].
    rewrite orb_false_r. reflexivity. }
  rewrite Hsc.
  assert (Hu : firstn (Z.to_nat (len u))
                 (skipn (length pre + 4) (pre ++ frame4 (u :: us))) = u).
  { rewrite frame4_cons.
    replace (pre ++ wb32 (len u) ++ u ++ frame4 us)
      with ((pre ++ wb32 (len u)) ++ u ++ frame4 us)
      by (rewrite <- app_assoc; reflexivity).
    replace (length pre + 4)%nat with (length (pre ++ wb32 (len u)))
      by (rewrite length_app; reflexivity).
    rewrite skipn_app, skipn_all, Nat.sub_diag. cbn [app skipn].
    unfold len. rewrite Nat2Z.id.
    rewrite firstn_app, firstn_all, Nat.sub_diag. cbn [firstn].
    apply app_nil_r. }
  rewrite Hu. rewrite <- !app_assoc. f_equal. f_equal.
  assert (Hlen : 0 < len (start_code_of (offset =? 0) ++ u)).
  { rewrite len_app. pose proof (len_nonneg u).
    destruct (offset =? 0); cbn [start_code_of]; unfold len at 1;
      cbn [length]; lia. }
  assert (Hl : length (pre ++ wb32 (len u) ++ u)
               = (length pre + 4 + length u)%nat)
    by (rewrite !length_app; cbn [wb32 length]; lia).
  specialize (IH (pre ++ wb32 (len u) ++ u)
                (fst (if (fi =? 0) && slice (unit_type (length pre + 4)%nat)
                      then (1, 0, false)
                      else (fi,
                            if negb (fi =? 0)
                               && sps_pps (unit_type (length pre + 4)%nat)
                            then 1 else seen, false)))
                (offset + len (start_code_of (offset =? 0) ++ u))
                ltac:(lia)).
  rewrite Hl in IH.
  destruct (Z.eqb_spec (offset + len (start_code_of (offset =? 0) ++ u)) 0);
    [lia|].
  rewrite <- IH.
  - rewrite frame4_cons, <- !app_assoc. reflexivity.
  - intros p0 n0 Hin. apply (Hty p0 n0). cbn [nals_at]. right. exact Hin.
Qed.

Lemma nals_at_head (us : list (list Z)) :
  Forall (fun u => u <> []) us ->
  forall (pre : list Z) (p : nat) (n : Z),
    In (p, n) (nals_at (length pre) us) ->
    exists u, In u us /\ rd (pre ++ frame4 us) p = rd u 0.
Proof.
  induction us as [|u us IH]; intros Hne pre p n Hin; [destruct Hin|].
  inversion Hne as [|? ? Hu Hne']. subst.
  cbn [nals_at] in Hin. destruct Hin as [Heq | Hin].
  - inversion Heq. subst. exists u. split; [left; reflexivity|].
    rewrite frame4_cons.
    replace (pre ++ wb32 (len u) ++ u ++ frame4 us)
      with ((pre ++ wb32 (len u)) ++ u ++ frame4 us)
      by (rewrite <- app_assoc; reflexivity).
    replace (length pre + 4)%nat with (length (pre ++ wb32 (len u)) + 0)%nat
      by (rewrite length_app; cbn [wb32 length]; lia).
    rewrite rd_app_r. destruct u; [congruence | reflexivity].
  - assert (Hl : length (pre ++ wb32 (len u) ++ u)
                 = (length pre + 4 + length u)%nat)
      by (rewrite !length_app; cbn [wb32 length]; lia).
    rewrite <- Hl in Hin.
    destruct (IH Hne' _ _ _ Hin) as (u' & Hu' & Hrd).
    exists u'. split; [right; exact Hu'|].
    rewrite frame4_cons. rewrite <- !app_assoc in Hrd. exact Hrd.
Qed.

(** What [Convert] writes towards Annex B reads back as the packet it was
    made from.  For H.264 with 4-byte sizes and a packet of units that
    are not IDR slices (so that no prologue is written), [Convert] exposes
    the units behind start codes, four bytes for the first and three for
    the others, and [avc_parse_nal_units] turns those bytes into the
    packet again. *)
Theorem Convert_annexb_round_trip (addr : Z) (c : CBitstreamConverter)
    (us : list (list Z)) :
  conversion_active c -> prologue_ok c ->
  m_codec c = AV_CODEC_ID_H264 ->
  length_size (m_sps_pps_context c) = 4 ->
  us <> [] -> Forall annexb_unit us ->
  Forall (fun u => len u < 2 ^ 31
                   /\ Z.land (rd u 0) 0x1f <> AVC_NAL_IDR_SLICE) us ->
  let r := Convert c (Some (frame4 us)) in
  let out := byte_stream (first_long true us) in
  fst r = true
  /\ GetConvertBuffer (snd r) = Some out
  /\ GetConvertSize (snd r) = len out
  /\ fst (Avc.avc_parse_nal_units addr out (len out)) = frame4 us.
Proof.
  intros Ha Hp Hcd Hls Hne Hus Hty r out. subst r.
  assert (Hc : nal_codes (m_codec c)
               = Some (AVC_NAL_SPS, AVC_NAL_PPS, AVC_NAL_SEI))
    by (rewrite Hcd; reflexivity).
  set (codes := (AVC_NAL_SPS, AVC_NAL_PPS, AVC_NAL_SEI)) in *.
  set (pkt := frame4 us). set (nals := nals_at 0 us).
  assert (Hpos0 : Forall (fun u => 0 < len u < 2 ^ 31) us).
  { rewrite Forall_forall in *. intros u Hu.
    pose proof (annexb_unit_nonempty u (Hus u Hu)).
    destruct (Hty u Hu). lia. }
  assert (Hn : packet_nals (length_size (m_sps_pps_context c)) pkt 0 nals).
  { rewrite Hls. apply (frame4_nals us Hne Hpos0 []). }
  assert (Hall : forallb always_copied (unit_types c pkt nals) = true)
    by (apply avc_always_copied; exact Hcd).
  destruct (Convert_nals_result c codes pkt nals Ha Hp Hc Hn)
    as (_ & Hok & Hr & Hex & _).
  destruct (convert_nals_copy codes pkt nals (reset_buffers c) (None, 0) None
              Hp outbuf_ok_empty Hall) as (C1 & C2).
  assert (Hbytes : annexb_of (IsIDR c) (IsSlice c) (is_sps_pps codes)
                     (prologue_of (sps_pps_data (m_sps_pps_context c))) pkt
                     (unit_type_at c pkt) nals (idr_flags c) 0 = out).
  { apply (annexb_of_frames _ _ _ _ _ us [] (idr_flags c) 0 (Z.le_refl 0)).
    intros p n Hin.
    destruct (nals_at_head us) with (pre := @nil Z) (p := p) (n := n)
      as (u & Hu & Hrd); [| exact Hin |].
    { rewrite Forall_forall in *. intros u Hu ->.
      pose proof (annexb_unit_nonempty [] (Hus _ Hu)) as H0.
      unfold len in H0. cbn in H0. lia. }
    cbn [app] in Hrd. unfold unit_type_at, IsIDR. rewrite Hcd.
    unfold pkt. rewrite Hrd.
    rewrite Forall_forall in Hty. destruct (Hty u Hu) as [_ Hi].
    split; [apply Z.eqb_neq; exact Hi|].
    assert (H : 0 <= Z.land (rd u 0) 0x1f < 32).
    { change 0x1f with (Z.ones 5). rewrite Z.land_ones by lia.
      apply Z.mod_pos_bound. reflexivity. }
    unfold HEVC_NAL_UNSPEC62. lia. }
  assert (Hb : bytes_of (snd (converted codes c pkt nals)) = out).
  { unfold converted.
    destruct (convert_nals codes (reset_buffers c) pkt nals (None, 0) None)
      as [[c1 out1] h1].
    cbn [fst snd] in C1, C2. subst h1. cbn [snd]. rewrite C2.
    cbn [bytes_of fst snd app]. exact Hbytes. }
  assert (Hpos : 0 < snd (snd (converted codes c pkt nals))).
  { pose proof (converted_ok codes c pkt nals Hp) as HA. cbv zeta in HA.
    pose proof (convert_nals_appends codes pkt nals (reset_buffers c)
                  (None, 0) None Hp outbuf_ok_empty) as HO.
    pose proof (convert_nals_copied codes pkt nals (reset_buffers c)
                  (None, 0) None Hp outbuf_ok_empty) as HS.
    pose proof (appends_size _ _ (appends_ok _ _ HO) HA).
    assert (existsb always_copied (unit_types c pkt nals) = true).
    { destruct Hn; cbn [unit_types map forallb existsb fst] in *;
        apply andb_true_iff in Hall; destruct Hall as [-> _]; reflexivity. }
    specialize (HS (or_introl H0)). lia. }
  destruct (Hex Hpos) as [Hb1 Hb2].
  split; [rewrite Hr; apply Z.ltb_lt; exact Hpos|].
  split; [rewrite Hb1, Hb; reflexivity|].
  split; [rewrite Hb2, Hok, Hb; reflexivity|].
  assert (Hsnd : map snd (first_long true us) = us).
  { destruct us as [|u us']; [reflexivity|]. cbn [first_long map snd].
    f_equal. rewrite map_map. cbn [snd]. apply map_id. }
  subst out.
  pose proof (parse_loop_stream addr (first_long true us) [] [] 0
                (S (Z.to_nat (len (byte_stream (first_long true us)))))
                (Forall_nil _)) as Hparse.
  rewrite Hsnd in Hparse. specialize (Hparse Hus).
  unfold Avc.avc_parse_nal_units.
  rewrite find_stream_start by (rewrite Hsnd; exact Hus).
  cbn [app] in Hparse. change (len []) with 0 in Hparse.
  change (s32 0) with 0 in Hparse.
  rewrite Hparse; [reflexivity|].
  pose proof (byte_stream_long (first_long true us)).
  unfold len. lia.
Qed.

(** With the conversion of byte streams set (direction away from Annex B)
    and [avc_parse_nal_units] as the parser of the build, [Convert] on a
    byte stream of units behind start codes returns true and exposes the
    units behind 4-byte sizes. *)
Theorem Convert_bytestream (addr : Z) (c : CBitstreamConverter)
    (us : list (bool * list Z)) :
  (forall b, avc_parse_nal_units b
             = fst (Avc.avc_parse_nal_units addr b (len b))) ->
  codec_supported (m_codec c) = true -> m_to_annexb c = false ->
  m_convert_bytestream c = true -> 0 <= avio_open_dyn_buf ->
  Forall annexb_unit (map snd us) ->
  let r := Convert c (Some (byte_stream us)) in
  fst r = true
  /\ GetConvertBuffer (snd r) = Some (frame4 (map snd us))
  /\ GetConvertSize (snd r) = len (frame4 (map snd us)).
Proof.
  intros Hparse Hc Ha Hb Hio Hus r. subst r.
  unfold Convert. cbv zeta. proj_simpl. rewrite Hc, Ha, Hb.
  destruct (Z.ltb_spec avio_open_dyn_buf 0); [lia|].
  rewrite Hparse.
  assert (Hf : fst (Avc.avc_parse_nal_units addr (byte_stream us)
                      (len (byte_stream us))) = frame4 (map snd us)).
  { unfold Avc.avc_parse_nal_units.
    rewrite find_stream_start by exact Hus.
    pose proof (parse_loop_stream addr us [] [] 0
                  (S (Z.to_nat (len (byte_stream us)))) (Forall_nil _) Hus)
      as H1.
    cbn [app] in H1. change (len []) with 0 in H1.
    change (s32 0) with 0 in H1. rewrite H1; [reflexivity|].
    pose proof (byte_stream_long us). unfold len. lia. }
  rewrite Hf. cbn [fst snd]. unfold GetConvertBuffer, GetConvertSize.
  proj_simpl. rewrite Hb. rewrite !orb_true_r. cbn [orb andb].
  repeat split.
Qed.

(** ** The avcC record and the prologue *)

Lemma avc_units_step (p : list Z) (s : avc_init) :
  avc_units p s
  = if ai_unit_nb s =? 0 then Some s
    else match avc_unit p s with
         | None => None
         | Some s1 => avc_units p (avc_pps p s1)
         end.
Proof.
  funelim (avc_units p s).
  - rewrite e. reflexivity.
  - rewrite e, Hu. reflexivity.
  - rewrite e, e0. reflexivity.
Qed.

Lemma RB16_wb16 (pre rest : list Z) (v : Z) :
  0 <= v < 2 ^ 16 -> RB16 (pre ++ Avc.wb16 v ++ rest) (length pre) = v.
Proof.
  intros Hv. unfold RB16.
  rewrite <- (Nat.add_0_r (length pre)) at 1. rewrite !rd_app_r.
  unfold rd, Avc.wb16. cbn [app nth]. change 0xff with (Z.ones 8).
  rewrite lor_shiftl_byte
    by (unfold is_byte; rewrite Z.land_ones by lia;
        apply Z.mod_pos_bound; lia).
  rewrite !Z.land_ones, Z.shiftr_div_pow2 by lia.
  change (2 ^ 8) with 256. change (2 ^ 16) with 65536 in *.
  Z.div_mod_to_equations. lia.
Qed.

(** The record [isom_write_avcc] writes is read back by
    [BitstreamConvertInitAVC] as the prologue of its two parameter sets:
    the SPS and the PPS, each behind a four-byte start code, with 4-byte
    NAL sizes announced. *)
Theorem BitstreamConvertInitAVC_avcc_record (c : CBitstreamConverter)
    (sps pps : list Z) :
  len sps <= 65535 -> len pps <= 65535 ->
  let r := BitstreamConvertInitAVC c (Some (avcc_record sps pps)) in
  fst r = true
  /\ sps_pps_data (m_sps_pps_context (snd r))
     = Some (byte_stream [(true, sps); (true, pps)])
  /\ size (m_sps_pps_context (snd r)) = 8 + len sps + len pps
  /\ length_size (m_sps_pps_context (snd r)) = 4.
Proof.
  intros Hs Hp r. subst r.
  pose proof (len_nonneg sps) as Hs0. pose proof (len_nonneg pps) as Hp0.
  set (A := [1; rd sps 1; rd sps 2; rd sps 3; 0xff; 0xe1]).
  assert (Hrec : avcc_record sps pps
                 = A ++ Avc.wb16 (len sps) ++ sps ++ [1]
                     ++ Avc.wb16 (len pps) ++ pps) by reflexivity.
  set (p := avcc_record sps pps) in *.
  assert (Hlen : len p = 11 + len sps + len pps).
  { rewrite Hrec, !len_app. change (len A) with 6.
    change (len (Avc.wb16 (len sps))) with 2.
    change (len (Avc.wb16 (len pps))) with 2. change (len [1]) with 1.
    lia. }
  assert (H4 : rd p 4 = 0xff) by reflexivity.
  assert (H5 : rd p 5 = 0xe1) by reflexivity.
  assert (Hu1 : RB16 p 6 = len sps).
  { rewrite Hrec. apply (RB16_wb16 A). change (2 ^ 16) with 65536. lia. }
  assert (Hsp1 : span p 8 (len sps) = sps).
  { rewrite Hrec.
    replace (A ++ Avc.wb16 (len sps) ++ sps ++ [1] ++ Avc.wb16 (len pps) ++ pps)
      with ((A ++ Avc.wb16 (len sps)) ++ sps
            ++ [1] ++ Avc.wb16 (len pps) ++ pps)
      by (rewrite <- app_assoc; reflexivity).
    apply (span_exact sps (A ++ Avc.wb16 (len sps))). }
  assert (Hn2 : rd p (8 + length sps) = 1).
  { rewrite Hrec.
    replace (A ++ Avc.wb16 (len sps) ++ sps ++ [1] ++ Avc.wb16 (len pps) ++ pps)
      with ((A ++ Avc.wb16 (len sps) ++ sps)
            ++ [1] ++ Avc.wb16 (len pps) ++ pps)
      by (rewrite <- !app_assoc; reflexivity).
    replace (8 + length sps)%nat
      with (length (A ++ Avc.wb16 (len sps) ++ sps) + 0)%nat
      by (rewrite !length_app; cbn [A Avc.wb16 length]; lia).
    rewrite rd_app_r. reflexivity. }
  assert (Hu2 : RB16 p (9 + length sps) = len pps).
  { rewrite Hrec.
    replace (A ++ Avc.wb16 (len sps) ++ sps ++ [1] ++ Avc.wb16 (len pps) ++ pps)
      with ((A ++ Avc.wb16 (len sps) ++ sps ++ [1])
            ++ Avc.wb16 (len pps) ++ pps)
      by (rewrite <- !app_assoc; reflexivity).
    replace (9 + length sps)%nat
      with (length (A ++ Avc.wb16 (len sps) ++ sps ++ [1]))
      by (rewrite !length_app; cbn [A Avc.wb16 length]; lia).
    rewrite <- (app_nil_r pps) at 2.
    apply RB16_wb16. change (2 ^ 16) with 65536. lia. }
  assert (Hsp2 : span p (11 + length sps) (len pps) = pps).
  { rewrite Hrec.
    replace (A ++ Avc.wb16 (len sps) ++ sps ++ [1] ++ Avc.wb16 (len pps) ++ pps)
      with ((A ++ Avc.wb16 (len sps) ++ sps ++ [1] ++ Avc.wb16 (len pps))
            ++ pps ++ [])
      by (rewrite app_nil_r, <- !app_assoc; reflexivity).
    replace (11 + length sps)%nat
      with (length (A ++ Avc.wb16 (len sps) ++ sps ++ [1]
                      ++ Avc.wb16 (len pps)))
      by (rewrite !length_app; cbn [A Avc.wb16 length]; lia).
    apply span_exact. }
  clearbody p. clear Hrec.
  set (s1 := {| ai_pos := 8 + length sps; ai_unit_nb := 0;
                ai_total_size := len sps + 4;
                ai_out := [0; 0; 0; 1] ++ sps;
                ai_sps_done := 0; ai_mvc_done := 0 |}).
  set (s2 := {| ai_pos := 9 + length sps; ai_unit_nb := 1;
                ai_total_size := len sps + 4;
                ai_out := [0; 0; 0; 1] ++ sps;
                ai_sps_done := 1; ai_mvc_done := 0 |}).
  set (s3 := {| ai_pos := 11 + length sps + length pps; ai_unit_nb := 0;
                ai_total_size := len sps + len pps + 8;
                ai_out := ([0; 0; 0; 1] ++ sps) ++ [0; 0; 0; 1] ++ pps;
                ai_sps_done := 1; ai_mvc_done := 0 |}).
  set (s4 := {| ai_pos := 11 + length sps + length pps; ai_unit_nb := 0;
                ai_total_size := len sps + len pps + 8;
                ai_out := ([0; 0; 0; 1] ++ sps) ++ [0; 0; 0; 1] ++ pps;
                ai_sps_done := 2; ai_mvc_done := 1 |}).
  assert (E1 : avc_unit p {| ai_pos := 6; ai_unit_nb := 1;
                             ai_total_size := 0; ai_out := [];
                             ai_sps_done := 0; ai_mvc_done := 0 |}
               = Some s1).
  { unfold avc_unit. cbn [ai_pos ai_total_size ai_out ai_unit_nb
                          ai_sps_done ai_mvc_done].
    rewrite Hu1. unfold INT_MAX, AV_INPUT_BUFFER_PADDING_SIZE.
    assert (T1 : u32 (0 + len sps + 4) = len sps + 4)
      by (unfold u32; apply Z.mod_small; lia).
    rewrite T1.
    destruct (Z.gtb_spec (len sps + 4) (2 ^ 31 - 1 - 64)); [lia|].
    destruct (Z.gtb_spec (Z.of_nat 6 + 2 + len sps) (len p)); [lia|].
    cbn [orb]. change (6 + 2)%nat with 8%nat. rewrite Hsp1.
    unfold s1. f_equal. f_equal. unfold len. lia. }
  assert (E2 : avc_pps p s1 = s2).
  { unfold avc_pps, s1. cbn [ai_pos ai_total_size ai_out ai_unit_nb
                             ai_sps_done ai_mvc_done Z.eqb].
    rewrite Hn2. cbn [Z.eqb Pos.eqb]. reflexivity. }
  assert (E3 : avc_unit p s2 = Some s3).
  { unfold avc_unit, s2. cbn [ai_pos ai_total_size ai_out ai_unit_nb
                              ai_sps_done ai_mvc_done].
    rewrite Hu2. unfold INT_MAX, AV_INPUT_BUFFER_PADDING_SIZE.
    assert (T2 : u32 (len sps + 4 + len pps + 4) = len sps + len pps + 8)
      by (unfold u32; rewrite Z.mod_small; lia).
    rewrite T2.
    destruct (Z.gtb_spec (len sps + len pps + 8) (2 ^ 31 - 1 - 64)); [lia|].
    destruct (Z.gtb_spec (Z.of_nat (9 + length sps) + 2 + len pps) (len p));
      [unfold len in *; lia|].
    cbn [orb].
    replace (9 + length sps + 2)%nat with (11 + length sps)%nat by lia.
    rewrite Hsp2. unfold s3. f_equal. f_equal. unfold len. lia. }
  assert (E4 : avc_pps p s3 = s4).
  { unfold avc_pps, s3. cbn [ai_pos ai_total_size ai_out ai_unit_nb
                             ai_sps_done ai_mvc_done Z.eqb Pos.eqb].
    assert (T3 : (14 <? u32 (len p - (len sps + len pps + 8))) = false)
      by (rewrite Hlen; replace (11 + len sps + len pps
                                 - (len sps + len pps + 8)) with 3 by lia;
          reflexivity).
    rewrite T3. cbn [andb]. reflexivity. }
  unfold BitstreamConvertInitAVC.
  destruct (Z.ltb_spec (len p) 6); [lia|].
  rewrite H4, H5.
  change (Z.land 225 31) with 1. change (Z.land 255 3 + 1) with 4.
  cbn [ai_unit_nb Z.eqb Pos.eqb].
  rewrite avc_units_step. cbn [ai_unit_nb Z.eqb Pos.eqb].
  rewrite E1, E2.
  rewrite avc_units_step. change (ai_unit_nb s2 =? 0) with false.
  cbv iota. rewrite E3, E4.
  rewrite avc_units_step. change (ai_unit_nb s4 =? 0) with true.
  cbv iota. cbn [fst snd]. proj_simpl.
  unfold s4. cbn [ai_out ai_total_size app].
  repeat split; try reflexivity; [| lia].
  unfold byte_stream. cbn [map concat fst snd start_code_of app].
  rewrite app_nil_r. reflexivity.
Qed.

(** [Open(false)] on Annex-B extradata, with [isom_write_avcc] as the
    writer of the build: for H.264 extradata that is a byte stream of
    units among which there are an SPS of 4 to 65535 bytes and a PPS,
    [Open] returns true, sets the conversion of byte streams and keeps as
    extradata the avcC record of the last SPS and the last PPS: version 1,
    the three profile and level bytes of the SPS, 0xFF for 4-byte NAL
    sizes, 0xE1 for one SPS, and each parameter set behind its 2-byte
    size. *)
Theorem Open_annexb_extradata (addr : Z) (c : CBitstreamConverter)
    (us : list (bool * list Z)) (sps pps : list Z) :
  (forall b r, Avc.isom_write_avcc addr avio_open_dyn_buf b (len b)
               = Some (r, 0) -> isom_write_avcc b = r) ->
  codec (m_hints c) = AV_CODEC_ID_H264 ->
  extradata (m_hints c) = Some (byte_stream us) ->
  0 <= avio_open_dyn_buf ->
  Forall annexb_unit (map snd us) -> len (byte_stream us) < 2 ^ 31 ->
  last_of_type 7 (map snd us) None = Some sps ->
  last_of_type 8 (map snd us) None = Some pps ->
  4 <= len sps <= 65535 -> len pps <= 65535 ->
  let r := Open c false in
  fst r = true
  /\ m_convert_bytestream (snd r) = true
  /\ m_extraData (snd r) = Some (avcc_record sps pps)
  /\ len (avcc_record sps pps) = 11 + len sps + len pps
  /\ m_to_annexb (snd r) = false
  /\ codec_supported (m_codec (snd r)) = true.
Proof.
  intros Hlink Hcd He Hio Hus Hlen H7 H8 Hsps Hpps r. subst r.
  pose proof (isom_write_avcc_record addr avio_open_dyn_buf us sps pps
                Hio Hus Hlen H7 H8 Hsps Hpps) as Hrec.
  apply Hlink in Hrec.
  assert (Hin : In sps (map snd us))
    by (destruct (last_of_type_in _ _ _ _ H7); [discriminate | assumption]).
  pose proof (byte_stream_in us sps Hin) as Hl.
  assert (Hst : rd (byte_stream us) 0 = 0
                /\ starts_with_startcode (byte_stream us) = true).
  { destruct us as [|[b u] us']; [destruct Hin|].
    rewrite byte_stream_cons. destruct b; split; reflexivity. }
  destruct Hst as [H0 Hst].
  unfold Open. cbv zeta. proj_simpl. rewrite Hcd, He.
  destruct (Z.ltb_spec (len (byte_stream us)) 7); [lia|].
  rewrite H0, Hst. cbn [Z.eqb negb].
  destruct (Z.ltb_spec avio_open_dyn_buf 0); [lia|].
  rewrite Hrec. cbn [fst snd]. proj_simpl.
  repeat split.
  unfold avcc_record. rewrite !len_app.
  change (len (Avc.wb16 (len sps))) with 2.
  change (len (Avc.wb16 (len pps))) with 2. change (len [1]) with 1.
  unfold len at 1. cbn [length]. lia.
Qed.

End ConverterProperties.

(** ** Concrete runs *)

Lemma Convert_bad_length_witness :
  fst (Convert (E := plain_collaborators) avc_opened (Some [0; 0; 0; 9; 0x65]))
  = false
  /\ GetConvertSize
       (snd (Convert (E := plain_collaborators) avc_opened
               (Some [0; 0; 0; 9; 0x65]))) = 0
  /\ fst (Convert (E := plain_collaborators)
            (snd (Convert (E := plain_collaborators) avc_opened
                    (Some [0; 0; 0; 9; 0x65])))
            (Some [0; 0; 0; 2; 0x65; 0x88])) = true.
Proof.
  assert (Ha : conversion_active avc_opened)
    by (unfold conversion_active; repeat split; try reflexivity;
        vm_compute; discriminate).
  assert (Hbad : declares_bad_length
                   (length_size (m_sps_pps_context avc_opened))
                   [0; 0; 0; 9; 0x65] 0).
  { apply bad_length_here; [vm_compute; discriminate|].
    right. vm_compute. reflexivity. }
  assert (Hp : prologue_ok avc_opened) by (vm_compute; reflexivity).
  assert (Hn : packet_nals (length_size (m_sps_pps_context avc_opened))
                 [0; 0; 0; 2; 0x65; 0x88] 0 [(4%nat, 2)]).
  { change [(4%nat, 2)]
      with [((0 + Z.to_nat (length_size (m_sps_pps_context avc_opened)))%nat,
             2)].
    apply packet_nals_last; vm_compute; try reflexivity; discriminate. }
  destruct (Convert_bad_length (E := plain_collaborators) avc_opened
              [0; 0; 0; 9; 0x65] Ha Hbad)
    as (H1 & _ & _ & _ & H2 & _ & H3).
  split; [exact H1|]. split; [exact H2|].
  apply (H3 Hp [0; 0; 0; 2; 0x65; 0x88] [(4%nat, 2)] Hn). reflexivity.
Defined.

Lemma idr_prologue_witness :
  fst (Convert (E := plain_collaborators) avc_opened
         (Some [0; 0; 0; 2; 0x65; 0x88])) = true
  /\ (exists back,
        GetConvertBuffer
          (snd (Convert (E := plain_collaborators) avc_opened
                  (Some [0; 0; 0; 2; 0x65; 0x88])))
        = Some ([] ++ [0; 0; 0; 1; 103; 100; 0; 0; 0; 1; 104; 238]
                ++ [0; 0; 0; 1] ++ [0x65; 0x88] ++ back))
  /\ idr_flags
       (snd (Convert (E := plain_collaborators) avc_opened
               (Some [0; 0; 0; 2; 0x65; 0x88]))) = (0, 0).
Proof.
  assert (Ha : conversion_active avc_opened)
    by (unfold conversion_active; repeat split; try reflexivity;
        vm_compute; discriminate).
  assert (Hp : prologue_ok avc_opened) by (vm_compute; reflexivity).
  assert (Hc : nal_codes (m_codec avc_opened) = Some (7, 8, 6))
    by reflexivity.
  assert (Hn : packet_nals (length_size (m_sps_pps_context avc_opened))
                 [0; 0; 0; 2; 0x65; 0x88] 0 ([] ++ (4%nat, 2) :: [])).
  { change ([] ++ [(4%nat, 2)])
      with [((0 + Z.to_nat (length_size (m_sps_pps_context avc_opened)))%nat,
             2)].
    apply packet_nals_last; vm_compute; try reflexivity; discriminate. }
  assert (Hi : IsIDR avc_opened
                 (unit_type_at avc_opened [0; 0; 0; 2; 0x65; 0x88] 4) = true)
    by reflexivity.
  destruct (idr_prologue (E := plain_collaborators) avc_opened (7, 8, 6)
              [0; 0; 0; 2; 0x65; 0x88] [] [] 4 2 Ha Hp Hc Hn Hi)
    as (H1 & H2 & H3 & _).
  split; [exact H1|]. split; [exact H2 | exact H3].
Defined.

(** C1 as stated fails.  Of two access units that each hold one IDR unit
    and no parameter set, the first gets the prologue and the second gets
    neither the prologue nor an SPS or PPS: only a slice that is not an
    IDR unit sets [first_idr] again. *)
Lemma idr_prologue_counterexample :
  let idr := [0; 0; 0; 2; 0x65; 0x88] in
  let prologue := prologue_of (sps_pps_data (m_sps_pps_context avc_opened)) in
  IsIDR avc_opened (unit_type_at avc_opened idr 4) = true
  /\ existsb (is_sps_pps (7, 8, 6)) (unit_types avc_opened idr [(4%nat, 2)])
     = false
  /\ fst (Converts (E := plain_collaborators) avc_opened [idr; idr])
     = [(true, Some (prologue ++ [0; 0; 0; 1; 0x65; 0x88]));
        (true, Some [0; 0; 0; 1; 0x65; 0x88])]
  /\ prologue <> [].
Proof.
  repeat split; try reflexivity. vm_compute. discriminate.
Qed.

Lemma start_decode_latch_witness :
  let c := ResetStartDecode avc_opened in
  let sei := sei_nal 0x06 [(5, [1; 2]); (SEI_RECOVERY_POINT, [0x80])] in
  m_start_decode c = false
  /\ m_start_decode
       (snd (Convert (E := plain_collaborators) c
               (Some [0; 0; 0; 2; 0x65; 0x88]))) = true
  /\ m_start_decode
       (snd (Convert (E := plain_collaborators) c
               (Some [0; 0; 0; 2; 0x41; 0x9A]))) = false
  /\ m_start_decode
       (snd (Convert (E := plain_collaborators) c
               (Some ([0; 0; 0; 9] ++ sei)))) = true
  /\ fst (Convert (E := plain_collaborators) c
            (Some [0; 0; 0; 2; 0x65; 0x88; 0; 0; 0; 9; 0x41])) = false
  /\ m_start_decode
       (snd (Convert (E := plain_collaborators) c
               (Some [0; 0; 0; 2; 0x65; 0x88; 0; 0; 0; 9; 0x41]))) = true
  /\ starts_decode c (AVC_NAL_SPS, AVC_NAL_PPS, AVC_NAL_SEI) AVC_NAL_SEI
       (sei ++ [0; 0; 0; 2; 0x41; 0x9A]) (len sei) = true
  /\ recovery_frame_cnt [0x28] = 4
  /\ m_start_decode
       (snd (Convert (E := plain_collaborators) avc_opened None)) = true
  /\ m_start_decode
       (snd (Convert (E := plain_collaborators)
               (set_m_convert_bitstream false c)
               (Some [0; 0; 0; 2; 0x65; 0x88]))) = false.
Proof.
  intros c sei.
  assert (Ha : conversion_active c)
    by (unfold conversion_active; repeat split; try reflexivity;
        vm_compute; discriminate).
  assert (Hc : nal_codes (m_codec c) = Some (7, 8, 6)) by reflexivity.
  destruct (start_decode_latch (E := plain_collaborators) c)
    as (H1 & _ & _ & H4 & H5 & _).
  destruct (start_decode_latch (E := plain_collaborators) avc_opened)
    as (_ & _ & _ & _ & _ & H6 & _).
  destruct (start_decode_latch (E := plain_collaborators)
              (set_m_convert_bitstream false c))
    as (_ & _ & _ & _ & _ & _ & H7 & _).
  assert (Hm : Forall (fun m : Z * list Z => 0 <= fst m /\ fst m <> 128)
                 [(5, [1; 2]); (SEI_RECOVERY_POINT, [0x80])])
    by (repeat constructor; cbn; try lia; discriminate).
  assert (Hb : Forall is_byte [0x28])
    by (repeat constructor; unfold is_byte; lia).
  split; [reflexivity|].
  split; [rewrite (H1 (7, 8, 6) _ Ha Hc); reflexivity|].
  split; [rewrite (H1 (7, 8, 6) _ Ha Hc); reflexivity|].
  split; [rewrite (H1 (7, 8, 6) _ Ha Hc); reflexivity|].
  split; [reflexivity|].
  split; [rewrite (H1 (7, 8, 6) _ Ha Hc); reflexivity|].
  split; [rewrite (H4 0x06 _ _ eq_refl Hm); reflexivity|].
  split; [apply (H5 [0x28] 2%nat [0; 1] [0; 0; 0] Hb); [lia | reflexivity
                                                        | reflexivity]|].
  split; [apply H6; reflexivity|].
  rewrite H7; [reflexivity | right; left; reflexivity].
Defined.

(** C2 as stated fails.  With the latch cleared by [ResetStartDecode],
    the dual-track [Convert] of a base layer with an IDR unit leaves it
    clear, and so does a single-track [Convert] that hands the packet
    through.  On the converting path it stays clear at an HEVC SEI unit
    with a recovery-point message whose [recovery_frame_cnt] is 0, at an
    H.264 SEI unit in which a message of payload type 128 comes before
    that message, and at one whose first recovery-point message reads as
    a negative number and whose second has the count 0. *)
Lemma start_decode_latch_counterexample :
  let c := ResetStartDecode hevc_opened in
  let bl := [0; 0; 0; 2; 0x26; 1] in
  let el := [0; 0; 0; 3; 0x7C; 1; 9] in
  let a := ResetStartDecode avc_opened in
  let recovery := (SEI_RECOVERY_POINT, [0x80]) in
  let hevc_sei := [0x4E; 0x01] ++ sei_message recovery ++ [0x80] in
  let sei128 := sei_nal 0x06 [(5, [1]); (128, [1]); recovery] in
  let wrapped := (SEI_RECOVERY_POINT, [0; 0; 0; 0; 0; 0; 0; 2]) in
  let sei2 := sei_nal 0x06 [wrapped; recovery] in
  (IsIDR c (nal_type32 bl) = true
   /\ m_start_decode c = false
   /\ fst (Convert_bl_el (E := plain_collaborators) c (Some bl) (Some el))
      = true
   /\ m_start_decode
        (snd (Convert_bl_el (E := plain_collaborators) c (Some bl) (Some el)))
      = false)
  /\ (IsIDR a (unit_type_at a [0; 0; 0; 2; 0x65; 0x88] 4) = true
      /\ fst (Convert (E := plain_collaborators)
                (set_m_convert_bitstream false a)
                (Some [0; 0; 0; 2; 0x65; 0x88])) = true
      /\ m_start_decode
           (snd (Convert (E := plain_collaborators)
                   (set_m_convert_bitstream false a)
                   (Some [0; 0; 0; 2; 0x65; 0x88]))) = false)
  /\ (recovery_frame_cnt (snd recovery) = 0
      /\ unit_type_at c ([0; 0; 0; 6] ++ hevc_sei) 4 = HEVC_NAL_SEI_PREFIX
      /\ fst (Convert (E := plain_collaborators) c
                (Some ([0; 0; 0; 6] ++ hevc_sei))) = true
      /\ m_start_decode
           (snd (Convert (E := plain_collaborators) c
                   (Some ([0; 0; 0; 6] ++ hevc_sei)))) = false)
  /\ (fst (Convert (E := plain_collaborators) a
             (Some ([0; 0; 0; 11] ++ sei128))) = true
      /\ m_start_decode
           (snd (Convert (E := plain_collaborators) a
                   (Some ([0; 0; 0; 11] ++ sei128)))) = false)
  /\ (recovery_frame_cnt (snd wrapped) < 0
      /\ fst (Convert (E := plain_collaborators) a
                (Some ([0; 0; 0; 15] ++ sei2))) = true
      /\ m_start_decode
           (snd (Convert (E := plain_collaborators) a
                   (Some ([0; 0; 0; 15] ++ sei2)))) = false).
Proof.
  repeat split; vm_compute; reflexivity.
Qed.

Lemma exp_golomb_reads_witness :
  fst (nal_bs_read_ue (nal_bs_init [0x28])) = 4
  /\ unread (snd (nal_bs_read_ue (nal_bs_init [0x28]))) = [0; 0; 0]
  /\ fst (nal_bs_read (nal_bs_init [0x28]) 5) = 5
  /\ fst (nal_bs_read (nal_bs_init [0x28]) 12) = 0x28
  /\ fst (nal_bs_read_ue (nal_bs_init [0; 0; 0; 0; 0; 0; 0; 2])) = - 2 ^ 31
  /\ fst (nal_bs_read_ue (nal_bs_init [0; 0])) = 2 ^ 15 - 1
  /\ nal_bs_eos (snd (nal_bs_read_ue (nal_bs_init [0; 0]))) = true.
Proof.
  assert (Hok : forall d, Forall is_byte d -> reader_ok (nal_bs_init d))
    by (intros d Hd; split; [cbn; lia | exact Hd]).
  assert (H1 : Forall is_byte [0x28])
    by (repeat constructor; unfold is_byte; lia).
  assert (H2 : Forall is_byte [0; 0])
    by (repeat constructor; unfold is_byte; lia).
  assert (H3 : Forall is_byte [0; 0; 0; 0; 0; 0; 0; 2])
    by (repeat constructor; unfold is_byte; lia).
  destruct (exp_golomb_reads (nal_bs_init [0x28])) as (A & _).
  destruct (A (Hok _ H1)) as (R & _ & _ & A0 & _).
  destruct (A0 2%nat 1 [0; 1] [0; 0; 0]) as (A1 & A2 & A3);
    [reflexivity | reflexivity | left; split; [lia | reflexivity] |].
  destruct (R 5 ltac:(lia)) as (R1 & _).
  destruct (R 12 ltac:(lia)) as (R2 & _).
  destruct (exp_golomb_reads (nal_bs_init [0; 0])) as (B & _).
  destruct (B (Hok _ H2)) as (_ & _ & _ & _ & B0).
  destruct (B0 15%nat) as (B1 & B2); [reflexivity | lia | cbn; lia |].
  destruct (exp_golomb_reads (nal_bs_init [0; 0; 0; 0; 0; 0; 0; 2]))
    as (C & _).
  destruct (C (Hok _ H3)) as (_ & _ & _ & C0 & _).
  destruct (C0 31%nat 0 (repeat 0 30 ++ [1]) [0]) as (C1 & _ & _);
    [reflexivity | reflexivity | right; reflexivity |].
  split; [rewrite A3 by lia; reflexivity |].
  split; [exact A2 |].
  split; [rewrite R1; reflexivity |].
  split; [rewrite R2; reflexivity |].
  split; [rewrite C1; reflexivity |].
  split; [exact B1 | exact B2].
Defined.

(** C5 as stated fails at the end of the data.  The byte 0x00 is eight
    zero bits, each of which a single-bit read returns; the unsigned read
    counts seven of them and returns [(1 << 7) - 1], which is no
    [(1 << 8) - 1 + v]. *)
Lemma exp_golomb_reads_counterexample :
  let bs := nal_bs_init [0] in
  unread bs = repeat 0 8
  /\ fst (read_bits1 8 bs) = repeat 0 8
  /\ fst (nal_bs_read_ue bs) = 2 ^ 7 - 1
  /\ ~ (exists v, 0 <= v /\ fst (nal_bs_read_ue bs) = 2 ^ 8 - 1 + v).
Proof.
  split; [reflexivity | split; [reflexivity | split; [reflexivity |]]].
  intros (v & Hv & H). vm_compute in H.
  change (127 = 255 + v) in H. lia.
Qed.



Lemma Open_record_check_witness :
  fst (Open (E := plain_collaborators)
         (CBitstreamConverter_new
            (set_extradata (Some [1; 0x64; 0; 0x28; 0xFF; 0xE1]) avc_hints))
         true) = false
  /\ fst (Open (E := plain_collaborators)
            (CBitstreamConverter_new
               (set_extradata (Some (0 :: tl avc_record)) avc_hints))
            true) = false
  /\ fst (Open (E := plain_collaborators)
            (CBitstreamConverter_new
               (set_extradata (Some (0 :: 0 :: 2 :: skipn 3 hevc_record))
                  hevc_hints)) true) = true
  /\ fst (Open (E := plain_collaborators) (CBitstreamConverter_new avc_hints)
            false) = true.
Proof.
  destruct (Open_record_check (E := plain_collaborators)
              (CBitstreamConverter_new
                 (set_extradata (Some [1; 0x64; 0; 0x28; 0xFF; 0xE1])
                    avc_hints)) true) as (_ & H1 & _).
  destruct (Open_record_check (E := plain_collaborators)
              (CBitstreamConverter_new
                 (set_extradata (Some (0 :: tl avc_record)) avc_hints)) true)
    as (_ & _ & H2 & _).
  destruct (Open_record_check (E := plain_collaborators)
              (CBitstreamConverter_new
                 (set_extradata (Some (0 :: 0 :: 2 :: skipn 3 hevc_record))
                    hevc_hints)) true) as (_ & _ & _ & H3 & _).
  destruct (Open_record_check (E := plain_collaborators)
              (CBitstreamConverter_new avc_hints) false)
    as (_ & _ & _ & _ & H4).
  split; [| split; [| split]].
  - apply (H1 _ eq_refl). vm_compute. reflexivity.
  - apply (H2 _ eq_refl eq_refl eq_refl). vm_compute. discriminate.
  - rewrite (H3 _ eq_refl eq_refl eq_refl); [reflexivity|].
    vm_compute. discriminate.
  - apply (H4 _ eq_refl); [discriminate | vm_compute; discriminate |
                           reflexivity].
Defined.

(** C8 as stated fails for HEVC towards Annex B: a record whose first
    byte is 2, or 0 followed by a byte that is not 0, is accepted. *)
Lemma Open_record_check_counterexample :
  let ed2 := 2 :: tl hevc_record in
  let ed0 := 0 :: 1 :: skipn 2 hevc_record in
  rd ed2 0 <> 1 /\ rd ed0 0 <> 1
  /\ fst (Open (E := plain_collaborators)
            (CBitstreamConverter_new (set_extradata (Some ed2) hevc_hints))
            true) = true
  /\ fst (Open (E := plain_collaborators)
            (CBitstreamConverter_new (set_extradata (Some ed0) hevc_hints))
            true) = true.
Proof.
  repeat split; try reflexivity; vm_compute; discriminate.
Qed.

Lemma Convert_bl_el_null_witness :
  fst (Convert_bl_el (E := plain_collaborators) hevc_opened None
         (Some [0; 0; 0; 3; 0x7C; 1; 9])) = true
  /\ GetConvertSize
       (snd (Convert_bl_el (E := plain_collaborators) hevc_opened None
               (Some [0; 0; 0; 3; 0x7C; 1; 9]))) = 0
  /\ m_first_frame hevc_opened = true
  /\ m_first_frame
       (snd (Convert_bl_el (E := plain_collaborators) hevc_opened None
               (Some [0; 0; 0; 3; 0x7C; 1; 9]))) = false.
Proof.
  destruct (Convert_bl_el_null (E := plain_collaborators) hevc_opened None
              (Some [0; 0; 0; 3; 0x7C; 1; 9]) (or_introl eq_refl))
    as (H1 & _ & _ & _ & H2 & H3).
  split; [exact H1|]. split; [exact H2|]. split; [reflexivity | exact H3].
Defined.

(** C9 fails on the code.  The base-layer loop sets a unit aside when its
    HEVC unit type equals the H.264 end-of-sequence code 10; an HEVC
    end-of-sequence unit has type 36 and is copied where it stands, so it
    comes before the RPU of the enhancement layer. *)
Theorem Convert_bl_el_hevc_eos_in_place :
  let bl := [0; 0; 0; 2; 2; 1; 0; 0; 0; 2; 72; 1] in
  let el := [0; 0; 0; 3; 0x7C; 1; 9] in
  nal_type32 (skipn 6 bl) = HEVC_NAL_EOS_NUT
  /\ fst (Convert_bl_el (E := plain_collaborators) hevc_opened (Some bl)
            (Some el)) = true
  /\ GetConvertBuffer
       (snd (Convert_bl_el (E := plain_collaborators) hevc_opened (Some bl)
               (Some el)))
     = Some ([0; 0; 0; 1; 2; 1] ++ [0; 0; 1; 72; 1]
             ++ [0; 0; 0; 1; 0x7C; 1; 9]).
Proof.
  repeat split; vm_compute; reflexivity.
Qed.

Lemma Convert_passthrough_witness :
  let c :=
    snd (Open (E := plain_collaborators)
           (CBitstreamConverter_new
              (set_extradata (Some [1; 0x64; 0; 0x28; 0xFF; 0xE1; 0; 9; 0x67])
                 avc_hints)) true) in
  m_convert_bitstream c = false
  /\ fst (Convert (E := plain_collaborators) c (Some [0; 0; 0; 1; 0x65])) = true
  /\ GetConvertBuffer
       (snd (Convert (E := plain_collaborators) c (Some [0; 0; 0; 1; 0x65])))
     = Some [0; 0; 0; 1; 0x65].
Proof.
  intros c.
  destruct (Convert_passthrough (E := plain_collaborators) c
              [0; 0; 0; 1; 0x65] eq_refl eq_refl eq_refl eq_refl eq_refl
              eq_refl) as (H1 & H2 & _).
  split; [reflexivity|]. split; [exact H1 | exact H2].
Defined.

Lemma Convert_rejects_witness :
  fst (Convert (E := plain_collaborators) avc_opened None) = false
  /\ GetConvertSize (snd (Convert (E := plain_collaborators) avc_opened None))
     = 0.
Proof.
  destruct (Convert_rejects (E := plain_collaborators) avc_opened None
              (or_introl eq_refl)) as (H1 & _ & H2 & _).
  split; [exact H1 | exact H2].
Defined.

Lemma first_frame_latch_witness :
  m_first_frame avc_opened = true
  /\ m_first_frame
       (snd (Convert (E := plain_collaborators) avc_opened
               (Some [0; 0; 0; 2; 0x65; 0x88]))) = false
  /\ m_first_frame
       (snd (Convert (E := plain_collaborators) avc_opened
               (Some [0; 0; 0; 9; 0x65]))) = true
  /\ m_first_frame
       (snd (Convert_bl_el (E := plain_collaborators) hevc_opened
               (Some [0; 0; 0; 2; 2; 1]) (Some [0; 0; 0; 3; 0x7C; 1; 9])))
     = false.
Proof.
  assert (Ha : conversion_active avc_opened)
    by (unfold conversion_active; repeat split; try reflexivity;
        vm_compute; discriminate).
  assert (Hp : prologue_ok avc_opened) by (vm_compute; reflexivity).
  assert (Hn : packet_nals (length_size (m_sps_pps_context avc_opened))
                 [0; 0; 0; 2; 0x65; 0x88] 0 [(4%nat, 2)]).
  { change [(4%nat, 2)]
      with [((0 + Z.to_nat (length_size (m_sps_pps_context avc_opened)))%nat,
             2)].
    apply packet_nals_last; vm_compute; try reflexivity; discriminate. }
  assert (Hbad : declares_bad_length
                   (length_size (m_sps_pps_context avc_opened))
                   [0; 0; 0; 9; 0x65] 0).
  { apply bad_length_here; [vm_compute; discriminate|].
    right. vm_compute. reflexivity. }
  destruct (first_frame_latch (E := plain_collaborators) avc_opened)
    as (_ & _ & H3 & H4).
  destruct (first_frame_latch (E := plain_collaborators) hevc_opened)
    as (_ & H2 & _).
  split; [reflexivity|]. split; [| split].
  - apply (H3 (7, 8, 6) _ [(4%nat, 2)] Ha Hp eq_refl Hn).
  - rewrite (H4 _ Ha Hbad). reflexivity.
  - apply H2. vm_compute. reflexivity.
Defined.

Lemma Convert_annexb_witness :
  fst (Convert (E := plain_collaborators) avc_opened
         (Some [0; 0; 0; 2; 0x67; 1; 0; 0; 0; 2; 0x65; 0x88])) = true
  /\ GetConvertBuffer
       (snd (Convert (E := plain_collaborators) avc_opened
               (Some [0; 0; 0; 2; 0x67; 1; 0; 0; 0; 2; 0x65; 0x88])))
     = Some [0; 0; 0; 1; 0x67; 1; 0; 0; 1; 0x65; 0x88].
Proof.
  assert (Ha : conversion_active avc_opened)
    by (unfold conversion_active; repeat split; try reflexivity;
        vm_compute; discriminate).
  assert (Hp : prologue_ok avc_opened) by (vm_compute; reflexivity).
  assert (Hn : packet_nals (length_size (m_sps_pps_context avc_opened))
                 [0; 0; 0; 2; 0x67; 1; 0; 0; 0; 2; 0x65; 0x88] 0
                 [(4%nat, 2); (10%nat, 2)])
    by (apply (packet_walk_sound _ _ 3); vm_compute; reflexivity).
  destruct (Convert_annexb (E := plain_collaborators) avc_opened (7, 8, 6)
              _ _ Ha Hp eq_refl Hn (or_introl eq_refl)) as (H1 & H2 & _).
  split; [exact H1|]. rewrite H2. vm_compute. reflexivity.
Defined.

Lemma Convert_succeeds_iff_well_formed_witness :
  fst (Convert (E := plain_collaborators) avc_opened
         (Some [0; 0; 0; 2; 0x65; 0x88])) = true
  /\ ~ (exists nals,
          packet_nals (length_size (m_sps_pps_context avc_opened))
            [0; 0; 0; 9; 0x65] 0 nals).
Proof.
  assert (Ha : conversion_active avc_opened)
    by (unfold conversion_active; repeat split; try reflexivity;
        vm_compute; discriminate).
  assert (Hp : prologue_ok avc_opened) by (vm_compute; reflexivity).
  split.
  - apply (Convert_succeeds_iff_well_formed (E := plain_collaborators)
             avc_opened _ Ha Hp eq_refl).
    exists [(4%nat, 2)].
    apply (packet_walk_sound _ _ 2). vm_compute. reflexivity.
  - intros H.
    apply (Convert_succeeds_iff_well_formed (E := plain_collaborators)
             avc_opened _ Ha Hp eq_refl) in H.
    vm_compute in H. discriminate.
Defined.

Lemma Open_ready_witness : ready_for_annexb avc_opened.
Proof.
  apply (Open_ready (E := plain_collaborators)
           (CBitstreamConverter_new avc_hints)); reflexivity.
Defined.

Lemma Convert_output_framed_witness :
  exists rest,
    GetConvertBuffer
      (snd (Convert (E := plain_collaborators) avc_opened
              (Some [0; 0; 0; 2; 0x41; 0x9A])))
    = Some ([0; 0; 0; 1] ++ rest).
Proof.
  assert (Ha : conversion_active avc_opened)
    by (unfold conversion_active; repeat split; try reflexivity;
        vm_compute; discriminate).
  assert (Hp : prologue_ok avc_opened) by (vm_compute; reflexivity).
  assert (Hf : starts_framed
                 (prologue_of (sps_pps_data (m_sps_pps_context avc_opened))))
    by (right; exists [103; 100; 0; 0; 0; 1; 104; 238]; reflexivity).
  destruct (Convert_output_framed (E := plain_collaborators) avc_opened
              [0; 0; 0; 2; 0x41; 0x9A] Ha Hp Hf)
    as [(Hfalse & _) | (_ & rest & H1 & _)].
  - vm_compute in Hfalse. discriminate.
  - exists rest. exact H1.
Defined.

Lemma Convert_bl_el_total_witness :
  fst (Convert_bl_el (E := plain_collaborators) hevc_opened
         (Some [0; 0; 0; 200; 2; 1]) (Some [255; 255; 255; 255; 0x7C; 1; 9]))
  = true
  /\ GetConvertSize
       (snd (Convert_bl_el (E := plain_collaborators) hevc_opened
               (Some [0; 0; 0; 200; 2; 1])
               (Some [255; 255; 255; 255; 0x7C; 1; 9]))) = 13.
Proof.
  destruct (Convert_bl_el_total (E := plain_collaborators) hevc_opened
              [0; 0; 0; 200; 2; 1] [255; 255; 255; 255; 0x7C; 1; 9]
              (or_introl eq_refl)) as (H1 & _ & H2).
  split; [exact H1|]. rewrite H2. vm_compute. reflexivity.
Defined.

Lemma Convert_bl_el_combines_witness :
  let r :=
    Convert_bl_el (E := plain_collaborators) hevc_opened
      (Some [0; 0; 0; 2; 20; 1; 0; 0; 0; 2; 2; 1])
      (Some [0; 0; 0; 3; 0x7C; 1; 9; 0; 0; 0; 2; 2; 7]) in
  bytes_of (m_convertBuffer (snd r), m_convertSize (snd r))
  = [0; 0; 0; 1; 2; 1] ++ [0; 0; 0; 1; 0x7C; 1; 9]
    ++ [0; 0; 1; 126; 1; 2; 7] ++ [0; 0; 1; 20; 1].
Proof.
  intros r. subst r.
  destruct (Convert_bl_el_combines (E := plain_collaborators) hevc_opened
              [0; 0; 0; 2; 20; 1; 0; 0; 0; 2; 2; 1]
              [0; 0; 0; 3; 0x7C; 1; 9; 0; 0; 0; 2; 2; 7]
              eq_refl eq_refl eq_refl eq_refl) as (_ & H & _).
  rewrite H. vm_compute. reflexivity.
Defined.

Lemma Close_passthrough_witness :
  fst (Convert (E := plain_collaborators) (Close avc_opened)
         (Some [0; 0; 0; 2; 0x65; 0x88])) = true
  /\ GetConvertBuffer
       (snd (Convert (E := plain_collaborators) (Close avc_opened)
               (Some [0; 0; 0; 2; 0x65; 0x88])))
     = Some [0; 0; 0; 2; 0x65; 0x88].
Proof.
  destruct (Close_passthrough (E := plain_collaborators) avc_opened
              [0; 0; 0; 2; 0x65; 0x88] eq_refl)
    as (_ & _ & _ & _ & H1 & H2 & _).
  split; [exact H1 | exact H2].
Defined.

Lemma Open_extradata_witness :
  GetExtraData avc_opened
  = Some [0; 0; 0; 1; 103; 100; 0; 0; 0; 1; 104; 238]
  /\ GetExtraSize avc_opened = 12.
Proof.
  destruct (Open_extradata (E := plain_collaborators)
              (CBitstreamConverter_new avc_hints) eq_refl) as (H1 & _).
  split; [reflexivity|]. unfold avc_opened. rewrite H1. reflexivity.
Defined.

Lemma read_nal_size_big_endian_witness :
  read_nal_size 4 [0; 0; 1; 2; 9] 0 = 258
  /\ read_nal_size 4 [255; 255; 255; 254] 0 = -2
  /\ read_nal_size 3 [7; 0; 1; 2] 1 = 258.
Proof.
  assert (Hb : forall l, l = [0; 0; 1; 2] \/ l = [255; 255; 255; 254]
                         \/ l = [0; 1; 2] -> Forall is_byte l).
  { intros l [-> | [-> | ->]]; repeat constructor; unfold is_byte; lia. }
  split; [| split].
  - rewrite (proj1 (read_nal_size_big_endian 4 [0; 0; 1; 2; 9] 0
                      (Hb _ (or_introl eq_refl)))).
    reflexivity.
  - rewrite (proj1 (read_nal_size_big_endian 4 [255; 255; 255; 254] 0
                      (Hb _ (or_intror (or_introl eq_refl))))).
    reflexivity.
  - destruct (read_nal_size_big_endian 3 [7; 0; 1; 2] 1
                (Hb _ (or_intror (or_intror eq_refl)))) as [_ H].
    rewrite (proj1 (H ltac:(lia))). reflexivity.
Defined.

Lemma nal_bs_read_range_witness :
  0 <= fst (nal_bs_read (nal_bs_init [0xA5; 0x5A]) 12) < 2 ^ 12.
Proof.
  apply (nal_bs_read_range (nal_bs_init [0xA5; 0x5A]) 12);
    [cbn [head nal_bs_init]; lia | lia].
Defined.

Lemma reader_at_end_witness :
  nal_bs_read_ue (snd (nal_bs_read (nal_bs_init [0x80]) 8))
  = (0, snd (nal_bs_read (nal_bs_init [0x80]) 8)).
Proof.
  apply (reader_at_end (snd (nal_bs_read (nal_bs_init [0x80]) 8)) 0);
    [reflexivity | reflexivity | lia].
Defined.


Lemma has_sei_recovery_point_first_witness :
  has_sei_recovery_point [6; SEI_RECOVERY_POINT; 1; 0x80] 0 = true.
Proof.
  rewrite (has_sei_recovery_point_first 6 1 [0x80] 0); [reflexivity|].
  lia.
Defined.

Lemma Convert_3byte_sizes_witness :
  fst (Convert (E := plain_collaborators) avc_opened3
         (Some [0; 0; 2; 0x65; 0x88; 0; 0; 1; 0x41])) = true
  /\ GetConvertBuffer
       (snd (Convert (E := plain_collaborators) avc_opened3
               (Some [0; 0; 2; 0x65; 0x88; 0; 0; 1; 0x41])))
     = Some [0; 0; 0; 2; 0x65; 0x88; 0; 0; 0; 1; 0x41].
Proof.
  assert (Hs : Forall (fun u => len u < 2 ^ 24) [[0x65; 0x88]; [0x41]])
    by (repeat constructor).
  assert (Hio : 0 <= avio_open_dyn_buf (Collaborators := plain_collaborators))
    by (vm_compute; discriminate).
  destruct (Convert_3byte_sizes (E := plain_collaborators) avc_opened3
              [[0x65; 0x88]; [0x41]] eq_refl eq_refl eq_refl eq_refl Hio Hs)
    as (H1 & H2 & _).
  split; [exact H1 | exact H2].
Defined.

Lemma Open_patches_length_size_witness :
  fst (Open (E := plain_collaborators) (CBitstreamConverter_new avc_hints3)
         false) = true
  /\ m_extraData avc_opened3 = Some avc_record
  /\ extradata (m_hints avc_opened3) = Some avc_record.
Proof.
  assert (Hc : (codec (m_hints (CBitstreamConverter_new avc_hints3))
                = AV_CODEC_ID_H264
                /\ 7 <= len avc_record3 /\ rd avc_record3 4 = 0xFE
                /\ 0xFF = 0xFF)
               \/ (codec (m_hints (CBitstreamConverter_new avc_hints3))
                   = AV_CODEC_ID_HEVC
                   /\ 23 <= len avc_record3
                   /\ Z.land (rd avc_record3 4) 0x3 = 2
                   /\ 0xFF = Z.lor (rd avc_record3 4) 0x03)).
  { left. repeat split; try reflexivity. vm_compute. discriminate. }
  destruct (Open_patches_length_size (E := plain_collaborators)
              (CBitstreamConverter_new avc_hints3) avc_record3 0xFF
              eq_refl eq_refl Hc) as (H1 & _ & H3 & H4 & _).
  split; [exact H1 | split; [exact H3 | exact H4]].
Defined.

Lemma Convert_only_dropped_units_witness :
  fst (Convert (E := plain_collaborators) (SetRemoveDovi true hevc_opened)
         (Some [0; 0; 0; 3; 0x7C; 1; 0x19])) = false
  /\ GetConvertBuffer
       (snd (Convert (E := plain_collaborators)
               (SetRemoveDovi true hevc_opened)
               (Some [0; 0; 0; 3; 0x7C; 1; 0x19]))) = None.
Proof.
  assert (Ha : conversion_active (SetRemoveDovi true hevc_opened))
    by (unfold conversion_active; repeat split; try reflexivity;
        vm_compute; discriminate).
  assert (Hp : prologue_ok (SetRemoveDovi true hevc_opened))
    by (vm_compute; reflexivity).
  assert (Hn : packet_nals
                 (length_size
                    (m_sps_pps_context (SetRemoveDovi true hevc_opened)))
                 [0; 0; 0; 3; 0x7C; 1; 0x19] 0 [(4%nat, 3)])
    by (apply (packet_walk_sound _ _ 3); vm_compute; reflexivity).
  assert (Hu : Forall (fun t => t = HEVC_NAL_UNSPEC62)
                 (unit_types (SetRemoveDovi true hevc_opened)
                    [0; 0; 0; 3; 0x7C; 1; 0x19] [(4%nat, 3)]))
    by (repeat constructor).
  destruct (Convert_only_dropped_units (E := plain_collaborators)
              (SetRemoveDovi true hevc_opened) (33, 34, 39) _ _ Ha Hp
              eq_refl eq_refl Hn Hu) as (H1 & H2 & _).
  split; [exact H1 | exact H2].
Defined.

Lemma avc_find_startcode_internal_first_witness :
  Avc.avc_find_startcode_internal 3 [0x41; 0; 0; 1; 0x65; 0x88; 0x84] 0 7
  = Avc.avc_find_startcode_internal 0 [0x41; 0; 0; 1; 0x65; 0x88; 0x84] 0 7.
Proof.
  assert (Hb : Forall is_byte [0x41; 0; 0; 1; 0x65; 0x88; 0x84])
    by (repeat (apply Forall_cons; [unfold is_byte; lia|]); apply Forall_nil).
  destruct (avc_find_startcode_internal_first 0
              [0x41; 0; 0; 1; 0x65; 0x88; 0x84] 0 7 Hb) as (_ & _ & H).
  exact (H 3).
Defined.

Lemma avc_parse_nal_units_frames_witness :
  Avc.avc_parse_nal_units 0
    [0; 0; 0; 1; 0x67; 0x64; 0; 0; 1; 0x65; 0x88] 11
  = ([0; 0; 0; 2; 0x67; 0x64; 0; 0; 0; 2; 0x65; 0x88], 12).
Proof.
  assert (Hu : Forall annexb_unit
                 (map snd [(true, [0x67; 0x64]); (false, [0x65; 0x88])]))
    by (repeat (apply Forall_cons;
                [apply annexb_unitb_sound; vm_compute; reflexivity|]);
        apply Forall_nil).
  exact (avc_parse_nal_units_frames 0
           [(true, [0x67; 0x64]); (false, [0x65; 0x88])] Hu).
Defined.


Lemma Convert_annexb_round_trip_witness :
  GetConvertBuffer
    (snd (Convert (E := plain_collaborators) avc_opened
            (Some [0; 0; 0; 2; 0x41; 0x9A; 0; 0; 0; 2; 0x41; 0x9B])))
  = Some [0; 0; 0; 1; 0x41; 0x9A; 0; 0; 1; 0x41; 0x9B]
  /\ fst (Avc.avc_parse_nal_units 0
            [0; 0; 0; 1; 0x41; 0x9A; 0; 0; 1; 0x41; 0x9B] 11)
     = [0; 0; 0; 2; 0x41; 0x9A; 0; 0; 0; 2; 0x41; 0x9B].
Proof.
  assert (Ha : conversion_active avc_opened)
    by (unfold conversion_active; repeat split; try reflexivity;
        vm_compute; discriminate).
  assert (Hp : prologue_ok avc_opened) by (vm_compute; reflexivity).
  assert (Hne : [[0x41; 0x9A]; [0x41; 0x9B]] <> []) by discriminate.
  assert (Hu : Forall annexb_unit [[0x41; 0x9A]; [0x41; 0x9B]])
    by (repeat (apply Forall_cons;
                [apply annexb_unitb_sound; vm_compute; reflexivity|]);
        apply Forall_nil).
  assert (Ht : Forall (fun u => len u < 2 ^ 31
                                /\ Z.land (rd u 0) 0x1f
                                   <> AVC_NAL_IDR_SLICE)
                 [[0x41; 0x9A]; [0x41; 0x9B]])
    by (repeat (apply Forall_cons;
                [split; [vm_compute; reflexivity | vm_compute; discriminate]|]);
        apply Forall_nil).
  destruct (Convert_annexb_round_trip (E := plain_collaborators) 0
              avc_opened [[0x41; 0x9A]; [0x41; 0x9B]] Ha Hp eq_refl eq_refl
              Hne Hu Ht) as (_ & H2 & _ & H4).
  split; [exact H2 | exact H4].
Defined.

Lemma Convert_bytestream_witness :
  fst (Convert (E := avc_collaborators 0) annexb_opened
         (Some [0; 0; 0; 1; 0x65; 0x88; 0; 0; 1; 0x41; 0x9A])) = true
  /\ GetConvertBuffer
       (snd (Convert (E := avc_collaborators 0) annexb_opened
               (Some [0; 0; 0; 1; 0x65; 0x88; 0; 0; 1; 0x41; 0x9A])))
     = Some [0; 0; 0; 2; 0x65; 0x88; 0; 0; 0; 2; 0x41; 0x9A].
Proof.
  assert (Hl : forall b,
             avc_parse_nal_units (Collaborators := avc_collaborators 0) b
             = fst (Avc.avc_parse_nal_units 0 b (len b)))
    by (intros b; reflexivity).
  assert (Hio : 0 <= avio_open_dyn_buf (Collaborators := avc_collaborators 0))
    by (vm_compute; discriminate).
  assert (Hu : Forall annexb_unit
                 (map snd [(true, [0x65; 0x88]); (false, [0x41; 0x9A])]))
    by (repeat (apply Forall_cons;
                [apply annexb_unitb_sound; vm_compute; reflexivity|]);
        apply Forall_nil).
  destruct (Convert_bytestream (E := avc_collaborators 0) 0 annexb_opened
              [(true, [0x65; 0x88]); (false, [0x41; 0x9A])] Hl eq_refl
              eq_refl eq_refl Hio Hu) as (H1 & H2 & _).
  split; [exact H1 | exact H2].
Defined.

Lemma BitstreamConvertInitAVC_avcc_record_witness :
  sps_pps_data
    (m_sps_pps_context
       (snd (BitstreamConvertInitAVC avc_opened
               (Some (avcc_record [0x67; 0x64; 0; 0x28] [0x68; 0xEE])))))
  = Some [0; 0; 0; 1; 0x67; 0x64; 0; 0x28; 0; 0; 0; 1; 0x68; 0xEE].
Proof.
  assert (Hs : len [0x67; 0x64; 0; 0x28] <= 65535) by (vm_compute; discriminate).
  assert (Hp : len [0x68; 0xEE] <= 65535) by (vm_compute; discriminate).
  destruct (BitstreamConvertInitAVC_avcc_record
              avc_opened [0x67; 0x64; 0; 0x28] [0x68; 0xEE] Hs Hp)
    as (_ & H & _).
  exact H.
Defined.

Lemma Open_annexb_extradata_witness :
  m_convert_bytestream annexb_opened = true
  /\ m_extraData annexb_opened
     = Some [1; 0x64; 0; 0x28; 0xFF; 0xE1; 0; 4; 0x67; 0x64; 0; 0x28;
             1; 0; 2; 0x68; 0xEE].
Proof.
  assert (Hl : forall b r,
             Avc.isom_write_avcc 0
               (avio_open_dyn_buf (Collaborators := avc_collaborators 0))
               b (len b) = Some (r, 0) ->
             isom_write_avcc (Collaborators := avc_collaborators 0) b = r).
  { intros b r H. cbn [isom_write_avcc avc_collaborators].
    cbn [avio_open_dyn_buf avc_collaborators] in H. rewrite H.
    reflexivity. }
  assert (Hio : 0 <= avio_open_dyn_buf (Collaborators := avc_collaborators 0))
    by (vm_compute; discriminate).
  assert (Hu : Forall annexb_unit
                 (map snd [(true, [0x67; 0x64; 0; 0x28]);
                           (true, [0x68; 0xEE])]))
    by (repeat (apply Forall_cons;
                [apply annexb_unitb_sound; vm_compute; reflexivity|]);
        apply Forall_nil).
  assert (Hn : len (byte_stream [(true, [0x67; 0x64; 0; 0x28]);
                                 (true, [0x68; 0xEE])]) < 2 ^ 31)
    by (vm_compute; reflexivity).
  assert (Hs : 4 <= len [0x67; 0x64; 0; 0x28] <= 65535)
    by (split; vm_compute; discriminate).
  assert (Hp : len [0x68; 0xEE] <= 65535) by (vm_compute; discriminate).
  destruct (Open_annexb_extradata (E := avc_collaborators 0) 0
              (CBitstreamConverter_new annexb_hints)
              [(true, [0x67; 0x64; 0; 0x28]); (true, [0x68; 0xEE])]
              [0x67; 0x64; 0; 0x28] [0x68; 0xEE]
              Hl eq_refl eq_refl Hio Hu Hn eq_refl eq_refl Hs Hp)
    as (_ & H2 & H3 & _).
  split; [exact H2 | exact H3].
Defined.
